(** * datadasher: a query tool over movie tables

    Shallow embedding of [datadasher.py] (class [MovieDB], the curated
    Disney data set) and [extra/datascrapper.py] (class [MovieFilter], the
    broader scraped data set), and the properties of their loader, filter,
    sort and display operations.

    Modelling conventions.
    - Text is [string] (8-bit characters); [str.upper] acts on the ASCII
      letters.
    - A number is the rational it denotes ([Q]).  A Python float is a
      binary64 number: [Py.binary64] rounds a rational to the nearest one,
      ties to the even one, and the two infinities are written [Py.huge]
      and [- Py.huge] (that is [2^1024], the first magnitude binary64 does
      not hold), so that the order and the equality of floats are those of
      [Q]; the operations that treat an infinity apart test [Py.isinf].
      The numbers of a table are values binary64 holds.  The float that is
      not a number is the missing value below; as an argument of the command
      line it is left out.
    - A pandas [DataFrame] is a list of column labels and a list of rows,
      each row an index label and its cells; a [Series] is the list of the
      cells of one column.  The missing value (NaN, NaT, None) is [NaN].
    - Python exceptions are the [Raise] results of the [result] type.
    - Frames live in a store and are handled through references, so that
      copying, deriving and updating a frame are different things.
    - Library code the programs call but do not contain is a parameter of
      the definitions that use it: the regular-expression search, the
      reader of number literals, [int] on a text and the text of a float.
    - [sort_values] is called with its default [kind], numpy's quicksort;
      its kernel is embedded as it is written in numpy (module [Numpy]) and
      is proved to put keys of one kind in order ([argsort_sorts]).  That
      kernel is the one numpy runs on columns of texts; on columns of
      numbers numpy may run a vectorised kernel instead, which also sorts
      but may leave equal keys in another order: nothing below states the
      order of equal numbers. *)

From Stdlib Require Import List String Ascii ZArith QArith Bool Lia Arith.
From Stdlib Require Import Permutation Sorted Lqa Qabs Qpower.
Import ListNotations.

Local Open Scope string_scope.
Local Open Scope list_scope.

(** ** Exceptions and results *)

Inductive exn : Type :=
| FileNotFoundError
| ParserError
| KeyError (label : string)
| TypeError
| ValueError (value : string)
| OverflowError
| SystemExit (code : Z).

Inductive result (A : Type) : Type :=
| Ok (a : A)
| Raise (e : exn).

Arguments Ok {A} a.
Arguments Raise {A} e.

Definition rbind {A B : Type} (r : result A) (k : A -> result B) : result B :=
  match r with
  | Ok a => k a
  | Raise e => Raise e
  end.

Notation "x <-- r ;; k" := (rbind r (fun x => k))
  (at level 61, r at next level, right associativity).

Fixpoint mapM {A B : Type} (f : A -> result B) (l : list A) : result (list B) :=
  match l with
  | [] => Ok []
  | x :: l' =>
      rbind (f x) (fun y => rbind (mapM f l') (fun ys => Ok (y :: ys)))
  end.

(** ** Python values *)

Module Py.

(** Truth value of an optional text argument: [None] and [''] are false. *)
Definition truthy_str (o : option string) : bool :=
  match o with
  | Some s => negb (s =? "")
  | None => false
  end.

(** Truth value of an optional int argument: [None] and [0] are false. *)
Definition truthy_int (o : option Z) : bool :=
  match o with
  | Some z => negb (z =? 0)%Z
  | None => false
  end.

(** Truth value of an optional float argument: [None] and [0.0] are false. *)
Definition truthy_float (o : option Q) : bool :=
  match o with
  | Some q => negb (Qeq_bool q 0)
  | None => false
  end.

(** The value of an argument that was tested to be true. *)
Definition val_str (o : option string) : string :=
  match o with Some s => s | None => "" end.

Definition val_int (o : option Z) : Z :=
  match o with Some z => z | None => 0%Z end.

Definition val_float (o : option Q) : Q :=
  match o with Some q => q | None => 0 end.

Definition is_lower (c : ascii) : bool :=
  let n := nat_of_ascii c in (97 <=? n)%nat && (n <=? 122)%nat.

Definition upper_char (c : ascii) : ascii :=
  if is_lower c then ascii_of_nat (nat_of_ascii c - 32) else c.

(** [s.upper()] *)
Fixpoint upper (s : string) : string :=
  match s with
  | EmptyString => EmptyString
  | String c s' => String (upper_char c) (upper s')
  end.

Definition lower_char (c : ascii) : ascii :=
  let n := nat_of_ascii c in
  if (65 <=? n)%nat && (n <=? 90)%nat then ascii_of_nat (n + 32) else c.

(** [s.lower()] *)
Fixpoint lower (s : string) : string :=
  match s with
  | EmptyString => EmptyString
  | String c s' => String (lower_char c) (lower s')
  end.

Definition text (l : list ascii) : string := string_of_list_ascii l.

Definition newline : string := String (ascii_of_nat 10) EmptyString.

(** [c * n] for a character [c] *)
Definition times (c : ascii) (n : nat) : string :=
  string_of_list_ascii (repeat c n).

(** [format(s, '<w')] and [format(s, '>w')] for a text [s] *)
Definition ljust (s : string) (w : nat) : string :=
  s ++ times " " (w - String.length s).

Definition rjust (s : string) (w : nat) : string :=
  times " " (w - String.length s) ++ s.

(** [s[:n]] for [n >= 0] *)
Definition slice_to (s : string) (n : nat) : string := substring 0 n s.

(** [sep.join(l)] *)
Fixpoint join (sep : string) (l : list string) : string :=
  match l with
  | [] => ""
  | [x] => x
  | x :: l' => x ++ sep ++ join sep l'
  end.

(** White space: the ASCII characters [str.isspace] holds of. *)
Definition is_space (c : ascii) : bool :=
  let n := nat_of_ascii c in
  (n =? 32)%nat || ((9 <=? n)%nat && (n <=? 13)%nat)
  || ((28 <=? n)%nat && (n <=? 31)%nat).

Fixpoint lstrip_chars (l : list ascii) : list ascii :=
  match l with
  | c :: l' => if is_space c then lstrip_chars l' else l
  | [] => []
  end.

(** [s.strip()] *)
Definition strip (s : string) : string :=
  text (rev (lstrip_chars (rev (lstrip_chars (list_ascii_of_string s))))).

Fixpoint split_chars (sep : ascii) (l : list ascii) (word : list ascii)
  : list string :=
  match l with
  | [] => [text (rev word)]
  | c :: l' =>
      if Ascii.eqb c sep then text (rev word) :: split_chars sep l' []
      else split_chars sep l' (c :: word)
  end.

(** [s.split(sep)] for a separator of one character *)
Definition split (s : string) (sep : ascii) : list string :=
  split_chars sep (list_ascii_of_string s) [].

(** [sep in s] for a separator of one character *)
Definition contains_char (s : string) (sep : ascii) : bool :=
  existsb (Ascii.eqb sep) (list_ascii_of_string s).

(** [d.get(k, default)] for a dict with text keys. *)
Definition dict_get {A : Type} (d : list (string * A)) (k : string)
  (default : A) : A :=
  match find (fun kv => fst kv =? k) d with
  | Some kv => snd kv
  | None => default
  end.

(** [int(x)]: truncation towards zero. *)
Definition int (x : Q) : Z := Z.quot (Qnum x) (Z.pos (Qden x)).

(** Rounding of [x] to an integer, halves to the even neighbour, as the
    format specification [.0f] does. *)
Definition round_half_even (x : Q) : Z :=
  let n := Qnum x in
  let d := Z.pos (Qden x) in
  let f := (n / d)%Z in
  let r := (n mod d)%Z in
  match (2 * r ?= d)%Z with
  | Lt => f
  | Gt => (f + 1)%Z
  | Eq => if Z.even f then f else (f + 1)%Z
  end.

(** *** Floats

    [floor (log2 (n / d))] *)
Definition ilog2 (n d : positive) : Z :=
  let k := (Z.log2 (Z.pos n) - Z.log2 (Z.pos d))%Z in
  if Qle_bool (2 ^ k) (Z.pos n # d) then k else (k - 1)%Z.

(** The exponent of the unit in the last place of the binary64 numbers
    around [q]: 53 bits from the first of [q], and never below the
    exponent of the least of the numbers near zero. *)
Definition ulp_exponent (q : Q) : Z :=
  match Qnum q with
  | Z0 => (-1074)%Z
  | Zpos n | Zneg n => (Z.max (ilog2 n (Qden q)) (-1022) - 52)%Z
  end.

(** The magnitude written for infinity. *)
Definition huge : Q := 2 ^ 1024.

(** The binary64 number nearest to [q], the even one of two that are as
    near; an infinity when that number would reach [2^1024]. *)
Definition binary64 (q : Q) : Q :=
  let e := ulp_exponent q in
  let r := inject_Z (round_half_even (q * 2 ^ (- e))) * 2 ^ e in
  if Qle_bool huge r then huge
  else if Qle_bool r (- huge) then - huge
  else r.

(** [float(x)] for a number [x] *)
Definition float (x : Q) : Q := binary64 x.

(** [x * y] for two floats, or a float and an int that a float holds *)
Definition fmul (x y : Q) : Q := binary64 (x * y).

(** [math.isinf(x)] *)
Definition isinf (x : Q) : bool := Qle_bool huge (Qabs x).

(** [x] is a value a float holds. *)
Definition is_float (x : Q) : bool := Qeq_bool (binary64 x) x.

Definition digit_char (n : nat) : ascii := ascii_of_nat (48 + n).

(** Decimal digits of a natural number, most significant first; [fuel]
    bounds the number of digits. *)
Fixpoint digits_fuel (fuel : nat) (n : N) (acc : list ascii) : list ascii :=
  match fuel with
  | O => acc
  | S fuel' =>
      let acc' := digit_char (N.to_nat (n mod 10)) :: acc in
      if (n <? 10)%N then acc' else digits_fuel fuel' (n / 10)%N acc'
  end.

Definition digits (n : N) : list ascii :=
  digits_fuel (S (N.to_nat (N.log2 n))) n [].

(** [str(z)] for an int [z]. *)
Definition str (z : Z) : string :=
  if (z <? 0)%Z then String "-" (text (digits (Z.abs_N z)))
  else text (digits (Z.abs_N z)).

(** Groups of three digits from the right, separated by commas: [l] is the
    list of digits, least significant first. *)
Fixpoint group3 (l : list ascii) : list ascii :=
  match l with
  | a :: b :: c :: ((_ :: _) as l') => a :: b :: c :: ","%char :: group3 l'
  | _ => l
  end.

(** [format(z, ',')] for an int [z]. *)
Definition format_comma (z : Z) : string :=
  let body := text (rev (group3 (rev (digits (Z.abs_N z))))) in
  if (z <? 0)%Z then String "-" body else body.

End Py.

(** ** Dates: [strptime] and [strftime] *)

Module Datetime.

Record date : Type := mkdate { year : Z; month : Z; day : Z }.

(** The directives the two programs use, and the other characters of a
    format: a white space of the format stands for one or more spaces. *)
Inductive directive : Type :=
| Day          (* %d *)
| Month        (* %m *)
| Year         (* %Y *)
| MonthName    (* %B *)
| MonthAbbr    (* %b *)
| Spaces
| Lit (c : ascii).

Definition format : Type := list directive.

Definition fmt_dmY : format := [Day; Lit "/"; Month; Lit "/"; Year].
Definition fmt_mdY : format := [Month; Lit "/"; Day; Lit "/"; Year].
Definition fmt_Ymd : format := [Year; Lit "-"; Month; Lit "-"; Day].
Definition fmt_BdY : format := [MonthName; Spaces; Day; Lit ","; Spaces; Year].
Definition fmt_bdY : format := [MonthAbbr; Spaces; Day; Lit ","; Spaces; Year].

Definition digit_val (c : ascii) : option Z :=
  let n := nat_of_ascii c in
  if (48 <=? n)%nat && (n <=? 57)%nat then Some (Z.of_nat (n - 48)) else None.

Definition is_space (c : ascii) : bool :=
  let n := nat_of_ascii c in
  (n =? 32)%nat || ((9 <=? n)%nat && (n <=? 13)%nat)
  || ((28 <=? n)%nat && (n <=? 31)%nat).

(** A number of two digits between [lo] and [hi]. *)
Definition two_digits (lo hi : Z) (s : list ascii) : list (Z * list ascii) :=
  match s with
  | a :: b :: rest =>
      match digit_val a, digit_val b with
      | Some x, Some y =>
          let v := (10 * x + y)%Z in
          if (lo <=? v)%Z && (v <=? hi)%Z then [(v, rest)] else []
      | _, _ => []
      end
  | _ => []
  end.

(** One digit from 1 to 9. *)
Definition one_digit (s : list ascii) : list (Z * list ascii) :=
  match s with
  | a :: rest =>
      match digit_val a with
      | Some x => if (1 <=? x)%Z then [(x, rest)] else []
      | None => []
      end
  | _ => []
  end.

(** A space and one digit from 1 to 9. *)
Definition space_digit (s : list ascii) : list (Z * list ascii) :=
  match s with
  | " "%char :: rest => one_digit rest
  | _ => []
  end.

Definition four_digits (s : list ascii) : list (Z * list ascii) :=
  match s with
  | a :: b :: c :: d :: rest =>
      match digit_val a, digit_val b, digit_val c, digit_val d with
      | Some w, Some x, Some y, Some z =>
          [((1000 * w + 100 * x + 10 * y + z)%Z, rest)]
      | _, _, _, _ => []
      end
  | _ => []
  end.

Definition lower_char (c : ascii) : ascii :=
  let n := nat_of_ascii c in
  if (65 <=? n)%nat && (n <=? 90)%nat then ascii_of_nat (n + 32) else c.

(** [name] at the head of [s], letter case ignored. *)
Fixpoint prefix_ci (name : list ascii) (s : list ascii) : option (list ascii) :=
  match name, s with
  | [], _ => Some s
  | c :: name', d :: s' =>
      if Ascii.eqb (lower_char c) (lower_char d) then prefix_ci name' s'
      else None
  | _ :: _, [] => None
  end.

Definition month_names : list (string * Z) :=
  [("September", 9%Z); ("February", 2%Z); ("November", 11%Z);
   ("December", 12%Z); ("January", 1%Z); ("October", 10%Z);
   ("August", 8%Z); ("March", 3%Z); ("April", 4%Z); ("June", 6%Z);
   ("July", 7%Z); ("May", 5%Z)].

Definition month_abbrs : list (string * Z) :=
  [("Jan", 1%Z); ("Feb", 2%Z); ("Mar", 3%Z); ("Apr", 4%Z); ("May", 5%Z);
   ("Jun", 6%Z); ("Jul", 7%Z); ("Aug", 8%Z); ("Sep", 9%Z); ("Oct", 10%Z);
   ("Nov", 11%Z); ("Dec", 12%Z)].

Definition named (names : list (string * Z)) (s : list ascii)
  : list (Z * list ascii) :=
  flat_map (fun nm =>
              match prefix_ci (list_ascii_of_string (fst nm)) s with
              | Some rest => [(snd nm, rest)]
              | None => []
              end) names.

(** The ways of reading one or more spaces at the head of [s], the longest
    first. *)
Fixpoint spaces (s : list ascii) : list (list ascii) :=
  match s with
  | c :: rest => if is_space c then spaces rest ++ [rest] else []
  | [] => []
  end.

(** The matches of a format at the head of [s], in the order a
    backtracking matcher finds them: the fields read and what is left. *)
Fixpoint matches (f : format) (s : list ascii) (acc : date)
  : list (date * list ascii) :=
  match f with
  | [] => [(acc, s)]
  | Day :: f' =>
      flat_map (fun vr => matches f' (snd vr)
                            (mkdate (year acc) (month acc) (fst vr)))
               (two_digits 1 31 s ++ one_digit s ++ space_digit s)
  | Month :: f' =>
      flat_map (fun vr => matches f' (snd vr)
                            (mkdate (year acc) (fst vr) (day acc)))
               (two_digits 1 12 s ++ one_digit s)
  | Year :: f' =>
      flat_map (fun vr => matches f' (snd vr)
                            (mkdate (fst vr) (month acc) (day acc)))
               (four_digits s)
  | MonthName :: f' =>
      flat_map (fun vr => matches f' (snd vr)
                            (mkdate (year acc) (fst vr) (day acc)))
               (named month_names s)
  | MonthAbbr :: f' =>
      flat_map (fun vr => matches f' (snd vr)
                            (mkdate (year acc) (fst vr) (day acc)))
               (named month_abbrs s)
  | Spaces :: f' => flat_map (fun rest => matches f' rest acc) (spaces s)
  | Lit c :: f' =>
      match s with
      | d :: rest =>
          if Ascii.eqb (lower_char c) (lower_char d) then matches f' rest acc
          else []
      | [] => []
      end
  end.

Definition is_leap (y : Z) : bool :=
  ((y mod 4 =? 0) && negb (y mod 100 =? 0) || (y mod 400 =? 0))%Z.

Definition days_in_month (y m : Z) : Z :=
  if (m =? 2)%Z then (if is_leap y then 29 else 28)%Z
  else if ((m =? 4) || (m =? 6) || (m =? 9) || (m =? 11))%Z then 30%Z
  else 31%Z.

Definition valid (d : date) : bool :=
  ((1 <=? year d) && (1 <=? month d) && (month d <=? 12)
   && (1 <=? day d) && (day d <=? days_in_month (year d) (month d)))%Z.

(** [strptime(s, f)]: the first match of the format must use the whole
    text and give a date of the calendar; [None] stands for [ValueError]. *)
Definition strptime (s : string) (f : format) : option date :=
  match matches f (list_ascii_of_string s) (mkdate 1900 1 1) with
  | (d, []) :: _ => if valid d then Some d else None
  | _ => None
  end.

Definition pad (width : nat) (z : Z) : string :=
  let ds := Py.digits (Z.abs_N z) in
  Py.text (repeat "0"%char (width - List.length ds) ++ ds).

(** [d.strftime('%d/%m/%Y')], the year on four digits: the C libraries
    that write a year below 1000 without its leading zeros are not
    followed. *)
Definition strftime_dmY (d : date) : string :=
  pad 2 (day d) ++ "/" ++ pad 2 (month d) ++ "/" ++ pad 4 (year d).

Definition ltb (a b : date) : bool :=
  ((year a <? year b)
   || ((year a =? year b)
       && ((month a <? month b)
           || ((month a =? month b) && (day a <? day b)))))%Z.

Definition eqb (a b : date) : bool :=
  ((year a =? year b) && (month a =? month b) && (day a =? day b))%Z.

End Datetime.

(** ** The pandas objects the two programs use *)

Module Pandas.

(** A cell of a table: a missing value, a text, a number or a date.  An
    infinite number is [Num Py.huge] or [Num (- Py.huge)]. *)
Inductive cell : Type :=
| NaN
| Str (s : string)
| Num (q : Q)
| Ts (t : Datetime.date).

Definition Series : Type := list cell.

(** A row: its index label and its cells, in the order of the columns. *)
Definition Row : Type := (nat * list cell)%type.

Record DataFrame : Type := mkDataFrame {
  columns : list string;
  rows : list Row
}.

Fixpoint position (c : string) (cols : list string) : option nat :=
  match cols with
  | [] => None
  | k :: cols' =>
      if k =? c then Some O
      else match position c cols' with
           | Some i => Some (S i)
           | None => None
           end
  end.

(** [c in df.columns] *)
Definition has_column (df : DataFrame) (c : string) : bool :=
  match position c (columns df) with
  | Some _ => true
  | None => false
  end.

Definition cell_at (i : nat) (r : Row) : cell := nth i (snd r) NaN.

(** [df[c]]: the column labelled [c]; [KeyError] when there is none. *)
Definition getitem (df : DataFrame) (c : string) : result Series :=
  match position c (columns df) with
  | Some i => Ok (map (cell_at i) (rows df))
  | None => Raise (KeyError c)
  end.

Fixpoint select {A : Type} (mask : list bool) (l : list A) : list A :=
  match mask, l with
  | b :: mask', x :: l' => if b then x :: select mask' l' else select mask' l'
  | _, _ => []
  end.

(** [df[mask]]: the rows where the boolean mask holds, as a new frame. *)
Definition loc (df : DataFrame) (mask : list bool) : DataFrame :=
  mkDataFrame (columns df) (select mask (rows df)).

(** [df.head(n)] *)
Definition head (df : DataFrame) (n : nat) : DataFrame :=
  mkDataFrame (columns df) (firstn n (rows df)).

Fixpoint set_nth (i : nat) (x : cell) (l : list cell) : list cell :=
  match i, l with
  | O, [] => [x]
  | O, _ :: l' => x :: l'
  | S i', [] => NaN :: set_nth i' x []
  | S i', y :: l' => y :: set_nth i' x l'
  end.

Fixpoint set_column (i : nat) (s : Series) (rs : list Row) : list Row :=
  match rs, s with
  | (lbl, cs) :: rs', x :: s' => (lbl, set_nth i x cs) :: set_column i s' rs'
  | _, _ => []
  end.

(** [df[c] = s]: replaces the column [c], or adds it after the others. *)
Definition setitem (df : DataFrame) (c : string) (s : Series) : DataFrame :=
  match position c (columns df) with
  | Some i => mkDataFrame (columns df) (set_column i s (rows df))
  | None =>
      mkDataFrame (columns df ++ [c])
                  (set_column (List.length (columns df)) s (rows df))
  end.

(** [df.rename(columns=mapping)] *)
Definition rename (df : DataFrame) (mapping : list (string * string))
  : DataFrame :=
  let new_label c :=
    match find (fun kv => fst kv =? c) mapping with
    | Some kv => snd kv
    | None => c
    end in
  mkDataFrame (map new_label (columns df)) (rows df).

(** *** Element-wise operations on a column *)

(** [s == x] for a text [x] *)
Definition eq_str (s : Series) (x : string) : list bool :=
  map (fun c => match c with Str y => y =? x | _ => false end) s.

(** [s == x] for a number [x] *)
Definition eq_num (s : Series) (x : Q) : list bool :=
  map (fun c => match c with Num q => Qeq_bool q x | _ => false end) s.

(** [c >= x]: false on a missing value, [TypeError] on a text or a date. *)
Definition cell_ge (x : Q) (c : cell) : result bool :=
  match c with
  | Num q => Ok (Qle_bool x q)
  | NaN => Ok false
  | _ => Raise TypeError
  end.

Definition cell_le (x : Q) (c : cell) : result bool :=
  match c with
  | Num q => Ok (Qle_bool q x)
  | NaN => Ok false
  | _ => Raise TypeError
  end.

(** [s >= x] and [s <= x] *)
Definition ge (s : Series) (x : Q) : result (list bool) := mapM (cell_ge x) s.
Definition le (s : Series) (x : Q) : result (list bool) := mapM (cell_le x) s.

Fixpoint mask_and (a b : list bool) : list bool :=
  match a, b with
  | x :: a', y :: b' => (x && y) :: mask_and a' b'
  | _, _ => []
  end.

(** [s.between(lo, hi)], both bounds included *)
Definition between (s : Series) (lo hi : Q) : result (list bool) :=
  rbind (ge s lo) (fun a => rbind (le s hi) (fun b => Ok (mask_and a b))).

(** [s.dt.year] and [s.dt.month] for a column of dates, as [to_datetime]
    returns it *)
Definition dt_year (s : Series) : Series :=
  map (fun c => match c with Ts t => Num (inject_Z (Datetime.year t)) | _ => NaN end) s.

Definition dt_month (s : Series) : Series :=
  map (fun c => match c with Ts t => Num (inject_Z (Datetime.month t)) | _ => NaN end) s.

Section Regex.

(** The regular-expression engine is not part of the programs:
    [re_search pat s] stands for "[re.search(pat, s, re.IGNORECASE)]
    finds a match". *)
Variable re_search : string -> string -> bool.

(** [s.str.contains(pat, case=False, na=False)] *)
Definition str_contains (s : Series) (pat : string) : list bool :=
  map (fun c => match c with Str x => re_search pat x | _ => false end) s.

End Regex.

(** *** Conversions *)

(** The texts that stand for a missing date. *)
Definition nat_strings : list string :=
  ["NaT"; "nat"; "NAT"; "nan"; "NaN"; "NAN"].

Definition is_nat_string (s : string) : bool :=
  (String.length s =? 0)%nat || existsb (String.eqb s) nat_strings.

(** [pd.to_datetime(s, format='%d/%m/%Y')]: a missing value stays missing,
    an empty text and the texts that stand for a missing date become
    missing; another text that is not such a date, and a number, raise
    [ValueError].  The range of years a timestamp can hold is not
    modelled. *)
Definition to_datetime_cell (c : cell) : result cell :=
  match c with
  | NaN => Ok NaN
  | Str s =>
      if is_nat_string s then Ok NaN
      else
        match Datetime.strptime s Datetime.fmt_dmY with
        | Some d => Ok (Ts d)
        | None => Raise (ValueError s)
        end
  | Num _ => Raise (ValueError "number")
  | Ts d => Ok (Ts d)
  end.

Definition to_datetime (s : Series) : result Series := mapM to_datetime_cell s.

(** [s.map(d)] for a dict [d] with int keys and text values. *)
Definition map_dict (d : list (Z * string)) (s : Series) : Series :=
  map (fun c =>
         match c with
         | Num q =>
             match find (fun kv => Qeq_bool q (inject_Z (fst kv))) d with
             | Some kv => Str (snd kv)
             | None => NaN
             end
         | _ => NaN
         end) s.

Section Numbers.

(** The reader of number literals is the library's:
    [parse_number s] is the number the text [s] denotes, if any. *)
Variable parse_number : string -> option Q.

(** [pd.to_numeric(s, errors='coerce')] *)
Definition to_numeric_coerce (s : Series) : Series :=
  map (fun c =>
         match c with
         | Num q => Num q
         | Str x =>
             match parse_number x with
             | Some q => Num q
             | None => NaN
             end
         | _ => NaN
         end) s.

End Numbers.

(** *** Selecting columns and writing text *)

(** [df[[c1, ..., cn]]]: the listed columns, in that order; [KeyError] at
    the first one that is not there. *)
Definition getitems (df : DataFrame) (cs : list string) : result DataFrame :=
  ixs <-- mapM (fun c => match position c (columns df) with
                         | Some i => Ok i
                         | None => Raise (KeyError c)
                         end) cs ;;
  Ok (mkDataFrame cs
        (map (fun r => (fst r, map (fun i => cell_at i r) ixs)) (rows df))).

(** [df[c] = x] for one value [x] *)
Definition setitem_scalar (df : DataFrame) (c : string) (x : cell)
  : DataFrame :=
  setitem df c (repeat x (List.length (rows df))).

(** [df.head(n)] for an int [n]: the first [n] rows, or all but the last
    [-n] rows. *)
Definition head_int (df : DataFrame) (n : Z) : DataFrame :=
  if (0 <=? n)%Z then head df (Z.to_nat n)
  else head df (List.length (rows df) - Z.to_nat (- n)).

(** [s.dt.strftime('%d/%m/%Y')] *)
Definition dt_strftime (s : Series) : result Series :=
  mapM (fun c => match c with
                 | Ts d => Ok (Str (Datetime.strftime_dmY d))
                 | NaN => Ok NaN
                 | _ => Raise TypeError
                 end) s.

Definition quote : ascii := "034"%char.

Definition needs_quotes (s : string) : bool :=
  existsb (fun c => Ascii.eqb c ","%char || Ascii.eqb c quote
                    || Ascii.eqb c (ascii_of_nat 10)
                    || Ascii.eqb c (ascii_of_nat 13))
          (list_ascii_of_string s).

Fixpoint double_quotes (s : string) : string :=
  match s with
  | EmptyString => EmptyString
  | String c s' =>
      if Ascii.eqb c quote then String c (String c (double_quotes s'))
      else String c (double_quotes s')
  end.

(** A field of a line of delimited text, quoted when it has to be. *)
Definition csv_field (s : string) : string :=
  if needs_quotes s
  then String quote (double_quotes s ++ String quote EmptyString)
  else s.

Section Text.

(** [repr_float q] stands for the text Python writes for the number [q]. *)
Variable repr_float : Q -> string.

(** [str(x)] for the value of a cell *)
Definition cell_text (c : cell) : string :=
  match c with
  | Str s => s
  | NaN => "nan"
  | Num q => repr_float q
  | Ts d =>
      Datetime.pad 4 (Datetime.year d) ++ "-" ++ Datetime.pad 2 (Datetime.month d)
        ++ "-" ++ Datetime.pad 2 (Datetime.day d) ++ " 00:00:00"
  end.

(** What [to_csv] writes for a cell: nothing for a missing value. *)
Definition csv_cell (c : cell) : string :=
  match c with
  | NaN => ""
  | Ts d =>
      Datetime.pad 4 (Datetime.year d) ++ "-" ++ Datetime.pad 2 (Datetime.month d)
        ++ "-" ++ Datetime.pad 2 (Datetime.day d)
  | _ => csv_field (cell_text c)
  end.

(** The lines of [df.to_csv(index=False)]: the header, then the rows. *)
Definition to_csv_lines (df : DataFrame) : list string :=
  Py.join "," (map csv_field (columns df))
  :: map (fun r => Py.join "," (map csv_cell (snd r))) (rows df).

(** [df.to_csv(index=False)]: every line ends with a line feed. *)
Definition to_csv (df : DataFrame) : string :=
  String.concat "" (map (fun l => (l ++ Py.newline)%string) (to_csv_lines df)).

(** [s.astype(str).str.len().max()]; [None] when there is no row. *)
Definition max_len (s : Series) : option nat :=
  match s with
  | [] => None
  | _ => Some (fold_right Nat.max O
                 (map (fun c => String.length (cell_text c)) s))
  end.

End Text.

(** The text of a cell that has to be a text. *)
Definition as_text (c : cell) : result string :=
  match c with
  | Str s => Ok s
  | _ => Raise TypeError
  end.

(** [s.str.len().max()] for a column of texts; [ValueError] stands for
    the failure of the layout when there is no row. *)
Definition str_len_max (s : Series) : result nat :=
  match s with
  | [] => Raise (ValueError "nan")
  | _ => l <-- mapM as_text s ;; Ok (fold_right Nat.max O (map String.length l))
  end.

(** *** Sorting *)

Definition Qlt_bool (a b : Q) : bool := negb (Qle_bool b a).

(** [a < b] between two cells of one kind. *)
Definition cell_lt (a b : cell) : bool :=
  match a, b with
  | Num x, Num y => Qlt_bool x y
  | Str x, Str y => String.ltb x y
  | Ts x, Ts y => Datetime.ltb x y
  | _, _ => false
  end.

Definition isna (c : cell) : bool :=
  match c with NaN => true | _ => false end.

Definition same_kind (a b : cell) : bool :=
  match a, b with
  | Num _, Num _ => true
  | Str _, Str _ => true
  | Ts _, Ts _ => true
  | NaN, NaN => true
  | _, _ => false
  end.

(** The elements of [l] at the positions [indexer], in that order. *)
Definition take_list {A : Type} (l : list A) (indexer : list nat) : list A :=
  flat_map (fun i => match nth_error l i with
                     | Some x => [x]
                     | None => []
                     end) indexer.

(** [df.take(indexer)] *)
Definition take (df : DataFrame) (indexer : list nat) : DataFrame :=
  mkDataFrame (columns df) (take_list (rows df) indexer).

End Pandas.

(** ** numpy's default sort, [kind='quicksort']

    [argsort] works on an array [a] of positions into the keys; [less i j]
    compares the keys at the positions [i] and [j].  A range of more than
    [SMALL_QUICKSORT + 1] positions is split around the median of its first,
    middle and last key; a range up to that size is sorted by insertion;
    heap sort takes over when the splits nest deeper than twice the binary
    logarithm of the length. *)

Module Numpy.

Definition SMALL_QUICKSORT : nat := 16.

Section Argsort.

Variable less : nat -> nat -> bool.

Definition get (a : list nat) (i : nat) : nat := nth i a O.

Fixpoint set (a : list nat) (i : nat) (x : nat) : list nat :=
  match a, i with
  | [], _ => []
  | _ :: a', O => x :: a'
  | y :: a', S i' => y :: set a' i' x
  end.

Definition swap (a : list nat) (i j : nat) : list nat :=
  set (set a i (get a j)) j (get a i).

Definition swap_if_less (a : list nat) (i j : nat) : list nat :=
  if less (get a i) (get a j) then swap a i j else a.

(** [do ++pi; while (less(v[*pi], vp))] *)
Fixpoint scan_up (fuel : nat) (a : list nat) (vp : nat) (i : nat) : nat :=
  match fuel with
  | O => S i
  | S fuel' =>
      if less (get a (S i)) vp then scan_up fuel' a vp (S i) else S i
  end.

(** [do --pj; while (less(vp, v[*pj]))] *)
Fixpoint scan_down (fuel : nat) (a : list nat) (vp : nat) (j : nat) : nat :=
  match fuel with
  | O => Nat.pred j
  | S fuel' =>
      if less vp (get a (Nat.pred j)) then scan_down fuel' a vp (Nat.pred j)
      else Nat.pred j
  end.

(** The exchanges of one split, the body of [for (;;)]: the two scans,
    then the swap of the two positions; gives the array and the final
    [pi]. *)
Fixpoint exchange (fuel : nat) (a : list nat) (vp : nat) (i j : nat)
  : list nat * nat :=
  match fuel with
  | O => (a, i)
  | S fuel' =>
      let i' := scan_up (List.length a) a vp i in
      let j' := scan_down (List.length a) a vp j in
      if (j' <=? i')%nat then (a, i')
      else exchange fuel' (swap a i' j') vp i' j'
  end.

(** One split of the whole of [a] (so [pl = 0] and [pr = length a - 1]):
    the array after it and the final place of the pivot. *)
Definition partition (a : list nat) : list nat * nat :=
  let pr := Nat.pred (List.length a) in
  let pm := Nat.div2 pr in
  let a := swap_if_less a pm 0 in
  let a := swap_if_less a pr pm in
  let a := swap_if_less a pm 0 in
  let vp := get a pm in
  let pj := Nat.pred pr in
  let a := swap a pm pj in
  let '(a, i) := exchange (List.length a) a vp 0 pj in
  (swap a i (Nat.pred pr), i).

(** Insertion of [vi] in the sorted positions [sorted], given from the
    last to the first: [while (pj > pl && less(vp, v[*pk]))]. *)
Fixpoint insert_back (vi : nat) (sorted : list nat) : list nat :=
  match sorted with
  | [] => [vi]
  | k :: sorted' =>
      if less vi k then k :: insert_back vi sorted' else vi :: sorted
  end.

Definition insertion_sort (a : list nat) : list nat :=
  rev (fold_left (fun sorted vi => insert_back vi sorted) a []).

(** *** Heap sort; the array is read from position 1 *)

Definition get1 (a : list nat) (i : nat) : nat := get a (Nat.pred i).
Definition set1 (a : list nat) (i : nat) (x : nat) : list nat :=
  set a (Nat.pred i) x.

(** [for (i = .., j = ..; j <= n;) { ... }  a[i] = tmp;] *)
Fixpoint sift (fuel : nat) (a : list nat) (n tmp i j : nat) : list nat :=
  match fuel with
  | O => set1 a i tmp
  | S fuel' =>
      if (j <=? n)%nat then
        let j :=
          if (j <? n)%nat && less (get1 a j) (get1 a (S j)) then S j else j in
        if less tmp (get1 a j)
        then sift fuel' (set1 a i (get1 a j)) n tmp j (j + j)
        else set1 a i tmp
      else set1 a i tmp
  end.

(** [for (l = n >> 1; l > 0; --l)] *)
Fixpoint heapify (l : nat) (a : list nat) (n : nat) : list nat :=
  match l with
  | O => a
  | S l' => heapify l' (sift n a n (get1 a l) l (l + l)) n
  end.

(** [for (; n > 1;)] *)
Fixpoint extract (n : nat) (a : list nat) : list nat :=
  match n with
  | O => a
  | S n' =>
      match n' with
      | O => a
      | S _ =>
          let tmp := get1 a n in
          let a := set1 a n (get1 a 1) in
          extract n' (sift n' a n' tmp 1 2)
      end
  end.

Definition heapsort (a : list nat) : list nat :=
  let n := List.length a in
  extract n (heapify (Nat.div2 n) a n).

(** *** The sort of a range

    [popped] tells a range taken from the stack, whose depth is checked,
    from the smaller part of a split, which goes on in the inner loop. *)
Fixpoint quicksort_range (fuel : nat) (popped : bool) (cdepth : Z)
  (a : list nat) : list nat :=
  match fuel with
  | O => a
  | S fuel' =>
      if popped && (cdepth <? 0)%Z then heapsort a
      else if (SMALL_QUICKSORT <? Nat.pred (List.length a))%nat then
        let '(a, i) := partition a in
        let left := firstn i a in
        let right := skipn (S i) a in
        let smaller_left := (i <? Nat.pred (List.length a) - i)%nat in
        let cdepth := (cdepth - 1)%Z in
        quicksort_range fuel' (negb smaller_left) cdepth left
          ++ [get a i]
          ++ quicksort_range fuel' smaller_left cdepth right
      else insertion_sort a
  end.

(** [npy_get_msb] *)
Definition get_msb (n : nat) : Z := Z.of_nat (Nat.log2 n).

(** [argsort] of [num] keys. *)
Definition argsort (num : nat) : list nat :=
  quicksort_range (S num) true (get_msb num * 2)%Z (seq 0 num).

End Argsort.

End Numpy.
(** ** [DataFrame.sort_values] with one key and the default [kind] *)

Module Sorting.

Import Pandas.

Definition homogeneous (s : Series) : bool :=
  match s with
  | [] => true
  | c :: s' => forallb (same_kind c) s'
  end.

(** [nargsort(items, kind='quicksort', ascending, na_position='last')]:
    the positions of the present keys in sorted order, then those of the
    missing keys.  Keys of different kinds cannot be compared.  The order
    of equal keys is that of the kernel numpy runs on texts; on numbers
    numpy may run another kernel, and what is stated of numeric keys does
    not depend on the order of equal ones. *)
Definition nargsort (items : Series) (ascending : bool) : result (list nat) :=
  let idx := seq 0 (List.length items) in
  let mask := map isna items in
  let non_nans := select (map negb mask) items in
  let non_nan_idx := select (map negb mask) idx in
  let nan_idx := select mask idx in
  if negb (homogeneous non_nans) then Raise TypeError
  else
    let non_nans := if ascending then non_nans else rev non_nans in
    let non_nan_idx := if ascending then non_nan_idx else rev non_nan_idx in
    let order :=
      Numpy.argsort
        (fun i j => cell_lt (nth i non_nans NaN) (nth j non_nans NaN))
        (List.length non_nans) in
    let indexer := map (fun k => nth k non_nan_idx O) order in
    let indexer := if ascending then indexer else rev indexer in
    Ok (indexer ++ nan_idx).

(** [df.sort_values(by, ascending=ascending)] *)
Definition sort_values (df : DataFrame) (by_ : string) (ascending : bool)
  : result DataFrame :=
  rbind (getitem df by_) (fun keys =>
  rbind (nargsort keys ascending) (fun indexer =>
  Ok (take df indexer))).

End Sorting.

(** ** The store of frames *)

Definition ref : Type := nat.
Definition store : Type := list Pandas.DataFrame.

(** A computation reads and extends the store and returns a value or raises. *)
Definition M (A : Type) : Type := store -> result A * store.

Definition ret {A : Type} (a : A) : M A := fun h => (Ok a, h).

Definition bind {A B : Type} (m : M A) (k : A -> M B) : M B :=
  fun h =>
    match m h with
    | (Ok a, h') => k a h'
    | (Raise e, h') => (Raise e, h')
    end.

Notation "x <- m ;; k" := (bind m (fun x => k))
  (at level 61, m at next level, right associativity).

Definition lift {A : Type} (r : result A) : M A := fun h => (r, h).

(** A new frame object. *)
Definition new (d : Pandas.DataFrame) : M ref :=
  fun h => (Ok (List.length h), h ++ [d]).

(** The frame a reference points to. *)
Definition deref (r : ref) : M Pandas.DataFrame :=
  fun h =>
    match nth_error h r with
    | Some d => (Ok d, h)
    | None => (Raise (KeyError "dangling reference"), h)
    end.

Fixpoint replace_nth {A : Type} (i : nat) (x : A) (l : list A) : list A :=
  match i, l with
  | O, _ :: l' => x :: l'
  | S i', y :: l' => y :: replace_nth i' x l'
  | _, [] => []
  end.

(** Update in place of the frame a reference points to. *)
Definition assign (r : ref) (d : Pandas.DataFrame) : M unit :=
  fun h => (Ok tt, replace_nth r d h).

Definition raise {A : Type} (e : exn) : M A := fun h => (Raise e, h).

(** [try: m  except e: handler e] *)
Definition try_except {A : Type} (m : M A) (handler : exn -> M A) : M A :=
  fun h =>
    match m h with
    | (Raise e, h') => handler e h'
    | (Ok a, h') => (Ok a, h')
    end.

(** [for x in l: body x] *)
Fixpoint for_each {A : Type} (l : list A) (body : A -> M unit) : M unit :=
  match l with
  | [] => ret tt
  | x :: l' => _ <- body x ;; for_each l' body
  end.

(** What [pd.read_csv] finds at a path: no file, a file that is not
    delimited text, or the table of a file whose framing is intact. *)
Inductive source : Type :=
| NoSuchFile
| Unreadable
| Delimited (table : Pandas.DataFrame).

(** [pd.read_csv(csv_file)] in the file system [files] *)
Definition read_csv (files : string -> source) (csv_file : string) : M ref :=
  match files csv_file with
  | NoSuchFile => raise FileNotFoundError
  | Unreadable => raise ParserError
  | Delimited table => new table
  end.

(** [r.copy()] *)
Definition df_copy (r : ref) : M ref := d <- deref r ;; new d.

(** [r[c]] *)
Definition df_getitem (r : ref) (c : string) : M Pandas.Series :=
  d <- deref r ;; lift (Pandas.getitem d c).

(** [r[mask]] *)
Definition df_loc (r : ref) (mask : list bool) : M ref :=
  d <- deref r ;; new (Pandas.loc d mask).

(** [c in r.columns] *)
Definition df_has_column (r : ref) (c : string) : M bool :=
  d <- deref r ;; ret (Pandas.has_column d c).

(** [r[c] = s] *)
Definition df_setitem (r : ref) (c : string) (s : Pandas.Series) : M unit :=
  d <- deref r ;; assign r (Pandas.setitem d c s).

(** ** [datadasher.py]: class [MovieDB] *)

Module MovieDB.

Record object : Type := mk { df : ref }.

Definition seasons : list (Z * string) :=
  [(12%Z, "Winter"); (1%Z, "Winter"); (2%Z, "Winter");
   (3%Z, "Spring"); (4%Z, "Spring"); (5%Z, "Spring");
   (6%Z, "Summer"); (7%Z, "Summer"); (8%Z, "Summer");
   (9%Z, "Fall"); (10%Z, "Fall"); (11%Z, "Fall")].

(** [MovieDB.__init__]: every exception of the load ends the process. *)
Definition init (files : string -> source) (csv_file : string) : M object :=
  try_except
    (df <- read_csv files csv_file ;;
     col <- df_getitem df "Date Released" ;;
     dates <- lift (Pandas.to_datetime col) ;;
     _ <- df_setitem df "Date Released" dates ;;
     col <- df_getitem df "Date Released" ;;
     _ <- df_setitem df "Season"
            (Pandas.map_dict seasons (Pandas.dt_month col)) ;;
     ret (mk df))
    (fun e =>
       match e with
       | FileNotFoundError => raise (SystemExit 1)
       | _ => raise (SystemExit 1)
       end).

Section Filter.

Variable re_search : string -> string -> bool.

(** [MovieDB.filter] *)
Definition filter (self : object) (genre season : option string)
  (year year_start year_end : option Z) (rating : option string)
  (min_gross : option Q) : M ref :=
  result <- df_copy (df self) ;;
  result <- (if Py.truthy_str genre then
               col <- df_getitem result "Genre" ;;
               df_loc result
                 (Pandas.str_contains re_search col (Py.val_str genre))
             else ret result) ;;
  result <- (if Py.truthy_str season then
               col <- df_getitem result "Season" ;;
               df_loc result (Pandas.eq_str col (Py.val_str season))
             else ret result) ;;
  result <- (if Py.truthy_int year then
               col <- df_getitem result "Date Released" ;;
               df_loc result
                 (Pandas.eq_num (Pandas.dt_year col)
                    (inject_Z (Py.val_int year)))
             else ret result) ;;
  result <- (if Py.truthy_int year_start && Py.truthy_int year_end then
               col <- df_getitem result "Date Released" ;;
               mask <- lift (Pandas.between (Pandas.dt_year col)
                               (inject_Z (Py.val_int year_start))
                               (inject_Z (Py.val_int year_end))) ;;
               df_loc result mask
             else ret result) ;;
  result <- (if Py.truthy_str rating then
               col <- df_getitem result "MPAA Rating" ;;
               df_loc result
                 (Pandas.eq_str col (Py.upper (Py.val_str rating)))
             else ret result) ;;
  result <- (if Py.truthy_float min_gross then
               col <- df_getitem result "Total Gross" ;;
               mask <- lift (Pandas.ge col
                               (Py.fmul (Py.float (Py.val_float min_gross))
                                        1000000)) ;;
               df_loc result mask
             else ret result) ;;
  ret result.

End Filter.

Definition sort_columns : list (string * string) :=
  [("gross", "Total Gross");
   ("inflation", "Inflation Adjusted Gross");
   ("date", "Date Released");
   ("title", "Movie Title");
   ("year", "Date Released")].

(** [MovieDB.sort] *)
Definition sort (data : Pandas.DataFrame) (sort_by : string)
  (ascending : bool) : result Pandas.DataFrame :=
  let column := Py.dict_get sort_columns (Py.lower sort_by) "Total Gross" in
  if Py.lower sort_by =? "year" then
    Sorting.sort_values data "Date Released" ascending
  else
    Sorting.sort_values data column ascending.

Definition display_columns : list string :=
  ["Movie Title"; "Date Released"; "Genre"; "Season"; "MPAA Rating";
   "Total Gross"; "Inflation Adjusted Gross"].

(** [format(x, ',.0f')] for a float [x]: the sign is that of [x], also
    when [x] rounds to zero. *)
Definition format_comma_0f (x : Q) : string :=
  if Py.isinf x then (if Qle_bool 0 x then "inf" else "-inf")
  else
    let body := Py.format_comma (Z.abs (Py.round_half_even x)) in
    if Qle_bool 0 x then body else String "-" body.

(** [lambda x: f"${x:,.0f}"] *)
Definition currency (c : Pandas.cell) : result Pandas.cell :=
  match c with
  | Pandas.Num q => Ok (Pandas.Str ("$" ++ format_comma_0f q))
  | Pandas.NaN => Ok (Pandas.Str "$nan")
  | _ => Raise (ValueError "format")
  end.

Section Display.

Variable repr_float : Q -> string.

Definition rule : string := Py.times "=" 140.

Definition table_row (title_width genre_width : nat)
  (r : Pandas.Row) : result string :=
  title <-- Pandas.as_text (Pandas.cell_at 0 r) ;;
  genre <-- Pandas.as_text (Pandas.cell_at 2 r) ;;
  Ok (Py.join " "
        [Py.ljust (Py.slice_to title (title_width - 2)) title_width;
         Py.ljust (Pandas.cell_text repr_float (Pandas.cell_at 1 r)) 12;
         Py.ljust (Pandas.cell_text repr_float (Pandas.cell_at 3 r)) 8;
         Py.ljust (Py.slice_to genre (genre_width - 2)) genre_width;
         Py.ljust (Pandas.cell_text repr_float (Pandas.cell_at 4 r)) 6;
         Py.rjust (Pandas.cell_text repr_float (Pandas.cell_at 5 r)) 18;
         Py.rjust (Pandas.cell_text repr_float (Pandas.cell_at 6 r)) 22]).

(** The frame that is shown: the seven columns, the dates and the two
    amounts turned into text, the first [limit] rows. *)
Definition display_frame (data : Pandas.DataFrame) (limit : option Z)
  : result Pandas.DataFrame :=
  display_df <-- Pandas.getitems data display_columns ;;
  dates <-- Pandas.getitem display_df "Date Released" ;;
  dates <-- Pandas.dt_strftime dates ;;
  let display_df := Pandas.setitem display_df "Date Released" dates in
  gross <-- Pandas.getitem display_df "Total Gross" ;;
  gross <-- mapM currency gross ;;
  let display_df := Pandas.setitem display_df "Total Gross" gross in
  adjusted <-- Pandas.getitem display_df "Inflation Adjusted Gross" ;;
  adjusted <-- mapM currency adjusted ;;
  let display_df :=
    Pandas.setitem display_df "Inflation Adjusted Gross" adjusted in
  Ok (if Py.truthy_int limit
      then Pandas.head_int display_df (Py.val_int limit)
      else display_df).

(** [MovieDB.display]: the texts printed, one for each call of [print].
    The output that comes before an exception is not kept. *)
Definition display (data : Pandas.DataFrame) (limit : option Z)
  (format : string) : result (list string) :=
  if (List.length (Pandas.rows data) =? 0)%nat
  then Ok ["❌ No movies found"]
  else
    display_df <-- display_frame data limit ;;
    if format =? "csv" then Ok [Pandas.to_csv repr_float display_df]
    else
      titles <-- Pandas.getitem display_df "Movie Title" ;;
      longest_title <-- Pandas.str_len_max titles ;;
      let title_width := Nat.max longest_title 25 in
      genres <-- Pandas.getitem display_df "Genre" ;;
      longest_genre <-- Pandas.str_len_max genres ;;
      let genre_width := Nat.max longest_genre 15 in
      let date_width := 12%nat in
      let season_width := 8%nat in
      let rating_width := 6%nat in
      let gross_width := 18%nat in
      let inflation_width := 22%nat in
      let header :=
        Py.join " "
          [Py.ljust "TITLE" title_width; Py.ljust "DATE" date_width;
           Py.ljust "SEASON" season_width; Py.ljust "GENRE" genre_width;
           Py.ljust "RATING" rating_width;
           Py.rjust "TOTAL GROSS" gross_width;
           Py.rjust "INFLATION ADJ" inflation_width] in
      lines <-- mapM (table_row title_width genre_width)
                  (Pandas.rows display_df) ;;
      Ok ([(Py.newline ++ rule)%string;
           ("FOUND " ++ Py.str (Z.of_nat (List.length (Pandas.rows data)))
              ++ " MOVIES"
              ++ (if Py.truthy_int limit
                  then " (showing top " ++ Py.str (Py.val_int limit) ++ ")"
                  else ""))%string;
           rule;
           header;
           Py.times "-" (title_width + genre_width + date_width
                         + season_width + rating_width + gross_width
                         + inflation_width + 10)]
            ++ lines ++ [rule]).

End Display.

(** The arguments of the command line; [--min-gross] is read with
    [type=float], so that [arg_min_gross] holds a float. *)
Record Namespace : Type := {
  arg_genre : option string;
  arg_season : option string;
  arg_years : option string;
  arg_rating : option string;
  arg_min_gross : option Q;
  arg_sort : string;
  arg_asc : bool;
  arg_limit : option Z;
  arg_csv : bool;
  arg_file : string
}.

Section Main.

Variable re_search : string -> string -> bool.
Variable repr_float : Q -> string.
Variable py_int : string -> option Z.

Definition int (s : string) : M Z :=
  match py_int s with
  | Some z => ret z
  | None => raise (ValueError s)
  end.

(** The year or the range of years of [--years]:
    [(year, year_start, year_end)]. *)
Definition parse_years (args : Namespace)
  : M (option Z * option Z * option Z) :=
  if Py.truthy_str (arg_years args) then
    let years := Py.val_str (arg_years args) in
    if Py.contains_char years "-" then
      let parts := Py.split years "-" in
      year_start <- int (nth 0 parts "") ;;
      year_end <- int (nth 1 parts "") ;;
      ret (None, Some year_start, Some year_end)
    else
      year <- int years ;;
      ret (Some year, None, None)
  else ret (None, None, None).

(** The call of [filter] in [main]. *)
Definition main_filter (db : object) (args : Namespace) : M ref :=
  ys <- parse_years args ;;
  let '(year, year_start, year_end) := ys in
  filter re_search db (arg_genre args) (arg_season args) year year_start
    year_end (arg_rating args) (arg_min_gross args).

(** [main] without [--info]: load, filter, sort, display. *)
Definition main (files : string -> source) (args : Namespace)
  : M (list string) :=
  db <- init files (arg_file args) ;;
  filtered <- main_filter db args ;;
  filtered <- deref filtered ;;
  sorted_results <- lift (sort filtered (arg_sort args) (arg_asc args)) ;;
  lift (display repr_float sorted_results (arg_limit args)
          (if arg_csv args then "csv" else "table")).

End Main.

End MovieDB.

(** ** [extra/datascrapper.py]: class [MovieFilter] *)

Module MovieFilter.

Record object : Type := mk { df : ref }.

Definition numeric_cols : list string :=
  ["year"; "budget"; "gross"; "votes"; "score"].

Definition renamed : list (string * string) :=
  [("name", "Movie Title");
   ("released", "Date Released");
   ("genre", "Genre");
   ("rating", "MPAA Rating");
   ("gross", "Total Gross");
   ("company", "Company")].

(** The text after the first closing parenthesis, if there is one. *)
Fixpoint after_close (l : list ascii) : option (list ascii) :=
  match l with
  | [] => None
  | c :: l' => if Ascii.eqb c ")"%char then Some l' else after_close l'
  end.

(** A match of [\s*\([^)]*\)] at the head of [l]: what follows it. *)
Definition annotation (l : list ascii) : option (list ascii) :=
  match Py.lstrip_chars l with
  | "("%char :: l' => after_close l'
  | _ => None
  end.

(** [re.sub(r'\s*\([^)]*\)', '', s)] *)
Fixpoint drop_annotations (fuel : nat) (l : list ascii) : list ascii :=
  match fuel with
  | O => l
  | S fuel' =>
      match annotation l with
      | Some rest => drop_annotations fuel' rest
      | None =>
          match l with
          | [] => []
          | c :: l' => c :: drop_annotations fuel' l'
          end
      end
  end.

Definition date_formats : list Datetime.format :=
  [Datetime.fmt_BdY; Datetime.fmt_bdY; Datetime.fmt_dmY; Datetime.fmt_mdY;
   Datetime.fmt_Ymd].

Section Load.

Variable repr_float : Q -> string.
Variable parse_number : string -> option Q.

(** [MovieFilter.format_date] *)
Definition format_date (date_str : Pandas.cell) : Pandas.cell :=
  match date_str with
  | Pandas.NaN => Pandas.Str "N/A"
  | Pandas.Str "N/A" => Pandas.Str "N/A"
  | _ =>
      let text := Pandas.cell_text repr_float date_str in
      let date_part :=
        Py.strip (Py.text (drop_annotations (S (String.length text))
                             (list_ascii_of_string text))) in
      match
        flat_map (fun fmt => match Datetime.strptime date_part fmt with
                             | Some dt => [dt]
                             | None => []
                             end) date_formats
      with
      | dt :: _ => Pandas.Str (Datetime.strftime_dmY dt)
      | [] => date_str
      end
  end.

(** [MovieFilter.__init__]: only a missing file is handled. *)
Definition init (files : string -> source) (csv_file : string) : M object :=
  try_except
    (df <- read_csv files csv_file ;;
     _ <- for_each numeric_cols (fun col =>
            has <- df_has_column df col ;;
            if has then
              cells <- df_getitem df col ;;
              df_setitem df col
                (Pandas.to_numeric_coerce parse_number cells)
            else ret tt) ;;
     _ <- (has <- df_has_column df "released" ;;
           if has then
             cells <- df_getitem df "released" ;;
             df_setitem df "released" (map format_date cells)
           else ret tt) ;;
     d <- deref df ;;
     df <- new (Pandas.rename d renamed) ;;
     ret (mk df))
    (fun e =>
       match e with
       | FileNotFoundError => raise (SystemExit 1)
       | _ => raise e
       end).

End Load.

Section Filter.

Variable re_search : string -> string -> bool.

(** [MovieFilter.filter] *)
Definition filter (self : object) (genre rating : option string)
  (year year_start year_end : option Z)
  (director star country company : option string)
  (min_score min_gross : option Q) (min_votes : option Z) : M ref :=
  result <- df_copy (df self) ;;
  result <- (has <- df_has_column result "Genre" ;;
             if Py.truthy_str genre && has then
               col <- df_getitem result "Genre" ;;
               df_loc result
                 (Pandas.str_contains re_search col (Py.val_str genre))
             else ret result) ;;
  result <- (has <- df_has_column result "MPAA Rating" ;;
             if Py.truthy_str rating && has then
               col <- df_getitem result "MPAA Rating" ;;
               df_loc result
                 (Pandas.eq_str col (Py.upper (Py.val_str rating)))
             else ret result) ;;
  result <- (has <- df_has_column result "year" ;;
             if Py.truthy_int year && has then
               col <- df_getitem result "year" ;;
               df_loc result
                 (Pandas.eq_num col (inject_Z (Py.val_int year)))
             else ret result) ;;
  result <- (has <- df_has_column result "year" ;;
             if Py.truthy_int year_start && Py.truthy_int year_end && has
             then
               col <- df_getitem result "year" ;;
               lower <- lift (Pandas.ge col
                                (inject_Z (Py.val_int year_start))) ;;
               col <- df_getitem result "year" ;;
               upper <- lift (Pandas.le col
                                (inject_Z (Py.val_int year_end))) ;;
               df_loc result (Pandas.mask_and lower upper)
             else ret result) ;;
  result <- (has <- df_has_column result "director" ;;
             if Py.truthy_str director && has then
               col <- df_getitem result "director" ;;
               df_loc result
                 (Pandas.str_contains re_search col (Py.val_str director))
             else ret result) ;;
  result <- (has <- df_has_column result "star" ;;
             if Py.truthy_str star && has then
               col <- df_getitem result "star" ;;
               df_loc result
                 (Pandas.str_contains re_search col (Py.val_str star))
             else ret result) ;;
  result <- (has <- df_has_column result "country" ;;
             if Py.truthy_str country && has then
               col <- df_getitem result "country" ;;
               df_loc result
                 (Pandas.str_contains re_search col (Py.val_str country))
             else ret result) ;;
  result <- (has <- df_has_column result "Company" ;;
             if Py.truthy_str company && has then
               col <- df_getitem result "Company" ;;
               df_loc result
                 (Pandas.str_contains re_search col (Py.val_str company))
             else ret result) ;;
  result <- (has <- df_has_column result "score" ;;
             if Py.truthy_float min_score && has then
               col <- df_getitem result "score" ;;
               mask <- lift (Pandas.ge col (Py.val_float min_score)) ;;
               df_loc result mask
             else ret result) ;;
  result <- (has <- df_has_column result "Total Gross" ;;
             if Py.truthy_float min_gross && has then
               col <- df_getitem result "Total Gross" ;;
               mask <- lift (Pandas.ge col (Py.val_float min_gross)) ;;
               df_loc result mask
             else ret result) ;;
  result <- (has <- df_has_column result "votes" ;;
             if Py.truthy_int min_votes && has then
               col <- df_getitem result "votes" ;;
               mask <- lift (Pandas.ge col
                               (inject_Z (Py.val_int min_votes))) ;;
               df_loc result mask
             else ret result) ;;
  ret result.

End Filter.

Definition sort_map : list (string * string) :=
  [("name", "Movie Title");
   ("year", "year");
   ("rating", "MPAA Rating");
   ("gross", "Total Gross");
   ("budget", "budget");
   ("votes", "votes");
   ("released", "Date Released")].

(** [MovieFilter.sort] *)
Definition sort (data : Pandas.DataFrame) (by_ : string) (ascending : bool)
  : result Pandas.DataFrame :=
  let sort_col := Py.dict_get sort_map (Py.lower by_) "Total Gross" in
  if Pandas.has_column data sort_col then
    Sorting.sort_values data sort_col ascending
  else Ok data.

Definition display_cols : list string :=
  ["Movie Title"; "year"; "Date Released"; "MPAA Rating"; "Genre";
   "Total Gross"; "Company"].

Definition csv_cols : list string :=
  ["Movie Title"; "Date Released"; "Genre"; "MPAA Rating"; "Total Gross"].

Definition final_cols : list string :=
  ["Movie Title"; "Date Released"; "Genre"; "MPAA Rating"; "Total Gross";
   "Inflation Adjusted Gross"].

Section Display.

Variable repr_float : Q -> string.

(** [py_int s] stands for [int(s)] on a text [s]; [None] for its
    [ValueError]. *)
Variable py_int : string -> option Z.

(** [int(x)] for the value of a cell that is not missing: an infinite
    number has no integer part. *)
Definition int_of_cell (c : Pandas.cell) : result Z :=
  match c with
  | Pandas.Num q => if Py.isinf q then Raise OverflowError else Ok (Py.int q)
  | Pandas.Str s =>
      match py_int s with
      | Some z => Ok z
      | None => Raise (ValueError s)
      end
  | _ => Raise TypeError
  end.

(** [pd.notna(x) and x != ''] *)
Definition present (c : Pandas.cell) : bool :=
  match c with
  | Pandas.NaN => false
  | Pandas.Str s => negb (s =? "")
  | _ => true
  end.

(** [lambda x: f"{int(x):,}" if pd.notna(x) and x != '' else 'N/A'] *)
Definition gross_with_commas (c : Pandas.cell) : result Pandas.cell :=
  if present c then
    z <-- int_of_cell c ;; Ok (Pandas.Str (Py.format_comma z))
  else Ok (Pandas.Str "N/A").

(** [lambda x: str(int(x)) if pd.notna(x) and x != '' else ''] *)
Definition gross_raw (c : Pandas.cell) : result Pandas.cell :=
  if present c then
    z <-- int_of_cell c ;; Ok (Pandas.Str (Py.str z))
  else Ok (Pandas.Str "").

(** [[col for col in cols if col in data.columns]] *)
Definition available (data : Pandas.DataFrame) (cols : list string)
  : list string :=
  List.filter (Pandas.has_column data) cols.

(** The frame both the [csv] format of [display] and [save_to_csv]
    write. *)
Definition export_frame (data : Pandas.DataFrame)
  : result Pandas.DataFrame :=
  let available_csv := available data csv_cols in
  csv_df <-- Pandas.getitems data available_csv ;;
  csv_df <--
    (if Pandas.has_column csv_df "Total Gross" then
       gross <-- Pandas.getitem csv_df "Total Gross" ;;
       gross <-- mapM gross_raw gross ;;
       Ok (Pandas.setitem csv_df "Total Gross" gross)
     else Ok csv_df) ;;
  let csv_df :=
    Pandas.setitem_scalar csv_df "Inflation Adjusted Gross"
      (Pandas.Str "0") in
  Pandas.getitems csv_df final_cols.

Definition rule : string := Py.times "=" 130.

(** [min(max_len + 2, 25)] for each shown column *)
Definition col_width (display_df : Pandas.DataFrame) (col : string)
  : result nat :=
  cells <-- Pandas.getitem display_df col ;;
  match Pandas.max_len repr_float cells with
  | Some n => Ok (Nat.min (Nat.max n (String.length col) + 2) 25)
  | None => Raise (ValueError "nan")
  end.

Definition table_row (widths : list nat) (r : Pandas.Row) : string :=
  Py.join "  "
    (map (fun cw =>
            Py.ljust (Py.slice_to (Pandas.cell_text repr_float (fst cw))
                                  (snd cw - 2))
                     (snd cw))
         (combine (snd r) widths)).

(** [MovieFilter.display]: the texts printed, one for each call of
    [print].  The output that comes before an exception is not kept. *)
Definition display (data : Pandas.DataFrame) (limit : Z) (format : string)
  : result (list string) :=
  if (List.length (Pandas.rows data) =? 0)%nat
  then Ok ["❌ No movies found"]
  else
    let available_cols := available data display_cols in
    display_df <-- Pandas.getitems data available_cols ;;
    let display_df := Pandas.head_int display_df limit in
    display_df <--
      (if Pandas.has_column display_df "Total Gross" then
         gross <-- Pandas.getitem display_df "Total Gross" ;;
         gross <-- mapM gross_with_commas gross ;;
         Ok (Pandas.setitem display_df "Total Gross" gross)
       else Ok display_df) ;;
    if format =? "csv" then
      final_df <-- export_frame data ;;
      Ok [Pandas.to_csv repr_float final_df]
    else
      widths <-- mapM (col_width display_df) available_cols ;;
      let header :=
        Py.join "  "
          (map (fun cw => Py.ljust (fst cw) (snd cw))
               (combine available_cols widths)) in
      Ok ([(Py.newline ++ rule)%string;
           ("📽️  FOUND "
              ++ Py.str (Z.of_nat (List.length (Pandas.rows data)))
              ++ " MOVIES"
              ++ (if (limit =? 0)%Z then ""
                  else " (showing top " ++ Py.str limit ++ ")"))%string;
           rule;
           header;
           Py.times "-" 130]
            ++ map (table_row widths) (Pandas.rows display_df)
            ++ [rule]).

(** [MovieFilter.save_to_csv]: the text printed and, when a file is
    written, its name and content. *)
Definition save_to_csv (data : Pandas.DataFrame) (filename : string)
  : result (string * option (string * string)) :=
  if (List.length (Pandas.rows data) =? 0)%nat
  then Ok ("❌ No data to save", None)
  else
    final_df <-- export_frame data ;;
    Ok (("✅ Saved "
           ++ Py.str (Z.of_nat (List.length (Pandas.rows final_df)))
           ++ " movies to " ++ filename)%string,
        Some (filename, Pandas.to_csv repr_float final_df)).

End Display.

(** The arguments of the command line; [--min-score] and [--min-gross]
    are read with [type=float], so that [arg_min_score] and [arg_min_gross]
    hold floats. *)
Record Namespace : Type := {
  arg_genre : option string;
  arg_rating : option string;
  arg_year : option Z;
  arg_year_range : option string;
  arg_director : option string;
  arg_star : option string;
  arg_country : option string;
  arg_company : option string;
  arg_min_score : option Q;
  arg_min_gross : option Q;
  arg_min_votes : option Z;
  arg_sort : string;
  arg_asc : bool;
  arg_limit : Z;
  arg_csv : bool;
  arg_save : option string;
  arg_file : string
}.

Section Main.

Variable re_search : string -> string -> bool.
Variable repr_float : Q -> string.
Variable parse_number : string -> option Q.
Variable py_int : string -> option Z.

Definition int (s : string) : M Z :=
  match py_int s with
  | Some z => ret z
  | None => raise (ValueError s)
  end.

(** The range of years of [--year-range]: [(year_start, year_end)]; a
    text that is not a range ends the process. *)
Definition parse_year_range (args : Namespace) : M (option Z * option Z) :=
  if Py.truthy_str (arg_year_range args) then
    try_except
      (let parts := Py.split (Py.val_str (arg_year_range args)) "-" in
       year_start <- int (nth 0 parts "") ;;
       year_end <- (if (1 <? List.length parts)%nat then int (nth 1 parts "")
                    else ret year_start) ;;
       ret (Some year_start, Some year_end))
      (fun _ => raise (SystemExit 1))
  else ret (None, None).

(** The call of [filter] in [main]: the least gross is given in
    millions, and the product is that of floats. *)
Definition main_filter (filter_tool : object) (args : Namespace) : M ref :=
  let year := arg_year args in
  ys <- parse_year_range args ;;
  let '(year_start, year_end) := ys in
  filter re_search filter_tool (arg_genre args) (arg_rating args) year
    year_start year_end (arg_director args) (arg_star args)
    (arg_country args) (arg_company args) (arg_min_score args)
    (if Py.truthy_float (arg_min_gross args)
     then Some (Py.fmul (Py.val_float (arg_min_gross args)) 1000000)
     else None)
    (arg_min_votes args).

(** [main] without [--info] and [--columns]: load, filter, sort, save,
    display; gives the texts printed and the file written. *)
Definition main (files : string -> source) (args : Namespace)
  : M (list string * option (string * string)) :=
  filter_tool <- init repr_float parse_number files (arg_file args) ;;
  filtered <- main_filter filter_tool args ;;
  filtered <- deref filtered ;;
  sorted_results <- lift (sort filtered (arg_sort args) (arg_asc args)) ;;
  saved <- (if Py.truthy_str (arg_save args) then
              lift (save_to_csv repr_float py_int sorted_results
                      (Py.val_str (arg_save args)))
            else ret ("", None)) ;;
  shown <- (if negb (Py.truthy_str (arg_save args)) || arg_csv args then
              lift (display repr_float py_int sorted_results
                      (arg_limit args)
                      (if arg_csv args then "csv" else "table"))
            else ret []) ;;
  ret ((if Py.truthy_str (arg_save args) then [fst saved] else []) ++ shown,
       snd saved).

End Main.

End MovieFilter.

(** ** The filters, row by row

    A filter is a sequence of clauses; a clause that applies reads one
    column and keeps the rows whose cell passes its test. *)

Module Clauses.

Import Pandas.

Record clause : Type := mkClause {
  supplied : bool;            (* the argument is true *)
  guarded : bool;             (* a missing column turns the clause off *)
  column : string;
  test : cell -> result bool
}.

Definition applies (d : DataFrame) (cl : clause) : bool :=
  supplied cl && (negb (guarded cl) || has_column d (column cl)).

Definition run_clause (cl : clause) (d : DataFrame) : result DataFrame :=
  if applies d cl then
    cells <-- getitem d (column cl) ;;
    mask <-- mapM (test cl) cells ;;
    Ok (loc d mask)
  else Ok d.

Fixpoint run_clauses (cls : list clause) (d : DataFrame)
  : result DataFrame :=
  match cls with
  | [] => Ok d
  | cl :: cls' => rbind (run_clause cl d) (run_clauses cls')
  end.

(** The row passes the clause, in a frame with the columns of [d]. *)
Definition passes (d : DataFrame) (cl : clause) (r : Row) : bool :=
  if applies d cl then
    match position (column cl) (columns d) with
    | Some i =>
        match test cl (cell_at i r) with
        | Ok b => b
        | Raise _ => false
        end
    | None => false
    end
  else true.

(** The tests of the clauses *)

Definition contains (re_search : string -> string -> bool) (pat : string)
  (c : cell) : result bool :=
  Ok (match c with Str x => re_search pat x | _ => false end).

Definition is_text (x : string) (c : cell) : result bool :=
  Ok (match c with Str y => y =? x | _ => false end).

Definition is_number (x : Q) (c : cell) : result bool :=
  Ok (match c with Num q => Qeq_bool q x | _ => false end).

Definition year_of (c : cell) : cell :=
  match c with Ts t => Num (inject_Z (Datetime.year t)) | _ => NaN end.

Definition year_is (y : Q) (c : cell) : result bool :=
  is_number y (year_of c).

Definition within (lo hi : Q) (c : cell) : result bool :=
  a <-- cell_ge lo c ;; b <-- cell_le hi c ;; Ok (a && b).

Definition year_within (lo hi : Q) (c : cell) : result bool :=
  within lo hi (year_of c).

(** The clauses of [MovieDB.filter], in the order of the source. *)
Definition of_MovieDB (re_search : string -> string -> bool)
  (genre season : option string) (year year_start year_end : option Z)
  (rating : option string) (min_gross : option Q) : list clause :=
  [mkClause (Py.truthy_str genre) false "Genre"
     (contains re_search (Py.val_str genre));
   mkClause (Py.truthy_str season) false "Season"
     (is_text (Py.val_str season));
   mkClause (Py.truthy_int year) false "Date Released"
     (year_is (inject_Z (Py.val_int year)));
   mkClause (Py.truthy_int year_start && Py.truthy_int year_end) false
     "Date Released"
     (year_within (inject_Z (Py.val_int year_start))
                  (inject_Z (Py.val_int year_end)));
   mkClause (Py.truthy_str rating) false "MPAA Rating"
     (is_text (Py.upper (Py.val_str rating)));
   mkClause (Py.truthy_float min_gross) false "Total Gross"
     (cell_ge (Py.fmul (Py.float (Py.val_float min_gross)) 1000000))].

(** The clauses of [MovieFilter.filter], in the order of the source. *)
Definition of_MovieFilter (re_search : string -> string -> bool)
  (genre rating : option string) (year year_start year_end : option Z)
  (director star country company : option string)
  (min_score min_gross : option Q) (min_votes : option Z) : list clause :=
  [mkClause (Py.truthy_str genre) true "Genre"
     (contains re_search (Py.val_str genre));
   mkClause (Py.truthy_str rating) true "MPAA Rating"
     (is_text (Py.upper (Py.val_str rating)));
   mkClause (Py.truthy_int year) true "year"
     (is_number (inject_Z (Py.val_int year)));
   mkClause (Py.truthy_int year_start && Py.truthy_int year_end) true "year"
     (within (inject_Z (Py.val_int year_start))
             (inject_Z (Py.val_int year_end)));
   mkClause (Py.truthy_str director) true "director"
     (contains re_search (Py.val_str director));
   mkClause (Py.truthy_str star) true "star"
     (contains re_search (Py.val_str star));
   mkClause (Py.truthy_str country) true "country"
     (contains re_search (Py.val_str country));
   mkClause (Py.truthy_str company) true "Company"
     (contains re_search (Py.val_str company));
   mkClause (Py.truthy_float min_score) true "score"
     (cell_ge (Py.val_float min_score));
   mkClause (Py.truthy_float min_gross) true "Total Gross"
     (cell_ge (Py.val_float min_gross));
   mkClause (Py.truthy_int min_votes) true "votes"
     (cell_ge (inject_Z (Py.val_int min_votes)))].

End Clauses.

(** The outcome [out] of a computation started in the store [h] agrees with
    the pure result [res]: the store has only grown, and the frame returned
    is an object not older than [base] that holds the result. *)
Definition agrees (base : nat) (out : result ref * store) (h : store)
  (res : result Pandas.DataFrame) : Prop :=
  exists t, snd out = h ++ t /\
    match res with
    | Ok d => exists p, fst out = Ok p /\ nth_error (snd out) p = Some d
                        /\ (base <= p)%nat
    | Raise e => fst out = Raise e
    end.

(** [d'] is a view of [d]: the same columns, and the rows that [keep]
    retains, in their order. *)
Definition view_of (keep : Pandas.Row -> bool) (d d' : Pandas.DataFrame)
  : Prop :=
  Pandas.columns d' = Pandas.columns d
  /\ Pandas.rows d' = List.filter keep (Pandas.rows d).

(** No object of the store [h] has changed in [h']. *)
Definition untouched (h h' : store) : Prop :=
  forall q, (q < List.length h)%nat -> nth_error h' q = nth_error h q.

(** The rows that pass all the clauses. *)
Definition kept (cls : list Clauses.clause) (d : Pandas.DataFrame)
  (r : Pandas.Row) : bool :=
  forallb (fun cl => Clauses.passes d cl r) cls.

(** ** Sample data *)

Module Sample.

Import Pandas.

(** A matcher for the patterns without special characters: the text
    holds the pattern, whatever the case of the letters. *)
Fixpoint search_from (fuel : nat) (pat s : list ascii) : bool :=
  match Datetime.prefix_ci pat s with
  | Some _ => true
  | None =>
      match fuel, s with
      | S fuel', _ :: s' => search_from fuel' pat s'
      | _, _ => false
      end
  end.

Definition literal_search (pat s : string) : bool :=
  search_from (String.length s) (list_ascii_of_string pat)
    (list_ascii_of_string s).

(** Whole numbers written with digits only. *)
Fixpoint digits_value (l : list ascii) (acc : Z) : option Z :=
  match l with
  | [] => Some acc
  | c :: l' =>
      match Datetime.digit_val c with
      | Some v => digits_value l' (10 * acc + v)%Z
      | None => None
      end
  end.

Definition py_int (s : string) : option Z :=
  match list_ascii_of_string s with
  | [] => None
  | l => digits_value l 0%Z
  end.

Definition parse_number (s : string) : option Q :=
  option_map inject_Z (py_int s).

Definition repr_float (q : Q) : string := (Py.str (Py.int q) ++ ".0")%string.

(** A table of the curated data set, as [MovieDB.__init__] leaves it. *)
Definition disney : DataFrame :=
  mkDataFrame
    ["Movie Title"; "Date Released"; "Genre"; "MPAA Rating"; "Total Gross";
     "Inflation Adjusted Gross"; "Season"]
    [(0%nat, [Str "Toy Story"; Ts (Datetime.mkdate 1995 11 22);
              Str "Adventure"; Str "G"; Num 100000000; Num 380000000;
              Str "Fall"]);
     (1%nat, [Str "The Lion King"; Ts (Datetime.mkdate 1994 6 15);
              Str "Adventure"; Str "G"; Num 99999999; Num 761640898;
              Str "Summer"]);
     (2%nat, [Str "Pocahontas"; Ts (Datetime.mkdate 1995 6 23);
              Str "Adventure"; Str "pg"; Num 100000001; Num 274370957;
              Str "Summer"]);
     (3%nat, [Str "Bambi"; NaN; Str "Drama"; NaN; NaN; NaN; NaN])].

(** A table of the broader data set, as [MovieFilter.__init__] leaves
    it; the scores are the floats nearest to 8.4 and 7.7. *)
Definition scraped : DataFrame :=
  mkDataFrame
    ["Movie Title"; "MPAA Rating"; "Genre"; "year"; "Date Released"; "score";
     "votes"; "director"; "star"; "country"; "budget"; "Total Gross";
     "Company"]
    [(0%nat, [Str "The Shining"; Str "R"; Str "Drama"; Num 1980;
              Str "13/06/1980"; Num (Py.float (84 # 10)); Num 927000;
              Str "Stanley Kubrick"; Str "Jack Nicholson";
              Str "United Kingdom"; Num 19000000; Num 100000000;
              Str "Warner Bros."]);
     (1%nat, [Str "Airplane!"; Str "PG"; Str "Comedy"; Num 1980;
              Str "02/07/1980"; Num (Py.float (77 # 10)); Num 221000;
              Str "Jim Abrahams"; Str "Robert Hays"; Str "United States";
              Num 3500000; Num 99999999; Str "Paramount Pictures"]);
     (2%nat, [Str "Caddyshack"; Str "Unknown"; Str "Comedy"; Num 1980;
              Str "N/A"; NaN; NaN; Str "Harold Ramis"; Str "Chevy Chase";
              Str "United States"; NaN; NaN; Str "Orion Pictures"])].

End Sample.

(** ** Predicates on rows used in the statements *)

Definition text_equals (x : string) (c : Pandas.cell) : bool :=
  match c with Pandas.Str y => y =? x | _ => false end.

Definition at_least (x : Q) (c : Pandas.cell) : bool :=
  match c with Pandas.Num q => Qle_bool x q | _ => false end.

Definition numeric_or_missing (c : Pandas.cell) : bool :=
  match c with Pandas.Num _ | Pandas.NaN => true | _ => false end.

(** The column at position [i] of [d] holds numbers and missing values
    only. *)
Definition numeric_column (d : Pandas.DataFrame) (i : nat) : bool :=
  forallb (fun r => numeric_or_missing (Pandas.cell_at i r)) (Pandas.rows d).

(** The value of a test that did not raise. *)
Definition holds (t : result bool) : bool :=
  match t with Ok b => b | Raise _ => false end.

(** The rating predicate as a case-insensitive comparison: a row of [d] is
    in the view [d'] exactly when its rating and the supplied text are equal
    once both are in upper case. *)
Definition case_insensitive_rating (d d' : Pandas.DataFrame) (i : nat)
  (supplied : string) : Prop :=
  forall r,
    In r (Pandas.rows d) ->
    (In r (Pandas.rows d') <->
     exists field,
       Pandas.cell_at i r = Pandas.Str field
       /\ Py.upper field = Py.upper supplied).

(** The arguments of [datascrapper.py] with the three least values only. *)
Definition thresholds_only (min_score min_gross : option Q)
  (min_votes : option Z) : MovieFilter.Namespace :=
  {| MovieFilter.arg_genre := None;
     MovieFilter.arg_rating := None;
     MovieFilter.arg_year := None;
     MovieFilter.arg_year_range := None;
     MovieFilter.arg_director := None;
     MovieFilter.arg_star := None;
     MovieFilter.arg_country := None;
     MovieFilter.arg_company := None;
     MovieFilter.arg_min_score := min_score;
     MovieFilter.arg_min_gross := min_gross;
     MovieFilter.arg_min_votes := min_votes;
     MovieFilter.arg_sort := "gross";
     MovieFilter.arg_asc := false;
     MovieFilter.arg_limit := 20%Z;
     MovieFilter.arg_csv := false;
     MovieFilter.arg_save := None;
     MovieFilter.arg_file := "movies.csv" |}.

(** The arguments of [datadasher.py] with the least gross only. *)
Definition min_gross_only (min_gross : option Q) : MovieDB.Namespace :=
  {| MovieDB.arg_genre := None;
     MovieDB.arg_season := None;
     MovieDB.arg_years := None;
     MovieDB.arg_rating := None;
     MovieDB.arg_min_gross := min_gross;
     MovieDB.arg_sort := "inflation";
     MovieDB.arg_asc := false;
     MovieDB.arg_limit := Some 20%Z;
     MovieDB.arg_csv := false;
     MovieDB.arg_file := "disney movie total gross.csv" |}.

(** The least gross that [main] of [datascrapper.py] hands to [filter]. *)
Definition scaled (min_gross : option Q) : option Q :=
  if Py.truthy_float min_gross
  then Some (Py.fmul (Py.val_float min_gross) 1000000)
  else None.

(** The computation [m], started in the store [h], returns a frame equal to
    [d']. *)
Definition returns (m : M ref) (h : store) (d' : Pandas.DataFrame) : Prop :=
  exists p h', m h = (Ok p, h') /\ nth_error h' p = Some d'.

(** No row of [d'] has a missing value in the column at position [i]. *)
Definition no_missing (d' : Pandas.DataFrame) (i : nat) : Prop :=
  forall r, In r (Pandas.rows d') -> Pandas.cell_at i r <> Pandas.NaN.

(** ** Orders of rows *)

(** Two keys are equal. *)
Definition cell_eqb (a b : Pandas.cell) : bool :=
  match a, b with
  | Pandas.Num x, Pandas.Num y => Qeq_bool x y
  | Pandas.Str x, Pandas.Str y => x =? y
  | Pandas.Ts x, Pandas.Ts y => Datetime.eqb x y
  | Pandas.NaN, Pandas.NaN => true
  | _, _ => false
  end.

(** The rows of [output] with a given key are those of [input], in the
    same order: what a stable sort on the column at position [i] ensures. *)
Definition stable (i : nat) (input output : list Pandas.Row) : Prop :=
  forall k,
    List.filter (fun r => cell_eqb k (Pandas.cell_at i r)) output
    = List.filter (fun r => cell_eqb k (Pandas.cell_at i r)) input.

(** [a] may come before [b]: present keys in the direction asked for, the
    missing keys last. *)
Definition may_precede (ascending : bool) (a b : Pandas.cell) : bool :=
  match a, b with
  | Pandas.NaN, Pandas.NaN => true
  | Pandas.NaN, _ => false
  | _, Pandas.NaN => true
  | _, _ => if ascending then negb (Pandas.cell_lt b a)
            else negb (Pandas.cell_lt a b)
  end.

Fixpoint ordered {A : Type} (le : A -> A -> bool) (l : list A) : bool :=
  match l with
  | a :: (b :: _) as l' => le a b && ordered le l'
  | _ => true
  end.

(** [order] lists each of the positions [0 .. n-1] once. *)
Definition is_arrangement (n : nat) (order : list nat) : bool :=
  (List.length order =? n)%nat
  && forallb (fun i => existsb (Nat.eqb i) order) (seq 0 n).

(** What the sort kernel is handed for a column of keys: the present keys,
    from the last to the first when the order is descending. *)
Definition kernel_input (keys : Pandas.Series) (ascending : bool)
  : Pandas.Series :=
  let present := Pandas.select (map negb (map Pandas.isna keys)) keys in
  if ascending then present else rev present.

(** The answer of the kernel on these keys is an arrangement of their
    positions that puts them in increasing order. *)
Definition kernel_sorts (keys : Pandas.Series) (ascending : bool) : bool :=
  let items := kernel_input keys ascending in
  let order :=
    Numpy.argsort
      (fun i j => Pandas.cell_lt (nth i items Pandas.NaN) (nth j items Pandas.NaN))
      (List.length items) in
  is_arrangement (List.length items) order
  && ordered (fun a b => negb (Pandas.cell_lt b a))
       (map (fun k => nth k items Pandas.NaN) order).

(** Eighteen films of the broader data set: eight rated PG, one rated G,
    nine rated R. *)
Definition eighteen : Pandas.DataFrame :=
  Pandas.mkDataFrame ["Movie Title"; "MPAA Rating"; "year"; "Date Released"]
    (map (fun k =>
            (k, [Pandas.Str ("Film " ++ Py.str (Z.of_nat k));
                 Pandas.Str (if (k <? 8)%nat then "PG"
                             else if (k =? 8)%nat then "G" else "R");
                 Pandas.Num 1980;
                 Pandas.Str "13/06/1980"]))
         (seq 0 18)).

(** Two films whose year and release date disagree on the order. *)
Definition two_films : Pandas.DataFrame :=
  Pandas.mkDataFrame ["Movie Title"; "year"; "Date Released"]
    [(0%nat, [Pandas.Str "First"; Pandas.Num 1980; Pandas.Str "25/01/1982"]);
     (1%nat, [Pandas.Str "Second"; Pandas.Num 1981; Pandas.Str "20/06/1981"])].

(** The column that [MovieDB.sort] sorts by. *)
Definition MovieDB_sort_column (sort_by : string) : string :=
  if Py.lower sort_by =? "year" then "Date Released"
  else Py.dict_get MovieDB.sort_columns (Py.lower sort_by) "Total Gross".

(** The column that [MovieFilter.sort] sorts by, when the frame has it. *)
Definition MovieFilter_sort_column (by_ : string) : string :=
  Py.dict_get MovieFilter.sort_map (Py.lower by_) "Total Gross".

(** The present keys of the column at position [i] are of one kind. *)
Definition comparable_keys (d : Pandas.DataFrame) (i : nat) : bool :=
  let keys := map (Pandas.cell_at i) (Pandas.rows d) in
  Sorting.homogeneous (Pandas.select (map negb (map Pandas.isna keys)) keys).

(** [out] holds the rows of [d] sorted on the column at position [i]: the
    same rows, the present keys in the direction asked for, then the rows
    with a missing key in the order they had. *)
Definition sorted_on (i : nat) (ascending : bool) (d out : Pandas.DataFrame)
  : Prop :=
  Pandas.columns out = Pandas.columns d
  /\ Permutation (Pandas.rows out) (Pandas.rows d)
  /\ ordered (may_precede ascending) (map (Pandas.cell_at i) (Pandas.rows out))
     = true
  /\ List.filter (fun r => Pandas.isna (Pandas.cell_at i r)) (Pandas.rows out)
     = List.filter (fun r => Pandas.isna (Pandas.cell_at i r)) (Pandas.rows d).

(** The release date a row of the broader data set shows, read back. *)
Definition release_date (i : nat) (r : Pandas.Row) : option Datetime.date :=
  match Pandas.cell_at i r with
  | Pandas.Str s => Datetime.strptime s Datetime.fmt_dmY
  | _ => None
  end.

(** ** The tables the loaders leave *)

(** The fixed mapping from the month of a date to a season. *)
Definition season_of_month (m : Z) : option string :=
  if ((m =? 12) || (m =? 1) || (m =? 2))%Z then Some "Winter"
  else if ((m =? 3) || (m =? 4) || (m =? 5))%Z then Some "Spring"
  else if ((m =? 6) || (m =? 7) || (m =? 8))%Z then Some "Summer"
  else if ((m =? 9) || (m =? 10) || (m =? 11))%Z then Some "Fall"
  else None.

(** The season of a record, from its release date: absent when the date
    is. *)
Definition season_of_date (c : Pandas.cell) : Pandas.cell :=
  match c with
  | Pandas.Ts t =>
      match season_of_month (Datetime.month t) with
      | Some s => Pandas.Str s
      | None => Pandas.NaN
      end
  | _ => Pandas.NaN
  end.

(** The table [MovieDB.__init__] leaves, given the dates it has read. *)
Definition MovieDB_loaded (table : Pandas.DataFrame) (dates : Pandas.Series)
  : Pandas.DataFrame :=
  Pandas.setitem (Pandas.setitem table "Date Released" dates) "Season"
    (Pandas.map_dict MovieDB.seasons (Pandas.dt_month dates)).









(** A file system with one file. *)
Definition one_file (name : string) (content : source) (path : string)
  : source :=
  if path =? name then content else NoSuchFile.

(** The place of a column after [df[c] = s]. *)
Definition place_after_setitem (d : Pandas.DataFrame) (c : string) : nat :=
  match Pandas.position c (Pandas.columns d) with
  | Some i => i
  | None => List.length (Pandas.columns d)
  end.

(** A table of three films, as read from the file. *)
Definition three_films : Pandas.DataFrame :=
  Pandas.mkDataFrame ["Movie Title"; "Date Released"; "Total Gross"]
    [(0%nat, [Pandas.Str "Tarzan"; Pandas.Str "25/06/1999";
              Pandas.Num 171091819]);
     (1%nat, [Pandas.Str "The Jungle Book"; Pandas.Str "15/12/1994";
              Pandas.Num 44342956]);
     (2%nat, [Pandas.Str "Untitled"; Pandas.NaN; Pandas.NaN])].




(** The header of the delimited text both programs write. *)
Definition export_header : string :=
  "Movie Title,Date Released,Genre,MPAA Rating,Total Gross,Inflation Adjusted Gross".

(** A value [int] and the formats of the gross accept: a missing value, a
    number that is not infinite, an empty text or the text of an int. *)
Definition exportable (py_int : string -> option Z) (c : Pandas.cell) : bool :=
  match c with
  | Pandas.NaN => true
  | Pandas.Num q => negb (Py.isinf q)
  | Pandas.Str s => (s =? "") || match py_int s with Some _ => true | None => false end
  | Pandas.Ts _ => false
  end.

(** The view has the five columns that are exported and its gross can be
    written. *)
Definition exportable_view (py_int : string -> option Z)
  (data : Pandas.DataFrame) : bool :=
  forallb (Pandas.has_column data) MovieFilter.csv_cols
  && match Pandas.position "Total Gross" (Pandas.columns data) with
     | Some i => forallb (fun r => exportable py_int (Pandas.cell_at i r))
                   (Pandas.rows data)
     | None => false
     end.

(** The line of a record in the delimited text of an export: the five
    fields of the record, then the literal [0] as its inflation adjusted
    gross, then a line feed. *)
Definition export_line (repr_float : Q -> string) (fields : list Pandas.cell)
  : string :=
  (Py.join "," (map (Pandas.csv_cell repr_float) fields) ++ ",0"
     ++ Py.newline)%string.

(** All the texts of [l], one after the other. *)
Fixpoint concat_lines (l : list string) : string :=
  match l with
  | [] => EmptyString
  | x :: l' => (x ++ concat_lines l')%string
  end.

(** [text] is the delimited text of an export of [data]: the header of the
    format on the first line, then one line for each record of [data], of
    five fields and the literal [0]. *)
Definition exported (repr_float : Q -> string) (data : Pandas.DataFrame)
  (text : string) : Prop :=
  exists records : list (list Pandas.cell),
    List.length records = List.length (Pandas.rows data)
    /\ (forall fields, In fields records -> List.length fields = 5%nat)
    /\ text = (export_header ++ Py.newline
               ++ concat_lines (map (export_line repr_float) records))%string.

(** One film of the curated data set, as loaded. *)
Definition one_film : Pandas.DataFrame :=
  Pandas.mkDataFrame
    ["Movie Title"; "Date Released"; "Genre"; "MPAA Rating"; "Total Gross";
     "Inflation Adjusted Gross"; "Season"]
    [(0%nat, [Pandas.Str "The Lion King"; Pandas.Ts (Datetime.mkdate 1994 6 15);
              Pandas.Str "Adventure"; Pandas.Str "G"; Pandas.Num 422780140;
              Pandas.Num 761640898; Pandas.Str "Summer"])].

(** A text between quotes. *)
Definition quoted (s : string) : string :=
  String Pandas.quote (s ++ String Pandas.quote EmptyString).

(** The amount is written with the currency sign in front. *)
Definition has_currency_prefix (c : Pandas.cell) : bool :=
  match c with
  | Pandas.Str (String "$" _) => true
  | _ => false
  end.

(** The amount is written as a bare integer: digits only, after an optional
    minus sign. *)
Definition bare_integer (c : Pandas.cell) : bool :=
  match c with
  | Pandas.Str s =>
      let all_digits l :=
        match l with
        | [] => false
        | _ => forallb (fun d => match Datetime.digit_val d with
                                 | Some _ => true
                                 | None => false
                                 end) l
        end in
      match list_ascii_of_string s with
      | "-"%char :: l => all_digits l
      | l => all_digits l
      end
  | _ => false
  end.

(** What [datadasher.py --csv] prints for [one_film]. *)
Definition one_film_csv : string :=
  ("Movie Title,Date Released,Genre,Season,MPAA Rating,Total Gross,Inflation Adjusted Gross"
     ++ Py.newline
     ++ "The Lion King,15/06/1994,Adventure,Summer,G,"
     ++ quoted "$422,780,140" ++ "," ++ quoted "$761,640,898"
     ++ Py.newline)%string.

(** ** The least gross as a float *)



(** ** Queries

    The arguments of one call of [filter], kept together. *)

Record MovieDB_query : Type := {
  q_genre : option string;
  q_season : option string;
  q_year : option Z;
  q_year_start : option Z;
  q_year_end : option Z;
  q_rating : option string;
  q_min_gross : option Q
}.

(** [self.filter] called with the arguments [q] *)
Definition MovieDB_filter_with (re_search : string -> string -> bool)
  (self : MovieDB.object) (q : MovieDB_query) : M ref :=
  MovieDB.filter re_search self (q_genre q) (q_season q) (q_year q)
    (q_year_start q) (q_year_end q) (q_rating q) (q_min_gross q).

Definition MovieDB_clauses (re_search : string -> string -> bool)
  (q : MovieDB_query) : list Clauses.clause :=
  Clauses.of_MovieDB re_search (q_genre q) (q_season q) (q_year q)
    (q_year_start q) (q_year_end q) (q_rating q) (q_min_gross q).

Record MovieFilter_query : Type := {
  f_genre : option string;
  f_rating : option string;
  f_year : option Z;
  f_year_start : option Z;
  f_year_end : option Z;
  f_director : option string;
  f_star : option string;
  f_country : option string;
  f_company : option string;
  f_min_score : option Q;
  f_min_gross : option Q;
  f_min_votes : option Z
}.

(** [self.filter] called with the arguments [q] *)
Definition MovieFilter_filter_with (re_search : string -> string -> bool)
  (self : MovieFilter.object) (q : MovieFilter_query) : M ref :=
  MovieFilter.filter re_search self (f_genre q) (f_rating q) (f_year q)
    (f_year_start q) (f_year_end q) (f_director q) (f_star q) (f_country q)
    (f_company q) (f_min_score q) (f_min_gross q) (f_min_votes q).

Definition MovieFilter_clauses (re_search : string -> string -> bool)
  (q : MovieFilter_query) : list Clauses.clause :=
  Clauses.of_MovieFilter re_search (f_genre q) (f_rating q) (f_year q)
    (f_year_start q) (f_year_end q) (f_director q) (f_star q) (f_country q)
    (f_company q) (f_min_score q) (f_min_gross q) (f_min_votes q).

(** Two queries of the sample tables. *)
Definition adventures : MovieDB_query :=
  {| q_genre := Some "adventure"; q_season := None; q_year := None;
     q_year_start := None; q_year_end := None; q_rating := None;
     q_min_gross := None |}.

Definition summer_hits : MovieDB_query :=
  {| q_genre := None; q_season := Some "Summer"; q_year := None;
     q_year_start := None; q_year_end := None; q_rating := None;
     q_min_gross := Some 100 |}.

(** ** Predicates on the release date *)

Definition released_in_season (s : string) (c : Pandas.cell) : bool :=
  match c with
  | Pandas.Ts t =>
      match season_of_month (Datetime.month t) with
      | Some s' => s' =? s
      | None => false
      end
  | _ => false
  end.

Definition released_in_year (y : Z) (c : Pandas.cell) : bool :=
  match c with
  | Pandas.Ts t => (Datetime.year t =? y)%Z
  | _ => false
  end.

Definition released_between (lo hi : Z) (c : Pandas.cell) : bool :=
  match c with
  | Pandas.Ts t => ((lo <=? Datetime.year t) && (Datetime.year t <=? hi))%Z
  | _ => false
  end.

(** The store after the load of [three_films] from the file
    [disney.csv]. *)
Definition three_films_store : store :=
  snd (MovieDB.init (one_file "disney.csv" (Delimited three_films))
         "disney.csv" []).

(** ** Clauses that cannot fail *)


(** The label a column has after [MovieFilter.__init__]. *)
Definition new_label (c : string) : string :=
  match find (fun kv => fst kv =? c) MovieFilter.renamed with
  | Some kv => snd kv
  | None => c
  end.

(** ** Tables of another kind *)

(** The columns the predicates of [MovieDB.filter] read. *)
Definition MovieDB_filter_columns : list string :=
  ["Genre"; "Season"; "Date Released"; "MPAA Rating"; "Total Gross"].

(** The columns the predicates of [MovieFilter.filter] read. *)
Definition MovieFilter_filter_columns : list string :=
  ["Genre"; "MPAA Rating"; "year"; "director"; "star"; "country"; "Company";
   "score"; "Total Gross"; "votes"].

(** The table has none of the columns [cols]. *)
Definition lacks (d : Pandas.DataFrame) (cols : list string) : bool :=
  forallb (fun c => negb (Pandas.has_column d c)) cols.

(** Some predicate of the query is supplied. *)
Definition some_supplied (cls : list Clauses.clause) : bool :=
  existsb Clauses.supplied cls.

(** A table with titles and nothing else. *)
Definition titles_only : Pandas.DataFrame :=
  Pandas.mkDataFrame ["title"]
    [(0%nat, [Pandas.Str "Tarzan"]); (1%nat, [Pandas.Str "Bambi"])].

(** ** The limit of [MovieDB.display] *)

(** The number of records [MovieDB.display] shows of a view of [n]
    records: all of them without a limit or with the limit 0, the first
    [limit] for a positive limit, all but the last [-limit] for a negative
    one. *)
Definition shown_count (limit : option Z) (n : nat) : nat :=
  match limit with
  | None => n
  | Some 0%Z => n
  | Some (Z.pos p) => Nat.min (Pos.to_nat p) n
  | Some (Z.neg p) => (n - Pos.to_nat p)%nat
  end.

(** ** Written forms of a date *)

(** The part of a text that [format_date] reads: the annotations between
    parentheses removed, the white space at both ends stripped. *)
Definition date_part (text : string) : string :=
  Py.strip
    (Py.text (MovieFilter.drop_annotations (S (String.length text))
                (list_ascii_of_string text))).

(** The date of the first format of [format_date] that reads the text. *)
Definition first_parse (s : string) : option Datetime.date :=
  hd_error
    (flat_map (fun fmt => match Datetime.strptime s fmt with
                          | Some dt => [dt]
                          | None => []
                          end) MovieFilter.date_formats).

(** [mm/dd/yyyy] *)
Definition written_mdY (d : Datetime.date) : string :=
  Datetime.pad 2 (Datetime.month d) ++ "/" ++ Datetime.pad 2 (Datetime.day d)
    ++ "/" ++ Datetime.pad 4 (Datetime.year d).

(** [yyyy-mm-dd] *)
Definition written_Ymd (d : Datetime.date) : string :=
  Datetime.pad 4 (Datetime.year d) ++ "-" ++ Datetime.pad 2 (Datetime.month d)
    ++ "-" ++ Datetime.pad 2 (Datetime.day d).

(** [Month d, yyyy] followed by a note, as in
    [June 13, 1980 (United States)]. *)
Definition written_long (name : string) (d : Datetime.date) (note : string)
  : string :=
  name ++ " " ++ Py.str (Datetime.day d) ++ ", "
    ++ Datetime.pad 4 (Datetime.year d) ++ note.

(** A country between parentheses, after a space. *)
Definition country_note (country : string) : string :=
  " (" ++ country ++ ")".

(** A date of the calendar with a year of four digits. *)
Definition four_digit_date (d : Datetime.date) : bool :=
  Datetime.valid d && (1000 <=? Datetime.year d)%Z
  && (Datetime.year d <=? 9999)%Z.

(** The digits [cs] are the decimal writing of [v]. *)
Definition reads_as (cs : list ascii) (v : Z) : bool :=
  match fold_left (fun acc c =>
                     match acc, Datetime.digit_val c with
                     | Some a, Some x => Some (10 * a + x)%Z
                     | _, _ => None
                     end) cs (Some 0%Z) with
  | Some w => (w =? v)%Z
  | None => false
  end.

(** [pad width v] has [width] digits that read as [v]. *)
Definition pad_reads (width : nat) (v : nat) : bool :=
  let cs := list_ascii_of_string (Datetime.pad width (Z.of_nat v)) in
  (List.length cs =? width)%nat && reads_as cs (Z.of_nat v).

(** [str v] is the digits of [v], one of them below ten and two from ten
    to ninety-nine. *)
Definition str_reads (v : nat) : bool :=
  let cs := list_ascii_of_string (Py.str (Z.of_nat v)) in
  (List.length cs =? (if (v <? 10)%nat then 1 else 2))%nat
  && reads_as cs (Z.of_nat v).

(** The names of the months that [format_date] reads, in full or
    abbreviated. *)
Definition month_name (name : string) (m : Z) : Prop :=
  In (name, m) Datetime.month_names \/ In (name, m) Datetime.month_abbrs.

(** What may follow the date: nothing, or a note between parentheses that
    has no closing parenthesis inside. *)
Definition note_after (note : string) : Prop :=
  note = ""
  \/ exists country,
       note = country_note country /\ Py.contains_char country ")" = false.

(** A separator of the formats: not a digit, a letter or a space. *)
Definition separator (c : ascii) : bool :=
  Ascii.eqb c "/" || Ascii.eqb c "-" || Ascii.eqb c ",".

(** Neither white space nor an opening parenthesis. *)
Definition plain (c : ascii) : bool :=
  negb (Py.is_space c) && negb (Ascii.eqb c "(").

(** The date whose year, month and day are written with these digits. *)
Definition date_of_digits (w1 w2 w3 w4 x' y' x y : Z) : Datetime.date :=
  Datetime.mkdate (1000 * w1 + 100 * w2 + 10 * w3 + w4) (10 * x' + y')
    (10 * x + y).

(** The date with the day and the month exchanged. *)
Definition exchanged (d : Datetime.date) : Datetime.date :=
  Datetime.mkdate (Datetime.year d) (Datetime.day d) (Datetime.month d).

(** Every space of the text is followed by a character that is neither a
    space nor an opening parenthesis, and no parenthesis opens in it. *)
Definition spaced (pre : list ascii) : Prop :=
  forall s c l,
    pre = s ++ c :: l ->
    plain c = true
    \/ (c = " "%char /\ exists c' l', l = c' :: l' /\ plain c' = true).

(** The characters of a note for [drop_annotations]. *)
Definition note_chars (tail : list ascii) : Prop :=
  tail = []
  \/ exists country,
       tail = " "%char :: "("%char :: country ++ [")"%char]
       /\ ~ In ")"%char country.

(** The digits [dd] write the day [D], without a leading zero. *)
Definition day_digits (dd : list ascii) (D : Z) : Prop :=
  (exists a x,
      dd = [a] /\ Datetime.digit_val a = Some x /\ D = x /\ (1 <= x)%Z)
  \/ (exists a b x y,
         dd = [a; b] /\ Datetime.digit_val a = Some x
         /\ Datetime.digit_val b = Some y /\ D = (10 * x + y)%Z).

(** The name [nm] of the month [m] is read by the first or by the second
    format of [format_date]. *)
Definition reads_month (nm : list ascii) (m : Z) : Prop :=
  forall rest,
    Datetime.named Datetime.month_names (nm ++ " "%char :: rest)
    = [(m, " "%char :: rest)]
    \/ (Datetime.named Datetime.month_names (nm ++ " "%char :: rest) = []
        /\ Datetime.named Datetime.month_abbrs (nm ++ " "%char :: rest)
           = [(m, " "%char :: rest)]).

(** ** The texts of the years *)

(** A range of years as it is written: two parts around a hyphen, and
    maybe more parts after another hyphen. *)
Definition range_text (a b : string) (more : option string) : string :=
  a ++ "-" ++ b ++ match more with
                   | Some m => "-" ++ m
                   | None => ""
                   end.

(** The arguments of [datadasher.py] with the years only. *)
Definition years_only (years : option string) : MovieDB.Namespace :=
  {| MovieDB.arg_genre := None;
     MovieDB.arg_season := None;
     MovieDB.arg_years := years;
     MovieDB.arg_rating := None;
     MovieDB.arg_min_gross := None;
     MovieDB.arg_sort := "inflation";
     MovieDB.arg_asc := false;
     MovieDB.arg_limit := Some 20%Z;
     MovieDB.arg_csv := false;
     MovieDB.arg_file := "disney movie total gross.csv" |}.

(** The arguments [args] of [datascrapper.py] with another year and
    another range of years. *)
Definition with_years (args : MovieFilter.Namespace) (year : option Z)
  (year_range : option string) : MovieFilter.Namespace :=
  {| MovieFilter.arg_genre := MovieFilter.arg_genre args;
     MovieFilter.arg_rating := MovieFilter.arg_rating args;
     MovieFilter.arg_year := year;
     MovieFilter.arg_year_range := year_range;
     MovieFilter.arg_director := MovieFilter.arg_director args;
     MovieFilter.arg_star := MovieFilter.arg_star args;
     MovieFilter.arg_country := MovieFilter.arg_country args;
     MovieFilter.arg_company := MovieFilter.arg_company args;
     MovieFilter.arg_min_score := MovieFilter.arg_min_score args;
     MovieFilter.arg_min_gross := MovieFilter.arg_min_gross args;
     MovieFilter.arg_min_votes := MovieFilter.arg_min_votes args;
     MovieFilter.arg_sort := MovieFilter.arg_sort args;
     MovieFilter.arg_asc := MovieFilter.arg_asc args;
     MovieFilter.arg_limit := MovieFilter.arg_limit args;
     MovieFilter.arg_csv := MovieFilter.arg_csv args;
     MovieFilter.arg_save := MovieFilter.arg_save args;
     MovieFilter.arg_file := MovieFilter.arg_file args |}.

(** ** Sorting on keys that are all different *)

(** [R] holds of every element and every later one. *)
Fixpoint pairwise {A : Type} (R : A -> A -> bool) (l : list A) : bool :=
  match l with
  | [] => true
  | a :: l' => forallb (R a) l' && pairwise R l'
  end.

(** The record has a key in the column at position [i]. *)
Definition has_key (i : nat) (r : Pandas.Row) : bool :=
  negb (Pandas.isna (Pandas.cell_at i r)).

(** One of the two keys is before the other. *)
Definition differ (i : nat) (r1 r2 : Pandas.Row) : bool :=
  Pandas.cell_lt (Pandas.cell_at i r1) (Pandas.cell_at i r2)
  || Pandas.cell_lt (Pandas.cell_at i r2) (Pandas.cell_at i r1).

(** The present keys of the column at position [i] are of one kind and all
    different. *)
Definition distinct_keys (d : Pandas.DataFrame) (i : nat) : bool :=
  pairwise (differ i) (List.filter (has_key i) (Pandas.rows d)).

(** [up] and [down] hold the records of [d]: first the records with a key,
    in the one arrangement [present] of them that is strictly increasing,
    for [up], and in the reverse of it, for [down]; after them the records
    with no key, as they are in [d]. *)
Definition opposite_orders (i : nat) (d up down : Pandas.DataFrame) : Prop :=
  let missing :=
    List.filter (fun r => Pandas.isna (Pandas.cell_at i r)) (Pandas.rows d) in
  exists present : list Pandas.Row,
    Permutation present (List.filter (has_key i) (Pandas.rows d))
    /\ ordered (fun a b => Pandas.cell_lt a b)
         (map (Pandas.cell_at i) present) = true
    /\ (forall other,
          Permutation other (List.filter (has_key i) (Pandas.rows d)) ->
          ordered (fun a b => Pandas.cell_lt a b)
            (map (Pandas.cell_at i) other) = true ->
          other = present)
    /\ Pandas.columns up = Pandas.columns d
    /\ Pandas.columns down = Pandas.columns d
    /\ Pandas.rows up = present ++ missing
    /\ Pandas.rows down = rev present ++ missing.

(** Four films with different years, one of them without a year. *)
Definition four_years : Pandas.DataFrame :=
  Pandas.mkDataFrame ["Movie Title"; "year"]
    [(0%nat, [Pandas.Str "Alien"; Pandas.Num 1979]);
     (1%nat, [Pandas.Str "Untitled"; Pandas.NaN]);
     (2%nat, [Pandas.Str "Jaws"; Pandas.Num 1975]);
     (3%nat, [Pandas.Str "Tron"; Pandas.Num 1982])].

(** ** An infinite gross *)

(** A film of the broader data set whose gross was read as infinite. *)
Definition infinite_gross : Pandas.DataFrame :=
  Pandas.mkDataFrame
    ["Movie Title"; "Date Released"; "Genre"; "MPAA Rating"; "Total Gross"]
    [(0%nat, [Pandas.Str "Alien"; Pandas.Str "25/05/1979"; Pandas.Str "Horror";
              Pandas.Str "R"; Pandas.Num Py.huge])].

(** * Properties *)

(** ** Results and masks *)

Lemma mapM_pure {A B : Type} (f : A -> B) (l : list A) :
  mapM (fun x => Ok (f x)) l = Ok (map f l).
Proof.
  induction l as [|x l IH]; simpl; [reflexivity|].
  rewrite IH. reflexivity.
Qed.

Lemma mapM_map {A B C : Type} (g : A -> B) (f : B -> result C) (l : list A) :
  mapM f (map g l) = mapM (fun x => f (g x)) l.
Proof.
  induction l as [|x l IH]; simpl; [reflexivity|].
  rewrite IH. reflexivity.
Qed.

Lemma mapM_ext {A B : Type} (f g : A -> result B) (l : list A) :
  (forall x, In x l -> f x = g x) -> mapM f l = mapM g l.
Proof.
  induction l as [|x l IH]; simpl; intros H; [reflexivity|].
  rewrite (H x) by (left; reflexivity).
  rewrite IH by (intros y Hy; apply H; right; exact Hy).
  reflexivity.
Qed.

Lemma mapM_Ok_length {A B : Type} (f : A -> result B) (l : list A) (m : list B) :
  mapM f l = Ok m -> List.length m = List.length l.
Proof.
  revert m. induction l as [|x l IH]; simpl; intros m H.
  - inversion H. reflexivity.
  - destruct (f x); [|discriminate]. simpl in H.
    destruct (mapM f l); [|discriminate]. simpl in H.
    inversion H. simpl. f_equal. apply IH. reflexivity.
Qed.

(** Selecting by the mask of a test is filtering by the test. *)
Lemma select_mapM {A B : Type} (g : A -> B) (f : B -> result bool)
  (l : list A) (mask : list bool) :
  mapM f (map g l) = Ok mask ->
  Pandas.select mask l
  = List.filter (fun x => match f (g x) with Ok b => b | Raise _ => false end) l
  /\ forall x, In x l -> exists b, f (g x) = Ok b.
Proof.
  revert mask. induction l as [|x l IH]; simpl; intros mask H.
  - inversion H. split; [reflexivity|]. intros x [].
  - destruct (f (g x)) as [b|e] eqn:E; [|discriminate]. simpl in H.
    destruct (mapM f (map g l)) as [m|e]; [|discriminate]. simpl in H.
    inversion H; subst mask. destruct (IH m eq_refl) as [IH1 IH2].
    split.
    + simpl. rewrite IH1. reflexivity.
    + intros y [Hy|Hy]; [subst y; exists b; exact E | apply IH2; exact Hy].
Qed.

Lemma mapM_all_Ok {A B : Type} (f : A -> result B) (g : A -> B) (l : list A) :
  (forall x, In x l -> f x = Ok (g x)) -> mapM f l = Ok (map g l).
Proof.
  intros H. rewrite (mapM_ext f (fun x => Ok (g x))) by exact H.
  apply mapM_pure.
Qed.

Lemma select_all_true {A : Type} (l : list A) :
  Pandas.select (map (fun _ => true) l) l = l.
Proof.
  induction l as [|x l IH]; simpl; [reflexivity|]. rewrite IH. reflexivity.
Qed.

Lemma filter_filter {A : Type} (p q : A -> bool) (l : list A) :
  List.filter q (List.filter p l) = List.filter (fun x => p x && q x) l.
Proof.
  induction l as [|x l IH]; simpl; [reflexivity|].
  destruct (p x); simpl; [destruct (q x)|]; rewrite IH; reflexivity.
Qed.

Lemma between_within (s : Pandas.Series) (lo hi : Q) :
  Pandas.between s lo hi = mapM (Clauses.within lo hi) s.
Proof.
  unfold Pandas.between, Pandas.ge, Pandas.le.
  induction s as [|c s IH]; simpl; [reflexivity|].
  rewrite <- IH. unfold Clauses.within.
  destruct c; simpl; try reflexivity;
    destruct (mapM (Pandas.cell_ge lo) s); simpl; try reflexivity;
    destruct (mapM (Pandas.cell_le hi) s); reflexivity.
Qed.

Lemma ge_le_within (s : Pandas.Series) (lo hi : Q) :
  rbind (Pandas.ge s lo) (fun lower =>
  rbind (Pandas.le s hi) (fun upper => Ok (Pandas.mask_and lower upper)))
  = mapM (Clauses.within lo hi) s.
Proof. apply between_within. Qed.

(** ** The store *)

Lemma agrees_ret (base : nat) (h : store) (p : ref) (d : Pandas.DataFrame) :
  nth_error h p = Some d -> (base <= p)%nat -> agrees base (ret p h) h (Ok d).
Proof.
  intros Hp Hb. exists []. simpl. split; [symmetry; apply app_nil_r|].
  exists p. auto.
Qed.

Lemma agrees_bind (base : nat) (m : M ref) (k : ref -> M ref) (h : store)
  (res : result Pandas.DataFrame)
  (f : Pandas.DataFrame -> result Pandas.DataFrame) :
  agrees base (m h) h res ->
  (forall p h1 d1, nth_error h1 p = Some d1 -> (base <= p)%nat ->
                   agrees base (k p h1) h1 (f d1)) ->
  agrees base (bind m k h) h (rbind res f).
Proof.
  intros [t [Hs Hres]] Hk. unfold bind.
  destruct (m h) as [r1 h1]. simpl in Hs, Hres. subst h1.
  destruct res as [d1|e]; simpl.
  - destruct Hres as [p [Hr [Hp Hb]]]. subst r1.
    destruct (Hk p (h ++ t) d1 Hp Hb) as [t' [Hs' Hres']].
    exists (t ++ t'). rewrite app_assoc. split; [exact Hs'|exact Hres'].
  - subst r1. exists t. split; reflexivity.
Qed.

Lemma agrees_copy (h : store) (r : ref) (d : Pandas.DataFrame) :
  nth_error h r = Some d ->
  agrees (List.length h) (df_copy r h) h (Ok d).
Proof.
  intros Hr. unfold agrees, df_copy, bind, deref, new. rewrite Hr. simpl.
  exists [d]. split; [reflexivity|].
  exists (List.length h). split; [reflexivity|]. split; [|apply Nat.le_refl].
  rewrite nth_error_app2 by apply Nat.le_refl. rewrite Nat.sub_diag. reflexivity.
Qed.

Lemma has_column_getitem (d : Pandas.DataFrame) (c : string) :
  Pandas.has_column d c = true ->
  exists i, Pandas.position c (Pandas.columns d) = Some i
            /\ Pandas.getitem d c = Ok (map (Pandas.cell_at i) (Pandas.rows d)).
Proof.
  unfold Pandas.has_column, Pandas.getitem.
  destruct (Pandas.position c (Pandas.columns d)) as [i|]; [|discriminate].
  intros _. exists i. auto.
Qed.

Lemma bind_Ok {A B : Type} (m : M A) (k : A -> M B) (h h' : store) (a : A) :
  m h = (Ok a, h') -> bind m k h = k a h'.
Proof. intros H. unfold bind. rewrite H. reflexivity. Qed.

Lemma bind_Raise {A B : Type} (m : M A) (k : A -> M B) (h h' : store) (e : exn) :
  m h = (Raise e, h') -> bind m k h = (Raise e, h').
Proof. intros H. unfold bind. rewrite H. reflexivity. Qed.

Lemma deref_eval (h : store) (r : ref) (d : Pandas.DataFrame) :
  nth_error h r = Some d -> deref r h = (Ok d, h).
Proof. intros H. unfold deref. rewrite H. reflexivity. Qed.

Lemma df_has_column_eval (h : store) (r : ref) (d : Pandas.DataFrame)
  (c : string) :
  nth_error h r = Some d ->
  df_has_column r c h = (Ok (Pandas.has_column d c), h).
Proof.
  intros H. unfold df_has_column.
  rewrite (bind_Ok _ _ _ _ _ (deref_eval h r d H)). reflexivity.
Qed.

(** A clause of [MovieDB.filter]: no guard on the column. *)
Lemma agrees_stage (base : nat) (cl : Clauses.clause)
  (f : Pandas.Series -> result (list bool)) (r : ref) (h : store)
  (d : Pandas.DataFrame) :
  Clauses.guarded cl = false ->
  (forall col, f col = mapM (Clauses.test cl) col) ->
  nth_error h r = Some d -> (base <= r)%nat ->
  agrees base
    ((if Clauses.supplied cl then
        col <- df_getitem r (Clauses.column cl) ;;
        mask <- lift (f col) ;;
        df_loc r mask
      else ret r) h) h (Clauses.run_clause cl d).
Proof.
  intros Hg Hf Hr Hb. unfold Clauses.run_clause, Clauses.applies.
  rewrite Hg. simpl. rewrite andb_true_r.
  destruct (Clauses.supplied cl); [|apply agrees_ret; assumption].
  unfold df_getitem, df_loc, bind, deref, lift, new. rewrite Hr.
  destruct (Pandas.getitem d (Clauses.column cl)) as [col|e]; simpl.
  - rewrite Hf. destruct (mapM (Clauses.test cl) col) as [mask|e]; simpl.
    + rewrite Hr. unfold agrees. simpl.
      exists [Pandas.loc d mask]. split; [reflexivity|].
      exists (List.length h). split; [reflexivity|]. split.
      * rewrite nth_error_app2 by apply Nat.le_refl.
        rewrite Nat.sub_diag. reflexivity.
      * apply Nat.lt_le_incl. eapply Nat.le_lt_trans; [exact Hb|].
        apply nth_error_Some. rewrite Hr. discriminate.
    + exists []. split; [symmetry; apply app_nil_r|reflexivity].
  - exists []. split; [symmetry; apply app_nil_r|reflexivity].
Qed.

(** A clause of [MovieFilter.filter]: skipped when the column is missing. *)
Lemma agrees_stage_guarded (base : nat) (cl : Clauses.clause)
  (f : Pandas.Series -> result (list bool)) (r : ref) (h : store)
  (d : Pandas.DataFrame) :
  Clauses.guarded cl = true ->
  (forall col, f col = mapM (Clauses.test cl) col) ->
  nth_error h r = Some d -> (base <= r)%nat ->
  agrees base
    ((has <- df_has_column r (Clauses.column cl) ;;
      if Clauses.supplied cl && has then
        col <- df_getitem r (Clauses.column cl) ;;
        mask <- lift (f col) ;;
        df_loc r mask
      else ret r) h) h (Clauses.run_clause cl d).
Proof.
  intros Hg Hf Hr Hb. unfold Clauses.run_clause, Clauses.applies.
  rewrite Hg. simpl.
  rewrite (bind_Ok _ _ _ _ _ (df_has_column_eval h r d _ Hr)).
  destruct (Clauses.supplied cl && Pandas.has_column d (Clauses.column cl));
    [|apply agrees_ret; assumption].
  unfold df_getitem, df_loc, bind, deref, lift, new. rewrite Hr.
  destruct (Pandas.getitem d (Clauses.column cl)) as [col|e]; simpl.
  - rewrite Hf. destruct (mapM (Clauses.test cl) col) as [mask|e]; simpl.
    + rewrite Hr. unfold agrees. simpl.
      exists [Pandas.loc d mask]. split; [reflexivity|].
      exists (List.length h). split; [reflexivity|]. split.
      * rewrite nth_error_app2 by apply Nat.le_refl.
        rewrite Nat.sub_diag. reflexivity.
      * apply Nat.lt_le_incl. eapply Nat.le_lt_trans; [exact Hb|].
        apply nth_error_Some. rewrite Hr. discriminate.
    + exists []. split; [symmetry; apply app_nil_r|reflexivity].
  - exists []. split; [symmetry; apply app_nil_r|reflexivity].
Qed.

(** ** The filters and their clauses *)

Lemma str_contains_mapM (re_search : string -> string -> bool)
  (col : Pandas.Series) (pat : string) :
  Ok (Pandas.str_contains re_search col pat)
  = mapM (Clauses.contains re_search pat) col.
Proof. symmetry. apply mapM_pure. Qed.

Lemma eq_str_mapM (col : Pandas.Series) (x : string) :
  Ok (Pandas.eq_str col x) = mapM (Clauses.is_text x) col.
Proof. symmetry. apply mapM_pure. Qed.

Lemma eq_num_mapM (col : Pandas.Series) (x : Q) :
  Ok (Pandas.eq_num col x) = mapM (Clauses.is_number x) col.
Proof. symmetry. apply mapM_pure. Qed.

Lemma eq_year_mapM (col : Pandas.Series) (x : Q) :
  Ok (Pandas.eq_num (Pandas.dt_year col) x) = mapM (Clauses.year_is x) col.
Proof.
  unfold Pandas.eq_num, Pandas.dt_year. rewrite map_map.
  symmetry. unfold Clauses.year_is, Clauses.is_number.
  rewrite mapM_pure. reflexivity.
Qed.

Lemma between_year_mapM (col : Pandas.Series) (lo hi : Q) :
  Pandas.between (Pandas.dt_year col) lo hi
  = mapM (Clauses.year_within lo hi) col.
Proof.
  rewrite between_within. unfold Pandas.dt_year. rewrite mapM_map.
  apply mapM_ext. intros [| | |] _; reflexivity.
Qed.

Theorem MovieDB_filter_agrees (re_search : string -> string -> bool)
  (self : MovieDB.object) (genre season : option string)
  (year year_start year_end : option Z) (rating : option string)
  (min_gross : option Q) (h : store) (d : Pandas.DataFrame) :
  nth_error h (MovieDB.df self) = Some d ->
  agrees (List.length h)
    (MovieDB.filter re_search self genre season year year_start year_end
       rating min_gross h)
    h
    (Clauses.run_clauses
       (Clauses.of_MovieDB re_search genre season year year_start year_end
          rating min_gross) d).
Proof.
  intros Hd. unfold MovieDB.filter, Clauses.of_MovieDB.
  change (Clauses.run_clauses ?cls d) with (rbind (Ok d) (Clauses.run_clauses cls)).
  apply agrees_bind; [apply agrees_copy; exact Hd|].
  intros p1 h1 d1 H1 B1. cbn [Clauses.run_clauses].
  apply agrees_bind.
  { apply (agrees_stage _ (Clauses.mkClause _ false "Genre" _)
             (fun col => Ok (Pandas.str_contains re_search col (Py.val_str genre))));
      first [assumption | reflexivity | intros; apply str_contains_mapM]. }
  intros p2 h2 d2 H2 B2. apply agrees_bind.
  { apply (agrees_stage _ (Clauses.mkClause _ false "Season" _)
             (fun col => Ok (Pandas.eq_str col (Py.val_str season))));
      first [assumption | reflexivity | intros; apply eq_str_mapM]. }
  intros p3 h3 d3 H3 B3. apply agrees_bind.
  { apply (agrees_stage _ (Clauses.mkClause _ false "Date Released" _)
             (fun col => Ok (Pandas.eq_num (Pandas.dt_year col)
                               (inject_Z (Py.val_int year)))));
      first [assumption | reflexivity | intros; apply eq_year_mapM]. }
  intros p4 h4 d4 H4 B4. apply agrees_bind.
  { apply (agrees_stage _ (Clauses.mkClause _ false "Date Released" _)
             (fun col => Pandas.between (Pandas.dt_year col)
                           (inject_Z (Py.val_int year_start))
                           (inject_Z (Py.val_int year_end))));
      first [assumption | reflexivity | intros; apply between_year_mapM]. }
  intros p5 h5 d5 H5 B5. apply agrees_bind.
  { apply (agrees_stage _ (Clauses.mkClause _ false "MPAA Rating" _)
             (fun col => Ok (Pandas.eq_str col (Py.upper (Py.val_str rating)))));
      first [assumption | reflexivity | intros; apply eq_str_mapM]. }
  intros p6 h6 d6 H6 B6.
  apply agrees_bind.
  { apply (agrees_stage _ (Clauses.mkClause _ false "Total Gross" _)
             (fun col => Pandas.ge col
                           (Py.fmul (Py.float (Py.val_float min_gross))
                                    1000000)));
      first [assumption | reflexivity | intros; reflexivity]. }
  intros p7 h7 d7 H7 B7. apply agrees_ret; assumption.
Qed.

(** The clause of the range of years of [MovieFilter.filter], which reads
    its column twice. *)
Lemma agrees_stage_range (base : nat) (on : bool) (lo hi : Q) (r : ref)
  (h : store) (d : Pandas.DataFrame) :
  nth_error h r = Some d -> (base <= r)%nat ->
  agrees base
    ((has <- df_has_column r "year" ;;
      if on && has then
        col <- df_getitem r "year" ;;
        lower <- lift (Pandas.ge col lo) ;;
        col <- df_getitem r "year" ;;
        upper <- lift (Pandas.le col hi) ;;
        df_loc r (Pandas.mask_and lower upper)
      else ret r) h) h
    (Clauses.run_clause (Clauses.mkClause on true "year" (Clauses.within lo hi)) d).
Proof.
  intros Hr Hb.
  pose proof (agrees_stage_guarded base
                (Clauses.mkClause on true "year" (Clauses.within lo hi))
                (fun col => rbind (Pandas.ge col lo) (fun lower =>
                            rbind (Pandas.le col hi) (fun upper =>
                            Ok (Pandas.mask_and lower upper))))
                r h d eq_refl (fun col => ge_le_within col lo hi) Hr Hb) as H.
  cbn [Clauses.supplied Clauses.column] in H.
  match goal with
  | H : agrees _ ?a _ _ |- agrees _ ?b _ _ =>
      replace b with a; [exact H|]
  end.
  rewrite !(bind_Ok _ _ _ _ _ (df_has_column_eval h r d _ Hr)).
  destruct (on && Pandas.has_column d "year"); [|reflexivity].
  unfold df_getitem, df_loc, bind, deref, lift, new. rewrite Hr.
  destruct (Pandas.getitem d "year") as [col|e] eqn:G; [|reflexivity].
  destruct (Pandas.ge col lo) as [lower|e]; simpl; rewrite ?Hr, ?G;
    [|reflexivity].
  destruct (Pandas.le col hi) as [upper|e]; simpl; rewrite ?Hr; reflexivity.
Qed.

Theorem MovieFilter_filter_agrees (re_search : string -> string -> bool)
  (self : MovieFilter.object) (genre rating : option string)
  (year year_start year_end : option Z)
  (director star country company : option string)
  (min_score min_gross : option Q) (min_votes : option Z)
  (h : store) (d : Pandas.DataFrame) :
  nth_error h (MovieFilter.df self) = Some d ->
  agrees (List.length h)
    (MovieFilter.filter re_search self genre rating year year_start year_end
       director star country company min_score min_gross min_votes h)
    h
    (Clauses.run_clauses
       (Clauses.of_MovieFilter re_search genre rating year year_start
          year_end director star country company min_score min_gross
          min_votes) d).
Proof.
  intros Hd. unfold MovieFilter.filter, Clauses.of_MovieFilter.
  change (Clauses.run_clauses ?cls d) with (rbind (Ok d) (Clauses.run_clauses cls)).
  apply agrees_bind; [apply agrees_copy; exact Hd|].
  intros p1 h1 d1 H1 B1. cbn [Clauses.run_clauses].
  apply agrees_bind.
  { apply (agrees_stage_guarded _ (Clauses.mkClause _ true "Genre" _)
             (fun col => Ok (Pandas.str_contains re_search col (Py.val_str genre))));
      first [assumption | reflexivity | intros; apply str_contains_mapM]. }
  intros p2 h2 d2 H2 B2. apply agrees_bind.
  { apply (agrees_stage_guarded _ (Clauses.mkClause _ true "MPAA Rating" _)
             (fun col => Ok (Pandas.eq_str col (Py.upper (Py.val_str rating)))));
      first [assumption | reflexivity | intros; apply eq_str_mapM]. }
  intros p3 h3 d3 H3 B3. apply agrees_bind.
  { apply (agrees_stage_guarded _ (Clauses.mkClause _ true "year" _)
             (fun col => Ok (Pandas.eq_num col (inject_Z (Py.val_int year)))));
      first [assumption | reflexivity | intros; apply eq_num_mapM]. }
  intros p4 h4 d4 H4 B4. apply agrees_bind.
  { apply agrees_stage_range; assumption. }
  intros p5 h5 d5 H5 B5. apply agrees_bind.
  { apply (agrees_stage_guarded _ (Clauses.mkClause _ true "director" _)
             (fun col => Ok (Pandas.str_contains re_search col (Py.val_str director))));
      first [assumption | reflexivity | intros; apply str_contains_mapM]. }
  intros p6 h6 d6 H6 B6. apply agrees_bind.
  { apply (agrees_stage_guarded _ (Clauses.mkClause _ true "star" _)
             (fun col => Ok (Pandas.str_contains re_search col (Py.val_str star))));
      first [assumption | reflexivity | intros; apply str_contains_mapM]. }
  intros p7 h7 d7 H7 B7. apply agrees_bind.
  { apply (agrees_stage_guarded _ (Clauses.mkClause _ true "country" _)
             (fun col => Ok (Pandas.str_contains re_search col (Py.val_str country))));
      first [assumption | reflexivity | intros; apply str_contains_mapM]. }
  intros p8 h8 d8 H8 B8. apply agrees_bind.
  { apply (agrees_stage_guarded _ (Clauses.mkClause _ true "Company" _)
             (fun col => Ok (Pandas.str_contains re_search col (Py.val_str company))));
      first [assumption | reflexivity | intros; apply str_contains_mapM]. }
  intros p9 h9 d9 H9 B9. apply agrees_bind.
  { apply (agrees_stage_guarded _ (Clauses.mkClause _ true "score" _)
             (fun col => Pandas.ge col (Py.val_float min_score)));
      first [assumption | reflexivity | intros; reflexivity]. }
  intros p10 h10 d10 H10 B10. apply agrees_bind.
  { apply (agrees_stage_guarded _ (Clauses.mkClause _ true "Total Gross" _)
             (fun col => Pandas.ge col (Py.val_float min_gross)));
      first [assumption | reflexivity | intros; reflexivity]. }
  intros p11 h11 d11 H11 B11. apply agrees_bind.
  { apply (agrees_stage_guarded _ (Clauses.mkClause _ true "votes" _)
             (fun col => Pandas.ge col (inject_Z (Py.val_int min_votes))));
      first [assumption | reflexivity | intros; reflexivity]. }
  intros p12 h12 d12 H12 B12. apply agrees_ret; assumption.
Qed.

(** ** What the clauses keep *)

Lemma filter_true {A : Type} (l : list A) : List.filter (fun _ => true) l = l.
Proof. induction l as [|x l IH]; simpl; [reflexivity|]. rewrite IH. reflexivity. Qed.

Lemma forallb_pointwise {A : Type} (f g : A -> bool) (l : list A) :
  (forall x, f x = g x) -> forallb f l = forallb g l.
Proof.
  intros H. induction l as [|x l IH]; simpl; [reflexivity|].
  rewrite H, IH. reflexivity.
Qed.

Lemma applies_columns (d1 d2 : Pandas.DataFrame) (cl : Clauses.clause) :
  Pandas.columns d1 = Pandas.columns d2 ->
  Clauses.applies d1 cl = Clauses.applies d2 cl.
Proof.
  intros H. unfold Clauses.applies, Pandas.has_column. rewrite H. reflexivity.
Qed.

Lemma passes_columns (d1 d2 : Pandas.DataFrame) (cl : Clauses.clause)
  (r : Pandas.Row) :
  Pandas.columns d1 = Pandas.columns d2 ->
  Clauses.passes d1 cl r = Clauses.passes d2 cl r.
Proof.
  intros H. unfold Clauses.passes. rewrite (applies_columns d1 d2 cl H), H.
  reflexivity.
Qed.

Lemma run_clause_rows (cl : Clauses.clause) (d d1 : Pandas.DataFrame) :
  Clauses.run_clause cl d = Ok d1 -> view_of (Clauses.passes d cl) d d1.
Proof.
  unfold Clauses.run_clause, Clauses.passes, view_of.
  destruct (Clauses.applies d cl).
  - unfold Pandas.getitem.
    destruct (Pandas.position (Clauses.column cl) (Pandas.columns d)) as [i|];
      [|discriminate].
    simpl.
    destruct (mapM (Clauses.test cl) (map (Pandas.cell_at i) (Pandas.rows d)))
      as [mask|e] eqn:E; [|discriminate].
    simpl. intros H. inversion H; subst d1. simpl. split; [reflexivity|].
    apply (select_mapM _ _ _ _ E).
  - intros H. inversion H; subst d1. split; [reflexivity|].
    symmetry. apply filter_true.
Qed.

Lemma run_clauses_rows (cls : list Clauses.clause) (d d' : Pandas.DataFrame) :
  Clauses.run_clauses cls d = Ok d' -> view_of (kept cls d) d d'.
Proof.
  revert d. induction cls as [|cl cls IH]; simpl; intros d H.
  - inversion H; subst d'. split; [reflexivity|]. symmetry. apply filter_true.
  - destruct (Clauses.run_clause cl d) as [d1|e] eqn:E; [|discriminate].
    simpl in H. destruct (run_clause_rows _ _ _ E) as [C1 R1].
    destruct (IH _ H) as [C2 R2]. split; [congruence|].
    rewrite R2, R1, filter_filter. apply filter_ext. intros r.
    unfold kept. simpl. f_equal. apply forallb_pointwise.
    intros cl'. apply passes_columns. exact C1.
Qed.

Lemma loc_all (d : Pandas.DataFrame) :
  Pandas.loc d (map (fun _ => true) (Pandas.rows d)) = d.
Proof.
  destruct d as [cols rs]. unfold Pandas.loc. simpl.
  rewrite select_all_true. reflexivity.
Qed.

(** A clause that has run keeps every view of its outcome. *)
Lemma run_clause_fix (cl : Clauses.clause) (d d1 d2 : Pandas.DataFrame) :
  Clauses.run_clause cl d = Ok d1 ->
  Pandas.columns d2 = Pandas.columns d ->
  (forall r, In r (Pandas.rows d2) -> In r (Pandas.rows d1)) ->
  Clauses.run_clause cl d2 = Ok d2.
Proof.
  intros H C Hin. unfold Clauses.run_clause in *.
  rewrite (applies_columns d2 d cl C).
  destruct (Clauses.applies d cl); [|reflexivity].
  unfold Pandas.getitem in *. rewrite C.
  destruct (Pandas.position (Clauses.column cl) (Pandas.columns d)) as [i|];
    [|discriminate].
  simpl in *.
  destruct (mapM (Clauses.test cl) (map (Pandas.cell_at i) (Pandas.rows d)))
    as [mask|e] eqn:E; [|discriminate].
  simpl in H. inversion H; subst d1. simpl in Hin.
  destruct (select_mapM _ _ _ _ E) as [S _]. rewrite S in Hin.
  rewrite mapM_map.
  rewrite (mapM_all_Ok _ (fun _ => true)).
  - simpl. rewrite loc_all. reflexivity.
  - intros r Hr. apply Hin in Hr. apply filter_In in Hr. destruct Hr as [_ Hr].
    destruct (Clauses.test cl (Pandas.cell_at i r)) as [b|e];
      [subst b; reflexivity|discriminate].
Qed.

Lemma run_clauses_idempotent (cls : list Clauses.clause)
  (d d' : Pandas.DataFrame) :
  Clauses.run_clauses cls d = Ok d' -> Clauses.run_clauses cls d' = Ok d'.
Proof.
  revert d. induction cls as [|cl cls IH]; simpl; intros d H; [reflexivity|].
  destruct (Clauses.run_clause cl d) as [d1|e] eqn:E; [|discriminate].
  simpl in H. destruct (run_clause_rows _ _ _ E) as [C1 _].
  destruct (run_clauses_rows _ _ _ H) as [C2 R2].
  rewrite (run_clause_fix cl d d1 d' E).
  - simpl. apply (IH d1). exact H.
  - congruence.
  - intros r Hr. rewrite R2 in Hr. apply filter_In in Hr. tauto.
Qed.

Lemma agrees_untouched (base : nat) (out : result ref * store) (h : store)
  (res : result Pandas.DataFrame) :
  agrees base out h res -> untouched h (snd out).
Proof.
  intros [t [Hs _]] q Hq. rewrite Hs. apply nth_error_app1. exact Hq.
Qed.

Lemma agrees_Ok (base : nat) (m : M ref) (h h' : store) (p : ref)
  (res : result Pandas.DataFrame) :
  agrees base (m h) h res -> m h = (Ok p, h') ->
  exists d', res = Ok d' /\ nth_error h' p = Some d' /\ (base <= p)%nat.
Proof.
  intros [t [Hs Hres]] E. rewrite E in Hs, Hres. simpl in *.
  destruct res as [d'|e].
  - destruct Hres as [p' [Hp [Hn Hb]]]. inversion Hp; subst p'.
    exists d'. auto.
  - discriminate.
Qed.

Lemma agrees_run (base : nat) (m : M ref) (h : store) (d' : Pandas.DataFrame) :
  agrees base (m h) h (Ok d') ->
  exists p h', m h = (Ok p, h') /\ nth_error h' p = Some d'.
Proof.
  intros [t [Hs [p [Hp [Hn _]]]]].
  exists p, (snd (m h)). split; [|exact Hn].
  destruct (m h) as [r1 h1]. simpl in *. subst r1. reflexivity.
Qed.

(** ** Filtering derives a view and leaves the loaded table alone *)

Lemma MovieDB_filter_view (re_search : string -> string -> bool)
  (self : MovieDB.object) (genre season : option string)
  (year year_start year_end : option Z) (rating : option string)
  (min_gross : option Q) (h h' : store) (d : Pandas.DataFrame) (p : ref) :
  nth_error h (MovieDB.df self) = Some d ->
  MovieDB.filter re_search self genre season year year_start year_end rating
    min_gross h = (Ok p, h') ->
  untouched h h' /\ (List.length h <= p)%nat /\
  exists d',
    nth_error h' p = Some d'
    /\ Clauses.run_clauses
         (Clauses.of_MovieDB re_search genre season year year_start year_end
            rating min_gross) d = Ok d'
    /\ view_of
         (kept (Clauses.of_MovieDB re_search genre season year year_start
                  year_end rating min_gross) d) d d'.
Proof.
  intros Hd E.
  pose proof (MovieDB_filter_agrees re_search self genre season year
                year_start year_end rating min_gross h d Hd) as A.
  split; [|].
  - pose proof (agrees_untouched _ _ _ _ A) as U. rewrite E in U. exact U.
  - destruct (agrees_Ok _ _ _ _ _ _ A E) as [d' [R [N B]]].
    split; [exact B|]. exists d'. split; [exact N|]. split; [exact R|].
    apply run_clauses_rows. exact R.
Qed.

Lemma MovieFilter_filter_view (re_search : string -> string -> bool)
  (self : MovieFilter.object) (genre rating : option string)
  (year year_start year_end : option Z)
  (director star country company : option string)
  (min_score min_gross : option Q) (min_votes : option Z)
  (h h' : store) (d : Pandas.DataFrame) (p : ref) :
  nth_error h (MovieFilter.df self) = Some d ->
  MovieFilter.filter re_search self genre rating year year_start year_end
    director star country company min_score min_gross min_votes h
  = (Ok p, h') ->
  untouched h h' /\ (List.length h <= p)%nat /\
  exists d',
    nth_error h' p = Some d'
    /\ Clauses.run_clauses
         (Clauses.of_MovieFilter re_search genre rating year year_start
            year_end director star country company min_score min_gross
            min_votes) d = Ok d'
    /\ view_of
         (kept (Clauses.of_MovieFilter re_search genre rating year year_start
                  year_end director star country company min_score min_gross
                  min_votes) d) d d'.
Proof.
  intros Hd E.
  pose proof (MovieFilter_filter_agrees re_search self genre rating year
                year_start year_end director star country company min_score
                min_gross min_votes h d Hd) as A.
  split; [|].
  - pose proof (agrees_untouched _ _ _ _ A) as U. rewrite E in U. exact U.
  - destruct (agrees_Ok _ _ _ _ _ _ A E) as [d' [R [N B]]].
    split; [exact B|]. exists d'. split; [exact N|]. split; [exact R|].
    apply run_clauses_rows. exact R.
Qed.

(** C6.  Filtering is a pure function of the table and of the arguments.
    When [filter] returns, in either class: no frame of the store has
    changed, so the loaded table is as it was; the frame returned is a new
    object; its rows are the rows of the loaded table that pass the supplied
    predicates, in their order (a subset of the input); and the same filter
    applied to that result returns a frame equal to it. *)
Theorem filter_is_pure :
  (forall (re_search : string -> string -> bool) (self : MovieDB.object)
          (genre season : option string) (year year_start year_end : option Z)
          (rating : option string) (min_gross : option Q)
          (h h' : store) (d : Pandas.DataFrame) (p : ref),
      nth_error h (MovieDB.df self) = Some d ->
      MovieDB.filter re_search self genre season year year_start year_end
        rating min_gross h = (Ok p, h') ->
      untouched h h' /\ (List.length h <= p)%nat /\
      exists d',
        nth_error h' p = Some d'
        /\ view_of
             (kept (Clauses.of_MovieDB re_search genre season year year_start
                      year_end rating min_gross) d) d d'
        /\ exists p2 h2,
             MovieDB.filter re_search (MovieDB.mk p) genre season year
               year_start year_end rating min_gross h' = (Ok p2, h2)
             /\ nth_error h2 p2 = Some d')
  /\
  (forall (re_search : string -> string -> bool) (self : MovieFilter.object)
          (genre rating : option string) (year year_start year_end : option Z)
          (director star country company : option string)
          (min_score min_gross : option Q) (min_votes : option Z)
          (h h' : store) (d : Pandas.DataFrame) (p : ref),
      nth_error h (MovieFilter.df self) = Some d ->
      MovieFilter.filter re_search self genre rating year year_start year_end
        director star country company min_score min_gross min_votes h
      = (Ok p, h') ->
      untouched h h' /\ (List.length h <= p)%nat /\
      exists d',
        nth_error h' p = Some d'
        /\ view_of
             (kept (Clauses.of_MovieFilter re_search genre rating year
                      year_start year_end director star country company
                      min_score min_gross min_votes) d) d d'
        /\ exists p2 h2,
             MovieFilter.filter re_search (MovieFilter.mk p) genre rating year
               year_start year_end director star country company min_score
               min_gross min_votes h' = (Ok p2, h2)
             /\ nth_error h2 p2 = Some d').
Proof.
  split.
  - intros re_search self genre season year year_start year_end rating
      min_gross h h' d p Hd E.
    destruct (MovieDB_filter_view _ _ _ _ _ _ _ _ _ _ _ _ _ Hd E)
      as [U [B [d' [N [R V]]]]].
    split; [exact U|]. split; [exact B|]. exists d'.
    split; [exact N|]. split; [exact V|].
    apply agrees_run with (base := List.length h').
    rewrite <- (run_clauses_idempotent _ _ _ R).
    apply MovieDB_filter_agrees. exact N.
  - intros re_search self genre rating year year_start year_end director star
      country company min_score min_gross min_votes h h' d p Hd E.
    destruct (MovieFilter_filter_view _ _ _ _ _ _ _ _ _ _ _ _ _ _ _ _ _ _
                Hd E) as [U [B [d' [N [R V]]]]].
    split; [exact U|]. split; [exact B|]. exists d'.
    split; [exact N|]. split; [exact V|].
    apply agrees_run with (base := List.length h').
    rewrite <- (run_clauses_idempotent _ _ _ R).
    apply MovieFilter_filter_agrees. exact N.
Qed.

Lemma filter_is_pure_witness :
  let h := [Sample.disney] in
  let out :=
    MovieDB.filter Sample.literal_search (MovieDB.mk 0%nat) (Some "advent")
      (Some "Summer") None (Some 1990%Z) (Some 1999%Z) (Some "g")
      (Some (50 # 1)) h in
  untouched h (snd out) /\ (List.length h <= 6)%nat /\
  exists d',
    nth_error (snd out) 6%nat = Some d'
    /\ view_of
         (kept (Clauses.of_MovieDB Sample.literal_search (Some "advent")
                  (Some "Summer") None (Some 1990%Z) (Some 1999%Z) (Some "g")
                  (Some (50 # 1))) Sample.disney) Sample.disney d'
    /\ exists p2 h2,
         MovieDB.filter Sample.literal_search (MovieDB.mk 6%nat) (Some "advent")
           (Some "Summer") None (Some 1990%Z) (Some 1999%Z) (Some "g")
           (Some (50 # 1)) (snd out) = (Ok p2, h2)
         /\ nth_error h2 p2 = Some d'.
Proof.
  exact (proj1 filter_is_pure Sample.literal_search (MovieDB.mk 0%nat)
           (Some "advent") (Some "Summer") None (Some 1990%Z) (Some 1999%Z)
           (Some "g") (Some (50 # 1)) [Sample.disney] _ Sample.disney 6%nat
           eq_refl eq_refl).
Defined.

(** ** One clause at a time *)

Lemma run_clause_off (cl : Clauses.clause) (d : Pandas.DataFrame) :
  Clauses.supplied cl = false -> Clauses.run_clause cl d = Ok d.
Proof.
  intros H. unfold Clauses.run_clause, Clauses.applies. rewrite H. reflexivity.
Qed.

Lemma run_clause_skipped (cl : Clauses.clause) (d : Pandas.DataFrame) :
  Clauses.guarded cl = true -> Pandas.has_column d (Clauses.column cl) = false ->
  Clauses.run_clause cl d = Ok d.
Proof.
  intros G H. unfold Clauses.run_clause, Clauses.applies. rewrite G, H.
  rewrite andb_false_r. reflexivity.
Qed.

Lemma mapM_total {A B : Type} (f : A -> result B) (g : A -> B) (l : list A) :
  (forall x, In x l -> exists b, f x = Ok b) ->
  (forall x b, f x = Ok b -> g x = b) ->
  mapM f l = Ok (map g l).
Proof.
  intros H G. apply mapM_all_Ok. intros x Hx.
  destruct (H x Hx) as [b Hb]. rewrite Hb. f_equal. symmetry. apply G. exact Hb.
Qed.

Lemma run_clause_on (cl : Clauses.clause) (d : Pandas.DataFrame) (i : nat) :
  Clauses.supplied cl = true ->
  Pandas.position (Clauses.column cl) (Pandas.columns d) = Some i ->
  (forall r, In r (Pandas.rows d) ->
             exists b, Clauses.test cl (Pandas.cell_at i r) = Ok b) ->
  exists d',
    Clauses.run_clause cl d = Ok d'
    /\ view_of (fun r => holds (Clauses.test cl (Pandas.cell_at i r))) d d'.
Proof.
  intros S P T. unfold Clauses.run_clause, Clauses.applies, Pandas.has_column.
  rewrite S, P. rewrite orb_true_r. simpl.
  unfold Pandas.getitem. rewrite P. simpl. rewrite mapM_map.
  rewrite (mapM_total _ (fun r => holds (Clauses.test cl (Pandas.cell_at i r)))).
  - simpl. eexists. split; [reflexivity|]. split; [reflexivity|]. simpl.
    clear T. induction (Pandas.rows d) as [|r l IH]; simpl; [reflexivity|].
    destruct (holds (Clauses.test cl (Pandas.cell_at i r))); rewrite IH;
      reflexivity.
  - exact T.
  - intros r b Hb. rewrite Hb. reflexivity.
Qed.

Lemma numeric_column_ge (d : Pandas.DataFrame) (i : nat) (x : Q) :
  numeric_column d i = true ->
  forall r, In r (Pandas.rows d) ->
            exists b, Pandas.cell_ge x (Pandas.cell_at i r) = Ok b.
Proof.
  unfold numeric_column. intros H r Hr.
  rewrite forallb_forall in H. specialize (H r Hr).
  destruct (Pandas.cell_at i r); simpl in *; try discriminate; eauto.
Qed.

Lemma holds_cell_ge (x : Q) (c : Pandas.cell) :
  holds (Pandas.cell_ge x c) = at_least x c.
Proof. destruct c; reflexivity. Qed.

Lemma view_of_ext (f g : Pandas.Row -> bool) (d d' : Pandas.DataFrame) :
  (forall r, f r = g r) -> view_of f d d' -> view_of g d d'.
Proof.
  intros H [C R]. split; [exact C|]. rewrite R. apply filter_ext. exact H.
Qed.

Lemma view_of_all (d : Pandas.DataFrame) : view_of (fun _ => true) d d.
Proof. split; [reflexivity|]. symmetry. apply filter_true. Qed.

Lemma truthy_str_Some (s : string) : s <> "" -> Py.truthy_str (Some s) = true.
Proof.
  intros H. simpl. destruct (String.eqb_spec s ""); [contradiction|reflexivity].
Qed.

(** ** The rating predicate *)

Lemma MovieDB_rating_only (re_search : string -> string -> bool)
  (self : MovieDB.object) (rating : string) (h : store)
  (d : Pandas.DataFrame) (i : nat) :
  nth_error h (MovieDB.df self) = Some d ->
  Pandas.position "MPAA Rating" (Pandas.columns d) = Some i ->
  rating <> "" ->
  exists p h' d',
    MovieDB.filter re_search self None None None None None (Some rating) None h
    = (Ok p, h')
    /\ nth_error h' p = Some d'
    /\ view_of (fun r => text_equals (Py.upper rating) (Pandas.cell_at i r)) d d'.
Proof.
  intros Hd P Hr.
  pose proof (MovieDB_filter_agrees re_search self None None None None None
                (Some rating) None h d Hd) as A.
  destruct (run_clause_on
              (Clauses.mkClause (Py.truthy_str (Some rating)) false
                 "MPAA Rating" (Clauses.is_text (Py.upper rating))) d i)
    as [d' [R V]].
  { apply truthy_str_Some. exact Hr. }
  { exact P. }
  { intros r _. eexists. reflexivity. }
  assert (E : Clauses.run_clauses
                (Clauses.of_MovieDB re_search None None None None None
                   (Some rating) None) d = Ok d').
  { unfold Clauses.of_MovieDB. cbn [Clauses.run_clauses].
    repeat (rewrite run_clause_off by reflexivity; cbn [rbind]).
    cbn [Py.val_str] in *. rewrite R. cbn [rbind].
    repeat (rewrite run_clause_off by reflexivity; cbn [rbind]).
    reflexivity. }
  rewrite E in A. destruct (agrees_run _ _ _ _ A) as [p [h' [F N]]].
  exists p, h', d'. split; [exact F|]. split; [exact N|].
  eapply view_of_ext; [|exact V]. intros r. cbn [Clauses.test].
  unfold Clauses.is_text, holds, text_equals. reflexivity.
Qed.

Lemma MovieFilter_rating_only (re_search : string -> string -> bool)
  (self : MovieFilter.object) (rating : string) (h : store)
  (d : Pandas.DataFrame) (i : nat) :
  nth_error h (MovieFilter.df self) = Some d ->
  Pandas.position "MPAA Rating" (Pandas.columns d) = Some i ->
  rating <> "" ->
  exists p h' d',
    MovieFilter.filter re_search self None (Some rating) None None None None
      None None None None None None h = (Ok p, h')
    /\ nth_error h' p = Some d'
    /\ view_of (fun r => text_equals (Py.upper rating) (Pandas.cell_at i r)) d d'.
Proof.
  intros Hd P Hr.
  pose proof (MovieFilter_filter_agrees re_search self None (Some rating) None
                None None None None None None None None None h d Hd) as A.
  destruct (run_clause_on
              (Clauses.mkClause (Py.truthy_str (Some rating)) true
                 "MPAA Rating" (Clauses.is_text (Py.upper rating))) d i)
    as [d' [R V]].
  { apply truthy_str_Some. exact Hr. }
  { exact P. }
  { intros r _. eexists. reflexivity. }
  assert (E : Clauses.run_clauses
                (Clauses.of_MovieFilter re_search None (Some rating) None None
                   None None None None None None None None) d = Ok d').
  { unfold Clauses.of_MovieFilter. cbn [Clauses.run_clauses].
    repeat (rewrite run_clause_off by reflexivity; cbn [rbind]).
    cbn [Py.val_str] in *. rewrite R. cbn [rbind].
    repeat (rewrite run_clause_off by reflexivity; cbn [rbind]).
    reflexivity. }
  rewrite E in A. destruct (agrees_run _ _ _ _ A) as [p [h' [F N]]].
  exists p, h', d'. split; [exact F|]. split; [exact N|].
  eapply view_of_ext; [|exact V]. intros r. cbn [Clauses.test].
  unfold Clauses.is_text, holds, text_equals. reflexivity.
Qed.

(** C5, as stated, fails: the rating of a row is compared as it is stored.
    A row of the curated data set whose rating is stored as [pg] is not
    found by the argument [pg], nor by [PG]: the argument becomes [PG], the
    stored rating stays [pg]. *)
Lemma rating_both_upper_counterexample :
  exists p h' d',
    MovieDB.filter Sample.literal_search (MovieDB.mk 0%nat) None None None
      None None (Some "pg") None [Sample.disney] = (Ok p, h')
    /\ nth_error h' p = Some d'
    /\ Pandas.rows d' = []
    /\ ~ case_insensitive_rating Sample.disney d' 3 "pg".
Proof.
  eexists. eexists. eexists. split; [vm_compute; reflexivity|].
  split; [vm_compute; reflexivity|]. split; [reflexivity|].
  intros H.
  assert (In (2%nat,
              [Pandas.Str "Pocahontas"; Pandas.Ts (Datetime.mkdate 1995 6 23);
               Pandas.Str "Adventure"; Pandas.Str "pg"; Pandas.Num 100000001;
               Pandas.Num 274370957; Pandas.Str "Summer"])
             (Pandas.rows Sample.disney)) as Hin.
  { simpl. right. right. left. reflexivity. }
  apply H in Hin. destruct Hin as [_ Hin]. simpl in Hin. apply Hin.
  exists "pg". split; reflexivity.
Qed.

(** C5, amended.  For every table with a rating column and every supplied
    rating that is not the empty text, in either class, the filter with that
    argument alone returns the rows whose rating, as stored, is equal to the
    supplied text put in upper case: the comparison ignores the case of the
    argument, not that of the stored rating. *)
Theorem rating_equals_upper_argument :
  (forall (re_search : string -> string -> bool) (self : MovieDB.object)
          (rating : string) (h : store) (d : Pandas.DataFrame) (i : nat),
      nth_error h (MovieDB.df self) = Some d ->
      Pandas.position "MPAA Rating" (Pandas.columns d) = Some i ->
      rating <> "" ->
      exists p h' d',
        MovieDB.filter re_search self None None None None None (Some rating)
          None h = (Ok p, h')
        /\ nth_error h' p = Some d'
        /\ view_of (fun r => text_equals (Py.upper rating) (Pandas.cell_at i r))
             d d')
  /\
  (forall (re_search : string -> string -> bool) (self : MovieFilter.object)
          (rating : string) (h : store) (d : Pandas.DataFrame) (i : nat),
      nth_error h (MovieFilter.df self) = Some d ->
      Pandas.position "MPAA Rating" (Pandas.columns d) = Some i ->
      rating <> "" ->
      exists p h' d',
        MovieFilter.filter re_search self None (Some rating) None None None
          None None None None None None None h = (Ok p, h')
        /\ nth_error h' p = Some d'
        /\ view_of (fun r => text_equals (Py.upper rating) (Pandas.cell_at i r))
             d d').
Proof.
  split; intros.
  - apply MovieDB_rating_only; assumption.
  - apply MovieFilter_rating_only; assumption.
Qed.

Lemma rating_equals_upper_argument_witness :
  exists p h' d',
    MovieFilter.filter Sample.literal_search (MovieFilter.mk 0%nat) None
      (Some "pg") None None None None None None None None None None
      [Sample.scraped] = (Ok p, h')
    /\ nth_error h' p = Some d'
    /\ view_of (fun r => text_equals (Py.upper "pg") (Pandas.cell_at 1 r))
         Sample.scraped d'.
Proof.
  apply (proj2 rating_equals_upper_argument Sample.literal_search
           (MovieFilter.mk 0%nat) "pg" [Sample.scraped] Sample.scraped 1%nat).
  - reflexivity.
  - reflexivity.
  - discriminate.
Defined.

(** ** Floats *)

Lemma two_pos (z : Z) : 0 < 2 ^ z.
Proof. apply Qpower_0_lt. reflexivity. Qed.

Lemma two_mono (a b : Z) : (a <= b)%Z -> 2 ^ a <= 2 ^ b.
Proof. intros H. apply Qpower_le_compat_l; [exact H|discriminate]. Qed.

Lemma two_plus (a b : Z) : 2 ^ (a + b) == 2 ^ a * 2 ^ b.
Proof. apply Qpower_plus. discriminate. Qed.

Lemma two_cancel (a : Z) : 2 ^ a * 2 ^ (- a) == 1.
Proof. rewrite <- two_plus. rewrite Z.add_opp_diag_r. reflexivity. Qed.

Lemma two_inject (a : Z) : (0 <= a)%Z -> inject_Z (2 ^ a) == 2 ^ a.
Proof. intros H. apply (Zpower_Qpower 2 a H). Qed.


(** A number of magnitude 1 or more does not round to zero. *)
Lemma round_half_even_far (x : Q) :
  1 <= Qabs x -> Py.round_half_even x <> 0%Z.
Proof.
  destruct x as [n d]. unfold Qabs, Qle, Py.round_half_even.
  cbn [Qnum Qden]. intros H.
  pose proof (Z.div_mod n (Z.pos d) ltac:(lia)) as D.
  pose proof (Z.mod_pos_bound n (Z.pos d) ltac:(lia)) as B.
  set (f := (n / Z.pos d)%Z) in *. set (r := (n mod Z.pos d)%Z) in *.
  destruct (Z.compare_spec (2 * r) (Z.pos d)) as [C|C|C];
    [destruct (Z.even f) eqn:Ev| |].
  - intros F. rewrite F in D. lia.
  - intros F. assert (K : f = (-1)%Z) by lia. rewrite K in D. lia.
  - intros F. rewrite F in D. lia.
  - intros F. assert (K : f = (-1)%Z) by lia. rewrite K in D. lia.
Qed.

(** [ilog2] is not above the logarithm. *)
Lemma ilog2_le (n d : positive) : 2 ^ Py.ilog2 n d <= Z.pos n # d.
Proof.
  unfold Py.ilog2.
  set (a := Z.log2 (Z.pos n)). set (b := Z.log2 (Z.pos d)).
  destruct (Qle_bool (2 ^ (a - b)) (Z.pos n # d)) eqn:E.
  - apply Qle_bool_iff. exact E.
  - clear E.
    assert (Ha : (0 <= a)%Z) by apply Z.log2_nonneg.
    assert (Hb : (0 <= b)%Z) by apply Z.log2_nonneg.
    destruct (Z.log2_spec (Z.pos n) ltac:(lia)) as [Na _].
    destruct (Z.log2_spec (Z.pos d) ltac:(lia)) as [_ Db].
    fold a in Na. fold b in Db.
    rewrite (Qmake_Qdiv (Z.pos n) d). apply Qle_shift_div_l; [reflexivity|].
    apply Qle_trans with (2 ^ (a - b - 1) * 2 ^ (Z.succ b)).
    + apply Qmult_le_l; [apply two_pos|].
      rewrite <- two_inject by lia. rewrite <- Zle_Qle. lia.
    + rewrite <- two_plus.
      replace (a - b - 1 + Z.succ b)%Z with a by lia.
      rewrite <- two_inject by lia. rewrite <- Zle_Qle. exact Na.
Qed.

Lemma ulp_exponent_spec (q : Q) :
  ~ q == 0 ->
  exists L, Py.ulp_exponent q = (Z.max L (-1022) - 52)%Z /\ 2 ^ L <= Qabs q.
Proof.
  destruct q as [[|n|n] d]; intros H.
  - exfalso. apply H. reflexivity.
  - exists (Py.ilog2 n d). split; [reflexivity|]. apply ilog2_le.
  - exists (Py.ilog2 n d). split; [reflexivity|]. apply ilog2_le.
Qed.

Lemma ulp_exponent_least (q : Q) : (-1074 <= Py.ulp_exponent q)%Z.
Proof.
  unfold Py.ulp_exponent. destruct (Qnum q); lia.
Qed.

(** The unit in the last place is not above the magnitude, unless that is
    below the least float. *)
Lemma ulp_le (q : Q) :
  2 ^ (-1074) <= Qabs q -> 2 ^ Py.ulp_exponent q <= Qabs q.
Proof.
  intros H.
  assert (NZ : ~ q == 0).
  { intros Z. rewrite Z in H. apply Qle_not_lt in H. apply H.
    apply two_pos. }
  destruct (ulp_exponent_spec q NZ) as [L [E B]]. rewrite E.
  destruct (Z_le_gt_dec (-1022) L) as [G|G].
  - rewrite Z.max_l by lia. eapply Qle_trans; [|exact B].
    apply two_mono. lia.
  - rewrite Z.max_r by lia. exact H.
Qed.

(** What [binary64] returns. *)
Lemma binary64_cases (q : Q) :
  let r := inject_Z (Py.round_half_even (q * 2 ^ (- Py.ulp_exponent q)))
           * 2 ^ Py.ulp_exponent q in
  (Py.huge <= r /\ Py.binary64 q = Py.huge)
  \/ (r <= - Py.huge /\ Py.binary64 q = - Py.huge)
  \/ (- Py.huge < r /\ r < Py.huge /\ Py.binary64 q = r).
Proof.
  intros r. unfold Py.binary64. fold r.
  destruct (Qle_bool Py.huge r) eqn:A.
  - left. split; [apply Qle_bool_iff; exact A|reflexivity].
  - destruct (Qle_bool r (- Py.huge)) eqn:B.
    + right. left. split; [apply Qle_bool_iff; exact B|reflexivity].
    + right. right. split; [|split; [|reflexivity]].
      * apply Qnot_le_lt. intros K. apply Qle_bool_iff in K. congruence.
      * apply Qnot_le_lt. intros K. apply Qle_bool_iff in K. congruence.
Qed.

Lemma huge_pos : 0 < Py.huge.
Proof. apply two_pos. Qed.

(** A number that is not below the least float does not round to zero. *)
Lemma binary64_nonzero (y : Q) :
  2 ^ (-1074) <= Qabs y -> ~ Py.binary64 y == 0.
Proof.
  intros H. pose proof (ulp_le y H) as U. pose proof huge_pos as HP.
  set (E := Py.ulp_exponent y) in *.
  assert (K : Py.round_half_even (y * 2 ^ (- E)) <> 0%Z).
  { apply round_half_even_far. rewrite Qabs_Qmult.
    rewrite (Qabs_pos (2 ^ (- E))) by (apply Qlt_le_weak, two_pos).
    rewrite <- (two_cancel E).
    apply Qmult_le_compat_r; [exact U|apply Qlt_le_weak, two_pos]. }
  destruct (binary64_cases y) as [[_ B]|[[_ B]|[_ [_ B]]]]; rewrite B.
  - intros Z. rewrite Z in HP. discriminate HP.
  - intros Z. assert (Py.huge == 0) as Z' by lra. rewrite Z' in HP.
    discriminate HP.
  - fold E. intros Z. apply Qmult_integral in Z. destruct Z as [Z|Z].
    + apply K. apply inject_Z_injective. exact Z.
    + pose proof (two_pos E) as P. rewrite Z in P. discriminate P.
Qed.

(** A float that is not zero is not below the least float. *)
Lemma float_magnitude (t : Q) :
  Py.is_float t = true -> ~ t == 0 -> 2 ^ (-1074) <= Qabs t.
Proof.
  unfold Py.is_float. intros F NZ. apply Qeq_bool_iff in F.
  pose proof (ulp_exponent_least t) as L.
  assert (HL : 2 ^ (-1074) <= Py.huge) by (apply two_mono; lia).
  destruct (binary64_cases t) as [[_ B]|[[_ B]|[_ [_ B]]]];
    rewrite B in F; rewrite <- F.
  - rewrite Qabs_pos by (apply Qlt_le_weak, huge_pos). exact HL.
  - rewrite Qabs_opp, Qabs_pos by (apply Qlt_le_weak, huge_pos). exact HL.
  - set (k := Py.round_half_even _) in *.
    assert (K : k <> 0%Z).
    { intros Z. apply NZ. rewrite <- F, Z. reflexivity. }
    rewrite Qabs_Qmult.
    rewrite (Qabs_pos (2 ^ _)) by (apply Qlt_le_weak, two_pos).
    apply Qle_trans with (1 * 2 ^ Py.ulp_exponent t).
    + rewrite Qmult_1_l. apply two_mono. exact L.
    + apply Qmult_le_compat_r; [|apply Qlt_le_weak, two_pos].
      change (Qabs (inject_Z k)) with (inject_Z (Z.abs k)).
      change 1 with (inject_Z 1). rewrite <- Zle_Qle. lia.
Qed.

(** The product of a float that is not zero by a million is not zero. *)
Lemma fmul_nonzero (t : Q) :
  Py.is_float t = true -> ~ t == 0 -> ~ Py.fmul t 1000000 == 0.
Proof.
  intros F NZ. unfold Py.fmul. apply binary64_nonzero.
  eapply Qle_trans; [apply (float_magnitude t F NZ)|].
  rewrite Qabs_Qmult. change (Qabs 1000000) with 1000000.
  pose proof (Qabs_nonneg t). nra.
Qed.




(** ** The least values *)

Lemma threshold_clause (on guard : bool) (c : string) (x : Q)
  (d : Pandas.DataFrame) (i : nat) :
  Pandas.position c (Pandas.columns d) = Some i ->
  numeric_column d i = true ->
  exists d',
    Clauses.run_clause (Clauses.mkClause on guard c (Pandas.cell_ge x)) d = Ok d'
    /\ view_of (fun r => negb on || at_least x (Pandas.cell_at i r)) d d'.
Proof.
  intros P N. destruct on.
  - destruct (run_clause_on (Clauses.mkClause true guard c (Pandas.cell_ge x))
                d i eq_refl P (numeric_column_ge d i x N)) as [d' [R V]].
    exists d'. split; [exact R|].
    eapply view_of_ext; [|exact V]. intros r. simpl. apply holds_cell_ge.
  - exists d. split; [apply run_clause_off; reflexivity|]. apply view_of_all.
Qed.

Lemma view_of_compose (f g : Pandas.Row -> bool) (d d1 d2 : Pandas.DataFrame) :
  view_of f d d1 -> view_of g d1 d2 -> view_of (fun r => f r && g r) d d2.
Proof.
  intros [C1 R1] [C2 R2]. split; [congruence|].
  rewrite R2, R1. apply filter_filter.
Qed.

Lemma numeric_column_view (f : Pandas.Row -> bool) (d d' : Pandas.DataFrame)
  (i : nat) :
  view_of f d d' -> numeric_column d i = true -> numeric_column d' i = true.
Proof.
  intros [_ R] N. unfold numeric_column in *. rewrite R.
  rewrite forallb_forall in *. intros r Hr. apply filter_In in Hr.
  apply N. tauto.
Qed.

Lemma MovieDB_min_gross_only (re_search : string -> string -> bool)
  (self : MovieDB.object) (min_gross : option Q) (h : store)
  (d : Pandas.DataFrame) (i : nat) :
  nth_error h (MovieDB.df self) = Some d ->
  Pandas.position "Total Gross" (Pandas.columns d) = Some i ->
  numeric_column d i = true ->
  exists p h' d',
    MovieDB.filter re_search self None None None None None None min_gross h
    = (Ok p, h')
    /\ nth_error h' p = Some d'
    /\ view_of (fun r => negb (Py.truthy_float min_gross)
                         || at_least
                              (Py.fmul (Py.float (Py.val_float min_gross))
                                       1000000)
                              (Pandas.cell_at i r)) d d'.
Proof.
  intros Hd P N.
  pose proof (MovieDB_filter_agrees re_search self None None None None None
                None min_gross h d Hd) as A.
  destruct (threshold_clause (Py.truthy_float min_gross) false "Total Gross"
              (Py.fmul (Py.float (Py.val_float min_gross)) 1000000) d i P N)
    as [d' [R V]].
  assert (E : Clauses.run_clauses
                (Clauses.of_MovieDB re_search None None None None None None
                   min_gross) d = Ok d').
  { unfold Clauses.of_MovieDB. cbn [Clauses.run_clauses].
    repeat (rewrite run_clause_off by reflexivity; cbn [rbind]).
    rewrite R. reflexivity. }
  rewrite E in A. destruct (agrees_run _ _ _ _ A) as [p [h' [F Hn]]].
  exists p, h', d'. auto.
Qed.

Lemma run_clauses_off (cls : list Clauses.clause) (d : Pandas.DataFrame) :
  forallb (fun cl => negb (Clauses.supplied cl)) cls = true ->
  Clauses.run_clauses cls d = Ok d.
Proof.
  induction cls as [|cl cls IH]; simpl; intros H; [reflexivity|].
  apply andb_true_iff in H. destruct H as [H1 H2].
  rewrite run_clause_off by (destruct (Clauses.supplied cl); [discriminate|reflexivity]).
  simpl. apply IH. exact H2.
Qed.

Lemma run_clauses_app (pre post : list Clauses.clause) (d : Pandas.DataFrame) :
  Clauses.run_clauses (pre ++ post) d
  = rbind (Clauses.run_clauses pre d) (Clauses.run_clauses post).
Proof.
  revert d. induction pre as [|cl pre IH]; simpl; intros d; [reflexivity|].
  destruct (Clauses.run_clause cl d); simpl; [apply IH|reflexivity].
Qed.

(** One clause among clauses that are not supplied. *)
Lemma run_clauses_single (pre post : list Clauses.clause) (cl : Clauses.clause)
  (d d' : Pandas.DataFrame) :
  forallb (fun cl => negb (Clauses.supplied cl)) pre = true ->
  forallb (fun cl => negb (Clauses.supplied cl)) post = true ->
  Clauses.run_clause cl d = Ok d' ->
  Clauses.run_clauses (pre ++ cl :: post) d = Ok d'.
Proof.
  intros H1 H2 R. rewrite run_clauses_app, (run_clauses_off pre d H1).
  simpl. rewrite R. simpl. apply run_clauses_off. exact H2.
Qed.

Lemma MovieFilter_min_score_only (re_search : string -> string -> bool)
  (self : MovieFilter.object) (min_score : option Q) (h : store)
  (d : Pandas.DataFrame) (i : nat) :
  nth_error h (MovieFilter.df self) = Some d ->
  Pandas.position "score" (Pandas.columns d) = Some i ->
  numeric_column d i = true ->
  exists p h' d',
    MovieFilter.filter re_search self None None None None None None None None
      None min_score None None h = (Ok p, h')
    /\ nth_error h' p = Some d'
    /\ view_of (fun r => negb (Py.truthy_float min_score)
                         || at_least (Py.val_float min_score)
                              (Pandas.cell_at i r)) d d'.
Proof.
  intros Hd P N.
  pose proof (MovieFilter_filter_agrees re_search self None None None None
                None None None None None min_score None None h d Hd) as A.
  destruct (threshold_clause (Py.truthy_float min_score) true "score"
              (Py.val_float min_score) d i P N) as [d' [R V]].
  assert (E : Clauses.run_clauses
                (Clauses.of_MovieFilter re_search None None None None
                          None None None None None min_score None None) d
              = Ok d')
    by exact (run_clauses_single
             (firstn 8 (Clauses.of_MovieFilter re_search None None None None
                          None None None None None min_score None None))
             (skipn 9 (Clauses.of_MovieFilter re_search None None None None
                         None None None None None min_score None None))
             _ d d' eq_refl eq_refl R).
  rewrite E in A.
  destruct (agrees_run _ _ _ _ A) as [p [h' [F Hn]]].
  exists p, h', d'. auto.
Qed.

Lemma MovieFilter_min_gross_only (re_search : string -> string -> bool)
  (self : MovieFilter.object) (min_gross : option Q) (h : store)
  (d : Pandas.DataFrame) (i : nat) :
  nth_error h (MovieFilter.df self) = Some d ->
  Pandas.position "Total Gross" (Pandas.columns d) = Some i ->
  numeric_column d i = true ->
  exists p h' d',
    MovieFilter.filter re_search self None None None None None None None None
      None None min_gross None h = (Ok p, h')
    /\ nth_error h' p = Some d'
    /\ view_of (fun r => negb (Py.truthy_float min_gross)
                         || at_least (Py.val_float min_gross)
                              (Pandas.cell_at i r)) d d'.
Proof.
  intros Hd P N.
  pose proof (MovieFilter_filter_agrees re_search self None None None None
                None None None None None None min_gross None h d Hd) as A.
  destruct (threshold_clause (Py.truthy_float min_gross) true "Total Gross"
              (Py.val_float min_gross) d i P N) as [d' [R V]].
  assert (E : Clauses.run_clauses
                (Clauses.of_MovieFilter re_search None None None None
                          None None None None None None min_gross None) d
              = Ok d')
    by exact (run_clauses_single
             (firstn 9 (Clauses.of_MovieFilter re_search None None None None
                          None None None None None None min_gross None))
             (skipn 10 (Clauses.of_MovieFilter re_search None None None None
                          None None None None None None min_gross None))
             _ d d' eq_refl eq_refl R).
  rewrite E in A.
  destruct (agrees_run _ _ _ _ A) as [p [h' [F Hn]]].
  exists p, h', d'. auto.
Qed.

Lemma MovieFilter_min_votes_only (re_search : string -> string -> bool)
  (self : MovieFilter.object) (min_votes : option Z) (h : store)
  (d : Pandas.DataFrame) (i : nat) :
  nth_error h (MovieFilter.df self) = Some d ->
  Pandas.position "votes" (Pandas.columns d) = Some i ->
  numeric_column d i = true ->
  exists p h' d',
    MovieFilter.filter re_search self None None None None None None None None
      None None None min_votes h = (Ok p, h')
    /\ nth_error h' p = Some d'
    /\ view_of (fun r => negb (Py.truthy_int min_votes)
                         || at_least (inject_Z (Py.val_int min_votes))
                              (Pandas.cell_at i r)) d d'.
Proof.
  intros Hd P N.
  pose proof (MovieFilter_filter_agrees re_search self None None None None
                None None None None None None None min_votes h d Hd) as A.
  destruct (threshold_clause (Py.truthy_int min_votes) true "votes"
              (inject_Z (Py.val_int min_votes)) d i P N) as [d' [R V]].
  assert (E : Clauses.run_clauses
                (Clauses.of_MovieFilter re_search None None None None
                           None None None None None None None min_votes) d
              = Ok d')
    by exact (run_clauses_single
             (firstn 10 (Clauses.of_MovieFilter re_search None None None None
                           None None None None None None None min_votes))
             (skipn 11 (Clauses.of_MovieFilter re_search None None None None
                          None None None None None None None min_votes))
             _ d d' eq_refl eq_refl R).
  rewrite E in A.
  destruct (agrees_run _ _ _ _ A) as [p [h' [F Hn]]].
  exists p, h', d'. auto.
Qed.

(** No predicate at all: the view is the whole table. *)
Lemma MovieDB_filter_nothing (re_search : string -> string -> bool)
  (self : MovieDB.object) (min_gross : option Q) (h : store)
  (d : Pandas.DataFrame) :
  nth_error h (MovieDB.df self) = Some d ->
  Py.truthy_float min_gross = false ->
  exists p h',
    MovieDB.filter re_search self None None None None None None min_gross h
    = (Ok p, h')
    /\ nth_error h' p = Some d.
Proof.
  intros Hd T.
  pose proof (MovieDB_filter_agrees re_search self None None None None None
                None min_gross h d Hd) as A.
  rewrite run_clauses_off in A; [apply (agrees_run _ _ _ _ A)|].
  simpl. rewrite T. reflexivity.
Qed.

Lemma MovieFilter_filter_nothing (re_search : string -> string -> bool)
  (self : MovieFilter.object) (min_score min_gross : option Q)
  (min_votes : option Z) (h : store) (d : Pandas.DataFrame) :
  nth_error h (MovieFilter.df self) = Some d ->
  Py.truthy_float min_score = false ->
  Py.truthy_float min_gross = false ->
  Py.truthy_int min_votes = false ->
  exists p h',
    MovieFilter.filter re_search self None None None None None None None None
      None min_score min_gross min_votes h = (Ok p, h')
    /\ nth_error h' p = Some d.
Proof.
  intros Hd T1 T2 T3.
  pose proof (MovieFilter_filter_agrees re_search self None None None None
                None None None None None min_score min_gross min_votes h d Hd)
    as A.
  rewrite run_clauses_off in A; [apply (agrees_run _ _ _ _ A)|].
  simpl. rewrite T1, T2, T3. reflexivity.
Qed.

(** [main] of [datascrapper.py] hands [filter] the least gross in base
    units. *)
Lemma MovieFilter_main_filter_thresholds
  (re_search : string -> string -> bool) (py_int : string -> option Z)
  (self : MovieFilter.object) (min_score min_gross : option Q)
  (min_votes : option Z) (h : store) :
  MovieFilter.main_filter re_search py_int self
    (thresholds_only min_score min_gross min_votes) h
  = MovieFilter.filter re_search self None None None None None None None None
      None min_score (scaled min_gross) min_votes h.
Proof. reflexivity. Qed.

Lemma MovieDB_main_filter_min_gross
  (re_search : string -> string -> bool) (py_int : string -> option Z)
  (self : MovieDB.object) (min_gross : option Q) (h : store) :
  MovieDB.main_filter re_search py_int self (min_gross_only min_gross) h
  = MovieDB.filter re_search self None None None None None None min_gross h.
Proof. reflexivity. Qed.

Lemma truthy_float_zero (t : Q) : t == 0 -> Py.truthy_float (Some t) = false.
Proof.
  intros H. simpl. apply Qeq_bool_iff in H. rewrite H. reflexivity.
Qed.

Lemma truthy_float_nonzero (t : Q) : ~ t == 0 -> Py.truthy_float (Some t) = true.
Proof.
  intros H. simpl. destruct (Qeq_bool t 0) eqn:E; [|reflexivity].
  apply Qeq_bool_iff in E. contradiction.
Qed.

Lemma scaled_zero (t : Q) : t == 0 -> scaled (Some t) = None.
Proof. intros H. unfold scaled. rewrite truthy_float_zero by exact H. reflexivity. Qed.

Lemma scaled_nonzero (t : Q) :
  ~ t == 0 -> ~ Py.fmul t 1000000 == 0 ->
  scaled (Some t) = Some (Py.fmul t 1000000)
  /\ Py.truthy_float (Some (Py.fmul t 1000000)) = true.
Proof.
  intros H K. unfold scaled. rewrite truthy_float_nonzero by exact H.
  split; [reflexivity|]. apply truthy_float_nonzero. exact K.
Qed.

(** ** The least gross, in millions *)

Lemma In_view (keep : Pandas.Row -> bool) (d d' : Pandas.DataFrame)
  (r : Pandas.Row) :
  view_of keep d d' ->
  (In r (Pandas.rows d') <-> In r (Pandas.rows d) /\ keep r = true).
Proof. intros [_ R]. rewrite R. apply filter_In. Qed.






(** ** A least value of zero *)

Lemma at_least_no_missing (x : Q) (d d' : Pandas.DataFrame) (i : nat) :
  view_of (fun r => at_least x (Pandas.cell_at i r)) d d' -> no_missing d' i.
Proof.
  intros V r Hr E. apply (In_view _ _ _ r V) in Hr. destruct Hr as [_ K].
  rewrite E in K. discriminate.
Qed.

Lemma positive_nonzero (t : Q) : 0 < t -> ~ t == 0.
Proof. intros H E. rewrite E in H. apply (Qlt_irrefl 0). exact H. Qed.

Lemma truthy_int_nonzero (t : Z) : (0 < t)%Z -> Py.truthy_int (Some t) = true.
Proof.
  intros H. simpl. destruct (Z.eqb_spec t 0); [lia|reflexivity].
Qed.

(** Clauses that do not apply leave the table as it is. *)
Lemma run_clauses_idle (cls : list Clauses.clause) (d : Pandas.DataFrame) :
  forallb (fun cl => negb (Clauses.applies d cl)) cls = true ->
  Clauses.run_clauses cls d = Ok d.
Proof.
  induction cls as [|cl cls IH]; simpl; intros H; [reflexivity|].
  apply andb_true_iff in H. destruct H as [H1 H2].
  unfold Clauses.run_clause.
  destruct (Clauses.applies d cl); [discriminate|]. simpl. apply IH. exact H2.
Qed.

(** In [MovieFilter], least values on columns the table does not have are
    not applied. *)
Lemma MovieFilter_thresholds_skipped (re_search : string -> string -> bool)
  (self : MovieFilter.object) (min_score min_gross : option Q)
  (min_votes : option Z) (h : store) (d : Pandas.DataFrame) :
  nth_error h (MovieFilter.df self) = Some d ->
  (Py.truthy_float min_score = true -> Pandas.has_column d "score" = false) ->
  (Py.truthy_float min_gross = true ->
   Pandas.has_column d "Total Gross" = false) ->
  (Py.truthy_int min_votes = true -> Pandas.has_column d "votes" = false) ->
  exists p h',
    MovieFilter.filter re_search self None None None None None None None None
      None min_score min_gross min_votes h = (Ok p, h')
    /\ nth_error h' p = Some d.
Proof.
  intros Hd S G V.
  pose proof (MovieFilter_filter_agrees re_search self None None None None
                None None None None None min_score min_gross min_votes h d Hd)
    as A.
  rewrite run_clauses_idle in A; [apply (agrees_run _ _ _ _ A)|].
  unfold Clauses.of_MovieFilter, Clauses.applies.
  cbn [forallb Clauses.supplied Clauses.guarded Clauses.column Py.truthy_str
       Py.truthy_int andb negb orb].
  destruct (Py.truthy_float min_score);
    [rewrite (S eq_refl)|]; cbn [andb negb orb];
    (destruct (Py.truthy_float min_gross);
     [rewrite (G eq_refl)|]; cbn [andb negb orb]);
    (destruct (Py.truthy_int min_votes);
     [rewrite (V eq_refl)|]; reflexivity).
Qed.

(** In [MovieDB], the least gross of a table without that column raises
    [KeyError]. *)
Lemma MovieDB_min_gross_no_column (re_search : string -> string -> bool)
  (self : MovieDB.object) (min_gross : option Q) (h : store)
  (d : Pandas.DataFrame) :
  nth_error h (MovieDB.df self) = Some d ->
  Py.truthy_float min_gross = true ->
  Pandas.position "Total Gross" (Pandas.columns d) = None ->
  fst (MovieDB.filter re_search self None None None None None None min_gross h)
  = Raise (KeyError "Total Gross").
Proof.
  intros Hd T P.
  pose proof (MovieDB_filter_agrees re_search self None None None None None
                None min_gross h d Hd) as A.
  assert (E : Clauses.run_clauses
                (Clauses.of_MovieDB re_search None None None None None None
                   min_gross) d = Raise (KeyError "Total Gross")).
  { unfold Clauses.of_MovieDB. cbn [Clauses.run_clauses].
    repeat (rewrite run_clause_off by reflexivity; cbn [rbind]).
    unfold Clauses.run_clause, Clauses.applies.
    cbn [Clauses.supplied Clauses.guarded Clauses.column negb orb].
    rewrite T. cbn [andb]. unfold Pandas.getitem. rewrite P. reflexivity. }
  rewrite E in A. destruct A as [t [_ A]]. exact A.
Qed.

(** C10, as stated, fails for the broader data set: [MovieFilter.filter]
    applies a least value only when the table has the column.  On a table
    with titles only, where the score, the gross and the votes of every
    record are absent, a positive least score, gross or votes keeps both
    records. *)
Lemma positive_threshold_counterexample :
  Pandas.rows titles_only <> []
  /\ Pandas.has_column titles_only "score" = false
  /\ Pandas.has_column titles_only "Total Gross" = false
  /\ Pandas.has_column titles_only "votes" = false
  /\ returns (MovieFilter.main_filter Sample.literal_search Sample.py_int
                (MovieFilter.mk 0%nat) (thresholds_only (Some 5) None None))
       [titles_only] titles_only
  /\ returns (MovieFilter.main_filter Sample.literal_search Sample.py_int
                (MovieFilter.mk 0%nat) (thresholds_only None (Some 5) None))
       [titles_only] titles_only
  /\ returns (MovieFilter.main_filter Sample.literal_search Sample.py_int
                (MovieFilter.mk 0%nat) (thresholds_only None None (Some 5%Z)))
       [titles_only] titles_only.
Proof.
  split; [discriminate|]. do 3 (split; [reflexivity|]).
  split; [|split]; eexists; eexists;
    (split; [vm_compute; reflexivity|reflexivity]).
Qed.

(** C10, amended.  A least value of exactly zero is no constraint: the
    argument is taken as absent and the view is the whole table, the rows
    with a missing value in that column included.  Under a positive least
    value, on a table that has the column, with numbers or missing values
    in it, the view holds the rows that reach the value, and no row with a
    missing value.  On a table that does not have the column, [MovieFilter]
    does not apply a positive least value either and returns the whole
    table, and [MovieDB] raises [KeyError].  This holds for the least gross
    of [datadasher.py] and for the least score, gross and votes of
    [datascrapper.py]; the least gross is compared as the product of floats
    the program computes. *)
Theorem zero_threshold_and_column_guard
  (re_search : string -> string -> bool) (py_int : string -> option Z)
  (h : store) (d : Pandas.DataFrame) :
  (forall (self : MovieDB.object) (t : Q),
      nth_error h (MovieDB.df self) = Some d ->
      (t == 0 ->
       returns (MovieDB.main_filter re_search py_int self
                  (min_gross_only (Some t))) h d)
      /\ (0 < t ->
          forall i,
            Pandas.position "Total Gross" (Pandas.columns d) = Some i ->
            numeric_column d i = true ->
            exists d',
              returns (MovieDB.main_filter re_search py_int self
                         (min_gross_only (Some t))) h d'
              /\ view_of (fun r => at_least (Py.fmul (Py.float t) 1000000)
                                     (Pandas.cell_at i r))
                   d d'
              /\ no_missing d' i)
      /\ (0 < t ->
          Pandas.position "Total Gross" (Pandas.columns d) = None ->
          fst (MovieDB.main_filter re_search py_int self
                 (min_gross_only (Some t)) h)
          = Raise (KeyError "Total Gross")))
  /\
  (forall (self : MovieFilter.object) (t : Q),
      nth_error h (MovieFilter.df self) = Some d ->
      (t == 0 ->
       returns (MovieFilter.main_filter re_search py_int self
                  (thresholds_only (Some t) None None)) h d)
      /\ (0 < t ->
          forall i,
            Pandas.position "score" (Pandas.columns d) = Some i ->
            numeric_column d i = true ->
            exists d',
              returns (MovieFilter.main_filter re_search py_int self
                         (thresholds_only (Some t) None None)) h d'
              /\ view_of (fun r => at_least t (Pandas.cell_at i r)) d d'
              /\ no_missing d' i)
      /\ (0 < t ->
          Pandas.position "score" (Pandas.columns d) = None ->
          returns (MovieFilter.main_filter re_search py_int self
                     (thresholds_only (Some t) None None)) h d))
  /\
  (forall (self : MovieFilter.object) (t : Q),
      nth_error h (MovieFilter.df self) = Some d ->
      (t == 0 ->
       returns (MovieFilter.main_filter re_search py_int self
                  (thresholds_only None (Some t) None)) h d)
      /\ (0 < t -> Py.is_float t = true ->
          forall i,
            Pandas.position "Total Gross" (Pandas.columns d) = Some i ->
            numeric_column d i = true ->
            exists d',
              returns (MovieFilter.main_filter re_search py_int self
                         (thresholds_only None (Some t) None)) h d'
              /\ view_of (fun r => at_least (Py.fmul t 1000000)
                                     (Pandas.cell_at i r))
                   d d'
              /\ no_missing d' i)
      /\ (0 < t ->
          Pandas.position "Total Gross" (Pandas.columns d) = None ->
          returns (MovieFilter.main_filter re_search py_int self
                     (thresholds_only None (Some t) None)) h d))
  /\
  (forall (self : MovieFilter.object) (t : Z),
      nth_error h (MovieFilter.df self) = Some d ->
      (t = 0%Z ->
       returns (MovieFilter.main_filter re_search py_int self
                  (thresholds_only None None (Some t))) h d)
      /\ ((0 < t)%Z ->
          forall i,
            Pandas.position "votes" (Pandas.columns d) = Some i ->
            numeric_column d i = true ->
            exists d',
              returns (MovieFilter.main_filter re_search py_int self
                         (thresholds_only None None (Some t))) h d'
              /\ view_of (fun r => at_least (inject_Z t) (Pandas.cell_at i r))
                   d d'
              /\ no_missing d' i)
      /\ ((0 < t)%Z ->
          Pandas.position "votes" (Pandas.columns d) = None ->
          returns (MovieFilter.main_filter re_search py_int self
                     (thresholds_only None None (Some t))) h d)).
Proof.
  assert (HC : forall c, Pandas.position c (Pandas.columns d) = None ->
                         Pandas.has_column d c = false).
  { intros c P. unfold Pandas.has_column. rewrite P. reflexivity. }
  split; [|split; [|split]].
  - intros self t Hd. unfold returns.
    rewrite MovieDB_main_filter_min_gross. split; [|split].
    + intros Z. apply MovieDB_filter_nothing; [exact Hd|].
      apply truthy_float_zero. exact Z.
    + intros Pos i P N.
      destruct (MovieDB_min_gross_only re_search self (Some t) h d i Hd P N)
        as [p [h' [d' [F [Hn V]]]]].
      rewrite (truthy_float_nonzero t (positive_nonzero t Pos)) in V.
      exists d'. split; [exists p, h'; auto|]. split; [exact V|].
      eapply at_least_no_missing. exact V.
    + intros Pos P.
      apply (MovieDB_min_gross_no_column re_search self (Some t) h d);
        [exact Hd| |exact P].
      apply truthy_float_nonzero, positive_nonzero, Pos.
  - intros self t Hd. unfold returns.
    rewrite MovieFilter_main_filter_thresholds. split; [|split].
    + intros Z. apply MovieFilter_filter_nothing;
        [exact Hd|apply truthy_float_zero; exact Z|reflexivity|reflexivity].
    + intros Pos i P N.
      destruct (MovieFilter_min_score_only re_search self (Some t) h d i Hd P N)
        as [p [h' [d' [F [Hn V]]]]].
      rewrite (truthy_float_nonzero t (positive_nonzero t Pos)) in V.
      exists d'. split; [exists p, h'; auto|]. split; [exact V|].
      eapply at_least_no_missing. exact V.
    + intros Pos P. apply MovieFilter_thresholds_skipped;
        [exact Hd|intros _; apply HC; exact P|discriminate|discriminate].
  - intros self t Hd. unfold returns.
    rewrite MovieFilter_main_filter_thresholds. split; [|split].
    + intros Z. rewrite (scaled_zero t Z).
      apply MovieFilter_filter_nothing; [exact Hd|reflexivity..].
    + intros Pos Fl i P N.
      destruct (scaled_nonzero t (positive_nonzero t Pos)
                  (fmul_nonzero t Fl (positive_nonzero t Pos))) as [S T].
      rewrite S.
      destruct (MovieFilter_min_gross_only re_search self
                  (Some (Py.fmul t 1000000)) h d i Hd P N)
        as [p [h' [d' [F [Hn V]]]]].
      rewrite T in V.
      exists d'. split; [exists p, h'; auto|]. split; [exact V|].
      eapply at_least_no_missing. exact V.
    + intros Pos P. apply MovieFilter_thresholds_skipped;
        [exact Hd|discriminate|intros _; apply HC; exact P|discriminate].
  - intros self t Hd. unfold returns.
    rewrite MovieFilter_main_filter_thresholds. split; [|split].
    + intros Z. subst t.
      apply MovieFilter_filter_nothing; [exact Hd|reflexivity..].
    + intros Pos i P N.
      destruct (MovieFilter_min_votes_only re_search self (Some t) h d i Hd P N)
        as [p [h' [d' [F [Hn V]]]]].
      rewrite (truthy_int_nonzero t Pos) in V.
      exists d'. split; [exists p, h'; auto|]. split; [exact V|].
      eapply at_least_no_missing. exact V.
    + intros Pos P. apply MovieFilter_thresholds_skipped;
        [exact Hd|discriminate|discriminate|intros _; apply HC; exact P].
Qed.

Lemma zero_threshold_and_column_guard_witness :
  returns (MovieFilter.main_filter Sample.literal_search Sample.py_int
             (MovieFilter.mk 0%nat) (thresholds_only (Some 0) None None))
    [Sample.scraped] Sample.scraped
  /\ exists d',
       returns (MovieFilter.main_filter Sample.literal_search Sample.py_int
                  (MovieFilter.mk 0%nat) (thresholds_only (Some 5) None None))
         [Sample.scraped] d'
       /\ view_of (fun r => at_least 5 (Pandas.cell_at 5 r)) Sample.scraped d'
       /\ no_missing d' 5.
Proof.
  destruct (zero_threshold_and_column_guard Sample.literal_search
              Sample.py_int [Sample.scraped] Sample.scraped) as [_ [H _]].
  split.
  - apply (proj1 (H (MovieFilter.mk 0%nat) 0 eq_refl)). reflexivity.
  - apply (proj1 (proj2 (H (MovieFilter.mk 0%nat) 5 eq_refl)));
      reflexivity.
Defined.

(** ** Taking rows by position *)

Lemma take_list_app {A : Type} (l : list A) (a b : list nat) :
  Pandas.take_list l (a ++ b) = Pandas.take_list l a ++ Pandas.take_list l b.
Proof. unfold Pandas.take_list. apply flat_map_app. Qed.

Lemma take_list_map {A B : Type} (f : A -> B) (l : list A) (ix : list nat) :
  map f (Pandas.take_list l ix) = Pandas.take_list (map f l) ix.
Proof.
  unfold Pandas.take_list. induction ix as [|i ix IH]; simpl; [reflexivity|].
  rewrite map_app, IH. f_equal. rewrite nth_error_map.
  destruct (nth_error l i); reflexivity.
Qed.

Lemma take_list_rev {A : Type} (l : list A) (ix : list nat) :
  Pandas.take_list l (rev ix) = rev (Pandas.take_list l ix).
Proof.
  induction ix as [|i ix IH]; simpl; [reflexivity|].
  rewrite take_list_app, IH. unfold Pandas.take_list at 2 3. simpl.
  rewrite app_nil_r, rev_app_distr.
  destruct (nth_error l i); reflexivity.
Qed.

Lemma select_map {A B : Type} (f : A -> B) (mask : list bool) (l : list A) :
  Pandas.select mask (map f l) = map f (Pandas.select mask l).
Proof.
  revert l. induction mask as [|b mask IH]; intros [|x l]; simpl;
    try reflexivity.
  destruct b; simpl; rewrite IH; reflexivity.
Qed.

Lemma take_list_cons_S {A : Type} (x : A) (l : list A) (ix : list nat) :
  Pandas.take_list (x :: l) (map S ix) = Pandas.take_list l ix.
Proof.
  unfold Pandas.take_list. induction ix as [|i ix IH]; simpl; [reflexivity|].
  rewrite IH. reflexivity.
Qed.

Lemma take_list_select_seq {A : Type} (l : list A) (mask : list bool) :
  Pandas.take_list l (Pandas.select mask (seq 0 (List.length l)))
  = Pandas.select mask l.
Proof.
  revert mask. induction l as [|x l IH]; intros [|b mask]; simpl;
    try reflexivity.
  rewrite <- seq_shift, select_map.
  destruct b.
  - unfold Pandas.take_list at 1. simpl.
    change (flat_map ?f ?ix) with (Pandas.take_list (x :: l) ix).
    rewrite take_list_cons_S, IH. reflexivity.
  - rewrite take_list_cons_S, IH. reflexivity.
Qed.

Lemma take_list_all {A : Type} (l : list A) :
  Pandas.take_list l (seq 0 (List.length l)) = l.
Proof.
  induction l as [|x l IH]; simpl; [reflexivity|].
  rewrite <- seq_shift. unfold Pandas.take_list at 1. simpl.
  change (flat_map ?f ?ix) with (Pandas.take_list (x :: l) ix).
  rewrite take_list_cons_S, IH. reflexivity.
Qed.

Lemma take_list_Permutation {A : Type} (l : list A) (ix : list nat) :
  Permutation ix (seq 0 (List.length l)) ->
  Permutation (Pandas.take_list l ix) l.
Proof.
  intros H. rewrite <- (take_list_all l) at 2.
  unfold Pandas.take_list. apply Permutation_flat_map. exact H.
Qed.

Lemma take_list_nth {A : Type} (d : A) (l : list A) (ix : list nat) :
  Forall (fun i => (i < List.length l)%nat) ix ->
  Pandas.take_list l ix = map (fun i => nth i l d) ix.
Proof.
  unfold Pandas.take_list. induction 1 as [|i ix Hi _ IH]; simpl; [reflexivity|].
  rewrite IH. destruct (nth_error l i) eqn:E.
  - rewrite (nth_error_nth _ _ d E). reflexivity.
  - apply nth_error_None in E. lia.
Qed.

(** Taking through positions that are themselves taken. *)
Lemma take_list_take_list {A : Type} (l : list A) (ix order : list nat) :
  Forall (fun i => (i < List.length l)%nat) ix ->
  Pandas.take_list l (Pandas.take_list ix order)
  = Pandas.take_list (Pandas.take_list l ix) order.
Proof.
  intros H. induction order as [|o order IH]; [reflexivity|].
  change (Pandas.take_list ix (o :: order))
    with ((match nth_error ix o with Some x => [x] | None => [] end)
            ++ Pandas.take_list ix order).
  change (Pandas.take_list (Pandas.take_list l ix) (o :: order))
    with ((match nth_error (Pandas.take_list l ix) o with
           | Some x => [x] | None => [] end)
            ++ Pandas.take_list (Pandas.take_list l ix) order).
  rewrite take_list_app, IH. f_equal.
  destruct l as [|d l'].
  - destruct ix as [|i ix'].
    + destruct o; reflexivity.
    + inversion H; subst. simpl in *. lia.
  - rewrite (take_list_nth d (d :: l') ix H), nth_error_map.
    destruct (nth_error ix o) as [i|] eqn:E; cbn [option_map]; [|reflexivity].
    unfold Pandas.take_list. cbn [flat_map]. rewrite app_nil_r.
    assert (i < List.length (d :: l'))%nat as Hi.
    { rewrite Forall_forall in H. apply H. eapply nth_error_In. exact E. }
    destruct (nth_error (d :: l') i) eqn:E2.
    + rewrite (nth_error_nth _ _ d E2). reflexivity.
    + apply nth_error_None in E2. lia.
Qed.

Lemma select_length_le {A : Type} (mask : list bool) (l : list A) :
  (List.length (Pandas.select mask l) <= List.length l)%nat.
Proof.
  revert l. induction mask as [|b mask IH]; intros [|x l]; simpl; try lia.
  specialize (IH l). destruct b; simpl; lia.
Qed.

Lemma select_In {A : Type} (mask : list bool) (l : list A) (x : A) :
  In x (Pandas.select mask l) -> In x l.
Proof.
  revert l. induction mask as [|b mask IH]; intros [|y l]; simpl; try tauto.
  destruct b; simpl; intros H.
  - destruct H; [left; assumption|right; apply IH; assumption].
  - right. apply IH. exact H.
Qed.

Lemma select_partition {A : Type} (mask : list bool) (l : list A) :
  List.length mask = List.length l ->
  Permutation (Pandas.select (map negb mask) l ++ Pandas.select mask l) l.
Proof.
  revert l. induction mask as [|b mask IH]; intros [|x l]; simpl; intros H;
    try discriminate; [constructor|].
  injection H as H. specialize (IH l H). destruct b; simpl.
  - apply Permutation_sym, Permutation_cons_app, Permutation_sym. exact IH.
  - constructor. exact IH.
Qed.

Lemma select_filter {A : Type} (p : A -> bool) (l : list A) :
  Pandas.select (map p l) l = List.filter p l.
Proof.
  induction l as [|x l IH]; simpl; [reflexivity|].
  destruct (p x); rewrite IH; reflexivity.
Qed.

(** ** Arrangements *)

Lemma is_arrangement_Permutation (n : nat) (order : list nat) :
  is_arrangement n order = true -> Permutation order (seq 0 n).
Proof.
  unfold is_arrangement. intros H. apply andb_true_iff in H.
  destruct H as [L I]. apply Nat.eqb_eq in L. rewrite forallb_forall in I.
  apply Permutation_sym. apply NoDup_Permutation_bis.
  - apply seq_NoDup.
  - rewrite length_seq. lia.
  - intros i Hi. specialize (I i Hi). apply existsb_exists in I.
    destruct I as [j [Hj E]]. apply Nat.eqb_eq in E. subst j. exact Hj.
Qed.

Lemma arrangement_bounds (n : nat) (order : list nat) :
  Permutation order (seq 0 n) -> Forall (fun i => (i < n)%nat) order.
Proof.
  intros H. apply Forall_forall. intros i Hi.
  apply (Permutation_in _ H) in Hi. apply in_seq in Hi. lia.
Qed.

(** ** Orders *)

Lemma ordered_cons {A : Type} (le : A -> A -> bool) (a : A) (l : list A) :
  ordered le (a :: l) = true <->
  (match l with [] => True | b :: _ => le a b = true end)
  /\ ordered le l = true.
Proof.
  destruct l as [|b l]; simpl.
  - tauto.
  - rewrite andb_true_iff. tauto.
Qed.

Lemma ordered_app {A : Type} (le : A -> A -> bool) (l1 l2 : list A) :
  ordered le l1 = true -> ordered le l2 = true ->
  (forall a b, In a l1 -> In b l2 -> le a b = true) ->
  ordered le (l1 ++ l2) = true.
Proof.
  intros H1 H2 H. induction l1 as [|a l1 IH]; [exact H2|].
  apply ordered_cons in H1. destruct H1 as [Ha H1].
  change ((a :: l1) ++ l2) with (a :: (l1 ++ l2)). apply ordered_cons. split.
  - destruct l1 as [|b l1]; simpl.
    + destruct l2 as [|b l2]; [exact I|].
      apply H; left; reflexivity.
    + exact Ha.
  - apply IH; [exact H1|]. intros x y Hx Hy. apply H; [right; exact Hx|exact Hy].
Qed.

Lemma ordered_rev {A : Type} (le : A -> A -> bool) (l : list A) :
  ordered le l = true -> ordered (fun a b => le b a) (rev l) = true.
Proof.
  induction l as [|a l IH]; [reflexivity|].
  intros H. apply ordered_cons in H. destruct H as [Ha H].
  simpl. destruct l as [|b l]; [reflexivity|].
  specialize (IH H).
  assert (forall (m : list A) (x y : A),
             ordered (fun a b => le b a) (m ++ [x]) = true ->
             le y x = true ->
             ordered (fun a b => le b a) ((m ++ [x]) ++ [y]) = true) as K.
  { induction m as [|z m IHm]; intros x y Hm Hxy.
    - simpl. rewrite Hxy. reflexivity.
    - change (((z :: m) ++ [x]) ++ [y]) with (z :: ((m ++ [x]) ++ [y])).
      change ((z :: m) ++ [x]) with (z :: (m ++ [x])) in Hm.
      apply ordered_cons in Hm. destruct Hm as [Hz Hm].
      apply ordered_cons. split; [|apply IHm; assumption].
      destruct m as [|w m]; exact Hz. }
  simpl in IH |- *. apply K; assumption.
Qed.

Lemma ordered_ext_in {A : Type} (le le' : A -> A -> bool) (l : list A) :
  (forall a b, In a l -> In b l -> le a b = true -> le' a b = true) ->
  ordered le l = true -> ordered le' l = true.
Proof.
  induction l as [|a l IH]; [reflexivity|].
  intros H Ho. apply ordered_cons in Ho. destruct Ho as [Ha Ho].
  apply ordered_cons. split.
  - destruct l as [|b l]; [exact I|].
    apply H; [left; reflexivity|right; left; reflexivity|exact Ha].
  - apply IH; [|exact Ho]. intros x y Hx Hy. apply H; right; assumption.
Qed.

(** ** The sort kernel puts any keys in order *)

Local Open Scope nat_scope.

(** *** Arrays of positions *)

Lemma length_set (a : list nat) (i x : nat) :
  List.length (Numpy.set a i x) = List.length a.
Proof.
  revert i. induction a as [|y a IH]; intros [|i]; simpl; auto.
Qed.

Lemma get_set_same (a : list nat) (i x : nat) :
  i < List.length a -> Numpy.get (Numpy.set a i x) i = x.
Proof.
  unfold Numpy.get. revert i.
  induction a as [|y a IH]; intros [|i] H; simpl in *; try lia; auto.
  apply IH. lia.
Qed.

Lemma get_set_other (a : list nat) (i k x : nat) :
  i <> k -> Numpy.get (Numpy.set a i x) k = Numpy.get a k.
Proof.
  unfold Numpy.get. revert i k.
  induction a as [|y a IH]; intros [|i] [|k] H; simpl in *; auto; try lia.
Qed.

Lemma set_set_same (a : list nat) (i x y : nat) :
  Numpy.set (Numpy.set a i x) i y = Numpy.set a i y.
Proof.
  revert i. induction a as [|z a IH]; intros [|i]; simpl; auto.
  now rewrite IH.
Qed.

Lemma set_get_same (a : list nat) (i : nat) :
  Numpy.set a i (Numpy.get a i) = a.
Proof.
  unfold Numpy.get. revert i.
  induction a as [|z a IH]; intros [|i]; simpl; auto.
  now rewrite IH.
Qed.

Lemma length_swap (a : list nat) (i j : nat) :
  List.length (Numpy.swap a i j) = List.length a.
Proof. unfold Numpy.swap. now rewrite !length_set. Qed.

Lemma get_swap_l (a : list nat) (i j : nat) :
  i < List.length a -> j < List.length a ->
  Numpy.get (Numpy.swap a i j) i = Numpy.get a j.
Proof.
  intros Hi Hj. unfold Numpy.swap.
  destruct (Nat.eq_dec j i) as [->|N].
  - rewrite get_set_same; [reflexivity|now rewrite length_set].
  - rewrite get_set_other by exact N. now apply get_set_same.
Qed.

Lemma get_swap_r (a : list nat) (i j : nat) :
  i < List.length a -> j < List.length a ->
  Numpy.get (Numpy.swap a i j) j = Numpy.get a i.
Proof.
  intros Hi Hj. unfold Numpy.swap.
  rewrite get_set_same; [reflexivity|now rewrite length_set].
Qed.

Lemma get_swap_other (a : list nat) (i j k : nat) :
  k <> i -> k <> j -> Numpy.get (Numpy.swap a i j) k = Numpy.get a k.
Proof.
  intros Hi Hj. unfold Numpy.swap.
  rewrite !get_set_other; auto.
Qed.

Lemma set_Permutation (a : list nat) (j x : nat) :
  j < List.length a ->
  Permutation (Numpy.get a j :: Numpy.set a j x) (x :: a).
Proof.
  unfold Numpy.get. revert j.
  induction a as [|y a IH]; intros [|j] H; simpl in *; try lia.
  - apply perm_swap.
  - eapply perm_trans; [apply perm_swap|].
    eapply perm_trans; [|apply perm_swap].
    apply perm_skip. apply IH. lia.
Qed.

Lemma swap_Permutation (a : list nat) (i j : nat) :
  i < List.length a -> j < List.length a -> Permutation (Numpy.swap a i j) a.
Proof.
  unfold Numpy.swap. revert i j.
  induction a as [|y a IH]; intros [|i] [|j] Hi Hj; simpl in *; try lia.
  - apply Permutation_refl.
  - change (Numpy.get (y :: a) (S j)) with (Numpy.get a j).
    apply set_Permutation. lia.
  - change (Numpy.get (y :: a) (S i)) with (Numpy.get a i).
    change (Numpy.get (y :: a) 0) with y.
    simpl. apply set_Permutation. lia.
  - change (Numpy.get (y :: a) (S j)) with (Numpy.get a j).
    change (Numpy.get (y :: a) (S i)) with (Numpy.get a i).
    apply perm_skip. apply IH; lia.
Qed.

Lemma get_In (a : list nat) (k : nat) :
  k < List.length a -> In (Numpy.get a k) a.
Proof. intros H. unfold Numpy.get. now apply nth_In. Qed.

Lemma get_Forall (P : nat -> Prop) (a : list nat) (k : nat) :
  Forall P a -> k < List.length a -> P (Numpy.get a k).
Proof.
  intros F H. rewrite Forall_forall in F. apply F. now apply get_In.
Qed.

Lemma get_firstn (a : list nat) (i k : nat) :
  k < i -> Numpy.get (firstn i a) k = Numpy.get a k.
Proof.
  unfold Numpy.get. revert i k.
  induction a as [|y a IH]; intros [|i] [|k] H; simpl; auto; try lia.
  apply IH. lia.
Qed.

Lemma get_skipn (a : list nat) (i k : nat) :
  Numpy.get (skipn i a) k = Numpy.get a (i + k).
Proof.
  unfold Numpy.get. revert i.
  induction a as [|y a IH]; intros [|i]; simpl; auto.
  now destruct k.
Qed.

Lemma Forall_get (P : nat -> Prop) (a : list nat) :
  (forall k, k < List.length a -> P (Numpy.get a k)) -> Forall P a.
Proof.
  induction a as [|y a IH]; intros H; constructor.
  - apply (H 0). simpl. lia.
  - apply IH. intros k Hk. apply (H (S k)). simpl. lia.
Qed.


(** *** Arrays read from position 1 *)

Lemma length_set1 (a : list nat) (i x : nat) :
  List.length (Numpy.set1 a i x) = List.length a.
Proof. apply length_set. Qed.

Lemma get1_set1_same (a : list nat) (i x : nat) :
  1 <= i -> i <= List.length a -> Numpy.get1 (Numpy.set1 a i x) i = x.
Proof.
  intros H1 H2. unfold Numpy.get1, Numpy.set1. apply get_set_same. lia.
Qed.

Lemma get1_set1_other (a : list nat) (i k x : nat) :
  1 <= i -> 1 <= k -> i <> k ->
  Numpy.get1 (Numpy.set1 a i x) k = Numpy.get1 a k.
Proof.
  intros H1 H2 H3. unfold Numpy.get1, Numpy.set1. apply get_set_other. lia.
Qed.

Lemma get1_Forall (P : nat -> Prop) (a : list nat) (k : nat) :
  Forall P a -> 1 <= k -> k <= List.length a -> P (Numpy.get1 a k).
Proof.
  intros F H1 H2. unfold Numpy.get1. apply get_Forall; [exact F|lia].
Qed.

Lemma hole_moves (a : list nat) (i j tmp : nat) :
  1 <= i -> i <= List.length a -> 1 <= j -> j <= List.length a -> i <> j ->
  Numpy.set1 (Numpy.set1 a i (Numpy.get1 a j)) j tmp
  = Numpy.swap (Numpy.set1 a i tmp) (Nat.pred i) (Nat.pred j).
Proof.
  intros H1 H2 H3 H4 H5. unfold Numpy.swap, Numpy.set1, Numpy.get1.
  rewrite get_set_other by lia. rewrite get_set_same by lia.
  rewrite set_set_same. reflexivity.
Qed.

(** The comparison [less] is a strict weak order on the positions [dom]
    that the array holds. *)
Section Kernel.

Variable less : nat -> nat -> bool.
Variable dom : nat -> Prop.

Hypothesis less_irrefl : forall x, dom x -> less x x = false.
Hypothesis less_trans : forall x y z, dom x -> dom y -> dom z ->
  less x y = true -> less y z = true -> less x z = true.
Hypothesis less_incomparable : forall x y z, dom x -> dom y -> dom z ->
  less x y = false -> less y z = false -> less x z = false.

Lemma less_asym (x y : nat) :
  dom x -> dom y -> less x y = true -> less y x = false.
Proof.
  intros Hx Hy H. destruct (less y x) eqn:E; [|reflexivity].
  rewrite <- (less_irrefl x Hx). symmetry.
  exact (less_trans x y x Hx Hy Hx H E).
Qed.

(** *** Sorting by insertion *)

Lemma insert_back_Permutation (vi : nat) (sorted : list nat) :
  Permutation (Numpy.insert_back less vi sorted) (vi :: sorted).
Proof.
  induction sorted as [|k sorted IH]; simpl; [apply Permutation_refl|].
  destruct (less vi k); [|apply Permutation_refl].
  eapply perm_trans; [apply perm_skip, IH|apply perm_swap].
Qed.

Lemma insert_back_ordered (vi : nat) (sorted : list nat) :
  dom vi -> Forall dom sorted ->
  ordered (fun a b => negb (less a b)) sorted = true ->
  ordered (fun a b => negb (less a b)) (Numpy.insert_back less vi sorted)
  = true.
Proof.
  intros Hv. induction sorted as [|k sorted IH]; intros F H; [reflexivity|].
  inversion F as [|? ? Hk F']; subst.
  apply ordered_cons in H. destruct H as [Hh Ht].
  simpl. destruct (less vi k) eqn:E.
  - apply ordered_cons. split; [|apply IH; assumption].
    destruct sorted as [|k2 sorted]; simpl.
    + rewrite (less_asym vi k Hv Hk E). reflexivity.
    + destruct (less vi k2).
      * exact Hh.
      * rewrite (less_asym vi k Hv Hk E). reflexivity.
  - apply ordered_cons. split.
    + rewrite E. reflexivity.
    + apply ordered_cons. split; assumption.
Qed.

Lemma insertion_fold (a sorted : list nat) :
  Forall dom a -> Forall dom sorted ->
  ordered (fun a b => negb (less a b)) sorted = true ->
  let out := fold_left (fun s vi => Numpy.insert_back less vi s) a sorted in
  Permutation out (rev a ++ sorted)
  /\ ordered (fun a b => negb (less a b)) out = true.
Proof.
  revert sorted. induction a as [|x a IH]; intros sorted Fa Fs H.
  - simpl. split; [apply Permutation_refl|exact H].
  - inversion Fa as [|? ? Hx Fa']; subst. simpl.
    assert (P := insert_back_Permutation x sorted).
    destruct (IH (Numpy.insert_back less x sorted) Fa') as [P' O'].
    + eapply Permutation_Forall; [apply Permutation_sym, P|].
      constructor; assumption.
    + apply insert_back_ordered; assumption.
    + split; [|exact O'].
      eapply perm_trans; [exact P'|].
      rewrite <- app_assoc. apply Permutation_app_head. exact P.
Qed.

Lemma insertion_sort_sorts (a : list nat) :
  Forall dom a ->
  Permutation (Numpy.insertion_sort less a) a
  /\ ordered (fun x y => negb (less y x)) (Numpy.insertion_sort less a) = true.
Proof.
  intros F. unfold Numpy.insertion_sort.
  destruct (insertion_fold a [] F (Forall_nil _) eq_refl) as [P O].
  split.
  - eapply perm_trans; [apply Permutation_sym, Permutation_rev|].
    eapply perm_trans; [exact P|]. rewrite app_nil_r.
    apply Permutation_sym, Permutation_rev.
  - apply (ordered_rev _ _ O).
Qed.

(** *** One split *)

Lemma scan_up_spec (a : list nat) (vp : nat) (fuel i j : nat) :
  i < j -> j <= i + fuel -> less (Numpy.get a j) vp = false ->
  i < Numpy.scan_up less fuel a vp i
  /\ Numpy.scan_up less fuel a vp i <= j
  /\ less (Numpy.get a (Numpy.scan_up less fuel a vp i)) vp = false
  /\ forall k, i < k -> k < Numpy.scan_up less fuel a vp i ->
               less (Numpy.get a k) vp = true.
Proof.
  revert i. induction fuel as [|fuel IH]; intros i Hij Hf Hj; [lia|].
  simpl. destruct (less (Numpy.get a (S i)) vp) eqn:E.
  - assert (S i <> j) by (intros Q; rewrite Q in E; congruence).
    destruct (IH (S i)) as (A & B & C & D); try lia; try assumption.
    repeat split; try lia; try assumption.
    intros k H1 H2. destruct (Nat.eq_dec k (S i)) as [->|N]; [exact E|].
    apply D; lia.
  - repeat split; try lia; try assumption.
Qed.

Lemma scan_down_spec (a : list nat) (vp : nat) (fuel i j : nat) :
  i < j -> j <= i + fuel -> less vp (Numpy.get a i) = false ->
  i <= Numpy.scan_down less fuel a vp j
  /\ Numpy.scan_down less fuel a vp j < j
  /\ less vp (Numpy.get a (Numpy.scan_down less fuel a vp j)) = false
  /\ forall k, Numpy.scan_down less fuel a vp j < k -> k < j ->
               less vp (Numpy.get a k) = true.
Proof.
  revert j. induction fuel as [|fuel IH]; intros j Hij Hf Hi; [lia|].
  simpl. destruct (less vp (Numpy.get a (Nat.pred j))) eqn:E.
  - assert (Nat.pred j <> i) by (intros Q; rewrite Q in E; congruence).
    destruct (IH (Nat.pred j)) as (A & B & C & D); try lia; try assumption.
    repeat split; try lia; try assumption.
    intros k H1 H2. destruct (Nat.eq_dec k (Nat.pred j)) as [->|N]; [exact E|].
    apply D; lia.
  - repeat split; try lia; try assumption.
Qed.

Lemma exchange_spec (vp : nat) (fuel : nat) :
  dom vp ->
  forall (a : list nat) (i j : nat),
    Forall dom a ->
    i < j -> j < List.length a -> j < i + fuel ->
    (forall k, k <= i -> less vp (Numpy.get a k) = false) ->
    (forall k, j <= k -> k < List.length a -> less (Numpy.get a k) vp = false) ->
    let out := Numpy.exchange less fuel a vp i j in
    Permutation (fst out) a
    /\ snd out <= j
    /\ (forall k, k < snd out -> less vp (Numpy.get (fst out) k) = false)
    /\ (forall k, snd out <= k -> k < List.length a ->
                  less (Numpy.get (fst out) k) vp = false)
    /\ (forall k, j <= k -> Numpy.get (fst out) k = Numpy.get a k).
Proof.
  intros Hvp. induction fuel as [|fuel IH]; intros a i j F Hij Hj Hf L R; [lia|].
  simpl.
  destruct (scan_up_spec a vp (List.length a) i j) as (U1 & U2 & U3 & U4);
    try lia; [apply R; lia|].
  destruct (scan_down_spec a vp (List.length a) i j) as (D1 & D2 & D3 & D4);
    try lia; [apply L; lia|].
  set (i' := Numpy.scan_up less (List.length a) a vp i) in *.
  set (j' := Numpy.scan_down less (List.length a) a vp j) in *.
  assert (Below : forall k, k < i' -> less vp (Numpy.get a k) = false).
  { intros k Hk. destruct (Nat.le_gt_cases k i) as [Q|Q]; [apply L; exact Q|].
    apply less_asym; try assumption;
      [apply get_Forall; [assumption|lia]|apply U4; lia]. }
  assert (Above : forall k, j' < k -> k < List.length a ->
                            less (Numpy.get a k) vp = false).
  { intros k Hk Hl. destruct (Nat.le_gt_cases j k) as [Q|Q]; [apply R; assumption|].
    apply less_asym; try assumption;
      [apply get_Forall; [assumption|lia]|apply D4; lia]. }
  destruct (j' <=? i') eqn:E.
  - apply Nat.leb_le in E. simpl.
    split; [apply Permutation_refl|]. split; [exact U2|].
    split; [exact Below|]. split; [|reflexivity].
    intros k H1 H2. destruct (Nat.eq_dec k i') as [->|N]; [exact U3|].
    apply Above; lia.
  - apply Nat.leb_gt in E.
    assert (Li : i' < List.length a) by lia.
    assert (Lj : j' < List.length a) by lia.
    destruct (IH (Numpy.swap a i' j') i' j') as (P & B & C & D & G);
      try (rewrite length_swap); try lia.
    + eapply Permutation_Forall; [apply Permutation_sym, swap_Permutation|];
        assumption.
    + intros k Hk. destruct (Nat.eq_dec k i') as [->|N].
      * rewrite get_swap_l by assumption. exact D3.
      * rewrite get_swap_other by lia. apply Below. lia.
    + intros k Hk Hl. destruct (Nat.eq_dec k j') as [->|N].
      * rewrite get_swap_r by assumption. exact U3.
      * rewrite get_swap_other by lia. apply Above; lia.
    + split; [eapply perm_trans; [exact P|apply swap_Permutation; assumption]|].
      split; [lia|]. split; [exact C|]. split.
      * intros k H1 H2. apply D; [exact H1|]. rewrite length_swap. exact H2.
      * intros k Hk. rewrite G by lia. apply get_swap_other; lia.
Qed.

Lemma swap_if_less_spec (a : list nat) (i j : nat) :
  i < List.length a -> j < List.length a -> Forall dom a ->
  let a' := Numpy.swap_if_less less a i j in
  List.length a' = List.length a
  /\ Permutation a' a
  /\ less (Numpy.get a' i) (Numpy.get a' j) = false
  /\ (forall k, k <> i -> k <> j -> Numpy.get a' k = Numpy.get a k)
  /\ ((Numpy.get a' i = Numpy.get a i /\ Numpy.get a' j = Numpy.get a j)
      \/ (Numpy.get a' i = Numpy.get a j /\ Numpy.get a' j = Numpy.get a i
          /\ less (Numpy.get a i) (Numpy.get a j) = true)).
Proof.
  intros Hi Hj F. unfold Numpy.swap_if_less.
  destruct (less (Numpy.get a i) (Numpy.get a j)) eqn:E; cbv zeta.
  - split; [apply length_swap|]. split; [now apply swap_Permutation|].
    rewrite get_swap_l, get_swap_r by assumption.
    split; [apply less_asym; try assumption; now apply get_Forall|].
    split; [intros k H1 H2; now apply get_swap_other|].
    right. auto.
  - split; [reflexivity|]. split; [apply Permutation_refl|].
    split; [exact E|]. split; [reflexivity|]. left. auto.
Qed.

Lemma div2_halves (n : nat) :
  n = Nat.div2 n + Nat.div2 n \/ n = S (Nat.div2 n + Nat.div2 n).
Proof.
  pose proof (Nat.div2_odd n) as H. destruct (Nat.odd n); simpl in H; lia.
Qed.

Lemma partition_spec (a : list nat) :
  3 <= List.length a -> Forall dom a ->
  let out := Numpy.partition less a in
  Permutation (fst out) a
  /\ snd out < List.length a
  /\ (forall k, k < snd out ->
        less (Numpy.get (fst out) (snd out)) (Numpy.get (fst out) k) = false)
  /\ (forall k, snd out < k -> k < List.length a ->
        less (Numpy.get (fst out) k) (Numpy.get (fst out) (snd out)) = false).
Proof.
  intros Hn F. unfold Numpy.partition.
  set (pr := Nat.pred (List.length a)).
  set (pm := Nat.div2 pr).
  assert (Hpr : pr = List.length a - 1) by (unfold pr; lia).
  assert (Hpm : 1 <= pm /\ pm < pr)
    by (unfold pm; destruct (div2_halves pr); lia).
  destruct (swap_if_less_spec a pm 0) as (L1 & P1 & O1 & K1 & C1);
    try lia; try assumption.
  set (a1 := Numpy.swap_if_less less a pm 0) in *.
  assert (F1 : Forall dom a1)
    by (eapply Permutation_Forall; [apply Permutation_sym, P1|exact F]).
  destruct (swap_if_less_spec a1 pr pm) as (L2 & P2 & O2 & K2 & C2);
    try lia; try assumption.
  set (a2 := Numpy.swap_if_less less a1 pr pm) in *.
  assert (F2 : Forall dom a2)
    by (eapply Permutation_Forall; [apply Permutation_sym, P2|exact F1]).
  destruct (swap_if_less_spec a2 pm 0) as (L3 & P3 & O3 & K3 & C3);
    try lia; try assumption.
  set (a3 := Numpy.swap_if_less less a2 pm 0) in *.
  assert (F3 : Forall dom a3)
    by (eapply Permutation_Forall; [apply Permutation_sym, P3|exact F2]).
  assert (M : less (Numpy.get a3 pr) (Numpy.get a3 pm) = false).
  { rewrite (K3 pr) by lia.
    destruct C3 as [[E1 E2]|(E1 & E2 & E3)].
    - rewrite E1. exact O2.
    - rewrite E1. rewrite (K2 0) in * by lia.
      destruct C2 as [[G1 G2]|(G1 & G2 & G3)].
      + rewrite G2 in E3. congruence.
      + rewrite G1. exact O1. }
  set (vp := Numpy.get a3 pm) in *.
  set (pj := Nat.pred pr).
  assert (Hpj : pj = pr - 1) by (unfold pj; lia).
  set (a4 := Numpy.swap a3 pm pj).
  assert (L4 : List.length a4 = List.length a)
    by (unfold a4; rewrite length_swap; lia).
  assert (P4 : Permutation a4 a3)
    by (apply swap_Permutation; lia).
  assert (F4 : Forall dom a4)
    by (eapply Permutation_Forall; [apply Permutation_sym, P4|exact F3]).
  assert (Hvp : dom vp) by (apply get_Forall; [exact F3|lia]).
  assert (V4 : Numpy.get a4 pj = vp)
    by (unfold a4; rewrite get_swap_r by lia; reflexivity).
  pose proof (exchange_spec vp (List.length a4) Hvp a4 0 pj F4) as X.
  destruct X as (P5 & B5 & C5 & D5 & G5); try lia.
  { intros k Hk. assert (k = 0) as -> by lia.
    unfold a4. rewrite get_swap_other by lia. exact O3. }
  { intros k H1 H2. destruct (Nat.eq_dec k pj) as [->|N].
    - rewrite V4. now apply less_irrefl.
    - assert (k = pr) as -> by lia.
      unfold a4. rewrite get_swap_other by lia. exact M. }
  destruct (Numpy.exchange less (List.length a4) a4 vp 0 pj) as [a5 i].
  simpl in *.
  assert (L5 : List.length a5 = List.length a)
    by (rewrite (Permutation_length P5); exact L4).
  assert (V5 : Numpy.get a5 pj = vp) by (rewrite G5 by lia; exact V4).
  split.
  { eapply perm_trans; [apply swap_Permutation; lia|].
    eapply perm_trans; [exact P5|]. eapply perm_trans; [exact P4|].
    eapply perm_trans; [exact P3|]. eapply perm_trans; [exact P2|exact P1]. }
  split; [lia|].
  rewrite get_swap_l by lia. fold pj. rewrite V5. split.
  - intros k Hk. rewrite get_swap_other by lia. apply C5. exact Hk.
  - intros k H1 H2. destruct (Nat.eq_dec k pj) as [->|N].
    + rewrite get_swap_r by lia. apply D5; lia.
    + rewrite get_swap_other by lia. apply D5; lia.
Qed.

(** *** Heap sort

    [sift] moves a hole down the heap; the array with the value [tmp] put
    in the hole is what the statements are about. *)

Ltac cells :=
  repeat first
    [ rewrite get1_set1_same by (try rewrite !length_set1; lia)
    | rewrite get1_set1_other by lia ].

Lemma sift_spec (n lo tmp : nat) (fuel : nat) :
  forall (a : list nat) (i j : nat),
    1 <= lo -> lo <= i -> i <= n -> n <= List.length a -> j = i + i ->
    n < j + fuel ->
    Forall dom (Numpy.set1 a i tmp) ->
    (forall p c, lo <= p -> p <> i -> c <= n -> (c = p + p \/ c = S (p + p)) ->
       less (Numpy.get1 (Numpy.set1 a i tmp) p)
            (Numpy.get1 (Numpy.set1 a i tmp) c) = false) ->
    (forall p c, lo <= p -> (i = p + p \/ i = S (p + p)) -> c <= n ->
       (c = i + i \/ c = S (i + i)) ->
       less (Numpy.get1 (Numpy.set1 a i tmp) p)
            (Numpy.get1 (Numpy.set1 a i tmp) c) = false) ->
    Permutation (Numpy.sift less fuel a n tmp i j) (Numpy.set1 a i tmp)
    /\ (forall p c, lo <= p -> c <= n -> (c = p + p \/ c = S (p + p)) ->
          less (Numpy.get1 (Numpy.sift less fuel a n tmp i j) p)
               (Numpy.get1 (Numpy.sift less fuel a n tmp i j) c) = false)
    /\ (forall k, 1 <= k -> k < lo \/ n < k ->
          Numpy.get1 (Numpy.sift less fuel a n tmp i j) k
          = Numpy.get1 (Numpy.set1 a i tmp) k)
    /\ (forall P : nat -> Prop,
          (forall k, lo <= k -> k <= n -> P (Numpy.get1 (Numpy.set1 a i tmp) k)) ->
          forall k, lo <= k -> k <= n ->
                    P (Numpy.get1 (Numpy.sift less fuel a n tmp i j) k)).
Proof.
  induction fuel as [|fuel IH]; intros a i j Hlo Hi Hn Hl Hj Hf F Heap Grand.
  - simpl. split; [apply Permutation_refl|]. split.
    + intros p c Hp Hc Hpc. destruct (Nat.eq_dec p i) as [->|N]; [lia|].
      now apply Heap.
    + split; [reflexivity|]. intros P HP. exact HP.
  - assert (Stop : let b := Numpy.set1 a i tmp in
             (forall c, c <= n -> (c = i + i \/ c = S (i + i)) ->
                        less (Numpy.get1 b i) (Numpy.get1 b c) = false) ->
             Permutation b b
             /\ (forall p c, lo <= p -> c <= n -> (c = p + p \/ c = S (p + p)) ->
                   less (Numpy.get1 b p) (Numpy.get1 b c) = false)
             /\ (forall k, 1 <= k -> k < lo \/ n < k ->
                   Numpy.get1 b k = Numpy.get1 b k)
             /\ (forall P : nat -> Prop,
                   (forall k, lo <= k -> k <= n -> P (Numpy.get1 b k)) ->
                   forall k, lo <= k -> k <= n -> P (Numpy.get1 b k))).
    { intros b Hb. split; [apply Permutation_refl|]. split.
      - intros p c Hp Hc Hpc. destruct (Nat.eq_dec p i) as [->|N].
        + now apply Hb.
        + now apply Heap.
      - split; [reflexivity|]. intros P HP. exact HP. }
    simpl. destruct (j <=? n) eqn:E.
    2:{ apply Nat.leb_gt in E. apply Stop. intros c Hc Hic. lia. }
    apply Nat.leb_le in E.
    set (b := Numpy.set1 a i tmp) in *.
    set (js := if (j <? n) && less (Numpy.get1 a j) (Numpy.get1 a (S j))
               then S j else j).
    assert (Db : forall k, 1 <= k -> k <= List.length a -> dom (Numpy.get1 b k)).
    { intros k H1 H2. apply get1_Forall; [exact F|exact H1|].
      unfold b. rewrite length_set1. exact H2. }
    assert (Bi : Numpy.get1 b i = tmp) by (unfold b; cells; reflexivity).
    assert (Bo : forall k, 1 <= k -> k <> i -> Numpy.get1 b k = Numpy.get1 a k)
      by (intros k H1 H2; unfold b; cells; reflexivity).
    assert (Js : (js = j \/ js = S j) /\ js <= n
                 /\ forall c, c <= n -> (c = j \/ c = S j) ->
                      less (Numpy.get1 b js) (Numpy.get1 b c) = false).
    { unfold js. destruct (j <? n) eqn:E1; simpl.
      - apply Nat.ltb_lt in E1.
        destruct (less (Numpy.get1 a j) (Numpy.get1 a (S j))) eqn:E2.
        + split; [right; reflexivity|]. split; [lia|].
          intros c Hc [->| ->].
          * rewrite <- (Bo j), <- (Bo (S j)) in E2 by lia.
            apply less_asym; [apply Db; lia|apply Db; lia|exact E2].
          * apply less_irrefl. apply Db; lia.
        + split; [left; reflexivity|]. split; [lia|].
          intros c Hc [->| ->].
          * apply less_irrefl. apply Db; lia.
          * rewrite (Bo j), (Bo (S j)) by lia. exact E2.
      - apply Nat.ltb_ge in E1. split; [left; reflexivity|]. split; [lia|].
        intros c Hc [->| ->]; [|lia]. apply less_irrefl. apply Db; lia. }
    destruct Js as (J1 & J2 & J3).
    assert (J4 : 1 <= js /\ js <> i /\ js <= List.length a) by lia.
    destruct (less tmp (Numpy.get1 a js)) eqn:E3.
    2:{ apply Stop. intros c Hc Hic. fold b. rewrite Bi.
        apply (less_incomparable tmp (Numpy.get1 b js) (Numpy.get1 b c)).
        - rewrite <- Bi. apply Db; lia.
        - apply Db; lia.
        - apply Db; lia.
        - rewrite Bo by lia. exact E3.
        - apply J3; [exact Hc|lia]. }
    assert (Eb : Numpy.set1 (Numpy.set1 a i (Numpy.get1 a js)) js tmp
                 = Numpy.swap b (Nat.pred i) (Nat.pred js))
      by (apply hole_moves; lia).
    assert (Pb : Permutation
                   (Numpy.set1 (Numpy.set1 a i (Numpy.get1 a js)) js tmp) b).
    { rewrite Eb. apply swap_Permutation; unfold b; rewrite length_set1; lia. }
    assert (Ni : Numpy.get1
                   (Numpy.set1 (Numpy.set1 a i (Numpy.get1 a js)) js tmp) i
                 = Numpy.get1 b js).
    { cells. rewrite Bo by lia. reflexivity. }
    assert (Nj : Numpy.get1
                   (Numpy.set1 (Numpy.set1 a i (Numpy.get1 a js)) js tmp) js
                 = Numpy.get1 b i).
    { cells. rewrite Bi. reflexivity. }
    assert (No : forall k, 1 <= k -> k <> i -> k <> js ->
                   Numpy.get1
                     (Numpy.set1 (Numpy.set1 a i (Numpy.get1 a js)) js tmp) k
                   = Numpy.get1 b k).
    { intros k H1 H2 H3. cells. rewrite Bo by lia. reflexivity. }
    destruct (IH (Numpy.set1 a i (Numpy.get1 a js)) js (js + js))
      as (P & H & O & Q); try lia.
    + rewrite length_set1. lia.
    + eapply Permutation_Forall; [apply Permutation_sym, Pb|exact F].
    + intros p c Hp Hpj Hc Hpc.
      destruct (Nat.eq_dec p i) as [->|N].
      * rewrite Ni. destruct (Nat.eq_dec c js) as [->|Nc].
        -- rewrite Nj, Bi. apply less_asym.
           ++ rewrite <- Bi. apply Db; lia.
           ++ apply Db; lia.
           ++ rewrite Bo by lia. exact E3.
        -- rewrite No by lia. apply J3; [exact Hc|lia].
      * rewrite (No p) by lia.
        destruct (Nat.eq_dec c i) as [->|Nc].
        -- rewrite Ni. apply Grand; try lia.
        -- rewrite (No c) by lia. apply Heap; assumption.
    + intros p c Hp Hpj Hc Hpc.
      assert (p = i) as -> by lia.
      rewrite Ni, No by lia. apply Heap; try lia.
    + split; [eapply perm_trans; [exact P|exact Pb]|].
      split; [exact H|]. split.
      * intros k H1 H2. rewrite O by assumption. apply No; lia.
      * intros P0 HP. apply Q. intros k H1 H2.
        destruct (Nat.eq_dec k i) as [->|N1]; [rewrite Ni; apply HP; lia|].
        destruct (Nat.eq_dec k js) as [->|N2]; [rewrite Nj; apply HP; lia|].
        rewrite No by lia. apply HP; assumption.
Qed.

Lemma set1_get1_same (a : list nat) (i : nat) :
  Numpy.set1 a i (Numpy.get1 a i) = a.
Proof. unfold Numpy.set1, Numpy.get1. apply set_get_same. Qed.

Lemma heapify_spec (n : nat) :
  forall (l : nat) (a : list nat),
    l <= n -> n <= List.length a -> Forall dom a ->
    (forall p c, S l <= p -> c <= n -> (c = p + p \/ c = S (p + p)) ->
       less (Numpy.get1 a p) (Numpy.get1 a c) = false) ->
    Permutation (Numpy.heapify less l a n) a
    /\ (forall p c, 1 <= p -> c <= n -> (c = p + p \/ c = S (p + p)) ->
          less (Numpy.get1 (Numpy.heapify less l a n) p)
               (Numpy.get1 (Numpy.heapify less l a n) c) = false).
Proof.
  induction l as [|l IH]; intros a Hl Hn F Heap.
  - simpl. split; [apply Permutation_refl|exact Heap].
  - simpl.
    destruct (sift_spec n (S l) (Numpy.get1 a (S l)) n a (S l) (S (l + S l)))
      as (P & H & _ & _); try lia.
    + rewrite set1_get1_same. exact F.
    + rewrite set1_get1_same. intros p c Hp Np Hc Hpc. apply Heap; try lia.
    + rewrite set1_get1_same in P.
      destruct (IH (Numpy.sift less n a n (Numpy.get1 a (S l)) (S l)
                      (S (l + S l)))) as (P' & H'); try lia.
      * rewrite (Permutation_length P). exact Hn.
      * eapply Permutation_Forall; [apply Permutation_sym, P|exact F].
      * exact H.
      * split; [eapply perm_trans; [exact P'|exact P]|exact H'].
Qed.

Lemma heap_root (n : nat) (a : list nat) :
  n <= List.length a -> Forall dom a ->
  (forall p c, 1 <= p -> c <= n -> (c = p + p \/ c = S (p + p)) ->
     less (Numpy.get1 a p) (Numpy.get1 a c) = false) ->
  forall k, 1 <= k -> k <= n ->
    less (Numpy.get1 a 1) (Numpy.get1 a k) = false.
Proof.
  intros Hn F Heap k. induction k as [k IH] using lt_wf_ind. intros H1 H2.
  destruct (Nat.eq_dec k 1) as [->|N].
  - apply less_irrefl. apply get1_Forall; [exact F|lia|lia].
  - assert (Hp : 1 <= Nat.div2 k /\ Nat.div2 k < k)
      by (destruct (div2_halves k); lia).
    apply (less_incomparable _ (Numpy.get1 a (Nat.div2 k))).
    + apply get1_Forall; [exact F|lia|lia].
    + apply get1_Forall; [exact F|lia|lia].
    + apply get1_Forall; [exact F|lia|lia].
    + apply IH; lia.
    + apply Heap; [lia|lia|]. destruct (div2_halves k); [left|right]; assumption.
Qed.

Lemma extract_spec :
  forall (n : nat) (a : list nat),
    n <= List.length a -> Forall dom a ->
    (forall p c, 1 <= p -> c <= n -> (c = p + p \/ c = S (p + p)) ->
       less (Numpy.get1 a p) (Numpy.get1 a c) = false) ->
    (forall k m, 1 <= k -> k < m -> n < m -> m <= List.length a ->
       less (Numpy.get1 a m) (Numpy.get1 a k) = false) ->
    Permutation (Numpy.extract less n a) a
    /\ (forall k m, 1 <= k -> k < m -> m <= List.length a ->
          less (Numpy.get1 (Numpy.extract less n a) m)
               (Numpy.get1 (Numpy.extract less n a) k) = false).
Proof.
  induction n as [|n' IH]; intros a Hn F Heap Sorted.
  - simpl. split; [apply Permutation_refl|].
    intros k m H1 H2 H3. apply Sorted; lia.
  - destruct n' as [|n''].
    + simpl. split; [apply Permutation_refl|].
      intros k m H1 H2 H3. apply Sorted; lia.
    + set (n := S (S n'')) in *. set (n' := S n'') in *.
      change (Numpy.extract less n a)
        with (Numpy.extract less n'
                (Numpy.sift less n' (Numpy.set1 a n (Numpy.get1 a 1)) n'
                   (Numpy.get1 a n) 1 2)).
      set (a2 := Numpy.set1 a n (Numpy.get1 a 1)).
      set (tmp := Numpy.get1 a n).
      set (b := Numpy.set1 a2 1 tmp).
      assert (Hn' : n = S n') by reflexivity.
      assert (Hn'' : 1 <= n') by (unfold n'; lia).
      assert (B1 : Numpy.get1 b 1 = Numpy.get1 a n)
        by (unfold b, a2; cells; reflexivity).
      assert (Bn : Numpy.get1 b n = Numpy.get1 a 1)
        by (unfold b, a2; cells; reflexivity).
      assert (Bo : forall k, 1 <= k -> k <> 1 -> k <> n ->
                     Numpy.get1 b k = Numpy.get1 a k)
        by (intros k H1 H2 H3; unfold b, a2; cells; reflexivity).
      assert (Pb : Permutation b a).
      { unfold b, a2, tmp. rewrite hole_moves by lia.
        rewrite set1_get1_same. apply swap_Permutation; lia. }
      assert (Lb : List.length b = List.length a)
        by (apply Permutation_length; exact Pb).
      assert (Fb : Forall dom b)
        by (eapply Permutation_Forall; [apply Permutation_sym, Pb|exact F]).
      assert (Inb : forall k, 1 <= k -> k <= n' ->
                      exists k', 1 <= k' /\ k' <= n
                                 /\ Numpy.get1 b k = Numpy.get1 a k').
      { intros k H1 H2. destruct (Nat.eq_dec k 1) as [->|N].
        - exists n. rewrite B1. repeat split; lia.
        - exists k. rewrite Bo by lia. repeat split; lia. }
      destruct (sift_spec n' 1 tmp n' a2 1 2) as (P1 & H1 & O1 & Q1);
        try lia.
      * unfold a2. rewrite length_set1. lia.
      * exact Fb.
      * fold b. intros p c Hp Np Hc Hpc.
        rewrite !Bo by lia. apply Heap; lia.
      * fold b in P1, O1, Q1.
        set (r1 := Numpy.sift less n' a2 n' tmp 1 2) in *.
        assert (L1 : List.length r1 = List.length a)
          by (rewrite (Permutation_length P1); exact Lb).
        destruct (IH r1) as (P2 & S2); try lia.
        -- eapply Permutation_Forall; [apply Permutation_sym, P1|exact Fb].
        -- exact H1.
        -- intros k m Hk Hkm Hm Hml. rewrite L1 in Hml.
           rewrite (O1 m) by lia.
           destruct (Nat.eq_dec m n) as [->|Nm].
           ++ rewrite Bn. apply (Q1 (fun x => less (Numpy.get1 a 1) x = false));
                try lia.
              intros k0 G1 G2. destruct (Inb k0 G1 G2) as (k' & I1 & I2 & ->).
              apply heap_root with (n := n); assumption.
           ++ rewrite Bo by lia.
              destruct (Nat.le_gt_cases k n') as [Q|Q].
              ** apply (Q1 (fun x => less (Numpy.get1 a m) x = false)); try lia.
                 intros k0 G1 G2. destruct (Inb k0 G1 G2) as (k' & I1 & I2 & ->).
                 apply Sorted; lia.
              ** rewrite (O1 k) by lia.
                 destruct (Nat.eq_dec k n) as [->|Nk].
                 --- rewrite Bn. apply Sorted; lia.
                 --- rewrite Bo by lia. apply Sorted; lia.
        -- split.
           ++ eapply perm_trans; [exact P2|].
              eapply perm_trans; [exact P1|exact Pb].
           ++ intros k m G1 G2 G3. apply S2; try lia.
Qed.

Lemma ordered_get (a : list nat) :
  (forall k, S k < List.length a ->
     less (Numpy.get a (S k)) (Numpy.get a k) = false) ->
  ordered (fun x y => negb (less y x)) a = true.
Proof.
  induction a as [|x a IH]; intros H; [reflexivity|].
  apply ordered_cons. split.
  - destruct a as [|y a]; [exact I|].
    specialize (H 0). simpl in H. unfold Numpy.get in H. simpl in H.
    rewrite H by lia. reflexivity.
  - apply IH. intros k Hk. apply (H (S k)). simpl. lia.
Qed.

Lemma heapsort_sorts (a : list nat) :
  Forall dom a ->
  Permutation (Numpy.heapsort less a) a
  /\ ordered (fun x y => negb (less y x)) (Numpy.heapsort less a) = true.
Proof.
  intros F. unfold Numpy.heapsort.
  set (n := List.length a).
  destruct (heapify_spec n (Nat.div2 n) a) as (P & H); try (unfold n; lia).
  - destruct (div2_halves n); lia.
  - exact F.
  - intros p c Hp Hc Hpc. destruct (div2_halves n); lia.
  - set (h := Numpy.heapify less (Nat.div2 n) a n) in *.
    assert (L : List.length h = n) by (apply Permutation_length; exact P).
    destruct (extract_spec n h) as (P' & S'); try lia.
    + eapply Permutation_Forall; [apply Permutation_sym, P|exact F].
    + exact H.
    + split; [eapply perm_trans; [exact P'|exact P]|].
      apply ordered_get. intros k Hk.
      rewrite (Permutation_length P'), L in Hk.
      apply (S' (S k) (S (S k))); lia.
Qed.

(** *** The sort of a range *)

Lemma ordered_around (l r : list nat) (p : nat) :
  ordered (fun x y => negb (less y x)) l = true ->
  ordered (fun x y => negb (less y x)) r = true ->
  Forall (fun x => less p x = false) l ->
  Forall (fun x => less x p = false) r ->
  ordered (fun x y => negb (less y x)) (l ++ [p] ++ r) = true.
Proof.
  intros Hl Hr Fl Fr. induction l as [|x l IH].
  - change ([] ++ [p] ++ r) with (p :: r).
    apply ordered_cons. split; [|exact Hr].
    destruct r as [|y r]; [exact I|]. inversion Fr; subst.
    now apply negb_true_iff.
  - inversion Fl as [|? ? Hx Fl']; subst.
    apply ordered_cons in Hl. destruct Hl as [Hh Ht].
    change ((x :: l) ++ [p] ++ r) with (x :: (l ++ [p] ++ r)).
    apply ordered_cons. split; [|apply IH; assumption].
    destruct l as [|y l]; simpl.
    + now apply negb_true_iff.
    + exact Hh.
Qed.

Lemma firstn_skipn_get (a : list nat) (i : nat) :
  i < List.length a ->
  a = firstn i a ++ [Numpy.get a i] ++ skipn (S i) a.
Proof.
  unfold Numpy.get. revert i.
  induction a as [|x a IH]; intros [|i] H; simpl in *; try lia.
  - reflexivity.
  - f_equal. apply IH. lia.
Qed.

Lemma Forall_firstn_skipn (P : nat -> Prop) (a : list nat) (i : nat) :
  Forall P a -> Forall P (firstn i a) /\ Forall P (skipn i a).
Proof. intros F. apply Forall_app. rewrite firstn_skipn. exact F. Qed.

Lemma quicksort_range_step (fuel : nat) (popped : bool) (cdepth : Z)
  (a : list nat) :
  Numpy.quicksort_range less (S fuel) popped cdepth a
  = if popped && (cdepth <? 0)%Z then Numpy.heapsort less a
    else if Numpy.SMALL_QUICKSORT <? Nat.pred (List.length a) then
      let '(a, i) := Numpy.partition less a in
      let smaller_left := i <? Nat.pred (List.length a) - i in
      Numpy.quicksort_range less fuel (negb smaller_left) (cdepth - 1)%Z
        (firstn i a)
      ++ [Numpy.get a i]
      ++ Numpy.quicksort_range less fuel smaller_left (cdepth - 1)%Z
           (skipn (S i) a)
    else Numpy.insertion_sort less a.
Proof. reflexivity. Qed.

Lemma quicksort_range_sorts (fuel : nat) :
  forall (popped : bool) (cdepth : Z) (a : list nat),
    List.length a <= fuel -> Forall dom a ->
    Permutation (Numpy.quicksort_range less fuel popped cdepth a) a
    /\ ordered (fun x y => negb (less y x))
         (Numpy.quicksort_range less fuel popped cdepth a) = true.
Proof.
  induction fuel as [|fuel IH]; intros popped cdepth a Hf F.
  - destruct a; [|simpl in Hf; lia]. simpl.
    split; [apply Permutation_refl|reflexivity].
  - rewrite quicksort_range_step.
    destruct (popped && (cdepth <? 0)%Z); [now apply heapsort_sorts|].
    destruct (Numpy.SMALL_QUICKSORT <? Nat.pred (List.length a)) eqn:E;
      [|now apply insertion_sort_sorts].
    apply Nat.ltb_lt in E. unfold Numpy.SMALL_QUICKSORT in E.
    destruct (partition_spec a) as (P & Hi & Lo & Hi'); [lia|exact F|].
    destruct (Numpy.partition less a) as [a' i]. simpl in P, Hi, Lo, Hi'.
    cbv zeta.
    assert (La : List.length a' = List.length a)
      by (apply Permutation_length; exact P).
    assert (Fa : Forall dom a')
      by (eapply Permutation_Forall; [apply Permutation_sym, P|exact F]).
    assert (Split := firstn_skipn_get a' i ltac:(lia)).
    assert (Fl : Forall dom (firstn i a')) by (apply Forall_firstn_skipn; exact Fa).
    assert (Fr : Forall dom (skipn (S i) a')) by (apply Forall_firstn_skipn; exact Fa).
    destruct (IH (negb (i <? Nat.pred (List.length a') - i)) (cdepth - 1)%Z
                (firstn i a')) as (Pl & Ol); [rewrite length_firstn; lia|exact Fl|].
    destruct (IH (i <? Nat.pred (List.length a') - i) (cdepth - 1)%Z
                (skipn (S i) a')) as (Pr & Or); [rewrite length_skipn; lia|exact Fr|].
    split.
    + eapply perm_trans; [|exact P].
      eapply perm_trans;
        [apply Permutation_app;
           [exact Pl|apply Permutation_app; [apply Permutation_refl|exact Pr]]|].
      rewrite <- Split. apply Permutation_refl.
    + apply ordered_around; try assumption.
      * eapply Permutation_Forall; [apply Permutation_sym, Pl|].
        apply Forall_get. intros k Hk. rewrite length_firstn in Hk.
        rewrite get_firstn by lia. apply Lo. lia.
      * eapply Permutation_Forall; [apply Permutation_sym, Pr|].
        apply Forall_get. intros k Hk. rewrite length_skipn in Hk.
        rewrite get_skipn. apply Hi'; lia.
Qed.

End Kernel.

Lemma argsort_sorts (less : nat -> nat -> bool) (num : nat) :
  (forall x, x < num -> less x x = false) ->
  (forall x y z, x < num -> y < num -> z < num ->
     less x y = true -> less y z = true -> less x z = true) ->
  (forall x y z, x < num -> y < num -> z < num ->
     less x y = false -> less y z = false -> less x z = false) ->
  Permutation (Numpy.argsort less num) (seq 0 num)
  /\ ordered (fun x y => negb (less y x)) (Numpy.argsort less num) = true.
Proof.
  intros H1 H2 H3. unfold Numpy.argsort.
  apply (quicksort_range_sorts less (fun x => x < num) H1 H2 H3).
  - rewrite length_seq. lia.
  - apply Forall_forall. intros x Hx. apply in_seq in Hx. lia.
Qed.

Local Close Scope nat_scope.

(** *** The order of the cells of one kind *)

Lemma string_compare_refl (x : string) : String.compare x x = Eq.
Proof.
  induction x as [|c x IH]; simpl; [reflexivity|].
  unfold Ascii.compare. rewrite N.compare_refl. exact IH.
Qed.

Lemma string_compare_trans (x : string) :
  forall y z,
    String.compare x y = Lt -> String.compare y z = Lt ->
    String.compare x z = Lt.
Proof.
  induction x as [|c1 x IH]; intros [|c2 y] [|c3 z]; simpl;
    try congruence.
  unfold Ascii.compare.
  destruct (N.compare_spec (N_of_ascii c1) (N_of_ascii c2)) as [E1|E1|E1],
           (N.compare_spec (N_of_ascii c2) (N_of_ascii c3)) as [E2|E2|E2],
           (N.compare_spec (N_of_ascii c1) (N_of_ascii c3)) as [E3|E3|E3];
    try congruence; try lia.
  apply IH.
Qed.

Lemma string_compare_incomparable (x : string) :
  forall y z,
    String.compare x y <> Lt -> String.compare y z <> Lt ->
    String.compare x z <> Lt.
Proof.
  induction x as [|c1 x IH]; intros [|c2 y] [|c3 z]; simpl;
    try congruence.
  unfold Ascii.compare.
  destruct (N.compare_spec (N_of_ascii c1) (N_of_ascii c2)) as [E1|E1|E1],
           (N.compare_spec (N_of_ascii c2) (N_of_ascii c3)) as [E2|E2|E2],
           (N.compare_spec (N_of_ascii c1) (N_of_ascii c3)) as [E3|E3|E3];
    try congruence; try lia.
  apply IH.
Qed.

Lemma string_ltb_Lt (x y : string) :
  String.ltb x y = true <-> String.compare x y = Lt.
Proof.
  unfold String.ltb. destruct (String.compare x y); split; congruence.
Qed.

Lemma date_ltb_spec (a b : Datetime.date) :
  Datetime.ltb a b = true <->
  (Datetime.year a < Datetime.year b
   \/ (Datetime.year a = Datetime.year b
       /\ (Datetime.month a < Datetime.month b
           \/ (Datetime.month a = Datetime.month b
               /\ Datetime.day a < Datetime.day b))))%Z.
Proof.
  unfold Datetime.ltb.
  rewrite orb_true_iff, andb_true_iff, orb_true_iff, andb_true_iff.
  rewrite !Z.ltb_lt, !Z.eqb_eq. tauto.
Qed.

Lemma Qlt_bool_spec (x y : Q) : Pandas.Qlt_bool x y = true <-> (x < y)%Q.
Proof.
  unfold Pandas.Qlt_bool. rewrite negb_true_iff.
  split.
  - intros H. apply Qnot_le_lt. intros L. apply Qle_bool_iff in L. congruence.
  - intros H. destruct (Qle_bool y x) eqn:E; [|reflexivity].
    apply Qle_bool_iff in E. exfalso. exact (Qlt_not_le _ _ H E).
Qed.

Lemma cell_lt_irrefl (c : Pandas.cell) : Pandas.cell_lt c c = false.
Proof.
  destruct c as [|s|q|t]; simpl; try reflexivity.
  - destruct (String.ltb s s) eqn:E; [|reflexivity].
    apply string_ltb_Lt in E. rewrite string_compare_refl in E. discriminate.
  - destruct (Pandas.Qlt_bool q q) eqn:E; [|reflexivity].
    apply Qlt_bool_spec in E. exfalso. exact (Qlt_irrefl _ E).
  - destruct (Datetime.ltb t t) eqn:E; [|reflexivity].
    apply date_ltb_spec in E. lia.
Qed.

Lemma cell_lt_trans (a b c : Pandas.cell) :
  Pandas.cell_lt a b = true -> Pandas.cell_lt b c = true ->
  Pandas.cell_lt a c = true.
Proof.
  destruct a as [|s1|q1|t1], b as [|s2|q2|t2], c as [|s3|q3|t3]; simpl;
    try congruence.
  - rewrite !string_ltb_Lt. apply string_compare_trans.
  - rewrite !Qlt_bool_spec. apply Qlt_trans.
  - rewrite !date_ltb_spec. lia.
Qed.

Lemma cell_lt_incomparable (a b c : Pandas.cell) :
  Pandas.same_kind a b = true -> Pandas.same_kind b c = true ->
  Pandas.cell_lt a b = false -> Pandas.cell_lt b c = false ->
  Pandas.cell_lt a c = false.
Proof.
  destruct a as [|s1|q1|t1], b as [|s2|q2|t2], c as [|s3|q3|t3]; simpl;
    try congruence; intros _ _ H1 H2.
  - destruct (String.ltb s1 s3) eqn:E; [|reflexivity].
    apply string_ltb_Lt in E. exfalso.
    apply (string_compare_incomparable s1 s2 s3); try assumption.
    + intros Q. apply string_ltb_Lt in Q. congruence.
    + intros Q. apply string_ltb_Lt in Q. congruence.
  - destruct (Pandas.Qlt_bool q1 q3) eqn:E; [|reflexivity].
    apply Qlt_bool_spec in E. exfalso.
    assert (L1 : (q2 <= q1)%Q).
    { apply Qnot_lt_le. intros Q. apply Qlt_bool_spec in Q. congruence. }
    assert (L2 : (q3 <= q2)%Q).
    { apply Qnot_lt_le. intros Q. apply Qlt_bool_spec in Q. congruence. }
    exact (Qlt_not_le _ _ E (Qle_trans _ _ _ L2 L1)).
  - destruct (Datetime.ltb t1 t3) eqn:E; [|reflexivity].
    apply date_ltb_spec in E.
    assert (N1 : ~ Datetime.ltb t1 t2 = true) by congruence.
    assert (N2 : ~ Datetime.ltb t2 t3 = true) by congruence.
    rewrite date_ltb_spec in N1, N2. lia.
Qed.

Lemma same_kind_sym_trans (c x y : Pandas.cell) :
  Pandas.same_kind c x = true -> Pandas.same_kind c y = true ->
  Pandas.same_kind x y = true.
Proof. destruct c, x, y; simpl; congruence. Qed.

Lemma homogeneous_pairs (l : Pandas.Series) :
  Sorting.homogeneous l = true ->
  forall x y, In x l -> In y l -> Pandas.same_kind x y = true.
Proof.
  destruct l as [|c l]; intros H x y Hx Hy; [destruct Hx|].
  simpl in H. rewrite forallb_forall in H.
  assert (K : forall z, In z (c :: l) -> Pandas.same_kind c z = true).
  { intros z [<-|Hz]; [destruct c; reflexivity|apply H; exact Hz]. }
  apply (same_kind_sym_trans c); apply K; assumption.
Qed.

Lemma ordered_map {A B : Type} (f : A -> B) (le : B -> B -> bool)
  (l : list A) :
  ordered le (map f l) = ordered (fun a b => le (f a) (f b)) l.
Proof.
  induction l as [|a l IH]; [reflexivity|].
  destruct l as [|b l]; [reflexivity|].
  change (map f (a :: b :: l)) with (f a :: map f (b :: l)).
  change (ordered le (f a :: map f (b :: l)))
    with (le (f a) (f b) && ordered le (map f (b :: l))).
  rewrite IH. reflexivity.
Qed.

Lemma Permutation_is_arrangement (n : nat) (order : list nat) :
  Permutation order (seq 0 n) -> is_arrangement n order = true.
Proof.
  intros P. unfold is_arrangement. apply andb_true_iff. split.
  - rewrite (Permutation_length P), length_seq. apply Nat.eqb_refl.
  - apply forallb_forall. intros i Hi. apply existsb_exists.
    exists i. split; [|apply Nat.eqb_refl].
    apply (Permutation_in _ (Permutation_sym P)). exact Hi.
Qed.

(** Keys of one kind are put in order by the kernel. *)
Lemma kernel_sorts_homogeneous (keys : Pandas.Series) (ascending : bool) :
  Sorting.homogeneous
    (Pandas.select (map negb (map Pandas.isna keys)) keys) = true ->
  kernel_sorts keys ascending = true.
Proof.
  intros H. unfold kernel_sorts.
  set (items := kernel_input keys ascending).
  assert (K : forall x y, In x items -> In y items ->
                          Pandas.same_kind x y = true).
  { intros x y Hx Hy. apply (homogeneous_pairs _ H);
      unfold items, kernel_input in *; destruct ascending;
      try assumption; apply in_rev; assumption. }
  assert (D : forall i, (i < List.length items)%nat ->
                        In (nth i items Pandas.NaN) items)
    by (intros i Hi; apply nth_In; exact Hi).
  destruct (argsort_sorts
              (fun i j => Pandas.cell_lt (nth i items Pandas.NaN)
                            (nth j items Pandas.NaN))
              (List.length items)) as [P O].
  - intros x _. apply cell_lt_irrefl.
  - intros x y z _ _ _. apply cell_lt_trans.
  - intros x y z Hx Hy Hz. apply cell_lt_incomparable; apply K; auto.
  - apply andb_true_iff. split.
    + apply Permutation_is_arrangement. exact P.
    + rewrite ordered_map. exact O.
Qed.

(** ** [sort_values] *)

Lemma select_length_eq {A B : Type} (mask : list bool) (l1 : list A)
  (l2 : list B) :
  List.length l1 = List.length l2 ->
  List.length (Pandas.select mask l1) = List.length (Pandas.select mask l2).
Proof.
  revert l1 l2. induction mask as [|b mask IH]; intros [|x l1] [|y l2] H;
    simpl in *; try reflexivity; try discriminate.
  injection H as H. destruct b; simpl; rewrite (IH l1 l2 H); reflexivity.
Qed.

Lemma select_seq_bounds (mask : list bool) (n : nat) :
  Forall (fun i => (i < n)%nat) (Pandas.select mask (seq 0 n)).
Proof.
  apply Forall_forall. intros i Hi. apply select_In in Hi.
  apply in_seq in Hi. lia.
Qed.

Lemma Forall_rev_iff {A : Type} (P : A -> Prop) (l : list A) :
  Forall P l -> Forall P (rev l).
Proof.
  intros H. apply Forall_forall. intros x Hx. apply in_rev in Hx.
  rewrite Forall_forall in H. apply H. exact Hx.
Qed.

(** What [nargsort] takes from a list [l] as long as the keys: the
    elements at the present keys, arranged by the kernel, then the elements
    at the missing keys. *)
Lemma nargsort_takes {A : Type} (keys : Pandas.Series) (ascending : bool)
  (l : list A) :
  List.length l = List.length keys ->
  Sorting.homogeneous (Pandas.select (map negb (map Pandas.isna keys)) keys)
  = true ->
  kernel_sorts keys ascending = true ->
  let items := kernel_input keys ascending in
  let order :=
    Numpy.argsort
      (fun i j => Pandas.cell_lt (nth i items Pandas.NaN) (nth j items Pandas.NaN))
      (List.length items) in
  let present := Pandas.select (map negb (map Pandas.isna keys)) l in
  exists indexer,
    Sorting.nargsort keys ascending = Ok indexer
    /\ Pandas.take_list l indexer
       = (if ascending then Pandas.take_list present order
          else rev (Pandas.take_list (rev present) order))
           ++ Pandas.select (map Pandas.isna keys) l.
Proof.
  intros L Hh K items order present.
  unfold Sorting.nargsort. rewrite Hh. simpl negb. cbv iota.
  eexists. split; [reflexivity|].
  unfold kernel_sorts in K. fold items in K. fold order in K.
  apply andb_true_iff in K. destruct K as [Ka _].
  apply is_arrangement_Permutation in Ka.
  pose proof (arrangement_bounds _ _ Ka) as B.
  rewrite take_list_app. rewrite <- L, take_list_select_seq. f_equal.
  set (idx := Pandas.select (map negb (map Pandas.isna keys))
                (seq 0 (List.length l))).
  assert (Li : List.length idx
               = List.length (Pandas.select (map negb (map Pandas.isna keys)) keys)).
  { apply select_length_eq. rewrite length_seq. exact L. }
  assert (Bi : Forall (fun i => (i < List.length l)%nat) idx)
    by apply select_seq_bounds.
  assert (Ti : Pandas.take_list l idx = present)
    by apply take_list_select_seq.
  unfold items, kernel_input in B, order |- *.
  destruct ascending.
  - rewrite <- (take_list_nth O idx) by (rewrite Li; exact B).
    rewrite take_list_take_list by exact Bi. rewrite Ti. reflexivity.
  - rewrite take_list_rev. f_equal.
    rewrite <- (take_list_nth O (rev idx))
      by (rewrite length_rev, Li; rewrite length_rev in B; exact B).
    rewrite take_list_take_list by (apply Forall_rev_iff; exact Bi).
    rewrite <- Ti, take_list_rev. reflexivity.
Qed.

Lemma take_list_In {A : Type} (l : list A) (ix : list nat) (x : A) :
  In x (Pandas.take_list l ix) -> In x l.
Proof.
  unfold Pandas.take_list. intros H. apply in_flat_map in H.
  destruct H as [i [_ H]]. destruct (nth_error l i) eqn:E; [|destruct H].
  destruct H as [H|[]]. subst. eapply nth_error_In. exact E.
Qed.

Lemma filter_none {A : Type} (p : A -> bool) (l : list A) :
  (forall x, In x l -> p x = false) -> List.filter p l = [].
Proof.
  induction l as [|x l IH]; simpl; intros H; [reflexivity|].
  rewrite (H x) by (left; reflexivity). apply IH.
  intros y Hy. apply H. right. exact Hy.
Qed.

Lemma filter_all {A : Type} (p : A -> bool) (l : list A) :
  (forall x, In x l -> p x = true) -> List.filter p l = l.
Proof.
  induction l as [|x l IH]; simpl; intros H; [reflexivity|].
  rewrite (H x) by (left; reflexivity). f_equal. apply IH.
  intros y Hy. apply H. right. exact Hy.
Qed.

Lemma ordered_all {A : Type} (le : A -> A -> bool) (l : list A) :
  (forall a b, In a l -> In b l -> le a b = true) -> ordered le l = true.
Proof.
  induction l as [|a l IH]; [reflexivity|]. intros H.
  apply ordered_cons. split.
  - destruct l as [|b l]; [exact I|].
    apply H; [left; reflexivity|right; left; reflexivity].
  - apply IH. intros x y Hx Hy. apply H; right; assumption.
Qed.

Lemma may_precede_present (ascending : bool) (a b : Pandas.cell) :
  Pandas.isna a = false -> Pandas.isna b = false ->
  may_precede ascending a b
  = if ascending then negb (Pandas.cell_lt b a) else negb (Pandas.cell_lt a b).
Proof. destruct a, b; simpl; intros; try discriminate; reflexivity. Qed.

(** The rows of a sorted frame: those with a present key, arranged, then
    those with a missing key, as they were. *)
Theorem sort_values_sorted (df : Pandas.DataFrame) (by_ : string)
  (ascending : bool) (i : nat) :
  Pandas.position by_ (Pandas.columns df) = Some i ->
  let keys := map (Pandas.cell_at i) (Pandas.rows df) in
  Sorting.homogeneous (Pandas.select (map negb (map Pandas.isna keys)) keys)
  = true ->
  exists out,
    Sorting.sort_values df by_ ascending = Ok out
    /\ Pandas.columns out = Pandas.columns df
    /\ Permutation (Pandas.rows out) (Pandas.rows df)
    /\ ordered (may_precede ascending) (map (Pandas.cell_at i) (Pandas.rows out))
       = true
    /\ List.filter (fun r => Pandas.isna (Pandas.cell_at i r)) (Pandas.rows out)
       = List.filter (fun r => Pandas.isna (Pandas.cell_at i r)) (Pandas.rows df).
Proof.
  intros P keys Hh.
  assert (K := kernel_sorts_homogeneous keys ascending Hh).
  destruct (nargsort_takes keys ascending (Pandas.rows df)) as [indexer [N T]];
    [unfold keys; rewrite length_map; reflexivity|exact Hh|exact K|].
  unfold Sorting.sort_values, Pandas.getitem. rewrite P. simpl rbind.
  fold keys. rewrite N. simpl rbind.
  eexists. split; [reflexivity|]. split; [reflexivity|].
  unfold Pandas.take. cbn [Pandas.rows]. rewrite T. clear T N indexer.
  set (items := kernel_input keys ascending) in *.
  set (order := Numpy.argsort _ _).
  unfold kernel_sorts in K. fold items in K. fold order in K.
  apply andb_true_iff in K. destruct K as [Ka Ko].
  apply is_arrangement_Permutation in Ka.
  set (mask := map Pandas.isna keys) in *.
  set (present := Pandas.select (map negb mask) (Pandas.rows df)).
  set (missing := Pandas.select mask (Pandas.rows df)).
  assert (Mf : missing
               = List.filter (fun r => Pandas.isna (Pandas.cell_at i r))
                   (Pandas.rows df)).
  { unfold missing, mask, keys. rewrite map_map. apply select_filter. }
  assert (Pf : present
               = List.filter (fun r => negb (Pandas.isna (Pandas.cell_at i r)))
                   (Pandas.rows df)).
  { unfold present, mask, keys. rewrite !map_map. apply select_filter. }
  assert (Kp : map (Pandas.cell_at i) present
               = Pandas.select (map negb mask) keys).
  { unfold present, keys. symmetry. apply select_map. }
  assert (Li : List.length items = List.length present).
  { unfold items, kernel_input. fold mask.
    destruct ascending; rewrite ?length_rev; apply select_length_eq;
      unfold keys; apply length_map. }
  assert (Hin : forall x, In x items -> Pandas.isna x = false).
  { intros x Hx. unfold items, kernel_input in Hx. fold mask in Hx.
    assert (In x (Pandas.select (map negb mask) keys)) as Hx'
        by (destruct ascending; [exact Hx|apply in_rev; exact Hx]).
    rewrite <- Kp, Pf in Hx'. apply in_map_iff in Hx'.
    destruct Hx' as [r [E Hr]]. apply filter_In in Hr. subst x.
    destruct (Pandas.isna (Pandas.cell_at i r)); [destruct Hr; discriminate|].
    reflexivity. }
  set (core := if ascending then Pandas.take_list present order
               else rev (Pandas.take_list (rev present) order)).
  assert (Pc : Permutation core present).
  { unfold core. destruct ascending.
    - apply take_list_Permutation. rewrite <- Li. exact Ka.
    - apply Permutation_trans with (rev present);
        [|apply Permutation_sym, Permutation_rev].
      apply Permutation_trans with (Pandas.take_list (rev present) order);
        [apply Permutation_sym, Permutation_rev|].
      apply take_list_Permutation. rewrite length_rev, <- Li. exact Ka. }
  assert (Kc : map (Pandas.cell_at i) core
               = if ascending then map (fun k => nth k items Pandas.NaN) order
                 else rev (map (fun k => nth k items Pandas.NaN) order)).
  { unfold core, items, kernel_input. fold mask.
    pose proof (arrangement_bounds _ _ Ka) as B.
    unfold items, kernel_input in B. fold mask in B.
    destruct ascending.
    - rewrite take_list_map, Kp. apply take_list_nth. exact B.
    - rewrite map_rev, take_list_map, map_rev, Kp. f_equal.
      apply take_list_nth. exact B. }
  assert (Hcore : forall x, In x (map (Pandas.cell_at i) core) ->
                            Pandas.isna x = false).
  { intros x Hx. apply Hin. rewrite Kc in Hx.
    assert (In x (map (fun k => nth k items Pandas.NaN) order)) as Hx'
        by (destruct ascending; [exact Hx|apply in_rev; exact Hx]).
    apply in_map_iff in Hx'. destruct Hx' as [k [E Hk]]. subst x.
    apply nth_In. pose proof (arrangement_bounds _ _ Ka) as B.
    rewrite Forall_forall in B. apply B. exact Hk. }
  assert (Hmiss : forall x, In x (map (Pandas.cell_at i) missing) ->
                            x = Pandas.NaN).
  { intros x Hx. apply in_map_iff in Hx. destruct Hx as [r [E Hr]].
    rewrite Mf in Hr. apply filter_In in Hr. destruct Hr as [_ Hr]. subst x.
    destruct (Pandas.cell_at i r); try discriminate. reflexivity. }
  split; [|split].
  - apply Permutation_trans with (present ++ missing).
    + apply Permutation_app_tail. exact Pc.
    + apply select_partition. unfold mask, keys. rewrite !length_map.
      reflexivity.
  - rewrite map_app. apply ordered_app.
    + apply ordered_ext_in
        with (le := fun a b => if ascending then negb (Pandas.cell_lt b a)
                               else negb (Pandas.cell_lt a b)).
      * intros a b Ha Hb E. rewrite may_precede_present; auto.
      * rewrite Kc. destruct ascending; [exact Ko|].
        apply (ordered_rev (fun a b => negb (Pandas.cell_lt b a))). exact Ko.
    + apply ordered_all. intros a b Ha Hb.
      rewrite (Hmiss a Ha), (Hmiss b Hb). reflexivity.
    + intros a b Ha Hb. rewrite (Hmiss b Hb).
      specialize (Hcore a Ha). destruct a; try discriminate; reflexivity.
  - rewrite filter_app. rewrite (filter_none _ core).
    + simpl. rewrite Mf. apply filter_all. intros r Hr.
      apply filter_In in Hr. tauto.
    + intros r Hr. apply Hcore. apply in_map. exact Hr.
Qed.

(** ** The sort of the two classes *)

Lemma MovieDB_sort_resolved (data : Pandas.DataFrame) (sort_by : string)
  (ascending : bool) :
  MovieDB.sort data sort_by ascending
  = Sorting.sort_values data (MovieDB_sort_column sort_by) ascending.
Proof.
  unfold MovieDB.sort, MovieDB_sort_column.
  destruct (Py.lower sort_by =? "year"); reflexivity.
Qed.

Lemma has_column_position (d : Pandas.DataFrame) (c : string) (i : nat) :
  Pandas.position c (Pandas.columns d) = Some i -> Pandas.has_column d c = true.
Proof. intros H. unfold Pandas.has_column. rewrite H. reflexivity. Qed.

Lemma MovieFilter_sort_resolved (data : Pandas.DataFrame) (by_ : string)
  (ascending : bool) :
  MovieFilter.sort data by_ ascending
  = if Pandas.has_column data (MovieFilter_sort_column by_)
    then Sorting.sort_values data (MovieFilter_sort_column by_) ascending
    else Ok data.
Proof. reflexivity. Qed.

Lemma MovieDB_sort_sorted (data : Pandas.DataFrame) (sort_by : string)
  (ascending : bool) (i : nat) :
  Pandas.position (MovieDB_sort_column sort_by) (Pandas.columns data) = Some i ->
  comparable_keys data i = true ->
  exists out,
    MovieDB.sort data sort_by ascending = Ok out
    /\ sorted_on i ascending data out.
Proof.
  intros P Hh. rewrite MovieDB_sort_resolved.
  apply sort_values_sorted; assumption.
Qed.

Lemma MovieFilter_sort_sorted (data : Pandas.DataFrame) (by_ : string)
  (ascending : bool) (i : nat) :
  Pandas.position (MovieFilter_sort_column by_) (Pandas.columns data) = Some i ->
  comparable_keys data i = true ->
  exists out,
    MovieFilter.sort data by_ ascending = Ok out
    /\ sorted_on i ascending data out.
Proof.
  intros P Hh. rewrite MovieFilter_sort_resolved.
  rewrite (has_column_position _ _ _ P).
  apply sort_values_sorted; assumption.
Qed.

(** C1, as stated, fails: [sort_values] is called with its default kind,
    numpy's quicksort, which is not stable.  Eighteen films sorted by
    rating, a column of texts, ascending: the eight films rated PG come out
    in the order 7, 6, 5, 0, 3, 2, 1, 4.  Sorted by [MovieDB.sort] on the
    text of the date, which is the same for all of them, the films 1 to 15
    come out from the last to the first. *)
Lemma sort_stable_counterexample :
  (exists out,
      MovieFilter.sort eighteen "rating" true = Ok out
      /\ map fst (List.filter
                    (fun r => cell_eqb (Pandas.Str "PG") (Pandas.cell_at 1 r))
                    (Pandas.rows out))
         = [7; 6; 5; 0; 3; 2; 1; 4]%nat
      /\ ~ stable 1 (Pandas.rows eighteen) (Pandas.rows out))
  /\
  (exists out,
      MovieDB.sort eighteen "date" true = Ok out
      /\ map fst (Pandas.rows out)
         = [0; 15; 14; 13; 12; 11; 10; 9; 8; 7; 6; 5; 4; 3; 2; 1; 16; 17]%nat
      /\ ~ stable 3 (Pandas.rows eighteen) (Pandas.rows out)).
Proof.
  split.
  - eexists. split; [vm_compute; reflexivity|].
    split; [vm_compute; reflexivity|].
    intros H. specialize (H (Pandas.Str "PG")). vm_compute in H. discriminate H.
  - eexists. split; [vm_compute; reflexivity|].
    split; [vm_compute; reflexivity|].
    intros H. specialize (H (Pandas.Str "13/06/1980")). vm_compute in H.
    discriminate H.
Qed.

(** C1, amended.  In either class, when the column the key resolves to is
    in the view and its present keys are of one kind, [sort] returns the
    same records ordered on that column in the direction asked for, with
    the records that have no key last, in the order they had.  (A key
    [MovieFilter.sort] finds no column for leaves the view as it is.)
    Nothing is said of the order of records with equal present keys. *)
Theorem sort_orders_by_resolved_key :
  (forall (data : Pandas.DataFrame) (sort_by : string) (ascending : bool)
          (i : nat),
      Pandas.position (MovieDB_sort_column sort_by) (Pandas.columns data)
      = Some i ->
      comparable_keys data i = true ->
      exists out,
        MovieDB.sort data sort_by ascending = Ok out
        /\ sorted_on i ascending data out)
  /\
  (forall (data : Pandas.DataFrame) (by_ : string) (ascending : bool)
          (i : nat),
      Pandas.position (MovieFilter_sort_column by_) (Pandas.columns data)
      = Some i ->
      comparable_keys data i = true ->
      exists out,
        MovieFilter.sort data by_ ascending = Ok out
        /\ sorted_on i ascending data out)
  /\
  (forall (data : Pandas.DataFrame) (by_ : string) (ascending : bool),
      Pandas.has_column data (MovieFilter_sort_column by_) = false ->
      MovieFilter.sort data by_ ascending = Ok data).
Proof.
  split; [|split].
  - intros data sort_by ascending i P Hh.
    apply MovieDB_sort_sorted; assumption.
  - intros data by_ ascending i P Hh.
    apply MovieFilter_sort_sorted; assumption.
  - intros data by_ ascending H. rewrite MovieFilter_sort_resolved, H.
    reflexivity.
Qed.

Lemma sort_orders_by_resolved_key_witness :
  exists out,
    MovieFilter.sort eighteen "rating" false = Ok out
    /\ sorted_on 1 false eighteen out.
Proof.
  apply (proj1 (proj2 sort_orders_by_resolved_key) eighteen "rating" false
           1%nat); vm_compute; reflexivity.
Defined.

(** C4, as stated, fails for the broader data set: there the key [year] is
    the numeric column [year].  Of two films, the one of 1980 released in
    1982 comes before the one of 1981 released in 1981. *)
Lemma sort_by_year_counterexample :
  exists out first second,
    MovieFilter.sort two_films "year" true = Ok out
    /\ map (release_date 2) (Pandas.rows out) = [Some first; Some second]
    /\ Datetime.ltb second first = true
    /\ ordered (may_precede true) (map (Pandas.cell_at 2) (Pandas.rows out))
       = false
    /\ MovieFilter.sort two_films "year" true
       <> MovieFilter.sort two_films "released" true.
Proof.
  eexists. eexists. eexists. split; [vm_compute; reflexivity|].
  split; [vm_compute; reflexivity|]. split; [vm_compute; reflexivity|].
  split; [vm_compute; reflexivity|]. vm_compute. discriminate.
Qed.

(** C4, amended.  In the curated data set the key [year] sorts by the
    release date, as the key [date] does: when the dates are in the view,
    the records come out ordered on the date column.  In the broader data
    set the key [year] sorts by the numeric column [year] when the view has
    it, and leaves the view as it is otherwise. *)
Theorem sort_key_year :
  (forall (data : Pandas.DataFrame) (ascending : bool),
      MovieDB.sort data "year" ascending
      = Sorting.sort_values data "Date Released" ascending
      /\ MovieDB.sort data "year" ascending
         = MovieDB.sort data "date" ascending)
  /\
  (forall (data : Pandas.DataFrame) (ascending : bool) (i : nat),
      Pandas.position "Date Released" (Pandas.columns data) = Some i ->
      comparable_keys data i = true ->
      exists out,
        MovieDB.sort data "year" ascending = Ok out
        /\ sorted_on i ascending data out)
  /\
  (forall (data : Pandas.DataFrame) (ascending : bool),
      MovieFilter.sort data "year" ascending
      = if Pandas.has_column data "year"
        then Sorting.sort_values data "year" ascending
        else Ok data)
  /\
  (forall (data : Pandas.DataFrame) (ascending : bool) (i : nat),
      Pandas.position "year" (Pandas.columns data) = Some i ->
      comparable_keys data i = true ->
      exists out,
        MovieFilter.sort data "year" ascending = Ok out
        /\ sorted_on i ascending data out).
Proof.
  split; [|split; [|split]].
  - intros data ascending. split; reflexivity.
  - intros data ascending i P Hh.
    apply (MovieDB_sort_sorted data "year" ascending i); assumption.
  - intros data ascending. reflexivity.
  - intros data ascending i P Hh.
    apply (MovieFilter_sort_sorted data "year" ascending i); assumption.
Qed.

Lemma sort_key_year_witness :
  exists out,
    MovieDB.sort Sample.disney "year" true = Ok out
    /\ sorted_on 1 true Sample.disney out.
Proof.
  apply (proj1 (proj2 sort_key_year) Sample.disney true 1%nat);
    vm_compute; reflexivity.
Defined.

(** ** Columns of a frame *)

Lemma position_nth_error (c : string) (cols : list string) (i : nat) :
  Pandas.position c cols = Some i -> nth_error cols i = Some c.
Proof.
  revert i. induction cols as [|k cols IH]; simpl; intros i H; [discriminate|].
  destruct (String.eqb_spec k c).
  - inversion H; subst. reflexivity.
  - destruct (Pandas.position c cols) as [j|]; [|discriminate].
    inversion H; subst. simpl. apply IH. reflexivity.
Qed.

Lemma position_inj (c1 c2 : string) (cols : list string) (i : nat) :
  Pandas.position c1 cols = Some i -> Pandas.position c2 cols = Some i ->
  c1 = c2.
Proof.
  intros H1 H2. apply position_nth_error in H1. apply position_nth_error in H2.
  congruence.
Qed.

Lemma position_app_new (c : string) (cols : list string) :
  Pandas.position c cols = None ->
  Pandas.position c (cols ++ [c]) = Some (List.length cols).
Proof.
  induction cols as [|k cols IH]; simpl; intros H.
  - rewrite String.eqb_refl. reflexivity.
  - destruct (k =? c); [discriminate|].
    destruct (Pandas.position c cols); [discriminate|].
    rewrite IH by reflexivity. reflexivity.
Qed.

Lemma position_app_old (c c' : string) (cols : list string) (i : nat) :
  Pandas.position c cols = Some i ->
  Pandas.position c (cols ++ [c']) = Some i.
Proof.
  revert i. induction cols as [|k cols IH]; simpl; intros i H; [discriminate|].
  destruct (k =? c); [exact H|].
  destruct (Pandas.position c cols) as [j|]; [|discriminate].
  rewrite (IH j eq_refl). exact H.
Qed.

Lemma position_lt (c : string) (cols : list string) (i : nat) :
  Pandas.position c cols = Some i -> (i < List.length cols)%nat.
Proof.
  intros H. apply position_nth_error in H.
  apply nth_error_Some. rewrite H. discriminate.
Qed.

Lemma nth_set_nth_same (i : nat) (x : Pandas.cell) (l : list Pandas.cell) :
  nth i (Pandas.set_nth i x l) Pandas.NaN = x.
Proof.
  revert l. induction i as [|i IH]; intros [|y l]; simpl; try reflexivity;
    apply IH.
Qed.

Lemma nth_set_nth_other (i j : nat) (x : Pandas.cell) (l : list Pandas.cell) :
  i <> j ->
  nth j (Pandas.set_nth i x l) Pandas.NaN = nth j l Pandas.NaN.
Proof.
  revert j l. induction i as [|i IH]; intros [|j] [|y l] H; simpl;
    try reflexivity; try contradiction.
  - destruct j; reflexivity.
  - rewrite IH by lia. destruct j; reflexivity.
  - apply IH. lia.
Qed.

Lemma set_column_same (i : nat) (s : Pandas.Series) (rs : list Pandas.Row) :
  List.length s = List.length rs ->
  map (Pandas.cell_at i) (Pandas.set_column i s rs) = s.
Proof.
  revert s. induction rs as [|[lbl cs] rs IH]; intros [|x s] H; simpl in *;
    try reflexivity; try discriminate.
  injection H as H. rewrite IH by exact H.
  unfold Pandas.cell_at at 1. simpl. rewrite nth_set_nth_same. reflexivity.
Qed.

Lemma set_column_other (i j : nat) (s : Pandas.Series) (rs : list Pandas.Row) :
  i <> j -> List.length s = List.length rs ->
  map (Pandas.cell_at j) (Pandas.set_column i s rs) = map (Pandas.cell_at j) rs.
Proof.
  intros Hij. revert s. induction rs as [|[lbl cs] rs IH]; intros [|x s] H;
    simpl in *; try reflexivity; try discriminate.
  injection H as H. rewrite IH by exact H.
  unfold Pandas.cell_at at 1 3. simpl. rewrite nth_set_nth_other by exact Hij.
  reflexivity.
Qed.

Lemma set_column_labels (i : nat) (s : Pandas.Series) (rs : list Pandas.Row) :
  List.length s = List.length rs ->
  map fst (Pandas.set_column i s rs) = map fst rs.
Proof.
  revert s. induction rs as [|[lbl cs] rs IH]; intros [|x s] H; simpl in *;
    try reflexivity; try discriminate.
  injection H as H. rewrite IH by exact H. reflexivity.
Qed.

Lemma setitem_rows (d : Pandas.DataFrame) (c : string) (s : Pandas.Series) :
  Pandas.rows (Pandas.setitem d c s)
  = Pandas.set_column (place_after_setitem d c) s (Pandas.rows d).
Proof.
  unfold Pandas.setitem, place_after_setitem.
  destruct (Pandas.position c (Pandas.columns d)); reflexivity.
Qed.

Lemma setitem_position (d : Pandas.DataFrame) (c : string) (s : Pandas.Series) :
  Pandas.position c (Pandas.columns (Pandas.setitem d c s))
  = Some (place_after_setitem d c).
Proof.
  unfold Pandas.setitem, place_after_setitem.
  destruct (Pandas.position c (Pandas.columns d)) eqn:E; simpl.
  - exact E.
  - apply position_app_new. exact E.
Qed.

Lemma setitem_position_other (d : Pandas.DataFrame) (c c' : string)
  (s : Pandas.Series) (j : nat) :
  Pandas.position c' (Pandas.columns d) = Some j ->
  Pandas.position c' (Pandas.columns (Pandas.setitem d c s)) = Some j.
Proof.
  intros H. unfold Pandas.setitem.
  destruct (Pandas.position c (Pandas.columns d)); simpl.
  - exact H.
  - apply position_app_old. exact H.
Qed.

Lemma place_other (d : Pandas.DataFrame) (c c' : string) (j : nat) :
  Pandas.position c' (Pandas.columns d) = Some j -> c' <> c ->
  place_after_setitem d c <> j.
Proof.
  intros H Hc. unfold place_after_setitem.
  destruct (Pandas.position c (Pandas.columns d)) as [i|] eqn:E.
  - intros ->. apply Hc. eapply position_inj; eassumption.
  - apply position_lt in H. lia.
Qed.

Lemma getitem_setitem_same (d : Pandas.DataFrame) (c : string)
  (s : Pandas.Series) :
  List.length s = List.length (Pandas.rows d) ->
  Pandas.getitem (Pandas.setitem d c s) c = Ok s.
Proof.
  intros L. unfold Pandas.getitem. rewrite setitem_position, setitem_rows.
  rewrite set_column_same by exact L. reflexivity.
Qed.

Lemma getitem_setitem_other (d : Pandas.DataFrame) (c c' : string)
  (s : Pandas.Series) (j : nat) :
  Pandas.position c' (Pandas.columns d) = Some j -> c' <> c ->
  List.length s = List.length (Pandas.rows d) ->
  Pandas.getitem (Pandas.setitem d c s) c' = Pandas.getitem d c'.
Proof.
  intros P Hc L. unfold Pandas.getitem.
  rewrite (setitem_position_other d c c' s j P), P, setitem_rows.
  rewrite set_column_other; [reflexivity| |exact L].
  apply (place_other d c c' j); assumption.
Qed.

Lemma getitem_length (d : Pandas.DataFrame) (c : string) (s : Pandas.Series) :
  Pandas.getitem d c = Ok s -> List.length s = List.length (Pandas.rows d).
Proof.
  unfold Pandas.getitem. destruct (Pandas.position c (Pandas.columns d));
    [|discriminate].
  intros H. inversion H. apply length_map.
Qed.

Lemma getitem_cells (d : Pandas.DataFrame) (c : string) (i : nat) :
  Pandas.position c (Pandas.columns d) = Some i ->
  Pandas.getitem d c = Ok (map (Pandas.cell_at i) (Pandas.rows d)).
Proof. intros H. unfold Pandas.getitem. rewrite H. reflexivity. Qed.

Lemma setitem_rows_length (d : Pandas.DataFrame) (c : string)
  (s : Pandas.Series) :
  List.length s = List.length (Pandas.rows d) ->
  List.length (Pandas.rows (Pandas.setitem d c s)) = List.length (Pandas.rows d).
Proof.
  intros L. rewrite setitem_rows.
  rewrite <- (length_map fst (Pandas.set_column _ _ _)).
  rewrite set_column_labels by exact L. apply length_map.
Qed.

Lemma map_pointwise {A B : Type} (f g : A -> B) (l : list A) :
  map f l = map g l -> forall x, In x l -> f x = g x.
Proof.
  induction l as [|y l IH]; simpl; intros H x Hx; [destruct Hx|].
  injection H as H1 H2. destruct Hx as [->|Hx]; [exact H1|apply IH; assumption].
Qed.

(** ** The store, at its last object *)

Lemma nth_error_last {A : Type} (h : list A) (d : A) :
  nth_error (h ++ [d]) (List.length h) = Some d.
Proof.
  rewrite nth_error_app2 by apply Nat.le_refl. rewrite Nat.sub_diag. reflexivity.
Qed.

Lemma replace_nth_last {A : Type} (h : list A) (d d' : A) :
  replace_nth (List.length h) d' (h ++ [d]) = h ++ [d'].
Proof. induction h as [|x h IH]; simpl; [reflexivity|]. rewrite IH. reflexivity. Qed.

Lemma df_getitem_last (h : store) (d : Pandas.DataFrame) (c : string) :
  df_getitem (List.length h) c (h ++ [d]) = (Pandas.getitem d c, h ++ [d]).
Proof.
  unfold df_getitem. rewrite (bind_Ok _ _ _ _ _ (deref_eval _ _ _ (nth_error_last h d))).
  reflexivity.
Qed.

Lemma df_setitem_last (h : store) (d : Pandas.DataFrame) (c : string)
  (s : Pandas.Series) :
  df_setitem (List.length h) c s (h ++ [d])
  = (Ok tt, h ++ [Pandas.setitem d c s]).
Proof.
  unfold df_setitem. rewrite (bind_Ok _ _ _ _ _ (deref_eval _ _ _ (nth_error_last h d))).
  unfold assign. rewrite replace_nth_last. reflexivity.
Qed.


(** ** [MovieDB.__init__] *)

Lemma MovieDB_init_outcome (files : string -> source) (csv_file : string)
  (h : store) :
  MovieDB.init files csv_file h
  = match files csv_file with
    | NoSuchFile => (Raise (SystemExit 1), h)
    | Unreadable => (Raise (SystemExit 1), h)
    | Delimited table =>
        match Pandas.getitem table "Date Released" with
        | Raise _ => (Raise (SystemExit 1), h ++ [table])
        | Ok col =>
            match Pandas.to_datetime col with
            | Raise _ => (Raise (SystemExit 1), h ++ [table])
            | Ok dates =>
                (Ok (MovieDB.mk (List.length h)),
                 h ++ [MovieDB_loaded table dates])
            end
        end
    end.
Proof.
  unfold MovieDB.init, try_except, read_csv.
  destruct (files csv_file) as [| |table]; try reflexivity.
  rewrite (bind_Ok _ _ h (h ++ [table]) (List.length h)) by reflexivity.
  destruct (Pandas.getitem table "Date Released") as [col|e] eqn:G.
  - rewrite (bind_Ok _ _ _ (h ++ [table]) col)
      by (rewrite df_getitem_last, G; reflexivity).
    destruct (Pandas.to_datetime col) as [dates|e] eqn:T.
    + rewrite (bind_Ok _ _ _ (h ++ [table]) dates) by reflexivity.
      rewrite (bind_Ok _ _ _ _ tt (df_setitem_last h table _ dates)).
      assert (L : List.length dates = List.length (Pandas.rows table)).
      { rewrite <- (getitem_length _ _ _ G). eapply mapM_Ok_length. exact T. }
      rewrite (bind_Ok _ _ _ _ dates)
        by (rewrite df_getitem_last, getitem_setitem_same by exact L;
            reflexivity).
      rewrite (bind_Ok _ _ _ _ tt (df_setitem_last h _ _ _)).
      reflexivity.
    + rewrite (bind_Raise _ _ _ (h ++ [table]) e) by reflexivity.
      destruct e; reflexivity.
  - rewrite (bind_Raise _ _ _ (h ++ [table]) e)
      by (rewrite df_getitem_last, G; reflexivity).
    destruct e; reflexivity.
Qed.

Lemma Qeq_bool_inject_Z (a b : Z) :
  Qeq_bool (inject_Z a) (inject_Z b) = (a =? b)%Z.
Proof. unfold Qeq_bool. simpl. rewrite !Z.mul_1_r. reflexivity. Qed.

(** The dict of the source is the fixed mapping. *)
Lemma seasons_dict (c : Pandas.cell) :
  Pandas.map_dict MovieDB.seasons (Pandas.dt_month [c]) = [season_of_date c].
Proof.
  destruct c as [| | |t]; try reflexivity.
  unfold Pandas.dt_month, Pandas.map_dict, season_of_date, season_of_month.
  simpl map. unfold MovieDB.seasons. cbn [find fst snd].
  rewrite !Qeq_bool_inject_Z.
  destruct (Datetime.month t =? 12)%Z; [reflexivity|].
  destruct (Datetime.month t =? 1)%Z; [reflexivity|].
  destruct (Datetime.month t =? 2)%Z; [reflexivity|].
  destruct (Datetime.month t =? 3)%Z; [reflexivity|].
  destruct (Datetime.month t =? 4)%Z; [reflexivity|].
  destruct (Datetime.month t =? 5)%Z; [reflexivity|].
  destruct (Datetime.month t =? 6)%Z; [reflexivity|].
  destruct (Datetime.month t =? 7)%Z; [reflexivity|].
  destruct (Datetime.month t =? 8)%Z; [reflexivity|].
  destruct (Datetime.month t =? 9)%Z; [reflexivity|].
  destruct (Datetime.month t =? 10)%Z; [reflexivity|].
  destruct (Datetime.month t =? 11)%Z; reflexivity.
Qed.

Lemma seasons_column (s : Pandas.Series) :
  Pandas.map_dict MovieDB.seasons (Pandas.dt_month s) = map season_of_date s.
Proof.
  induction s as [|c s IH]; [reflexivity|].
  change (Pandas.map_dict MovieDB.seasons (Pandas.dt_month (c :: s)))
    with (Pandas.map_dict MovieDB.seasons (Pandas.dt_month [c])
            ++ Pandas.map_dict MovieDB.seasons (Pandas.dt_month s)).
  rewrite seasons_dict, IH. reflexivity.
Qed.

Lemma to_datetime_cells (col dates : Pandas.Series) :
  Pandas.to_datetime col = Ok dates ->
  Forall (fun c => c = Pandas.NaN \/ exists t, c = Pandas.Ts t) dates.
Proof.
  unfold Pandas.to_datetime. revert dates.
  induction col as [|c col IH]; simpl; intros dates H.
  - inversion H. constructor.
  - destruct (Pandas.to_datetime_cell c) as [x|] eqn:E; [|discriminate].
    simpl in H. destruct (mapM Pandas.to_datetime_cell col); [|discriminate].
    simpl in H. inversion H; subst. constructor; [|apply IH; reflexivity].
    destruct c as [|s|q|t]; simpl in E.
    + inversion E. left. reflexivity.
    + destruct (Pandas.is_nat_string s);
        [inversion E; left; reflexivity|].
      destruct (Datetime.strptime s Datetime.fmt_dmY); inversion E.
      right. eexists. reflexivity.
    + discriminate.
    + inversion E. right. eexists. reflexivity.
Qed.

Lemma MovieDB_loaded_columns (table : Pandas.DataFrame)
  (dates : Pandas.Series) (i : nat) :
  Pandas.position "Date Released" (Pandas.columns table) = Some i ->
  List.length dates = List.length (Pandas.rows table) ->
  let d := MovieDB_loaded table dates in
  exists j,
    Pandas.position "Date Released" (Pandas.columns d) = Some i
    /\ Pandas.position "Season" (Pandas.columns d) = Some j
    /\ Pandas.getitem d "Date Released" = Ok dates
    /\ Pandas.getitem d "Season" = Ok (map season_of_date dates).
Proof.
  intros P L d. unfold d, MovieDB_loaded. rewrite seasons_column.
  set (d1 := Pandas.setitem table "Date Released" dates).
  assert (P1 : Pandas.position "Date Released" (Pandas.columns d1) = Some i).
  { unfold d1. rewrite setitem_position. unfold place_after_setitem.
    rewrite P. reflexivity. }
  assert (L1 : List.length (Pandas.rows d1) = List.length dates).
  { unfold d1. rewrite setitem_rows_length by exact L. symmetry. exact L. }
  exists (place_after_setitem d1 "Season").
  split; [apply setitem_position_other; exact P1|].
  split; [apply setitem_position|].
  split.
  - rewrite (getitem_setitem_other d1 "Season" "Date Released" _ i P1)
      by (try discriminate; rewrite length_map, L1; reflexivity).
    apply getitem_setitem_same. exact L.
  - apply getitem_setitem_same. rewrite length_map, L1. reflexivity.
Qed.

Lemma season_of_valid_month (m : Z) :
  (1 <= m <= 12)%Z ->
  exists s, season_of_month m = Some s
            /\ In s ["Winter"; "Spring"; "Summer"; "Fall"].
Proof.
  intros H. unfold season_of_month.
  destruct ((m =? 12) || (m =? 1) || (m =? 2))%Z eqn:E1;
    [eexists; split; [reflexivity|simpl; auto]|].
  destruct ((m =? 3) || (m =? 4) || (m =? 5))%Z eqn:E2;
    [eexists; split; [reflexivity|simpl; auto]|].
  destruct ((m =? 6) || (m =? 7) || (m =? 8))%Z eqn:E3;
    [eexists; split; [reflexivity|simpl; auto]|].
  destruct ((m =? 9) || (m =? 10) || (m =? 11))%Z eqn:E4;
    [eexists; split; [reflexivity|simpl; auto 6]|].
  rewrite !orb_false_iff in *. rewrite !Z.eqb_neq in *. lia.
Qed.

Lemma valid_month (t : Datetime.date) :
  Datetime.valid t = true -> (1 <= Datetime.month t <= 12)%Z.
Proof.
  unfold Datetime.valid. rewrite !andb_true_iff, !Z.leb_le. lia.
Qed.

Lemma strptime_valid (s : string) (f : Datetime.format) (t : Datetime.date) :
  Datetime.strptime s f = Some t -> Datetime.valid t = true.
Proof.
  unfold Datetime.strptime.
  destruct (Datetime.matches f (list_ascii_of_string s)
              (Datetime.mkdate 1900 1 1)) as [|[d [|c rest]] l];
    try discriminate.
  destruct (Datetime.valid d) eqn:E; [|discriminate].
  intros H. inversion H; subst. exact E.
Qed.

(** C9.  Whenever [MovieDB.__init__] returns, the table it leaves has a
    date column and a season column, and for every record: the date is
    present (a date) or absent; the season is the fixed mapping applied to
    the month of the date (12, 1, 2 give Winter; 3, 4, 5 Spring; 6, 7, 8
    Summer; 9, 10, 11 Fall), so for a date of the calendar it is one of the
    four seasons; and the season of a record with no date is absent. *)
Theorem season_follows_release_month (files : string -> source)
  (csv_file : string) (h h' : store) (self : MovieDB.object) :
  MovieDB.init files csv_file h = (Ok self, h') ->
  exists d i j,
    nth_error h' (MovieDB.df self) = Some d
    /\ Pandas.position "Date Released" (Pandas.columns d) = Some i
    /\ Pandas.position "Season" (Pandas.columns d) = Some j
    /\ forall r,
         In r (Pandas.rows d) ->
         Pandas.cell_at j r = season_of_date (Pandas.cell_at i r)
         /\ (Pandas.cell_at i r = Pandas.NaN -> Pandas.cell_at j r = Pandas.NaN)
         /\ (Pandas.cell_at i r = Pandas.NaN
             \/ exists t, Pandas.cell_at i r = Pandas.Ts t)
         /\ forall t,
              Pandas.cell_at i r = Pandas.Ts t -> Datetime.valid t = true ->
              exists s,
                season_of_month (Datetime.month t) = Some s
                /\ Pandas.cell_at j r = Pandas.Str s
                /\ In s ["Winter"; "Spring"; "Summer"; "Fall"].
Proof.
  rewrite MovieDB_init_outcome.
  destruct (files csv_file) as [| |table]; try discriminate.
  destruct (Pandas.getitem table "Date Released") as [col|e] eqn:G;
    [|discriminate].
  destruct (Pandas.to_datetime col) as [dates|e] eqn:T; [|discriminate].
  intros H. inversion H; subst self h'. clear H.
  unfold Pandas.getitem in G.
  destruct (Pandas.position "Date Released" (Pandas.columns table)) as [i|]
    eqn:P; [|discriminate].
  inversion G; subst col. clear G.
  assert (L : List.length dates = List.length (Pandas.rows table)).
  { rewrite (mapM_Ok_length _ _ _ T). apply length_map. }
  destruct (MovieDB_loaded_columns table dates i P L) as [j [P1 [P2 [G1 G2]]]].
  exists (MovieDB_loaded table dates), i, j.
  split; [apply nth_error_last|]. split; [exact P1|]. split; [exact P2|].
  rewrite (getitem_cells _ _ _ P1) in G1. rewrite (getitem_cells _ _ _ P2) in G2.
  injection G1 as G1'. injection G2 as G2'.
  assert (S_all : map (Pandas.cell_at j) (Pandas.rows (MovieDB_loaded table dates))
                  = map (fun x => season_of_date (Pandas.cell_at i x))
                      (Pandas.rows (MovieDB_loaded table dates))).
  { rewrite G2'. rewrite <- G1' at 1. apply map_map. }
  intros r Hr.
  pose proof (map_pointwise _ _ _ S_all r Hr) as S. simpl in S.
  assert (C : Pandas.cell_at i r = Pandas.NaN
              \/ exists t, Pandas.cell_at i r = Pandas.Ts t).
  { pose proof (to_datetime_cells _ _ T) as F. rewrite Forall_forall in F.
    apply F. rewrite <- G1'. apply in_map. exact Hr. }
  split; [exact S|]. split; [intros E; rewrite S, E; reflexivity|].
  split; [exact C|].
  intros t E V. rewrite S, E. simpl.
  destruct (season_of_valid_month _ (valid_month t V)) as [s [Hs Hin]].
  exists s. rewrite Hs. auto.
Qed.

Lemma season_follows_release_month_witness :
  exists d i j,
    nth_error [MovieDB_loaded three_films
                 [Pandas.Ts (Datetime.mkdate 1999 6 25);
                  Pandas.Ts (Datetime.mkdate 1994 12 15); Pandas.NaN]]
      0%nat = Some d
    /\ Pandas.position "Date Released" (Pandas.columns d) = Some i
    /\ Pandas.position "Season" (Pandas.columns d) = Some j
    /\ forall r,
         In r (Pandas.rows d) ->
         Pandas.cell_at j r = season_of_date (Pandas.cell_at i r)
         /\ (Pandas.cell_at i r = Pandas.NaN -> Pandas.cell_at j r = Pandas.NaN)
         /\ (Pandas.cell_at i r = Pandas.NaN
             \/ exists t, Pandas.cell_at i r = Pandas.Ts t)
         /\ forall t,
              Pandas.cell_at i r = Pandas.Ts t -> Datetime.valid t = true ->
              exists s,
                season_of_month (Datetime.month t) = Some s
                /\ Pandas.cell_at j r = Pandas.Str s
                /\ In s ["Winter"; "Spring"; "Summer"; "Fall"].
Proof.
  apply (season_follows_release_month
           (one_file "disney.csv" (Delimited three_films)) "disney.csv" []
           _ (MovieDB.mk 0%nat)).
  vm_compute. reflexivity.
Defined.

(** ** [MovieFilter.__init__] *)














(** ** When a load aborts *)






(** ** The delimited text of [MovieFilter] *)

Lemma getitems_spec (d out : Pandas.DataFrame) (cs : list string) :
  Pandas.getitems d cs = Ok out ->
  exists ixs,
    Forall2 (fun c i => Pandas.position c (Pandas.columns d) = Some i) cs ixs
    /\ out = Pandas.mkDataFrame cs
               (map (fun r => (fst r, map (fun i => Pandas.cell_at i r) ixs))
                    (Pandas.rows d)).
Proof.
  unfold Pandas.getitems.
  destruct (mapM (fun c => match Pandas.position c (Pandas.columns d) with
                           | Some i => Ok i
                           | None => Raise (KeyError c)
                           end) cs) as [ixs|e] eqn:E; [|discriminate].
  simpl. intros H. inversion H. exists ixs. split; [|reflexivity].
  clear H H1. revert ixs E. induction cs as [|c cs IH]; simpl; intros ixs E.
  - inversion E. constructor.
  - destruct (Pandas.position c (Pandas.columns d)) as [i|] eqn:P;
      [|discriminate].
    simpl in E.
    destruct (mapM (fun c => match Pandas.position c (Pandas.columns d) with
                             | Some i => Ok i
                             | None => Raise (KeyError c)
                             end) cs) as [ixs'|e]; [|discriminate].
    simpl in E. inversion E. constructor; [exact P|]. apply IH. reflexivity.
Qed.

Lemma setitem_scalar_column (d : Pandas.DataFrame) (c : string)
  (x : Pandas.cell) :
  let d' := Pandas.setitem_scalar d c x in
  Pandas.position c (Pandas.columns d') = Some (place_after_setitem d c)
  /\ List.length (Pandas.rows d') = List.length (Pandas.rows d)
  /\ forall r, In r (Pandas.rows d') ->
               Pandas.cell_at (place_after_setitem d c) r = x.
Proof.
  intros d'. unfold d', Pandas.setitem_scalar.
  assert (L : List.length (repeat x (List.length (Pandas.rows d)))
              = List.length (Pandas.rows d)) by apply repeat_length.
  split; [apply setitem_position|]. split; [apply setitem_rows_length; exact L|].
  intros r Hr.
  pose proof (set_column_same (place_after_setitem d c) _ (Pandas.rows d) L) as S.
  rewrite <- setitem_rows in S.
  assert (In (Pandas.cell_at (place_after_setitem d c) r)
             (repeat x (List.length (Pandas.rows d)))) as Hin
      by (rewrite <- S; apply in_map; exact Hr).
  apply repeat_spec in Hin. exact Hin.
Qed.

Lemma append_assoc (a b c : string) :
  ((a ++ b) ++ c = a ++ (b ++ c))%string.
Proof. induction a as [|x a IH]; simpl; [reflexivity|]. rewrite IH. reflexivity. Qed.

Lemma join_last (sep : string) (l : list string) (x : string) :
  l <> [] ->
  Py.join sep (l ++ [x]) = (Py.join sep l ++ sep ++ x)%string.
Proof.
  induction l as [|a l IH]; intros H; [contradiction|].
  destruct l as [|b l].
  - reflexivity.
  - change (Py.join sep ((a :: b :: l) ++ [x]))
      with (a ++ sep ++ Py.join sep ((b :: l) ++ [x]))%string.
    rewrite IH by discriminate.
    change (Py.join sep (a :: b :: l)) with (a ++ sep ++ Py.join sep (b :: l))%string.
    rewrite !append_assoc. reflexivity.
Qed.

(** What the exported frame is like. *)
Lemma export_frame_spec (py_int : string -> option Z)
  (data final_df : Pandas.DataFrame) :
  MovieFilter.export_frame py_int data = Ok final_df ->
  Pandas.columns final_df = MovieFilter.final_cols
  /\ List.length (Pandas.rows final_df) = List.length (Pandas.rows data)
  /\ (forall r, In r (Pandas.rows final_df) ->
                List.length (snd r) = 6%nat
                /\ Pandas.cell_at 5 r = Pandas.Str "0").
Proof.
  unfold MovieFilter.export_frame.
  destruct (Pandas.getitems data (MovieFilter.available data MovieFilter.csv_cols))
    as [csv_df|e] eqn:G1; [|discriminate].
  cbn [rbind].
  set (step := if Pandas.has_column csv_df "Total Gross" then _ else _).
  destruct step as [csv_df2|e] eqn:G2; [|discriminate].
  cbn [rbind]. intros G3.
  assert (L2 : List.length (Pandas.rows csv_df2) = List.length (Pandas.rows data)).
  { destruct (getitems_spec _ _ _ G1) as [ixs [_ E1]].
    assert (List.length (Pandas.rows csv_df) = List.length (Pandas.rows data))
      as L1 by (rewrite E1; simpl; apply length_map).
    unfold step in G2.
    destruct (Pandas.has_column csv_df "Total Gross");
      [|inversion G2; subst; exact L1].
    destruct (Pandas.getitem csv_df "Total Gross") as [gross|] eqn:Gg;
      [|discriminate].
    cbn [rbind] in G2.
    destruct (mapM (MovieFilter.gross_raw py_int) gross) as [gross'|] eqn:Gm;
      [|discriminate].
    cbn [rbind] in G2. inversion G2; subst.
    rewrite setitem_rows_length; [exact L1|].
    rewrite (mapM_Ok_length _ _ _ Gm). eapply getitem_length. exact Gg. }
  destruct (setitem_scalar_column csv_df2 "Inflation Adjusted Gross"
              (Pandas.Str "0")) as [P [L3 Z]].
  destruct (getitems_spec _ _ _ G3) as [ixs [F E]].
  unfold MovieFilter.final_cols in F.
  repeat (match goal with
          | H : Forall2 _ (_ :: _) _ |- _ => inversion H; subst; clear H
          | H : Forall2 _ [] _ |- _ => inversion H; subst; clear H
          end).
  match goal with
  | H : Pandas.position "Inflation Adjusted Gross" _ = Some ?y |- _ =>
      rewrite P in H; inversion H; subst y
  end.
  try subst final_df. cbn [Pandas.columns Pandas.rows].
  split; [reflexivity|].
  split; [rewrite length_map; etransitivity; [exact L3|exact L2]|].
  intros r Hr. apply in_map_iff in Hr. destruct Hr as [r0 [<- Hr0]].
  split; [reflexivity|]. unfold Pandas.cell_at at 1. cbn [snd map nth].
  apply Z. exact Hr0.
Qed.

Lemma append_empty (a : string) : (a ++ "")%string = a.
Proof. induction a as [|x a IH]; simpl; [reflexivity|]. rewrite IH. reflexivity. Qed.

Lemma concat_no_separator (l : list string) :
  String.concat "" l = concat_lines l.
Proof.
  induction l as [|x l IH]; [reflexivity|].
  destruct l as [|y l].
  - simpl. symmetry. apply append_empty.
  - change (String.concat "" (x :: y :: l))
      with (x ++ String.concat "" (y :: l))%string.
    rewrite IH. reflexivity.
Qed.

(** The text [to_csv] writes: one line for the header, one for each
    row. *)
Lemma to_csv_text (repr_float : Q -> string) (df : Pandas.DataFrame) :
  Pandas.to_csv repr_float df
  = (Py.join "," (map Pandas.csv_field (Pandas.columns df)) ++ Py.newline
       ++ concat_lines
            (map (fun r => Py.join "," (map (Pandas.csv_cell repr_float) (snd r))
                           ++ Py.newline)
                 (Pandas.rows df)))%string.
Proof.
  unfold Pandas.to_csv, Pandas.to_csv_lines. rewrite concat_no_separator.
  cbn [map concat_lines]. rewrite map_map, append_assoc. reflexivity.
Qed.

(** The text of the exported frame. *)
Lemma export_frame_exported (repr_float : Q -> string)
  (py_int : string -> option Z) (data final_df : Pandas.DataFrame) :
  MovieFilter.export_frame py_int data = Ok final_df ->
  exported repr_float data (Pandas.to_csv repr_float final_df).
Proof.
  intros E. destruct (export_frame_spec py_int data final_df E) as [C [L Z]].
  exists (map (fun r => firstn 5 (snd r)) (Pandas.rows final_df)).
  split; [rewrite length_map; exact L|]. split.
  - intros fields Hf. apply in_map_iff in Hf. destruct Hf as [r [<- Hr]].
    destruct (Z r Hr) as [L6 _]. rewrite firstn_length_le; [reflexivity|].
    rewrite L6. repeat constructor.
  - rewrite to_csv_text, C, map_map. f_equal. f_equal. f_equal.
    apply map_ext_in. intros r Hr.
    destruct (Z r Hr) as [L6 Z5]. destruct r as [lbl cells]. simpl in L6.
    unfold Pandas.cell_at in Z5. simpl in Z5.
    destruct cells as [|a [|b [|c [|d [|e [|f [|g cells]]]]]]];
      try discriminate.
    simpl in Z5. subst f. cbn [snd firstn]. unfold export_line.
    change [a; b; c; d; e; Pandas.Str "0"]
      with ([a; b; c; d; e] ++ [Pandas.Str "0"]).
    rewrite map_app. cbn [map]. rewrite join_last by discriminate.
    rewrite !append_assoc. reflexivity.
Qed.

Lemma display_csv_export (repr_float : Q -> string)
  (py_int : string -> option Z) (data : Pandas.DataFrame) (limit : Z)
  (out : list string) :
  Pandas.rows data <> [] ->
  MovieFilter.display repr_float py_int data limit "csv" = Ok out ->
  exists final_df,
    MovieFilter.export_frame py_int data = Ok final_df
    /\ out = [Pandas.to_csv repr_float final_df].
Proof.
  intros Hne. unfold MovieFilter.display.
  destruct (Pandas.rows data) as [|r rs] eqn:R; [contradiction|].
  cbn [List.length Nat.eqb]. clear R.
  destruct (Pandas.getitems data (MovieFilter.available data MovieFilter.display_cols))
    as [display_df|e]; [|discriminate].
  cbn [rbind].
  match goal with
  | |- rbind ?step _ = _ -> _ => destruct step as [display_df2|e]; [|discriminate]
  end.
  cbn [rbind]. cbn [String.eqb Ascii.eqb Bool.eqb].
  destruct (MovieFilter.export_frame py_int data) as [final_df|e];
    [|discriminate].
  cbn [rbind]. intros H. inversion H. exists final_df. auto.
Qed.

Lemma save_to_csv_export (repr_float : Q -> string)
  (py_int : string -> option Z) (data : Pandas.DataFrame)
  (filename message : string) (file : string * string) :
  MovieFilter.save_to_csv repr_float py_int data filename
  = Ok (message, Some file) ->
  exists final_df,
    MovieFilter.export_frame py_int data = Ok final_df
    /\ file = (filename, Pandas.to_csv repr_float final_df).
Proof.
  unfold MovieFilter.save_to_csv.
  destruct (List.length (Pandas.rows data) =? 0)%nat; [discriminate|].
  destruct (MovieFilter.export_frame py_int data) as [final_df|e];
    [|discriminate].
  cbn [rbind]. intros H. inversion H. exists final_df. auto.
Qed.

(** *** The exports return *)

Lemma mapM_returns {A B : Type} (f : A -> result B) (l : list A) :
  (forall x, In x l -> exists y, f x = Ok y) -> exists ys, mapM f l = Ok ys.
Proof.
  induction l as [|x l IH]; intros H; simpl.
  - eexists. reflexivity.
  - destruct (H x (or_introl eq_refl)) as [y Hy]. rewrite Hy.
    destruct IH as [ys Hys]; [intros z Hz; apply H; right; exact Hz|].
    rewrite Hys. eexists. reflexivity.
Qed.

Lemma getitems_returns (d : Pandas.DataFrame) (cs : list string) :
  forallb (Pandas.has_column d) cs = true ->
  exists ixs,
    Forall2 (fun c i => Pandas.position c (Pandas.columns d) = Some i) cs ixs
    /\ Pandas.getitems d cs
       = Ok (Pandas.mkDataFrame cs
               (map (fun r => (fst r, map (fun i => Pandas.cell_at i r) ixs))
                    (Pandas.rows d))).
Proof.
  intros H. unfold Pandas.getitems.
  assert (exists ixs,
             Forall2 (fun c i => Pandas.position c (Pandas.columns d) = Some i)
               cs ixs
             /\ mapM (fun c => match Pandas.position c (Pandas.columns d) with
                               | Some i => Ok i
                               | None => Raise (KeyError c)
                               end) cs = Ok ixs) as [ixs [F E]].
  { induction cs as [|c cs IH]; simpl in *.
    - exists []. split; [constructor|reflexivity].
    - apply andb_true_iff in H. destruct H as [Hc H].
      unfold Pandas.has_column in Hc.
      destruct (Pandas.position c (Pandas.columns d)) as [i|] eqn:P;
        [|discriminate].
      destruct (IH H) as [ixs [F E]]. exists (i :: ixs).
      split; [constructor; assumption|]. rewrite E. reflexivity. }
  exists ixs. split; [exact F|]. rewrite E. reflexivity.
Qed.

Lemma getitems_column (cols cs : list string) (ixs : list nat) (c : string)
  (j : nat) :
  Forall2 (fun c i => Pandas.position c cols = Some i) cs ixs ->
  Pandas.position c cs = Some j ->
  exists i,
    Pandas.position c cols = Some i
    /\ forall r : Pandas.Row,
         Pandas.cell_at j (fst r, map (fun i => Pandas.cell_at i r) ixs)
         = Pandas.cell_at i r.
Proof.
  intros F. revert j. induction F as [|k i cs ixs Hk F IH]; intros j P.
  - discriminate.
  - simpl in P. destruct (String.eqb_spec k c) as [->|N].
    + inversion P; subst. exists i. split; [exact Hk|]. reflexivity.
    + destruct (Pandas.position c cs) as [j'|]; [|discriminate].
      inversion P; subst. destruct (IH j' eq_refl) as [i' [Pi C]].
      exists i'. split; [exact Pi|]. intros r. exact (C r).
Qed.

Lemma gross_raw_returns (py_int : string -> option Z) (c : Pandas.cell) :
  exportable py_int c = true ->
  exists y, MovieFilter.gross_raw py_int c = Ok y.
Proof.
  unfold MovieFilter.gross_raw, MovieFilter.present, MovieFilter.int_of_cell.
  destruct c as [|s|q|t]; simpl; intros H; try discriminate;
    try (eexists; reflexivity).
  - destruct (s =? ""); simpl in *; [eexists; reflexivity|].
    destruct (py_int s); [|discriminate]. eexists. reflexivity.
  - destruct (Py.isinf q); [discriminate|]. eexists. reflexivity.
Qed.

Lemma gross_with_commas_returns (py_int : string -> option Z)
  (c : Pandas.cell) :
  exportable py_int c = true ->
  exists y, MovieFilter.gross_with_commas py_int c = Ok y.
Proof.
  unfold MovieFilter.gross_with_commas, MovieFilter.present,
    MovieFilter.int_of_cell.
  destruct c as [|s|q|t]; simpl; intros H; try discriminate;
    try (eexists; reflexivity).
  - destruct (s =? ""); simpl in *; [eexists; reflexivity|].
    destruct (py_int s); [|discriminate]. eexists. reflexivity.
  - destruct (Py.isinf q); [discriminate|]. eexists. reflexivity.
Qed.

Lemma exportable_view_gross (py_int : string -> option Z)
  (data : Pandas.DataFrame) :
  exportable_view py_int data = true ->
  forallb (Pandas.has_column data) MovieFilter.csv_cols = true
  /\ exists i,
       Pandas.position "Total Gross" (Pandas.columns data) = Some i
       /\ forall r, In r (Pandas.rows data) ->
                    exportable py_int (Pandas.cell_at i r) = true.
Proof.
  unfold exportable_view. intros H. apply andb_true_iff in H.
  destruct H as [A B]. split; [exact A|].
  destruct (Pandas.position "Total Gross" (Pandas.columns data)) as [i|];
    [|discriminate].
  exists i. split; [reflexivity|]. rewrite forallb_forall in B. exact B.
Qed.

Lemma export_frame_returns (py_int : string -> option Z)
  (data : Pandas.DataFrame) :
  exportable_view py_int data = true ->
  exists final_df, MovieFilter.export_frame py_int data = Ok final_df.
Proof.
  intros V. destruct (exportable_view_gross py_int data V) as [A [ig [Pg Bg]]].
  unfold MovieFilter.export_frame.
  assert (Av : MovieFilter.available data MovieFilter.csv_cols
               = MovieFilter.csv_cols).
  { apply filter_all. rewrite forallb_forall in A. exact A. }
  rewrite Av.
  destruct (getitems_returns data MovieFilter.csv_cols A) as [ixs [F G]].
  rewrite G. cbn [rbind].
  set (rows1 := map (fun r => (fst r, map (fun i => Pandas.cell_at i r) ixs))
                    (Pandas.rows data)).
  change (Pandas.has_column (Pandas.mkDataFrame MovieFilter.csv_cols rows1)
            "Total Gross") with true.
  change (Pandas.getitem (Pandas.mkDataFrame MovieFilter.csv_cols rows1)
            "Total Gross") with (Ok (map (Pandas.cell_at 4) rows1)).
  cbn [rbind].
  destruct (mapM_returns (MovieFilter.gross_raw py_int)
              (map (Pandas.cell_at 4) rows1)) as [gross Gm].
  { intros x Hx. apply in_map_iff in Hx. destruct Hx as [r1 [<- Hr1]].
    apply in_map_iff in Hr1. destruct Hr1 as [r [<- Hr]].
    destruct (getitems_column (Pandas.columns data) MovieFilter.csv_cols ixs
                "Total Gross" 4 F eq_refl) as [i [Pi C]].
    rewrite C. rewrite Pg in Pi. inversion Pi; subst i.
    apply gross_raw_returns. apply Bg. exact Hr. }
  rewrite Gm. cbn [rbind].
  match goal with
  | |- exists final_df, Pandas.getitems ?d ?cs = Ok final_df =>
      destruct (getitems_returns d cs) as [ixs' [_ G']];
        [reflexivity|rewrite G'; eexists; reflexivity]
  end.
Qed.

Lemma head_int_columns (d : Pandas.DataFrame) (n : Z) :
  Pandas.columns (Pandas.head_int d n) = Pandas.columns d.
Proof. unfold Pandas.head_int. destruct (0 <=? n)%Z; reflexivity. Qed.

Lemma firstn_subset {A : Type} (n : nat) (l : list A) (x : A) :
  In x (firstn n l) -> In x l.
Proof.
  revert l. induction n as [|n IH]; intros [|y l]; simpl; try tauto.
  intros [H|H]; [left; exact H|right; apply IH; exact H].
Qed.

Lemma head_int_rows (d : Pandas.DataFrame) (n : Z) (r : Pandas.Row) :
  In r (Pandas.rows (Pandas.head_int d n)) -> In r (Pandas.rows d).
Proof.
  unfold Pandas.head_int. destruct (0 <=? n)%Z; simpl; apply firstn_subset.
Qed.

Lemma display_csv_returns (repr_float : Q -> string)
  (py_int : string -> option Z) (data : Pandas.DataFrame) (limit : Z) :
  Pandas.rows data <> [] ->
  exportable_view py_int data = true ->
  exists final_df,
    MovieFilter.display repr_float py_int data limit "csv"
    = Ok [Pandas.to_csv repr_float final_df].
Proof.
  intros Hne V.
  destruct (export_frame_returns py_int data V) as [final_df E].
  destruct (exportable_view_gross py_int data V) as [_ [ig [Pg Bg]]].
  exists final_df. unfold MovieFilter.display.
  assert (Hlen : (List.length (Pandas.rows data) =? 0)%nat = false)
    by (destruct (Pandas.rows data); [contradiction|reflexivity]).
  rewrite Hlen.
  destruct (getitems_returns data
              (MovieFilter.available data MovieFilter.display_cols))
    as [ixs [F G]].
  { apply forallb_forall. intros c Hc. apply filter_In in Hc. tauto. }
  rewrite G. cbn [rbind].
  set (shown := Pandas.head_int _ limit).
  assert (Step : exists display_df,
             (if Pandas.has_column shown "Total Gross" then
                gross <-- Pandas.getitem shown "Total Gross" ;;
                gross <-- mapM (MovieFilter.gross_with_commas py_int) gross ;;
                Ok (Pandas.setitem shown "Total Gross" gross)
              else Ok shown) = Ok display_df).
  { destruct (Pandas.has_column shown "Total Gross") eqn:Ht;
      [|eexists; reflexivity].
    destruct (has_column_getitem _ _ Ht) as [j [Pj Gj]]. rewrite Gj.
    cbn [rbind].
    destruct (mapM_returns (MovieFilter.gross_with_commas py_int)
                (map (Pandas.cell_at j) (Pandas.rows shown))) as [gross Gm].
    - intros x Hx. apply in_map_iff in Hx. destruct Hx as [r1 [<- Hr1]].
      unfold shown in Hr1, Pj. apply head_int_rows in Hr1.
      rewrite head_int_columns in Pj. cbn [Pandas.rows Pandas.columns] in *.
      apply in_map_iff in Hr1. destruct Hr1 as [r [<- Hr]].
      destruct (getitems_column _ _ _ _ _ F Pj) as [i [Pi C]].
      rewrite C. rewrite Pg in Pi. inversion Pi; subst i.
      apply gross_with_commas_returns. apply Bg. exact Hr.
    - rewrite Gm. cbn [rbind]. eexists. reflexivity. }
  destruct Step as [display_df S]. rewrite S. cbn [rbind].
  cbn [String.eqb Ascii.eqb Bool.eqb]. rewrite E. reflexivity.
Qed.

Lemma save_to_csv_returns (repr_float : Q -> string)
  (py_int : string -> option Z) (data : Pandas.DataFrame)
  (filename : string) :
  Pandas.rows data <> [] ->
  exportable_view py_int data = true ->
  exists final_df message,
    MovieFilter.save_to_csv repr_float py_int data filename
    = Ok (message, Some (filename, Pandas.to_csv repr_float final_df)).
Proof.
  intros Hne V.
  destruct (export_frame_returns py_int data V) as [final_df E].
  exists final_df. unfold MovieFilter.save_to_csv.
  assert (Hlen : (List.length (Pandas.rows data) =? 0)%nat = false)
    by (destruct (Pandas.rows data); [contradiction|reflexivity]).
  rewrite Hlen, E. cbn [rbind]. eexists. reflexivity.
Qed.

(** C8.  Whatever [MovieFilter] emits as delimited text, through [display]
    in the [csv] format or through [save_to_csv], is this text: first the
    line [Movie Title,Date Released,Genre,MPAA Rating,Total Gross,Inflation
    Adjusted Gross], then one line for each record of the view, made of
    the five fields of the record and, as its inflation adjusted gross, the
    literal [0].  A view that is not empty, has the five columns of the data
    set and a gross that can be written (finite numbers, missing values,
    texts that [int] reads) is exported so by both. *)
Theorem export_inflation_adjusted_gross_is_zero
  (repr_float : Q -> string) (py_int : string -> option Z)
  (data : Pandas.DataFrame) :
  (forall (limit : Z) (out : list string),
      Pandas.rows data <> [] ->
      MovieFilter.display repr_float py_int data limit "csv" = Ok out ->
      exists text, out = [text] /\ exported repr_float data text)
  /\
  (forall (filename message : string) (file : string * string),
      MovieFilter.save_to_csv repr_float py_int data filename
      = Ok (message, Some file) ->
      exists text, file = (filename, text) /\ exported repr_float data text)
  /\
  (Pandas.rows data <> [] ->
   exportable_view py_int data = true ->
   (forall limit : Z,
       exists text,
         MovieFilter.display repr_float py_int data limit "csv" = Ok [text]
         /\ exported repr_float data text)
   /\
   (forall filename : string,
       exists text message,
         MovieFilter.save_to_csv repr_float py_int data filename
         = Ok (message, Some (filename, text))
         /\ exported repr_float data text)).
Proof.
  assert (D : forall (limit : Z) (out : list string),
             Pandas.rows data <> [] ->
             MovieFilter.display repr_float py_int data limit "csv" = Ok out ->
             exists text, out = [text] /\ exported repr_float data text).
  { intros limit out Hne D.
    destruct (display_csv_export _ _ _ _ _ Hne D) as [final_df [E O]].
    exists (Pandas.to_csv repr_float final_df). split; [exact O|].
    eapply export_frame_exported. exact E. }
  assert (S : forall (filename message : string) (file : string * string),
             MovieFilter.save_to_csv repr_float py_int data filename
             = Ok (message, Some file) ->
             exists text,
               file = (filename, text) /\ exported repr_float data text).
  { intros filename message file S.
    destruct (save_to_csv_export _ _ _ _ _ _ S) as [final_df [E O]].
    exists (Pandas.to_csv repr_float final_df). split; [exact O|].
    eapply export_frame_exported. exact E. }
  split; [exact D|]. split; [exact S|].
  intros Hne V. split.
  - intros limit.
    destruct (display_csv_returns repr_float py_int data limit Hne V)
      as [final_df R].
    destruct (D limit _ Hne R) as [text [E X]].
    exists text. split; [|exact X]. rewrite R, E. reflexivity.
  - intros filename.
    destruct (save_to_csv_returns repr_float py_int data filename Hne V)
      as [final_df [message R]].
    destruct (S filename message _ R) as [text [E X]].
    exists text, message. split; [|exact X]. rewrite R, E. reflexivity.
Qed.

Lemma export_inflation_adjusted_gross_is_zero_witness :
  exists text message,
    MovieFilter.save_to_csv Sample.repr_float Sample.py_int Sample.scraped
      "movies_out.csv"
    = Ok (message, Some ("movies_out.csv", text))
    /\ exported Sample.repr_float Sample.scraped text.
Proof.
  refine (proj2 (proj2 (proj2 (export_inflation_adjusted_gross_is_zero
                                 Sample.repr_float Sample.py_int
                                 Sample.scraped)) _ _) "movies_out.csv").
  - intros H. vm_compute in H. discriminate H.
  - vm_compute. reflexivity.
Defined.

(** *** The gross that [MovieFilter] writes is a bare integer *)

Lemma digit_char_val (k : nat) :
  (k < 10)%nat -> Datetime.digit_val (Py.digit_char k) <> None.
Proof.
  intros H. do 10 (destruct k as [|k]; [discriminate|]). lia.
Qed.

Lemma digits_fuel_digits (fuel : nat) :
  forall (n : N) (acc : list ascii),
    Forall (fun d => Datetime.digit_val d <> None) acc ->
    Forall (fun d => Datetime.digit_val d <> None) (Py.digits_fuel fuel n acc).
Proof.
  induction fuel as [|fuel IH]; intros n acc F; simpl; [exact F|].
  assert (F' : Forall (fun d => Datetime.digit_val d <> None)
                 (Py.digit_char (N.to_nat (n mod 10)) :: acc)).
  { constructor; [|exact F]. apply digit_char_val.
    pose proof (N.mod_upper_bound n 10). lia. }
  destruct (n <? 10)%N; [exact F'|]. apply IH. exact F'.
Qed.

Lemma digits_fuel_nonempty (fuel : nat) (n : N) (acc : list ascii) :
  Py.digits_fuel (S fuel) n acc <> [].
Proof.
  revert n acc. induction fuel as [|fuel IH]; intros n acc.
  - simpl. destruct (n <? 10)%N; discriminate.
  - change (Py.digits_fuel (S (S fuel)) n acc)
      with (if (n <? 10)%N
            then Py.digit_char (N.to_nat (n mod 10)) :: acc
            else Py.digits_fuel (S fuel) (n / 10)%N
                   (Py.digit_char (N.to_nat (n mod 10)) :: acc)).
    destruct (n <? 10)%N; [discriminate|]. apply IH.
Qed.

Lemma str_bare_integer (z : Z) : bare_integer (Pandas.Str (Py.str z)) = true.
Proof.
  unfold bare_integer, Py.str, Py.text, Py.digits.
  set (l := Py.digits_fuel _ _ _).
  assert (F : Forall (fun d => Datetime.digit_val d <> None) l)
    by (apply digits_fuel_digits; constructor).
  assert (N : l <> []) by apply digits_fuel_nonempty.
  assert (A : match l with
              | [] => false
              | _ => forallb (fun d => match Datetime.digit_val d with
                                       | Some _ => true
                                       | None => false
                                       end) l
              end = true).
  { destruct l as [|d l']; [contradiction|].
    apply forallb_forall. intros x Hx. rewrite Forall_forall in F.
    specialize (F x Hx). destruct (Datetime.digit_val x); [reflexivity|].
    contradiction. }
  destruct (z <? 0)%Z.
  - cbn [list_ascii_of_string]. rewrite list_ascii_of_string_of_list_ascii.
    exact A.
  - rewrite list_ascii_of_string_of_list_ascii.
    destruct l as [|d l']; [contradiction|].
    inversion F as [|? ? Hd _]; subst.
    destruct d as [[] [] [] [] [] [] [] []]; try exact A;
      exfalso; apply Hd; reflexivity.
Qed.

(** [MovieFilter] writes the gross as a bare integer, or leaves the field
    empty. *)
Lemma gross_raw_bare (py_int : string -> option Z) (c y : Pandas.cell) :
  MovieFilter.gross_raw py_int c = Ok y ->
  y = Pandas.Str "" \/ bare_integer y = true.
Proof.
  unfold MovieFilter.gross_raw. destruct (MovieFilter.present c).
  - destruct (MovieFilter.int_of_cell py_int c) as [z|]; [|discriminate].
    cbn [rbind]. intros H. inversion H. right. apply str_bare_integer.
  - intros H. inversion H. left. reflexivity.
Qed.

(** ** The delimited text of [MovieDB] *)

Lemma currency_prefix (c y : Pandas.cell) :
  MovieDB.currency c = Ok y -> has_currency_prefix y = true.
Proof.
  destruct c as [|s|q|t]; simpl; intros H; inversion H; reflexivity.
Qed.

Lemma mapM_currency_prefix (l l' : Pandas.Series) :
  mapM MovieDB.currency l = Ok l' ->
  forall y, In y l' -> has_currency_prefix y = true.
Proof.
  revert l'. induction l as [|c l IH]; simpl; intros l' H y Hy.
  - inversion H; subst. destruct Hy.
  - destruct (MovieDB.currency c) as [x|] eqn:E; [|discriminate].
    simpl in H. destruct (mapM MovieDB.currency l) as [xs|]; [|discriminate].
    simpl in H. inversion H; subst. destruct Hy as [<-|Hy].
    + eapply currency_prefix. exact E.
    + eapply IH; [reflexivity|exact Hy].
Qed.

Lemma display_frame_amounts (data display_df : Pandas.DataFrame)
  (limit : option Z) :
  MovieDB.display_frame data limit = Ok display_df ->
  forall r, In r (Pandas.rows display_df) ->
    has_currency_prefix (Pandas.cell_at 5 r) = true
    /\ has_currency_prefix (Pandas.cell_at 6 r) = true.
Proof.
  unfold MovieDB.display_frame.
  destruct (Pandas.getitems data MovieDB.display_columns) as [df0|] eqn:G;
    [|discriminate].
  destruct (getitems_spec _ _ _ G) as [ixs [_ ->]]. cbn [rbind].
  match goal with
  | |- context [Pandas.mkDataFrame MovieDB.display_columns ?rs] =>
      set (rows0 := rs)
  end.
  change (Pandas.getitem (Pandas.mkDataFrame MovieDB.display_columns rows0)
            "Date Released") with (Ok (map (Pandas.cell_at 1) rows0)).
  cbn [rbind].
  destruct (Pandas.dt_strftime (map (Pandas.cell_at 1) rows0)) as [dates|] eqn:D;
    [|discriminate].
  cbn [rbind].
  change (Pandas.setitem (Pandas.mkDataFrame MovieDB.display_columns rows0)
            "Date Released" dates)
    with (Pandas.mkDataFrame MovieDB.display_columns
            (Pandas.set_column 1 dates rows0)).
  set (rows1 := Pandas.set_column 1 dates rows0).
  change (Pandas.getitem (Pandas.mkDataFrame MovieDB.display_columns rows1)
            "Total Gross") with (Ok (map (Pandas.cell_at 5) rows1)).
  cbn [rbind].
  destruct (mapM MovieDB.currency (map (Pandas.cell_at 5) rows1))
    as [gross|] eqn:Gg; [|discriminate].
  cbn [rbind].
  change (Pandas.setitem (Pandas.mkDataFrame MovieDB.display_columns rows1)
            "Total Gross" gross)
    with (Pandas.mkDataFrame MovieDB.display_columns
            (Pandas.set_column 5 gross rows1)).
  set (rows2 := Pandas.set_column 5 gross rows1).
  change (Pandas.getitem (Pandas.mkDataFrame MovieDB.display_columns rows2)
            "Inflation Adjusted Gross") with (Ok (map (Pandas.cell_at 6) rows2)).
  cbn [rbind].
  destruct (mapM MovieDB.currency (map (Pandas.cell_at 6) rows2))
    as [adjusted|] eqn:Ga; [|discriminate].
  cbn [rbind].
  change (Pandas.setitem (Pandas.mkDataFrame MovieDB.display_columns rows2)
            "Inflation Adjusted Gross" adjusted)
    with (Pandas.mkDataFrame MovieDB.display_columns
            (Pandas.set_column 6 adjusted rows2)).
  set (rows3 := Pandas.set_column 6 adjusted rows2).
  intros H. inversion H as [H']. clear H H'.
  assert (L1 : List.length dates = List.length rows0).
  { unfold Pandas.dt_strftime in D. rewrite (mapM_Ok_length _ _ _ D).
    apply length_map. }
  assert (Lr1 : List.length rows1 = List.length rows0).
  { unfold rows1. rewrite <- (length_map fst (Pandas.set_column _ _ _)).
    rewrite set_column_labels by exact L1. apply length_map. }
  assert (L2 : List.length gross = List.length rows1).
  { rewrite (mapM_Ok_length _ _ _ Gg). apply length_map. }
  assert (Lr2 : List.length rows2 = List.length rows1).
  { unfold rows2. rewrite <- (length_map fst (Pandas.set_column _ _ _)).
    rewrite set_column_labels by exact L2. apply length_map. }
  assert (L3 : List.length adjusted = List.length rows2).
  { rewrite (mapM_Ok_length _ _ _ Ga). apply length_map. }
  assert (C6 : map (Pandas.cell_at 6) rows3 = adjusted)
    by (apply set_column_same; exact L3).
  assert (C5 : map (Pandas.cell_at 5) rows3 = gross).
  { unfold rows3. rewrite set_column_other; [|lia|exact L3].
    apply set_column_same. exact L2. }
  assert (K : forall r, In r rows3 ->
                has_currency_prefix (Pandas.cell_at 5 r) = true
                /\ has_currency_prefix (Pandas.cell_at 6 r) = true).
  { intros r Hr. split.
    - apply (mapM_currency_prefix _ _ Gg). rewrite <- C5. apply in_map. exact Hr.
    - apply (mapM_currency_prefix _ _ Ga). rewrite <- C6. apply in_map. exact Hr. }
  intros r Hr. apply K.
  destruct (Py.truthy_int limit); [|exact Hr].
  apply head_int_rows in Hr. exact Hr.
Qed.

Lemma display_csv_frame (repr_float : Q -> string) (data : Pandas.DataFrame)
  (limit : option Z) (out : list string) :
  Pandas.rows data <> [] ->
  MovieDB.display repr_float data limit "csv" = Ok out ->
  exists display_df,
    MovieDB.display_frame data limit = Ok display_df
    /\ out = [Pandas.to_csv repr_float display_df].
Proof.
  intros Hne. unfold MovieDB.display.
  assert (Hlen : (List.length (Pandas.rows data) =? 0)%nat = false)
    by (destruct (Pandas.rows data); [contradiction|reflexivity]).
  rewrite Hlen.
  destruct (MovieDB.display_frame data limit) as [display_df|];
    [|discriminate].
  cbn [rbind]. cbn [String.eqb Ascii.eqb Bool.eqb].
  intros H. inversion H. exists display_df. auto.
Qed.

Lemma currency_not_bare (c : Pandas.cell) :
  has_currency_prefix c = true -> bare_integer c = false.
Proof.
  destruct c as [|s|q|t]; try discriminate.
  destruct s as [|a s]; [discriminate|].
  unfold has_currency_prefix, bare_integer.
  destruct a as [[] [] [] [] [] [] [] []]; try discriminate.
  intros _. reflexivity.
Qed.

(** In the curated data set the two amounts are turned into text with the
    currency sign and the separators before the format is looked at:
    whatever [display] writes in the [csv] format is the text of the frame
    that the table format shows, and in every record of it the total gross
    and the inflation adjusted gross carry the currency sign, so neither is
    a bare integer. *)
Lemma MovieDB_csv_amounts (repr_float : Q -> string)
  (data : Pandas.DataFrame) (limit : option Z) (out : list string) :
  Pandas.rows data <> [] ->
  MovieDB.display repr_float data limit "csv" = Ok out ->
  exists display_df,
    MovieDB.display_frame data limit = Ok display_df
    /\ out = [Pandas.to_csv repr_float display_df]
    /\ forall r, In r (Pandas.rows display_df) ->
         has_currency_prefix (Pandas.cell_at 5 r) = true
         /\ has_currency_prefix (Pandas.cell_at 6 r) = true
         /\ bare_integer (Pandas.cell_at 5 r) = false
         /\ bare_integer (Pandas.cell_at 6 r) = false.
Proof.
  intros Hne D.
  destruct (display_csv_frame repr_float data limit out Hne D)
    as [display_df [F O]].
  exists display_df. split; [exact F|]. split; [exact O|].
  intros r Hr. destruct (display_frame_amounts _ _ _ F r Hr) as [A B].
  repeat split; try assumption; apply currency_not_bare; assumption.
Qed.

(** C3, at the failing input.  For one film of the curated data set, with
    a total gross of 422780140 and an inflation adjusted gross of
    761640898, [display] in the [csv] format writes the two amounts as
    [$422,780,140] and [$761,640,898], between quotes: with the currency
    sign and the separators of the table format, not as bare integers. *)
Theorem curated_csv_keeps_currency_text :
  exists display_df,
    MovieDB.display_frame one_film (Some 20%Z) = Ok display_df
    /\ MovieDB.display Sample.repr_float one_film (Some 20%Z) "csv"
       = Ok [one_film_csv]
    /\ Pandas.to_csv Sample.repr_float display_df = one_film_csv
    /\ map (Pandas.cell_at 5) (Pandas.rows display_df)
       = [Pandas.Str "$422,780,140"]
    /\ map (Pandas.cell_at 6) (Pandas.rows display_df)
       = [Pandas.Str "$761,640,898"]
    /\ map bare_integer (map (Pandas.cell_at 5) (Pandas.rows display_df))
       = [false]
    /\ map bare_integer (map (Pandas.cell_at 6) (Pandas.rows display_df))
       = [false]
    /\ tl (Pandas.to_csv_lines Sample.repr_float display_df)
       = [("The Lion King,15/06/1994,Adventure,Summer,G,"
             ++ quoted "$422,780,140" ++ "," ++ quoted "$761,640,898")%string].
Proof.
  eexists. split; [vm_compute; reflexivity|].
  repeat split; vm_compute; reflexivity.
Qed.

(** * Further properties *)

(** ** Filters one after the other *)

Lemma view_of_unique (f g : Pandas.Row -> bool) (d a b : Pandas.DataFrame) :
  (forall r, f r = g r) -> view_of f d a -> view_of g d b -> a = b.
Proof.
  intros E [Ca Ra] [Cb Rb]. destruct a as [ca ra], b as [cb rb].
  simpl in *. subst. f_equal. apply filter_ext. exact E.
Qed.

Lemma kept_columns (cls : list Clauses.clause) (d1 d2 : Pandas.DataFrame)
  (r : Pandas.Row) :
  Pandas.columns d1 = Pandas.columns d2 -> kept cls d1 r = kept cls d2 r.
Proof.
  intros C. unfold kept. induction cls as [|cl cls IH]; [reflexivity|].
  simpl. rewrite (passes_columns d1 d2 cl r C), IH. reflexivity.
Qed.

Lemma MovieDB_filter_twice (re_search : string -> string -> bool)
  (self : MovieDB.object) (a b : MovieDB_query) (h h1 h2 : store)
  (d : Pandas.DataFrame) (p1 p2 : ref) :
  nth_error h (MovieDB.df self) = Some d ->
  MovieDB_filter_with re_search self a h = (Ok p1, h1) ->
  MovieDB_filter_with re_search (MovieDB.mk p1) b h1 = (Ok p2, h2) ->
  exists d2,
    nth_error h2 p2 = Some d2
    /\ view_of (fun r => kept (MovieDB_clauses re_search a) d r
                         && kept (MovieDB_clauses re_search b) d r) d d2.
Proof.
  intros Hd E1 E2. unfold MovieDB_filter_with in *.
  destruct (MovieDB_filter_view _ _ _ _ _ _ _ _ _ _ _ _ _ Hd E1)
    as [_ [_ [d1 [N1 [_ V1]]]]].
  destruct (MovieDB_filter_view _ (MovieDB.mk p1) _ _ _ _ _ _ _ _ _ _ _ N1 E2)
    as [_ [_ [d2 [N2 [_ V2]]]]].
  exists d2. split; [exact N2|].
  eapply view_of_ext; [|exact (view_of_compose _ _ _ _ _ V1 V2)].
  intros r. cbv beta. f_equal. unfold MovieDB_clauses.
  apply kept_columns. exact (proj1 V1).
Qed.

Lemma MovieFilter_filter_twice (re_search : string -> string -> bool)
  (self : MovieFilter.object) (a b : MovieFilter_query) (h h1 h2 : store)
  (d : Pandas.DataFrame) (p1 p2 : ref) :
  nth_error h (MovieFilter.df self) = Some d ->
  MovieFilter_filter_with re_search self a h = (Ok p1, h1) ->
  MovieFilter_filter_with re_search (MovieFilter.mk p1) b h1 = (Ok p2, h2) ->
  exists d2,
    nth_error h2 p2 = Some d2
    /\ view_of (fun r => kept (MovieFilter_clauses re_search a) d r
                         && kept (MovieFilter_clauses re_search b) d r) d d2.
Proof.
  intros Hd E1 E2. unfold MovieFilter_filter_with in *.
  destruct (MovieFilter_filter_view _ _ _ _ _ _ _ _ _ _ _ _ _ _ _ _ _ _ Hd E1)
    as [_ [_ [d1 [N1 [_ V1]]]]].
  destruct (MovieFilter_filter_view _ (MovieFilter.mk p1) _ _ _ _ _ _ _ _ _ _
              _ _ _ _ _ _ N1 E2) as [_ [_ [d2 [N2 [_ V2]]]]].
  exists d2. split; [exact N2|].
  eapply view_of_ext; [|exact (view_of_compose _ _ _ _ _ V1 V2)].
  intros r. cbv beta. f_equal. unfold MovieFilter_clauses.
  apply kept_columns. exact (proj1 V1).
Qed.

(** X1.  A filter applied to the result of another returns the rows of the
    table that pass the predicates of both, in their order; so two filters
    give the same frame in either order. *)
Theorem filters_intersect_and_commute :
  (forall (re_search : string -> string -> bool) (self : MovieDB.object)
          (a b : MovieDB_query) (h h1 h2 k1 k2 : store)
          (d : Pandas.DataFrame) (p1 p2 q1 q2 : ref),
      nth_error h (MovieDB.df self) = Some d ->
      MovieDB_filter_with re_search self a h = (Ok p1, h1) ->
      MovieDB_filter_with re_search (MovieDB.mk p1) b h1 = (Ok p2, h2) ->
      MovieDB_filter_with re_search self b h = (Ok q1, k1) ->
      MovieDB_filter_with re_search (MovieDB.mk q1) a k1 = (Ok q2, k2) ->
      exists d2,
        nth_error h2 p2 = Some d2
        /\ nth_error k2 q2 = Some d2
        /\ view_of (fun r => kept (MovieDB_clauses re_search a) d r
                             && kept (MovieDB_clauses re_search b) d r) d d2)
  /\
  (forall (re_search : string -> string -> bool) (self : MovieFilter.object)
          (a b : MovieFilter_query) (h h1 h2 k1 k2 : store)
          (d : Pandas.DataFrame) (p1 p2 q1 q2 : ref),
      nth_error h (MovieFilter.df self) = Some d ->
      MovieFilter_filter_with re_search self a h = (Ok p1, h1) ->
      MovieFilter_filter_with re_search (MovieFilter.mk p1) b h1 = (Ok p2, h2) ->
      MovieFilter_filter_with re_search self b h = (Ok q1, k1) ->
      MovieFilter_filter_with re_search (MovieFilter.mk q1) a k1 = (Ok q2, k2) ->
      exists d2,
        nth_error h2 p2 = Some d2
        /\ nth_error k2 q2 = Some d2
        /\ view_of (fun r => kept (MovieFilter_clauses re_search a) d r
                             && kept (MovieFilter_clauses re_search b) d r)
             d d2).
Proof.
  split.
  - intros re_search self a b h h1 h2 k1 k2 d p1 p2 q1 q2 Hd A1 B1 B2 A2.
    destruct (MovieDB_filter_twice _ _ _ _ _ _ _ _ _ _ Hd A1 B1)
      as [d2 [N2 V2]].
    destruct (MovieDB_filter_twice _ _ _ _ _ _ _ _ _ _ Hd B2 A2)
      as [d2' [N2' V2']].
    exists d2. split; [exact N2|]. split; [|exact V2].
    rewrite N2'. f_equal.
    eapply view_of_unique; [|exact V2'|exact V2].
    intros r. apply andb_comm.
  - intros re_search self a b h h1 h2 k1 k2 d p1 p2 q1 q2 Hd A1 B1 B2 A2.
    destruct (MovieFilter_filter_twice _ _ _ _ _ _ _ _ _ _ Hd A1 B1)
      as [d2 [N2 V2]].
    destruct (MovieFilter_filter_twice _ _ _ _ _ _ _ _ _ _ Hd B2 A2)
      as [d2' [N2' V2']].
    exists d2. split; [exact N2|]. split; [|exact V2].
    rewrite N2'. f_equal.
    eapply view_of_unique; [|exact V2'|exact V2].
    intros r. apply andb_comm.
Qed.

Lemma filters_intersect_and_commute_witness :
  exists d2,
    nth_error
      (snd (MovieDB_filter_with Sample.literal_search (MovieDB.mk 2%nat)
              summer_hits
              (snd (MovieDB_filter_with Sample.literal_search
                      (MovieDB.mk 0%nat) adventures [Sample.disney]))))
      5%nat = Some d2
    /\ nth_error
         (snd (MovieDB_filter_with Sample.literal_search (MovieDB.mk 3%nat)
                 adventures
                 (snd (MovieDB_filter_with Sample.literal_search
                         (MovieDB.mk 0%nat) summer_hits [Sample.disney]))))
         5%nat = Some d2
    /\ view_of (fun r => kept (MovieDB_clauses Sample.literal_search
                                 adventures) Sample.disney r
                         && kept (MovieDB_clauses Sample.literal_search
                                    summer_hits) Sample.disney r)
         Sample.disney d2.
Proof.
  eapply (proj1 filters_intersect_and_commute Sample.literal_search
            (MovieDB.mk 0%nat) adventures summer_hits [Sample.disney]
            _ _ _ _ Sample.disney 2%nat 5%nat 3%nat 5%nat);
    reflexivity.
Defined.

(** ** Years that are no constraint *)

Lemma truthy_range_off (ys ye : option Z) :
  ys = None \/ ys = Some 0%Z \/ ye = None \/ ye = Some 0%Z ->
  Py.truthy_int ys && Py.truthy_int ye = false.
Proof.
  intros [H|[H|[H|H]]]; subst; simpl; try reflexivity; apply andb_false_r.
Qed.

(** X2.  The year 0 is taken as no year, and a range of years of which a
    bound is 0 or is not given is taken as no range: the filter then
    returns the whole table, in either class. *)
Theorem year_zero_is_no_constraint
  (re_search : string -> string -> bool) (h : store) (d : Pandas.DataFrame) :
  (forall self : MovieDB.object,
      nth_error h (MovieDB.df self) = Some d ->
      returns (MovieDB.filter re_search self None None (Some 0%Z) None None
                 None None) h d
      /\ forall ys ye,
           ys = None \/ ys = Some 0%Z \/ ye = None \/ ye = Some 0%Z ->
           returns (MovieDB.filter re_search self None None None ys ye None
                      None) h d)
  /\
  (forall self : MovieFilter.object,
      nth_error h (MovieFilter.df self) = Some d ->
      returns (MovieFilter.filter re_search self None None (Some 0%Z) None
                 None None None None None None None None) h d
      /\ forall ys ye,
           ys = None \/ ys = Some 0%Z \/ ye = None \/ ye = Some 0%Z ->
           returns (MovieFilter.filter re_search self None None None ys ye
                      None None None None None None None) h d).
Proof.
  split.
  - intros self Hd. split.
    + apply agrees_run with (base := List.length h).
      rewrite <- (run_clauses_off
                    (Clauses.of_MovieDB re_search None None (Some 0%Z) None
                       None None None) d eq_refl).
      apply MovieDB_filter_agrees. exact Hd.
    + intros ys ye Hy. apply agrees_run with (base := List.length h).
      rewrite <- (run_clauses_off
                    (Clauses.of_MovieDB re_search None None None ys ye None
                       None) d).
      * apply MovieDB_filter_agrees. exact Hd.
      * simpl. rewrite (truthy_range_off ys ye Hy). reflexivity.
  - intros self Hd. split.
    + apply agrees_run with (base := List.length h).
      rewrite <- (run_clauses_off
                    (Clauses.of_MovieFilter re_search None None (Some 0%Z) None
                       None None None None None None None None) d eq_refl).
      apply MovieFilter_filter_agrees. exact Hd.
    + intros ys ye Hy. apply agrees_run with (base := List.length h).
      rewrite <- (run_clauses_off
                    (Clauses.of_MovieFilter re_search None None None ys ye None
                       None None None None None None) d).
      * apply MovieFilter_filter_agrees. exact Hd.
      * simpl. rewrite (truthy_range_off ys ye Hy). reflexivity.
Qed.

Lemma year_zero_is_no_constraint_witness :
  returns (MovieDB.filter Sample.literal_search (MovieDB.mk 0%nat) None None
             None (Some 0%Z) (Some 1994%Z) None None)
    [Sample.disney] Sample.disney.
Proof.
  apply (proj2 (proj1 (year_zero_is_no_constraint Sample.literal_search
                         [Sample.disney] Sample.disney)
                  (MovieDB.mk 0%nat) eq_refl)).
  right. left. reflexivity.
Defined.

(** ** The predicates on the release date, after the load *)

Lemma view_of_ext_in (f g : Pandas.Row -> bool) (d d' : Pandas.DataFrame) :
  (forall r, In r (Pandas.rows d) -> f r = g r) ->
  view_of f d d' -> view_of g d d'.
Proof.
  intros E [C R]. split; [exact C|]. rewrite R. apply filter_ext_in. exact E.
Qed.

Lemma Qle_bool_inject_Z (a b : Z) :
  Qle_bool (inject_Z a) (inject_Z b) = (a <=? b)%Z.
Proof. unfold Qle_bool. simpl. rewrite !Z.mul_1_r. reflexivity. Qed.

Lemma MovieDB_one_clause (re_search : string -> string -> bool)
  (self : MovieDB.object) (genre season : option string)
  (year year_start year_end : option Z) (rating : option string)
  (min_gross : option Q) (h : store) (d d' : Pandas.DataFrame) :
  nth_error h (MovieDB.df self) = Some d ->
  Clauses.run_clauses
    (Clauses.of_MovieDB re_search genre season year year_start year_end
       rating min_gross) d = Ok d' ->
  returns (MovieDB.filter re_search self genre season year year_start
             year_end rating min_gross) h d'.
Proof.
  intros Hd E.
  pose proof (MovieDB_filter_agrees re_search self genre season year
                year_start year_end rating min_gross h d Hd) as A.
  rewrite E in A. exact (agrees_run _ _ _ _ A).
Qed.

Lemma truthy_int_Some (z : Z) : z <> 0%Z -> Py.truthy_int (Some z) = true.
Proof.
  intros H. simpl. destruct (Z.eqb_spec z 0); [contradiction|reflexivity].
Qed.

(** X3.  On the table [MovieDB.__init__] leaves, the predicates on the date
    select by the release date: a season, the records whose month falls in
    it; a year, the records released in it; a range of years, the records
    released from the first to the last, both included.  A record with no
    date passes none of them. *)
Theorem date_predicates_after_load (re_search : string -> string -> bool)
  (files : string -> source) (csv_file : string) (h h0 : store)
  (self : MovieDB.object) :
  MovieDB.init files csv_file h = (Ok self, h0) ->
  exists d i,
    nth_error h0 (MovieDB.df self) = Some d
    /\ Pandas.position "Date Released" (Pandas.columns d) = Some i
    /\ (forall s, s <> "" ->
          exists d',
            returns (MovieDB.filter re_search self None (Some s) None None
                       None None None) h0 d'
            /\ view_of (fun r => released_in_season s (Pandas.cell_at i r))
                 d d')
    /\ (forall y, y <> 0%Z ->
          exists d',
            returns (MovieDB.filter re_search self None None (Some y) None
                       None None None) h0 d'
            /\ view_of (fun r => released_in_year y (Pandas.cell_at i r)) d d')
    /\ (forall lo hi, lo <> 0%Z -> hi <> 0%Z ->
          exists d',
            returns (MovieDB.filter re_search self None None None (Some lo)
                       (Some hi) None None) h0 d'
            /\ view_of (fun r => released_between lo hi (Pandas.cell_at i r))
                 d d').
Proof.
  rewrite MovieDB_init_outcome.
  destruct (files csv_file) as [| |table]; try discriminate.
  destruct (Pandas.getitem table "Date Released") as [col|e] eqn:G;
    [|discriminate].
  destruct (Pandas.to_datetime col) as [dates|e] eqn:T; [|discriminate].
  intros H. inversion H; subst self h0. clear H.
  unfold Pandas.getitem in G.
  destruct (Pandas.position "Date Released" (Pandas.columns table)) as [i|]
    eqn:P; [|discriminate].
  inversion G; subst col. clear G.
  assert (L : List.length dates = List.length (Pandas.rows table)).
  { rewrite (mapM_Ok_length _ _ _ T). apply length_map. }
  destruct (MovieDB_loaded_columns table dates i P L) as [j [P1 [P2 [G1 G2]]]].
  set (d := MovieDB_loaded table dates) in *.
  assert (Hd : nth_error (h ++ [d]) (MovieDB.df (MovieDB.mk (List.length h)))
               = Some d) by apply nth_error_last.
  rewrite (getitem_cells _ _ _ P1) in G1. rewrite (getitem_cells _ _ _ P2) in G2.
  injection G1 as G1'. injection G2 as G2'.
  assert (S_all : map (Pandas.cell_at j) (Pandas.rows d)
                  = map (fun x => season_of_date (Pandas.cell_at i x))
                      (Pandas.rows d)).
  { rewrite G2'. rewrite <- G1' at 1. apply map_map. }
  exists d, i. split; [exact Hd|]. split; [exact P1|]. split; [|split].
  - intros s Hs.
    destruct (run_clause_on
                (Clauses.mkClause (Py.truthy_str (Some s)) false "Season"
                   (Clauses.is_text s)) d j) as [d' [R V]].
    { apply truthy_str_Some. exact Hs. }
    { exact P2. }
    { intros r _. eexists. reflexivity. }
    exists d'. split.
    + apply MovieDB_one_clause with (d := d); [exact Hd|].
      exact (run_clauses_single
               (firstn 1 (Clauses.of_MovieDB re_search None (Some s) None None
                            None None None))
               (skipn 2 (Clauses.of_MovieDB re_search None (Some s) None None
                           None None None))
               _ d d' eq_refl eq_refl R).
    + eapply view_of_ext_in; [|exact V]. intros r Hr.
      pose proof (map_pointwise _ _ _ S_all r Hr) as S. cbv beta in S.
      cbn [Clauses.test]. rewrite S. unfold season_of_date, released_in_season.
      destruct (Pandas.cell_at i r) as [| | |t]; try reflexivity.
      destruct (season_of_month (Datetime.month t)); reflexivity.
  - intros y Hy.
    destruct (run_clause_on
                (Clauses.mkClause (Py.truthy_int (Some y)) false
                   "Date Released" (Clauses.year_is (inject_Z y))) d i)
      as [d' [R V]].
    { apply truthy_int_Some. exact Hy. }
    { exact P1. }
    { intros r _. eexists. reflexivity. }
    exists d'. split.
    + apply MovieDB_one_clause with (d := d); [exact Hd|].
      exact (run_clauses_single
               (firstn 2 (Clauses.of_MovieDB re_search None None (Some y) None
                            None None None))
               (skipn 3 (Clauses.of_MovieDB re_search None None (Some y) None
                           None None None))
               _ d d' eq_refl eq_refl R).
    + eapply view_of_ext; [|exact V]. intros r. cbn [Clauses.test].
      unfold Clauses.year_is, Clauses.is_number, Clauses.year_of, holds,
        released_in_year.
      destruct (Pandas.cell_at i r) as [| | |t]; try reflexivity.
      apply Qeq_bool_inject_Z.
  - intros lo hi Hlo Hhi.
    destruct (run_clause_on
                (Clauses.mkClause
                   (Py.truthy_int (Some lo) && Py.truthy_int (Some hi)) false
                   "Date Released"
                   (Clauses.year_within (inject_Z lo) (inject_Z hi))) d i)
      as [d' [R V]].
    { cbn [Clauses.supplied].
      rewrite (truthy_int_Some lo Hlo), (truthy_int_Some hi Hhi). reflexivity. }
    { exact P1. }
    { intros r _. unfold Clauses.test, Clauses.year_within, Clauses.within,
        Clauses.year_of.
      destruct (Pandas.cell_at i r); eexists; reflexivity. }
    exists d'. split.
    + apply MovieDB_one_clause with (d := d); [exact Hd|].
      exact (run_clauses_single
               (firstn 3 (Clauses.of_MovieDB re_search None None None (Some lo)
                            (Some hi) None None))
               (skipn 4 (Clauses.of_MovieDB re_search None None None (Some lo)
                           (Some hi) None None))
               _ d d' eq_refl eq_refl R).
    + eapply view_of_ext; [|exact V]. intros r. cbn [Clauses.test].
      unfold Clauses.year_within, Clauses.within, Clauses.year_of, holds,
        released_between.
      destruct (Pandas.cell_at i r) as [| | |t]; try reflexivity.
      cbn [Pandas.cell_ge Pandas.cell_le rbind].
      rewrite !Qle_bool_inject_Z. reflexivity.
Qed.

Lemma date_predicates_after_load_witness :
  exists d i,
    nth_error three_films_store (MovieDB.df (MovieDB.mk 0%nat)) = Some d
    /\ Pandas.position "Date Released" (Pandas.columns d) = Some i
    /\ (forall s, s <> "" ->
          exists d',
            returns (MovieDB.filter Sample.literal_search (MovieDB.mk 0%nat)
                       None (Some s) None None None None None)
              three_films_store d'
            /\ view_of (fun r => released_in_season s (Pandas.cell_at i r))
                 d d')
    /\ (forall y, y <> 0%Z ->
          exists d',
            returns (MovieDB.filter Sample.literal_search (MovieDB.mk 0%nat)
                       None None (Some y) None None None None)
              three_films_store d'
            /\ view_of (fun r => released_in_year y (Pandas.cell_at i r)) d d')
    /\ (forall lo hi, lo <> 0%Z -> hi <> 0%Z ->
          exists d',
            returns (MovieDB.filter Sample.literal_search (MovieDB.mk 0%nat)
                       None None None (Some lo) (Some hi) None None)
              three_films_store d'
            /\ view_of (fun r => released_between lo hi (Pandas.cell_at i r))
                 d d').
Proof.
  apply (date_predicates_after_load Sample.literal_search
           (one_file "disney.csv" (Delimited three_films)) "disney.csv" []
           three_films_store (MovieDB.mk 0%nat)).
  vm_compute. reflexivity.
Defined.

(** ** The filters of a loaded table that cannot fail *)













(** ** Tables without the columns of the predicates *)

Lemma run_clauses_skipped (cls : list Clauses.clause) (d : Pandas.DataFrame) :
  (forall cl, In cl cls ->
              Clauses.guarded cl = true
              /\ Pandas.has_column d (Clauses.column cl) = false) ->
  Clauses.run_clauses cls d = Ok d.
Proof.
  induction cls as [|cl cls IH]; intros H; [reflexivity|].
  cbn [Clauses.run_clauses].
  destruct (H cl (or_introl eq_refl)) as [G M].
  rewrite (run_clause_skipped cl d G M). cbn [rbind].
  apply IH. intros cl' Hin. apply H. right. exact Hin.
Qed.

Lemma run_clauses_KeyError (cls : list Clauses.clause) (d : Pandas.DataFrame) :
  (forall cl, In cl cls ->
              Clauses.guarded cl = false
              /\ Pandas.has_column d (Clauses.column cl) = false) ->
  some_supplied cls = true ->
  exists c, In c (map Clauses.column cls)
            /\ Clauses.run_clauses cls d = Raise (KeyError c).
Proof.
  induction cls as [|cl cls IH]; intros H S; [discriminate|].
  cbn [Clauses.run_clauses]. destruct (H cl (or_introl eq_refl)) as [G M].
  destruct (Clauses.supplied cl) eqn:On.
  - exists (Clauses.column cl). split; [left; reflexivity|].
    unfold Clauses.run_clause, Clauses.applies. rewrite On, G.
    cbn [andb negb orb]. unfold Pandas.getitem.
    unfold Pandas.has_column in M.
    destruct (Pandas.position (Clauses.column cl) (Pandas.columns d));
      [discriminate|reflexivity].
  - rewrite (run_clause_off cl d On). cbn [rbind].
    destruct IH as [c [Hin R]].
    + intros cl' Hin. apply H. right. exact Hin.
    + unfold some_supplied in *. simpl in S. rewrite On in S. exact S.
    + exists c. split; [right; exact Hin|exact R].
Qed.

Lemma lacks_In (d : Pandas.DataFrame) (cols : list string) (c : string) :
  lacks d cols = true -> In c cols -> Pandas.has_column d c = false.
Proof.
  unfold lacks. rewrite forallb_forall. intros H Hin.
  apply negb_true_iff. apply H. exact Hin.
Qed.

(** X5.  On a table that has none of the columns the predicates read,
    [MovieFilter.filter] passes over every predicate and returns the whole
    table, whatever the arguments; [MovieDB.filter], whose predicates are
    not guarded, raises a [KeyError] for one of these columns as soon as an
    argument is supplied. *)
Theorem filter_of_a_table_without_the_columns
  (re_search : string -> string -> bool) (h : store) (d : Pandas.DataFrame) :
  (forall (self : MovieFilter.object) (q : MovieFilter_query),
      nth_error h (MovieFilter.df self) = Some d ->
      lacks d MovieFilter_filter_columns = true ->
      returns (MovieFilter_filter_with re_search self q) h d)
  /\
  (forall (self : MovieDB.object) (q : MovieDB_query),
      nth_error h (MovieDB.df self) = Some d ->
      lacks d MovieDB_filter_columns = true ->
      some_supplied (MovieDB_clauses re_search q) = true ->
      exists c h',
        In c MovieDB_filter_columns
        /\ MovieDB_filter_with re_search self q h = (Raise (KeyError c), h')).
Proof.
  split.
  - intros self q Hd L. apply agrees_run with (base := List.length h).
    rewrite <- (run_clauses_skipped (MovieFilter_clauses re_search q) d).
    + apply MovieFilter_filter_agrees. exact Hd.
    + intros cl Hin. unfold MovieFilter_clauses, Clauses.of_MovieFilter in Hin.
      simpl in Hin.
      destruct Hin as [<-|[<-|[<-|[<-|[<-|[<-|[<-|[<-|[<-|[<-|[<-|[]]]]]]]]]]]];
        (split; [reflexivity|]); apply (lacks_In d _ _ L); simpl; tauto.
  - intros self q Hd L S.
    destruct (run_clauses_KeyError (MovieDB_clauses re_search q) d)
      as [c [Hin R]].
    + intros cl Hin. unfold MovieDB_clauses, Clauses.of_MovieDB in Hin.
      simpl in Hin.
      destruct Hin as [<-|[<-|[<-|[<-|[<-|[<-|[]]]]]]];
        (split; [reflexivity|]); apply (lacks_In d _ _ L); simpl; tauto.
    + exact S.
    + pose proof (MovieDB_filter_agrees re_search self (q_genre q)
                    (q_season q) (q_year q) (q_year_start q) (q_year_end q)
                    (q_rating q) (q_min_gross q) h d Hd) as A.
      fold (MovieDB_clauses re_search q) in A. rewrite R in A.
      destruct A as [t [_ E]].
      exists c.
      exists (snd (MovieDB_filter_with re_search self q h)).
      split.
      * unfold MovieDB_clauses, Clauses.of_MovieDB in Hin. simpl in Hin.
        unfold MovieDB_filter_columns. simpl. tauto.
      * unfold MovieDB_filter_with.
        destruct (MovieDB.filter re_search self (q_genre q) (q_season q)
                    (q_year q) (q_year_start q) (q_year_end q) (q_rating q)
                    (q_min_gross q) h) as [res h'].
        simpl in E. subst res. reflexivity.
Qed.

Lemma filter_of_a_table_without_the_columns_witness :
  returns (MovieFilter_filter_with Sample.literal_search (MovieFilter.mk 0%nat)
             {| f_genre := Some "drama"; f_rating := Some "R";
                f_year := Some 1980%Z; f_year_start := None;
                f_year_end := None; f_director := None; f_star := None;
                f_country := None; f_company := None;
                f_min_score := Some 8; f_min_gross := None;
                f_min_votes := None |})
    [titles_only] titles_only
  /\ exists c h',
       In c MovieDB_filter_columns
       /\ MovieDB_filter_with Sample.literal_search (MovieDB.mk 0%nat)
            adventures [titles_only] = (Raise (KeyError c), h').
Proof.
  split.
  - apply (proj1 (filter_of_a_table_without_the_columns Sample.literal_search
                    [titles_only] titles_only)); reflexivity.
  - apply (proj2 (filter_of_a_table_without_the_columns Sample.literal_search
                    [titles_only] titles_only)); reflexivity.
Defined.

(** ** What the exports of [MovieFilter] need *)

Lemma position_Some_In (c : string) (cols : list string) (i : nat) :
  Pandas.position c cols = Some i -> In c cols.
Proof.
  revert i. induction cols as [|k cols IH]; simpl; intros i H; [discriminate|].
  destruct (String.eqb_spec k c) as [->|N]; [left; reflexivity|].
  destruct (Pandas.position c cols) as [j|]; [|discriminate].
  right. apply (IH j). reflexivity.
Qed.

Lemma position_absent (c : string) (cols : list string) :
  ~ In c cols -> Pandas.position c cols = None.
Proof.
  intros H. destruct (Pandas.position c cols) as [i|] eqn:P; [|reflexivity].
  exfalso. apply H. apply (position_Some_In c cols i P).
Qed.

Lemma mapM_Ok_each {A B : Type} (f : A -> result B) (l : list A)
  (ys : list B) :
  mapM f l = Ok ys -> forall x, In x l -> exists y, f x = Ok y.
Proof.
  revert ys. induction l as [|a l IH]; simpl; intros ys H x Hx; [tauto|].
  destruct (f a) as [b|e] eqn:Fa; [|discriminate]. cbn [rbind] in H.
  destruct (mapM f l) as [bs|e] eqn:Fm; [|discriminate].
  destruct Hx as [<-|Hx]; [exists b; exact Fa|].
  apply (IH bs eq_refl x Hx).
Qed.

Lemma gross_raw_exportable (py_int : string -> option Z) (c y : Pandas.cell) :
  MovieFilter.gross_raw py_int c = Ok y -> exportable py_int c = true.
Proof.
  unfold MovieFilter.gross_raw, MovieFilter.present, MovieFilter.int_of_cell.
  destruct c as [|s|q|t]; simpl; intros H; try reflexivity;
    try discriminate.
  - destruct (s =? ""); simpl in *; [reflexivity|].
    destruct (py_int s); [reflexivity|discriminate].
  - destruct (Py.isinf q); [discriminate|reflexivity].
Qed.

Lemma export_frame_exportable (py_int : string -> option Z)
  (data final_df : Pandas.DataFrame) :
  MovieFilter.export_frame py_int data = Ok final_df ->
  exportable_view py_int data = true.
Proof.
  unfold MovieFilter.export_frame.
  set (av := MovieFilter.available data MovieFilter.csv_cols).
  destruct (Pandas.getitems data av) as [csv_df|e] eqn:G1; [|discriminate].
  cbn [rbind].
  destruct (getitems_spec _ _ _ G1) as [ixs [F E1]].
  set (step := if Pandas.has_column csv_df "Total Gross" then _ else _).
  destruct step as [csv_df2|e] eqn:G2; [|discriminate].
  cbn [rbind]. intros G3.
  assert (C1 : Pandas.columns csv_df = av) by (rewrite E1; reflexivity).
  assert (C2 : Pandas.columns csv_df2 = av).
  { unfold step in G2.
    destruct (Pandas.has_column csv_df "Total Gross") eqn:Ht;
      [|inversion G2; subst csv_df2; exact C1].
    destruct (has_column_getitem _ _ Ht) as [j [Pj Gj]]. rewrite Gj in G2.
    cbn [rbind] in G2.
    destruct (mapM (MovieFilter.gross_raw py_int) _) as [gross|];
      [|discriminate].
    cbn [rbind] in G2. inversion G2. unfold Pandas.setitem. rewrite Pj.
    exact C1. }
  assert (Hav : forall c, In c av -> In c MovieFilter.csv_cols
                                     /\ Pandas.has_column data c = true).
  { intros c Hc. unfold av, MovieFilter.available in Hc.
    apply filter_In in Hc. exact Hc. }
  assert (C3 : Pandas.columns
                 (Pandas.setitem_scalar csv_df2 "Inflation Adjusted Gross"
                    (Pandas.Str "0"))
               = av ++ ["Inflation Adjusted Gross"]).
  { unfold Pandas.setitem_scalar, Pandas.setitem. rewrite C2.
    rewrite position_absent; [reflexivity|].
    intros Hin. destruct (Hav _ Hin) as [Hc _]. simpl in Hc.
    repeat (destruct Hc as [Hc|Hc]; [discriminate|]). exact Hc. }
  destruct (getitems_spec _ _ _ G3) as [ixs' [F' _]]. rewrite C3 in F'.
  assert (All : forall c, In c MovieFilter.csv_cols ->
                          Pandas.has_column data c = true).
  { intros c Hc.
    assert (exists i, Pandas.position c (av ++ ["Inflation Adjusted Gross"])
                      = Some i) as [i Pi].
    { unfold MovieFilter.final_cols in F'.
      repeat (match goal with
              | H : Forall2 _ (_ :: _) _ |- _ => inversion H; subst; clear H
              | H : Forall2 _ [] _ |- _ => inversion H; subst; clear H
              end).
      simpl in Hc.
      repeat (destruct Hc as [<-|Hc]; [eexists; eassumption|]).
      contradiction. }
    apply position_Some_In in Pi. apply in_app_or in Pi.
    destruct Pi as [Pi|Pi]; [apply Hav; exact Pi|].
    simpl in Pi. destruct Pi as [<-|[]]. simpl in Hc.
    repeat (destruct Hc as [Hc|Hc]; [discriminate|]). contradiction. }
  assert (Eav : av = MovieFilter.csv_cols).
  { unfold av, MovieFilter.available. apply filter_all. exact All. }
  unfold exportable_view.
  replace (forallb (Pandas.has_column data) MovieFilter.csv_cols) with true
    by (symmetry; apply forallb_forall; exact All).
  cbn [andb].
  rewrite Eav in F, C1.
  destruct (getitems_column (Pandas.columns data) MovieFilter.csv_cols ixs
              "Total Gross" 4 F eq_refl) as [i [Pi C]].
  rewrite Pi. apply forallb_forall. intros r Hr.
  unfold step in G2.
  assert (Ht : Pandas.has_column csv_df "Total Gross" = true)
    by (unfold Pandas.has_column; rewrite C1; reflexivity).
  rewrite Ht in G2.
  assert (Gj : Pandas.getitem csv_df "Total Gross"
               = Ok (map (Pandas.cell_at 4) (Pandas.rows csv_df)))
    by (apply getitem_cells; rewrite C1; reflexivity).
  rewrite Gj in G2. cbn [rbind] in G2.
  destruct (mapM (MovieFilter.gross_raw py_int) _) as [gross|] eqn:Gm;
    [|discriminate].
  destruct (mapM_Ok_each _ _ _ Gm
              (Pandas.cell_at 4
                 (fst r, map (fun i => Pandas.cell_at i r) ixs)))
    as [y Hy].
  { apply in_map. rewrite E1. cbn [Pandas.rows].
    apply (in_map (fun r => (fst r, map (fun i => Pandas.cell_at i r) ixs))).
    exact Hr. }
  rewrite C in Hy. apply (gross_raw_exportable py_int _ y Hy).
Qed.

Lemma rows_nonempty (data : Pandas.DataFrame) :
  Pandas.rows data <> [] ->
  (List.length (Pandas.rows data) =? 0)%nat = false.
Proof. destruct (Pandas.rows data); [contradiction|reflexivity]. Qed.

(** [int] of an infinite number raises [OverflowError], and so do the two
    exports of a view with an infinite gross. *)
Lemma int_of_infinite (py_int : string -> option Z) (q : Q) :
  Py.isinf q = true ->
  MovieFilter.int_of_cell py_int (Pandas.Num q) = Raise OverflowError.
Proof. intros H. simpl. rewrite H. reflexivity. Qed.

Lemma infinite_gross_overflows :
  Py.isinf Py.huge = true
  /\ exportable_view Sample.py_int infinite_gross = false
  /\ MovieFilter.display Sample.repr_float Sample.py_int infinite_gross 20
       "csv" = Raise OverflowError
  /\ MovieFilter.save_to_csv Sample.repr_float Sample.py_int infinite_gross
       "out.csv" = Raise OverflowError.
Proof. repeat split; vm_compute; reflexivity. Qed.

(** X6.  For a view that is not empty, the two exports of [MovieFilter]
    (the [csv] format of [display], whatever the limit, and [save_to_csv])
    return exactly when the view has the five columns of the format and
    every gross is a number that is not infinite, a missing value, an empty
    text or a text that [int] reads; otherwise they raise: on an infinite
    gross, [int] raises [OverflowError]. *)
Theorem exports_return_exactly_for_exportable_views
  (repr_float : Q -> string) (py_int : string -> option Z)
  (data : Pandas.DataFrame) (limit : Z) (filename : string) :
  Pandas.rows data <> [] ->
  ((exists out, MovieFilter.display repr_float py_int data limit "csv" = Ok out)
   <-> exportable_view py_int data = true)
  /\ ((exists saved,
          MovieFilter.save_to_csv repr_float py_int data filename = Ok saved)
      <-> exportable_view py_int data = true).
Proof.
  intros Hne. split; split.
  - intros [out D].
    destruct (display_csv_export repr_float py_int data limit out Hne D)
      as [final_df [E _]].
    apply (export_frame_exportable py_int data final_df E).
  - intros V.
    destruct (display_csv_returns repr_float py_int data limit Hne V)
      as [final_df D].
    eexists. exact D.
  - intros [saved S]. unfold MovieFilter.save_to_csv in S.
    rewrite (rows_nonempty data Hne) in S.
    destruct (MovieFilter.export_frame py_int data) as [final_df|e] eqn:E;
      [|discriminate].
    apply (export_frame_exportable py_int data final_df E).
  - intros V.
    destruct (save_to_csv_returns repr_float py_int data filename Hne V)
      as [final_df [message S]].
    eexists. exact S.
Qed.

Lemma exports_return_exactly_for_exportable_views_witness :
  ((exists out,
       MovieFilter.display Sample.repr_float Sample.py_int Sample.scraped 20
         "csv" = Ok out)
   <-> exportable_view Sample.py_int Sample.scraped = true)
  /\ ((exists saved,
          MovieFilter.save_to_csv Sample.repr_float Sample.py_int
            Sample.scraped "out.csv" = Ok saved)
      <-> exportable_view Sample.py_int Sample.scraped = true).
Proof.
  apply (exports_return_exactly_for_exportable_views Sample.repr_float
           Sample.py_int Sample.scraped 20 "out.csv").
  intros H. vm_compute in H. discriminate H.
Defined.

(** X7.  The [csv] format of [MovieFilter.display] does not look at the
    limit: what it prints is the same text for every limit, the text of a
    frame with one row for each record of the view, and it is the content
    [save_to_csv] writes to the file. *)
Theorem csv_text_ignores_the_limit
  (repr_float : Q -> string) (py_int : string -> option Z)
  (data : Pandas.DataFrame) (limit : Z) (out : list string) :
  Pandas.rows data <> [] ->
  MovieFilter.display repr_float py_int data limit "csv" = Ok out ->
  exists final_df,
    out = [Pandas.to_csv repr_float final_df]
    /\ List.length (Pandas.rows final_df) = List.length (Pandas.rows data)
    /\ (forall limit',
          MovieFilter.display repr_float py_int data limit' "csv"
          = Ok [Pandas.to_csv repr_float final_df])
    /\ (forall filename, exists message,
          MovieFilter.save_to_csv repr_float py_int data filename
          = Ok (message, Some (filename, Pandas.to_csv repr_float final_df))).
Proof.
  intros Hne D.
  destruct (display_csv_export repr_float py_int data limit out Hne D)
    as [final_df [E O]].
  exists final_df. split; [exact O|].
  split; [apply (export_frame_spec py_int data final_df E)|].
  pose proof (export_frame_exportable py_int data final_df E) as V.
  split.
  - intros limit'.
    destruct (display_csv_returns repr_float py_int data limit' Hne V)
      as [fd D'].
    destruct (display_csv_export repr_float py_int data limit' _ Hne D')
      as [fd' [E' O']].
    rewrite E in E'. inversion E'; subst fd'. rewrite D', O'. reflexivity.
  - intros filename. unfold MovieFilter.save_to_csv.
    rewrite (rows_nonempty data Hne), E. cbn [rbind]. eexists. reflexivity.
Qed.

Lemma csv_text_ignores_the_limit_witness :
  exists final_df,
    List.length (Pandas.rows final_df) = 3%nat
    /\ (forall limit',
          MovieFilter.display Sample.repr_float Sample.py_int Sample.scraped
            limit' "csv"
          = Ok [Pandas.to_csv Sample.repr_float final_df])
    /\ (forall filename, exists message,
          MovieFilter.save_to_csv Sample.repr_float Sample.py_int
            Sample.scraped filename
          = Ok (message,
                Some (filename, Pandas.to_csv Sample.repr_float final_df))).
Proof.
  assert (D : { out | MovieFilter.display Sample.repr_float Sample.py_int
                        Sample.scraped 1 "csv" = Ok out }).
  { eexists. vm_compute. reflexivity. }
  destruct D as [out D].
  assert (Hne : Pandas.rows Sample.scraped <> [])
    by (intros H; vm_compute in H; discriminate H).
  destruct (csv_text_ignores_the_limit Sample.repr_float Sample.py_int
              Sample.scraped 1 out Hne D) as [final_df [_ [L R]]].
  exists final_df. split; [exact L|exact R].
Defined.

(** ** The limit of [MovieDB.display] *)

Lemma display_frame_limit (data : Pandas.DataFrame) (limit : option Z) :
  MovieDB.display_frame data limit
  = (full <-- MovieDB.display_frame data None ;;
     Ok (if Py.truthy_int limit
         then Pandas.head_int full (Py.val_int limit)
         else full)).
Proof.
  unfold MovieDB.display_frame.
  repeat (match goal with
          | |- rbind ?x _ = rbind (rbind ?x _) _ =>
              destruct x; cbn [rbind]; [|reflexivity]
          end).
  reflexivity.
Qed.

Lemma display_frame_rows (data full : Pandas.DataFrame) :
  MovieDB.display_frame data None = Ok full ->
  Pandas.columns full = MovieDB.display_columns
  /\ List.length (Pandas.rows full) = List.length (Pandas.rows data).
Proof.
  unfold MovieDB.display_frame.
  destruct (Pandas.getitems data MovieDB.display_columns) as [df0|] eqn:G;
    [|discriminate].
  destruct (getitems_spec _ _ _ G) as [ixs [_ ->]]. cbn [rbind].
  match goal with
  | |- context [Pandas.mkDataFrame MovieDB.display_columns ?rs] =>
      set (rows0 := rs)
  end.
  assert (L0 : List.length rows0 = List.length (Pandas.rows data))
    by (unfold rows0; apply length_map).
  change (Pandas.getitem (Pandas.mkDataFrame MovieDB.display_columns rows0)
            "Date Released") with (Ok (map (Pandas.cell_at 1) rows0)).
  cbn [rbind].
  destruct (Pandas.dt_strftime (map (Pandas.cell_at 1) rows0)) as [dates|] eqn:D;
    [|discriminate].
  cbn [rbind].
  change (Pandas.setitem (Pandas.mkDataFrame MovieDB.display_columns rows0)
            "Date Released" dates)
    with (Pandas.mkDataFrame MovieDB.display_columns
            (Pandas.set_column 1 dates rows0)).
  set (rows1 := Pandas.set_column 1 dates rows0).
  change (Pandas.getitem (Pandas.mkDataFrame MovieDB.display_columns rows1)
            "Total Gross") with (Ok (map (Pandas.cell_at 5) rows1)).
  cbn [rbind].
  destruct (mapM MovieDB.currency (map (Pandas.cell_at 5) rows1))
    as [gross|] eqn:Gg; [|discriminate].
  cbn [rbind].
  change (Pandas.setitem (Pandas.mkDataFrame MovieDB.display_columns rows1)
            "Total Gross" gross)
    with (Pandas.mkDataFrame MovieDB.display_columns
            (Pandas.set_column 5 gross rows1)).
  set (rows2 := Pandas.set_column 5 gross rows1).
  change (Pandas.getitem (Pandas.mkDataFrame MovieDB.display_columns rows2)
            "Inflation Adjusted Gross") with (Ok (map (Pandas.cell_at 6) rows2)).
  cbn [rbind].
  destruct (mapM MovieDB.currency (map (Pandas.cell_at 6) rows2))
    as [adjusted|] eqn:Ga; [|discriminate].
  cbn [rbind].
  change (Pandas.setitem (Pandas.mkDataFrame MovieDB.display_columns rows2)
            "Inflation Adjusted Gross" adjusted)
    with (Pandas.mkDataFrame MovieDB.display_columns
            (Pandas.set_column 6 adjusted rows2)).
  set (rows3 := Pandas.set_column 6 adjusted rows2).
  cbn [Py.truthy_int].
  intros H. inversion H as [H']. clear H H'. cbn [Pandas.columns Pandas.rows].
  split; [reflexivity|].
  assert (L1 : List.length dates = List.length rows0).
  { unfold Pandas.dt_strftime in D. rewrite (mapM_Ok_length _ _ _ D).
    apply length_map. }
  assert (Lr1 : List.length rows1 = List.length rows0).
  { unfold rows1. rewrite <- (length_map fst (Pandas.set_column _ _ _)).
    rewrite set_column_labels by exact L1. apply length_map. }
  assert (L2 : List.length gross = List.length rows1).
  { rewrite (mapM_Ok_length _ _ _ Gg). apply length_map. }
  assert (Lr2 : List.length rows2 = List.length rows1).
  { unfold rows2. rewrite <- (length_map fst (Pandas.set_column _ _ _)).
    rewrite set_column_labels by exact L2. apply length_map. }
  assert (L3 : List.length adjusted = List.length rows2).
  { rewrite (mapM_Ok_length _ _ _ Ga). apply length_map. }
  assert (Lr3 : List.length rows3 = List.length rows2).
  { unfold rows3. rewrite <- (length_map fst (Pandas.set_column _ _ _)).
    rewrite set_column_labels by exact L3. apply length_map. }
  congruence.
Qed.

Lemma head_limit_rows (full : Pandas.DataFrame) (limit : option Z) :
  Pandas.rows (if Py.truthy_int limit
               then Pandas.head_int full (Py.val_int limit)
               else full)
  = firstn (shown_count limit (List.length (Pandas.rows full)))
      (Pandas.rows full).
Proof.
  destruct limit as [[|p|p]|]; cbn [Py.truthy_int Py.val_int shown_count];
    try (symmetry; apply firstn_all).
  - unfold Pandas.head_int, Pandas.head. simpl.
    rewrite <- firstn_firstn. rewrite firstn_all. reflexivity.
  - unfold Pandas.head_int, Pandas.head. simpl. reflexivity.
Qed.

(** X8.  [MovieDB.display] applies the limit after the records are turned
    into text: what the [csv] format writes with a limit is the header and
    the first records of what it writes without one, all of them for the
    limit 0, the first [limit] for a positive limit, all but the last
    [-limit] for a negative one. *)
Theorem limit_keeps_the_first_records (repr_float : Q -> string)
  (data : Pandas.DataFrame) (limit : option Z) (out : list string) :
  Pandas.rows data <> [] ->
  MovieDB.display repr_float data limit "csv" = Ok out ->
  exists full shown,
    MovieDB.display repr_float data None "csv"
    = Ok [Pandas.to_csv repr_float full]
    /\ out = [Pandas.to_csv repr_float shown]
    /\ List.length (Pandas.rows full) = List.length (Pandas.rows data)
    /\ Pandas.to_csv_lines repr_float shown
       = firstn (S (shown_count limit (List.length (Pandas.rows data))))
           (Pandas.to_csv_lines repr_float full).
Proof.
  intros Hne D.
  destruct (display_csv_frame repr_float data limit out Hne D)
    as [shown [F O]].
  rewrite display_frame_limit in F.
  destruct (MovieDB.display_frame data None) as [full|] eqn:Full;
    [|discriminate].
  cbn [rbind] in F. inversion F as [Sh]. clear F.
  destruct (display_frame_rows data full Full) as [C L].
  exists full, shown. split.
  - unfold MovieDB.display. rewrite (rows_nonempty data Hne), Full.
    reflexivity.
  - split; [exact O|]. split; [exact L|].
    unfold Pandas.to_csv_lines. rewrite <- L, <- Sh.
    rewrite head_limit_rows.
    replace (Pandas.columns
               (if Py.truthy_int limit
                then Pandas.head_int full (Py.val_int limit) else full))
      with (Pandas.columns full)
      by (destruct (Py.truthy_int limit);
          [rewrite head_int_columns|]; reflexivity).
    rewrite firstn_cons, firstn_map. reflexivity.
Qed.

Lemma limit_keeps_the_first_records_witness :
  exists full shown,
    MovieDB.display Sample.repr_float Sample.disney None "csv"
    = Ok [Pandas.to_csv Sample.repr_float full]
    /\ List.length (Pandas.rows full) = List.length (Pandas.rows Sample.disney)
    /\ Pandas.to_csv_lines Sample.repr_float shown
       = firstn 3 (Pandas.to_csv_lines Sample.repr_float full).
Proof.
  assert (D : { out | MovieDB.display Sample.repr_float Sample.disney
                        (Some 2%Z) "csv" = Ok out }).
  { eexists. vm_compute. reflexivity. }
  destruct D as [out D].
  assert (Hne : Pandas.rows Sample.disney <> [])
    by (intros H; vm_compute in H; discriminate H).
  destruct (limit_keeps_the_first_records Sample.repr_float Sample.disney
              (Some 2%Z) out Hne D) as [full [shown [A [_ [L R]]]]].
  exists full, shown. split; [exact A|]. split; [exact L|exact R].
Defined.

(** ** The dates [format_date] reads *)

Lemma pad2_all : forallb (pad_reads 2) (seq 0 100) = true.
Proof. vm_compute. reflexivity. Qed.

Lemma pad4_all : forallb (pad_reads 4) (seq 0 (100 * 100)) = true.
Proof. vm_compute. reflexivity. Qed.

Lemma digit_range (c : ascii) (x : Z) :
  Datetime.digit_val c = Some x -> (0 <= x <= 9)%Z.
Proof.
  destruct c as [[] [] [] [] [] [] [] []]; vm_compute; intros H;
    try discriminate H; inversion H; split; discriminate.
Qed.

Lemma pad_reads_spec (width v : nat) :
  pad_reads width v = true ->
  exists cs,
    Datetime.pad width (Z.of_nat v) = Py.text cs
    /\ List.length cs = width
    /\ reads_as cs (Z.of_nat v) = true.
Proof.
  unfold pad_reads. intros H. apply andb_true_iff in H. destruct H as [L R].
  exists (list_ascii_of_string (Datetime.pad width (Z.of_nat v))).
  split; [unfold Py.text; symmetry; apply string_of_list_ascii_of_string|].
  split; [apply Nat.eqb_eq; exact L|exact R].
Qed.

Lemma pad2_digits (v : Z) :
  (0 <= v < 100)%Z ->
  exists a b x y,
    Datetime.pad 2 v = Py.text [a; b]
    /\ Datetime.digit_val a = Some x /\ Datetime.digit_val b = Some y
    /\ v = (10 * x + y)%Z.
Proof.
  intros Hv.
  assert (In (Z.to_nat v) (seq 0 100)) as Hin by (apply in_seq; lia).
  pose proof pad2_all as A. rewrite forallb_forall in A.
  destruct (pad_reads_spec 2 _ (A _ Hin)) as [cs [E [L R]]].
  rewrite Z2Nat.id in E, R by lia.
  destruct cs as [|a [|b [|c cs]]]; try discriminate L.
  unfold reads_as in R. cbn [fold_left] in R.
  destruct (Datetime.digit_val a) as [x|] eqn:Da; [|discriminate R].
  destruct (Datetime.digit_val b) as [y|] eqn:Db; [|discriminate R].
  exists a, b, x, y. repeat split; try assumption.
  apply Z.eqb_eq in R. lia.
Qed.

Lemma pad4_digits (v : Z) :
  (0 <= v < 10000)%Z ->
  exists a b c d w x y z,
    Datetime.pad 4 v = Py.text [a; b; c; d]
    /\ Datetime.digit_val a = Some w /\ Datetime.digit_val b = Some x
    /\ Datetime.digit_val c = Some y /\ Datetime.digit_val d = Some z
    /\ v = (1000 * w + 100 * x + 10 * y + z)%Z.
Proof.
  intros Hv.
  assert (In (Z.to_nat v) (seq 0 (100 * 100))) as Hin by (apply in_seq; lia).
  pose proof pad4_all as A. rewrite forallb_forall in A.
  destruct (pad_reads_spec 4 _ (A _ Hin)) as [cs [E [L R]]].
  rewrite Z2Nat.id in E, R by lia.
  destruct cs as [|a [|b [|c [|d [|e cs]]]]]; try discriminate L.
  unfold reads_as in R. cbn [fold_left] in R.
  destruct (Datetime.digit_val a) as [w|] eqn:Da; [|discriminate R].
  destruct (Datetime.digit_val b) as [x|] eqn:Db; [|discriminate R].
  destruct (Datetime.digit_val c) as [y|] eqn:Dc; [|discriminate R].
  destruct (Datetime.digit_val d) as [z|] eqn:Dd; [|discriminate R].
  exists a, b, c, d, w, x, y, z. repeat split; try assumption.
  apply Z.eqb_eq in R. lia.
Qed.

Lemma separator_cases (sep : ascii) :
  separator sep = true -> sep = "/"%char \/ sep = "-"%char \/ sep = ","%char.
Proof.
  unfold separator. intros H. apply orb_true_iff in H. destruct H as [H|H].
  - apply orb_true_iff in H. destruct H as [H|H].
    + left. apply Ascii.eqb_eq. exact H.
    + right. left. apply Ascii.eqb_eq. exact H.
  - right. right. apply Ascii.eqb_eq. exact H.
Qed.

Lemma digit_not_separator (sep c : ascii) (x : Z) :
  separator sep = true -> Datetime.digit_val c = Some x ->
  Ascii.eqb (Datetime.lower_char sep) (Datetime.lower_char c) = false.
Proof.
  intros S D. destruct (separator_cases sep S) as [->|[->| ->]];
    destruct c as [[] [] [] [] [] [] [] []]; vm_compute in D;
    try discriminate D; reflexivity.
Qed.

Lemma separator_not_digit (sep : ascii) :
  separator sep = true -> Datetime.digit_val sep = None.
Proof.
  intros S. destruct (separator_cases sep S) as [->|[->| ->]]; reflexivity.
Qed.

Lemma digit_not_space_digit (c : ascii) (x : Z) (s : list ascii) :
  Datetime.digit_val c = Some x -> Datetime.space_digit (c :: s) = [].
Proof.
  intros D. destruct c as [[] [] [] [] [] [] [] []]; vm_compute in D;
    try discriminate D; reflexivity.
Qed.

Lemma digit_not_name (c : ascii) (x : Z) (s : list ascii) :
  Datetime.digit_val c = Some x ->
  Datetime.named Datetime.month_names (c :: s) = []
  /\ Datetime.named Datetime.month_abbrs (c :: s) = [].
Proof.
  intros D. destruct c as [[] [] [] [] [] [] [] []]; vm_compute in D;
    try discriminate D; split; reflexivity.
Qed.

Lemma digit_not_spaces (c : ascii) (x : Z) (s : list ascii) :
  Datetime.digit_val c = Some x -> Datetime.spaces (c :: s) = [].
Proof.
  intros D. destruct c as [[] [] [] [] [] [] [] []]; vm_compute in D;
    try discriminate D; reflexivity.
Qed.

Lemma digit_not_blank (c : ascii) (x : Z) :
  Datetime.digit_val c = Some x ->
  Py.is_space c = false /\ c <> "("%char.
Proof.
  intros D. destruct c as [[] [] [] [] [] [] [] []]; vm_compute in D;
    try discriminate D; split; try reflexivity; discriminate.
Qed.

Lemma two_digits_read (lo hi : Z) (a b : ascii) (x y : Z) (rest : list ascii) :
  Datetime.digit_val a = Some x -> Datetime.digit_val b = Some y ->
  (lo <= 10 * x + y <= hi)%Z ->
  Datetime.two_digits lo hi (a :: b :: rest) = [((10 * x + y)%Z, rest)].
Proof.
  intros Da Db R. unfold Datetime.two_digits. rewrite Da, Db.
  replace (lo <=? 10 * x + y)%Z with true by (symmetry; apply Z.leb_le; lia).
  replace (10 * x + y <=? hi)%Z with true by (symmetry; apply Z.leb_le; lia).
  reflexivity.
Qed.

Lemma two_digits_out (lo hi : Z) (a b : ascii) (x y : Z) (rest : list ascii) :
  Datetime.digit_val a = Some x -> Datetime.digit_val b = Some y ->
  (10 * x + y < lo \/ hi < 10 * x + y)%Z ->
  Datetime.two_digits lo hi (a :: b :: rest) = [].
Proof.
  intros Da Db R. unfold Datetime.two_digits. rewrite Da, Db.
  destruct (Z.leb_spec lo (10 * x + y)); destruct (Z.leb_spec (10 * x + y) hi);
    try reflexivity.
  lia.
Qed.

Lemma matches_lit (c : ascii) (f : Datetime.format) (rest : list ascii)
  (acc : Datetime.date) :
  Datetime.matches (Datetime.Lit c :: f) (c :: rest) acc
  = Datetime.matches f rest acc.
Proof. cbn [Datetime.matches]. rewrite Ascii.eqb_refl. reflexivity. Qed.

Lemma matches_lit_digit (sep c : ascii) (x : Z) (f : Datetime.format)
  (rest : list ascii) (acc : Datetime.date) :
  separator sep = true -> Datetime.digit_val c = Some x ->
  Datetime.matches (Datetime.Lit sep :: f) (c :: rest) acc = [].
Proof.
  intros S D. cbn [Datetime.matches].
  rewrite (digit_not_separator sep c x S D). reflexivity.
Qed.

(** A day of two digits before a separator. *)
Lemma matches_day (sep a b : ascii) (x y : Z) (f : Datetime.format)
  (rest : list ascii) (acc : Datetime.date) :
  separator sep = true ->
  Datetime.digit_val a = Some x -> Datetime.digit_val b = Some y ->
  (1 <= 10 * x + y <= 31)%Z ->
  Datetime.matches (Datetime.Day :: Datetime.Lit sep :: f)
    (a :: b :: sep :: rest) acc
  = Datetime.matches f rest
      (Datetime.mkdate (Datetime.year acc) (Datetime.month acc)
         (10 * x + y)).
Proof.
  intros S Da Db R.
  change (Datetime.matches (Datetime.Day :: Datetime.Lit sep :: f)
            (a :: b :: sep :: rest) acc)
    with (flat_map
            (fun vr => Datetime.matches (Datetime.Lit sep :: f) (snd vr)
                         (Datetime.mkdate (Datetime.year acc)
                            (Datetime.month acc) (fst vr)))
            (Datetime.two_digits 1 31 (a :: b :: sep :: rest)
               ++ Datetime.one_digit (a :: b :: sep :: rest)
               ++ Datetime.space_digit (a :: b :: sep :: rest))).
  rewrite (two_digits_read 1 31 a b x y _ Da Db R).
  rewrite (digit_not_space_digit a x _ Da), app_nil_r.
  unfold Datetime.one_digit. rewrite Da.
  destruct (1 <=? x)%Z; cbn [app flat_map fst snd];
    rewrite matches_lit;
    try rewrite (matches_lit_digit sep b y f _ _ S Db);
    rewrite ?app_nil_r; reflexivity.
Qed.

(** A day of one digit before a separator. *)
Lemma matches_day_short (sep a : ascii) (x : Z) (f : Datetime.format)
  (rest : list ascii) (acc : Datetime.date) :
  separator sep = true ->
  Datetime.digit_val a = Some x -> (1 <= x)%Z ->
  Datetime.matches (Datetime.Day :: Datetime.Lit sep :: f)
    (a :: sep :: rest) acc
  = Datetime.matches f rest
      (Datetime.mkdate (Datetime.year acc) (Datetime.month acc) x).
Proof.
  intros S Da R.
  change (Datetime.matches (Datetime.Day :: Datetime.Lit sep :: f)
            (a :: sep :: rest) acc)
    with (flat_map
            (fun vr => Datetime.matches (Datetime.Lit sep :: f) (snd vr)
                         (Datetime.mkdate (Datetime.year acc)
                            (Datetime.month acc) (fst vr)))
            (Datetime.two_digits 1 31 (a :: sep :: rest)
               ++ Datetime.one_digit (a :: sep :: rest)
               ++ Datetime.space_digit (a :: sep :: rest))).
  rewrite (digit_not_space_digit a x _ Da), app_nil_r.
  unfold Datetime.two_digits, Datetime.one_digit.
  rewrite Da, (separator_not_digit sep S).
  replace (1 <=? x)%Z with true by (symmetry; apply Z.leb_le; lia).
  cbn [app flat_map fst snd]. rewrite matches_lit, app_nil_r. reflexivity.
Qed.

(** A day that no separator follows. *)
Lemma matches_day_digit (sep a b c : ascii) (x y z : Z) (f : Datetime.format)
  (rest : list ascii) (acc : Datetime.date) :
  separator sep = true ->
  Datetime.digit_val a = Some x -> Datetime.digit_val b = Some y ->
  Datetime.digit_val c = Some z ->
  Datetime.matches (Datetime.Day :: Datetime.Lit sep :: f)
    (a :: b :: c :: rest) acc = [].
Proof.
  intros S Da Db Dc.
  change (Datetime.matches (Datetime.Day :: Datetime.Lit sep :: f)
            (a :: b :: c :: rest) acc)
    with (flat_map
            (fun vr => Datetime.matches (Datetime.Lit sep :: f) (snd vr)
                         (Datetime.mkdate (Datetime.year acc)
                            (Datetime.month acc) (fst vr)))
            (Datetime.two_digits 1 31 (a :: b :: c :: rest)
               ++ Datetime.one_digit (a :: b :: c :: rest)
               ++ Datetime.space_digit (a :: b :: c :: rest))).
  rewrite (digit_not_space_digit a x _ Da), app_nil_r.
  unfold Datetime.two_digits, Datetime.one_digit. rewrite Da, Db.
  destruct ((1 <=? 10 * x + y)%Z && (10 * x + y <=? 31)%Z);
    destruct (1 <=? x)%Z; cbn [app flat_map fst snd];
    rewrite ?(matches_lit_digit sep c z f _ _ S Dc);
    rewrite ?(matches_lit_digit sep b y f _ _ S Db); reflexivity.
Qed.

(** A month of two digits before a separator. *)
Lemma matches_month (sep a b : ascii) (x y : Z) (f : Datetime.format)
  (rest : list ascii) (acc : Datetime.date) :
  separator sep = true ->
  Datetime.digit_val a = Some x -> Datetime.digit_val b = Some y ->
  (1 <= 10 * x + y <= 12)%Z ->
  Datetime.matches (Datetime.Month :: Datetime.Lit sep :: f)
    (a :: b :: sep :: rest) acc
  = Datetime.matches f rest
      (Datetime.mkdate (Datetime.year acc) (10 * x + y) (Datetime.day acc)).
Proof.
  intros S Da Db R.
  change (Datetime.matches (Datetime.Month :: Datetime.Lit sep :: f)
            (a :: b :: sep :: rest) acc)
    with (flat_map
            (fun vr => Datetime.matches (Datetime.Lit sep :: f) (snd vr)
                         (Datetime.mkdate (Datetime.year acc) (fst vr)
                            (Datetime.day acc)))
            (Datetime.two_digits 1 12 (a :: b :: sep :: rest)
               ++ Datetime.one_digit (a :: b :: sep :: rest))).
  rewrite (two_digits_read 1 12 a b x y _ Da Db R).
  unfold Datetime.one_digit. rewrite Da.
  destruct (1 <=? x)%Z; cbn [app flat_map fst snd];
    rewrite matches_lit;
    try rewrite (matches_lit_digit sep b y f _ _ S Db);
    rewrite ?app_nil_r; reflexivity.
Qed.

(** Two digits that are not a month, or that no separator follows. *)
Lemma matches_month_out (sep a b c : ascii) (x y : Z) (f : Datetime.format)
  (rest : list ascii) (acc : Datetime.date) :
  separator sep = true ->
  Datetime.digit_val a = Some x -> Datetime.digit_val b = Some y ->
  (12 < 10 * x + y)%Z \/ (exists z, Datetime.digit_val c = Some z) ->
  Datetime.matches (Datetime.Month :: Datetime.Lit sep :: f)
    (a :: b :: c :: rest) acc = [].
Proof.
  intros S Da Db R.
  change (Datetime.matches (Datetime.Month :: Datetime.Lit sep :: f)
            (a :: b :: c :: rest) acc)
    with (flat_map
            (fun vr => Datetime.matches (Datetime.Lit sep :: f) (snd vr)
                         (Datetime.mkdate (Datetime.year acc) (fst vr)
                            (Datetime.day acc)))
            (Datetime.two_digits 1 12 (a :: b :: c :: rest)
               ++ Datetime.one_digit (a :: b :: c :: rest))).
  unfold Datetime.one_digit. rewrite Da.
  destruct R as [R|[z Dc]].
  - rewrite (two_digits_out 1 12 a b x y _ Da Db) by lia.
    destruct (1 <=? x)%Z; cbn [app flat_map fst snd];
      rewrite ?(matches_lit_digit sep b y f _ _ S Db); reflexivity.
  - unfold Datetime.two_digits. rewrite Da, Db.
    destruct ((1 <=? 10 * x + y)%Z && (10 * x + y <=? 12)%Z);
      destruct (1 <=? x)%Z; cbn [app flat_map fst snd];
      rewrite ?(matches_lit_digit sep c z f _ _ S Dc);
      rewrite ?(matches_lit_digit sep b y f _ _ S Db); reflexivity.
Qed.

Lemma matches_year (a b c d : ascii) (w x y z : Z) (f : Datetime.format)
  (rest : list ascii) (acc : Datetime.date) :
  Datetime.digit_val a = Some w -> Datetime.digit_val b = Some x ->
  Datetime.digit_val c = Some y -> Datetime.digit_val d = Some z ->
  Datetime.matches (Datetime.Year :: f) (a :: b :: c :: d :: rest) acc
  = Datetime.matches f rest
      (Datetime.mkdate (1000 * w + 100 * x + 10 * y + z)
         (Datetime.month acc) (Datetime.day acc)).
Proof.
  intros Da Db Dc Dd. cbn [Datetime.matches]. unfold Datetime.four_digits.
  rewrite Da, Db, Dc, Dd. cbn [flat_map fst snd]. apply app_nil_r.
Qed.

(** The last field of [%Y-%m-%d]. *)
Lemma matches_last_day (a b : ascii) (x y : Z) (acc : Datetime.date) :
  Datetime.digit_val a = Some x -> Datetime.digit_val b = Some y ->
  (1 <= 10 * x + y <= 31)%Z ->
  exists others,
    Datetime.matches [Datetime.Day] [a; b] acc
    = (Datetime.mkdate (Datetime.year acc) (Datetime.month acc)
         (10 * x + y), []) :: others.
Proof.
  intros Da Db R. cbn [Datetime.matches].
  rewrite (two_digits_read 1 31 a b x y _ Da Db R).
  cbn [app flat_map fst snd]. eexists. reflexivity.
Qed.

Lemma matches_space (a : ascii) (x : Z) (f : Datetime.format)
  (rest : list ascii) (acc : Datetime.date) :
  Datetime.digit_val a = Some x ->
  Datetime.matches (Datetime.Spaces :: f) (" "%char :: a :: rest) acc
  = Datetime.matches f (a :: rest) acc.
Proof.
  intros Da. cbn [Datetime.matches].
  change (Datetime.spaces (" "%char :: a :: rest))
    with (Datetime.spaces (a :: rest) ++ [a :: rest]).
  rewrite (digit_not_spaces a x rest Da). cbn [app flat_map].
  apply app_nil_r.
Qed.

Lemma format_date_text (repr_float : Q -> string) (s : string) :
  MovieFilter.format_date repr_float (Pandas.Str s)
  = if s =? "N/A" then Pandas.Str "N/A"
    else match first_parse (date_part s) with
         | Some dt => Pandas.Str (Datetime.strftime_dmY dt)
         | None => Pandas.Str s
         end.
Proof.
  assert (G : forall t : string,
             match
               flat_map (fun fmt => match Datetime.strptime (date_part t) fmt with
                                    | Some dt => [dt]
                                    | None => []
                                    end) MovieFilter.date_formats
             with
             | dt :: _ => Pandas.Str (Datetime.strftime_dmY dt)
             | [] => Pandas.Str t
             end
             = match first_parse (date_part t) with
               | Some dt => Pandas.Str (Datetime.strftime_dmY dt)
               | None => Pandas.Str t
               end).
  { intros t. unfold first_parse.
    destruct (flat_map _ MovieFilter.date_formats); reflexivity. }
  assert (T : forall t : string,
             (t =? "N/A") = false ->
             MovieFilter.format_date repr_float (Pandas.Str t)
             = match first_parse (date_part t) with
               | Some dt => Pandas.Str (Datetime.strftime_dmY dt)
               | None => Pandas.Str t
               end).
  { intros t Ht. rewrite <- G.
    destruct t as [|c1 s1]; [reflexivity|].
    destruct c1 as [[] [] [] [] [] [] [] []]; try reflexivity.
    destruct s1 as [|c2 s2]; [reflexivity|].
    destruct c2 as [[] [] [] [] [] [] [] []]; try reflexivity.
    destruct s2 as [|c3 s3]; [reflexivity|].
    destruct c3 as [[] [] [] [] [] [] [] []]; try reflexivity.
    destruct s3 as [|c4 s4]; [discriminate Ht|reflexivity]. }
  destruct (s =? "N/A") eqn:E; [|apply T; exact E].
  apply String.eqb_eq in E. subst s. reflexivity.
Qed.

Lemma drop_annotations_nil (fuel : nat) :
  MovieFilter.drop_annotations fuel [] = [].
Proof. destruct fuel; reflexivity. Qed.

Lemma annotation_plain (c : ascii) (l : list ascii) :
  Py.is_space c = false -> c <> "("%char ->
  MovieFilter.annotation (c :: l) = None.
Proof.
  intros S P. unfold MovieFilter.annotation. cbn [Py.lstrip_chars].
  rewrite S.
  destruct c as [[] [] [] [] [] [] [] []]; try reflexivity.
  contradiction P. reflexivity.
Qed.

Lemma drop_annotations_plain (fuel : nat) (c : ascii) (l : list ascii) :
  Py.is_space c = false -> c <> "("%char ->
  MovieFilter.drop_annotations (S fuel) (c :: l)
  = c :: MovieFilter.drop_annotations fuel l.
Proof.
  intros S P. cbn [MovieFilter.drop_annotations].
  rewrite (annotation_plain c l S P). reflexivity.
Qed.

Lemma drop_annotations_space (fuel : nat) (c : ascii) (l : list ascii) :
  Py.is_space c = false -> c <> "("%char ->
  MovieFilter.drop_annotations (S fuel) (" "%char :: c :: l)
  = " "%char :: MovieFilter.drop_annotations fuel (c :: l).
Proof.
  intros S P. cbn [MovieFilter.drop_annotations].
  change (MovieFilter.annotation (" "%char :: c :: l))
    with (MovieFilter.annotation (c :: l)).
  rewrite (annotation_plain c l S P). reflexivity.
Qed.

Lemma after_close_note (country : list ascii) :
  ~ In ")"%char country ->
  MovieFilter.after_close (country ++ [")"%char]) = Some [].
Proof.
  induction country as [|c country IH]; intros H; [reflexivity|].
  cbn [app MovieFilter.after_close].
  destruct (Ascii.eqb_spec c ")") as [E|N].
  - exfalso. apply H. left. exact E.
  - apply IH. intros Hin. apply H. right. exact Hin.
Qed.

Lemma drop_annotations_note (fuel : nat) (country : list ascii) :
  ~ In ")"%char country ->
  MovieFilter.drop_annotations (S fuel)
    (" "%char :: "("%char :: country ++ [")"%char]) = [].
Proof.
  intros H. cbn [MovieFilter.drop_annotations].
  change (MovieFilter.annotation
            (" "%char :: "("%char :: country ++ [")"%char]))
    with (MovieFilter.after_close (country ++ [")"%char])).
  rewrite (after_close_note country H). apply drop_annotations_nil.
Qed.

Lemma chars_app (a b : string) :
  list_ascii_of_string (a ++ b)
  = list_ascii_of_string a ++ list_ascii_of_string b.
Proof.
  induction a as [|c a IH]; [reflexivity|]. simpl. rewrite IH. reflexivity.
Qed.

Lemma chars_text (l : list ascii) : list_ascii_of_string (Py.text l) = l.
Proof. apply list_ascii_of_string_of_list_ascii. Qed.

Lemma text_app (a b : list ascii) :
  (Py.text a ++ Py.text b)%string = Py.text (a ++ b).
Proof.
  unfold Py.text. induction a as [|c a IH]; [reflexivity|].
  simpl. rewrite IH. reflexivity.
Qed.

Lemma length_text (l : list ascii) :
  String.length (Py.text l) = List.length l.
Proof.
  unfold Py.text. induction l as [|c l IH]; [reflexivity|].
  simpl. rewrite IH. reflexivity.
Qed.

Lemma strip_plain (a z : ascii) (l : list ascii) :
  Py.is_space a = false -> Py.is_space z = false ->
  Py.strip (Py.text (a :: l ++ [z])) = Py.text (a :: l ++ [z]).
Proof.
  intros A Z. unfold Py.strip. rewrite chars_text.
  assert (H1 : Py.lstrip_chars (a :: l ++ [z]) = a :: l ++ [z])
    by (cbn [Py.lstrip_chars]; rewrite A; reflexivity).
  rewrite H1.
  assert (H2 : rev (a :: l ++ [z]) = z :: rev (a :: l)).
  { change (a :: l ++ [z]) with ((a :: l) ++ [z]).
    rewrite rev_app_distr. reflexivity. }
  rewrite H2.
  assert (H3 : Py.lstrip_chars (z :: rev (a :: l)) = z :: rev (a :: l))
    by (cbn [Py.lstrip_chars]; rewrite Z; reflexivity).
  rewrite H3.
  change (rev (z :: rev (a :: l))) with (rev (rev (a :: l)) ++ [z]).
  rewrite rev_involutive. reflexivity.
Qed.

Lemma plain_spec (c : ascii) :
  plain c = true -> Py.is_space c = false /\ c <> "("%char.
Proof.
  unfold plain. intros H. apply andb_true_iff in H. destruct H as [A B].
  apply negb_true_iff in A, B. split; [exact A|].
  intros ->. discriminate B.
Qed.

Lemma digit_plain (c : ascii) (x : Z) :
  Datetime.digit_val c = Some x -> plain c = true.
Proof.
  intros D. destruct c as [[] [] [] [] [] [] [] []]; vm_compute in D;
    try discriminate D; reflexivity.
Qed.

Lemma drop_annotations_all_plain (l : list ascii) (fuel : nat) :
  forallb plain l = true -> MovieFilter.drop_annotations fuel l = l.
Proof.
  revert fuel. induction l as [|c l IH]; intros fuel H.
  - apply drop_annotations_nil.
  - destruct fuel as [|fuel]; [reflexivity|].
    cbn [forallb] in H. apply andb_true_iff in H. destruct H as [P H].
    destruct (plain_spec c P) as [S N].
    rewrite (drop_annotations_plain fuel c l S N), (IH fuel H). reflexivity.
Qed.

Lemma date_part_plain (a z : ascii) (l : list ascii) :
  forallb plain (a :: l ++ [z]) = true ->
  date_part (Py.text (a :: l ++ [z])) = Py.text (a :: l ++ [z]).
Proof.
  intros H. unfold date_part. rewrite chars_text.
  rewrite (drop_annotations_all_plain _ _ H).
  apply strip_plain.
  - cbn [forallb] in H. apply andb_true_iff in H.
    apply (plain_spec a (proj1 H)).
  - change (a :: l ++ [z]) with ((a :: l) ++ [z]) in H.
    rewrite forallb_app in H. apply andb_true_iff in H.
    destruct H as [_ H]. cbn [forallb] in H. rewrite andb_true_r in H.
    apply (plain_spec z H).
Qed.

Lemma digit_not_N (a : ascii) (x : Z) (l : list ascii) :
  Datetime.digit_val a = Some x -> (Py.text (a :: l) =? "N/A") = false.
Proof.
  intros D. destruct a as [[] [] [] [] [] [] [] []]; vm_compute in D;
    try discriminate D; reflexivity.
Qed.

Lemma strptime_name_digit (a : ascii) (x : Z) (l : list ascii) :
  Datetime.digit_val a = Some x ->
  Datetime.strptime (Py.text (a :: l)) Datetime.fmt_BdY = None
  /\ Datetime.strptime (Py.text (a :: l)) Datetime.fmt_bdY = None.
Proof.
  intros D. unfold Datetime.strptime. rewrite chars_text.
  unfold Datetime.fmt_BdY, Datetime.fmt_bdY. cbn [Datetime.matches].
  destruct (digit_not_name a x l D) as [-> ->]. split; reflexivity.
Qed.

Lemma first_parse_third (s : string) (dt : Datetime.date) :
  Datetime.strptime s Datetime.fmt_BdY = None ->
  Datetime.strptime s Datetime.fmt_bdY = None ->
  Datetime.strptime s Datetime.fmt_dmY = Some dt ->
  first_parse s = Some dt.
Proof.
  intros A B C. unfold first_parse, MovieFilter.date_formats.
  cbn [flat_map]. rewrite A, B, C. reflexivity.
Qed.

Lemma first_parse_fourth (s : string) (dt : Datetime.date) :
  Datetime.strptime s Datetime.fmt_BdY = None ->
  Datetime.strptime s Datetime.fmt_bdY = None ->
  Datetime.strptime s Datetime.fmt_dmY = None ->
  Datetime.strptime s Datetime.fmt_mdY = Some dt ->
  first_parse s = Some dt.
Proof.
  intros A B C D. unfold first_parse, MovieFilter.date_formats.
  cbn [flat_map]. rewrite A, B, C, D. reflexivity.
Qed.

Lemma first_parse_fifth (s : string) (dt : Datetime.date) :
  Datetime.strptime s Datetime.fmt_BdY = None ->
  Datetime.strptime s Datetime.fmt_bdY = None ->
  Datetime.strptime s Datetime.fmt_dmY = None ->
  Datetime.strptime s Datetime.fmt_mdY = None ->
  Datetime.strptime s Datetime.fmt_Ymd = Some dt ->
  first_parse s = Some dt.
Proof.
  intros A B C D E. unfold first_parse, MovieFilter.date_formats.
  cbn [flat_map]. rewrite A, B, C, D, E. reflexivity.
Qed.

(** The digits of a date of the calendar whose year has at most four
    digits. *)
Lemma calendar_digits (dt : Datetime.date) :
  Datetime.valid dt = true -> (Datetime.year dt <= 9999)%Z ->
  exists a b c d e f g h x y x' y' w1 w2 w3 w4,
    Datetime.pad 2 (Datetime.day dt) = Py.text [a; b]
    /\ Datetime.pad 2 (Datetime.month dt) = Py.text [c; d]
    /\ Datetime.pad 4 (Datetime.year dt) = Py.text [e; f; g; h]
    /\ Datetime.digit_val a = Some x /\ Datetime.digit_val b = Some y
    /\ Datetime.digit_val c = Some x' /\ Datetime.digit_val d = Some y'
    /\ Datetime.digit_val e = Some w1 /\ Datetime.digit_val f = Some w2
    /\ Datetime.digit_val g = Some w3 /\ Datetime.digit_val h = Some w4
    /\ Datetime.day dt = (10 * x + y)%Z
    /\ Datetime.month dt = (10 * x' + y')%Z
    /\ Datetime.year dt = (1000 * w1 + 100 * w2 + 10 * w3 + w4)%Z
    /\ (1 <= Datetime.day dt <= 31)%Z /\ (1 <= Datetime.month dt <= 12)%Z.
Proof.
  unfold Datetime.valid. intros H Hy.
  repeat (apply andb_true_iff in H; destruct H as [H ?]).
  repeat match goal with
         | K : (_ <=? _)%Z = true |- _ => apply Z.leb_le in K
         end.
  assert (Datetime.day dt <= 31)%Z.
  { unfold Datetime.days_in_month in *.
    destruct (Datetime.month dt =? 2)%Z;
      [destruct (Datetime.is_leap (Datetime.year dt)); lia|].
    destruct ((Datetime.month dt =? 4) || (Datetime.month dt =? 6)
              || (Datetime.month dt =? 9) || (Datetime.month dt =? 11))%Z;
      lia. }
  destruct (pad2_digits (Datetime.day dt)) as [a [b [x [y [Pd [Da [Db Vd]]]]]]];
    [lia|].
  destruct (pad2_digits (Datetime.month dt))
    as [c [d [x' [y' [Pm [Dc [Dd Vm]]]]]]]; [lia|].
  destruct (pad4_digits (Datetime.year dt))
    as [e [f [g [h' [w1 [w2 [w3 [w4 [Py [De [Df [Dg [Dh Vy]]]]]]]]]]]]]; [lia|].
  exists a, b, c, d, e, f, g, h', x, y, x', y', w1, w2, w3, w4.
  repeat split; try assumption; lia.
Qed.

Lemma four_digit_date_spec (dt : Datetime.date) :
  four_digit_date dt = true ->
  Datetime.valid dt = true /\ (1000 <= Datetime.year dt <= 9999)%Z.
Proof.
  unfold four_digit_date. intros H.
  apply andb_true_iff in H. destruct H as [H Hi].
  apply andb_true_iff in H. destruct H as [V Lo].
  apply Z.leb_le in Hi, Lo. split; [exact V|lia].
Qed.

Lemma date_digits (dt : Datetime.date) :
  four_digit_date dt = true ->
  exists a b c d e f g h x y x' y' w1 w2 w3 w4,
    Datetime.pad 2 (Datetime.day dt) = Py.text [a; b]
    /\ Datetime.pad 2 (Datetime.month dt) = Py.text [c; d]
    /\ Datetime.pad 4 (Datetime.year dt) = Py.text [e; f; g; h]
    /\ Datetime.digit_val a = Some x /\ Datetime.digit_val b = Some y
    /\ Datetime.digit_val c = Some x' /\ Datetime.digit_val d = Some y'
    /\ Datetime.digit_val e = Some w1 /\ Datetime.digit_val f = Some w2
    /\ Datetime.digit_val g = Some w3 /\ Datetime.digit_val h = Some w4
    /\ Datetime.day dt = (10 * x + y)%Z
    /\ Datetime.month dt = (10 * x' + y')%Z
    /\ Datetime.year dt = (1000 * w1 + 100 * w2 + 10 * w3 + w4)%Z
    /\ (1 <= Datetime.day dt <= 31)%Z /\ (1 <= Datetime.month dt <= 12)%Z.
Proof.
  intros H. destruct (four_digit_date_spec dt H) as [V R].
  apply calendar_digits; [exact V|lia].
Qed.

Section NumericForms.

Variable repr_float : Q -> string.
Variables a b c d e f g h : ascii.
Variables x y x' y' w1 w2 w3 w4 : Z.
Hypothesis Da : Datetime.digit_val a = Some x.
Hypothesis Db : Datetime.digit_val b = Some y.
Hypothesis Dc : Datetime.digit_val c = Some x'.
Hypothesis Dd : Datetime.digit_val d = Some y'.
Hypothesis De : Datetime.digit_val e = Some w1.
Hypothesis Df : Datetime.digit_val f = Some w2.
Hypothesis Dg : Datetime.digit_val g = Some w3.
Hypothesis Dh : Datetime.digit_val h = Some w4.
Hypothesis Rd : (1 <= 10 * x + y <= 31)%Z.
Hypothesis Rm : (1 <= 10 * x' + y' <= 12)%Z.

Hypothesis V :
  Datetime.valid (date_of_digits w1 w2 w3 w4 x' y' x y) = true.

Lemma plain_digits :
  plain a = true /\ plain b = true /\ plain c = true /\ plain d = true
  /\ plain e = true /\ plain f = true /\ plain g = true /\ plain h = true.
Proof. repeat split; eapply digit_plain; eassumption. Qed.

Lemma day_first_form :
  MovieFilter.format_date repr_float
    (Pandas.Str (Py.text [a; b; "/"; c; d; "/"; e; f; g; h]))%char
  = Pandas.Str (Datetime.strftime_dmY (date_of_digits w1 w2 w3 w4 x' y' x y)).
Proof.
  destruct plain_digits as [Pa [Pb [Pc [Pd [Pe [Pf [Pg Ph]]]]]]].
  rewrite format_date_text, (digit_not_N a x _ Da).
  change [a; b; "/"; c; d; "/"; e; f; g; h]%char
    with (a :: [b; "/"; c; d; "/"; e; f; g]%char ++ [h]).
  rewrite date_part_plain
    by (cbn [forallb app]; rewrite Pa, Pb, Pc, Pd, Pe, Pf, Pg, Ph;
        reflexivity).
  cbn [app].
  rewrite (first_parse_third _ (date_of_digits w1 w2 w3 w4 x' y' x y)); [reflexivity| | |].
  - apply (strptime_name_digit a x _ Da).
  - apply (strptime_name_digit a x _ Da).
  - unfold Datetime.strptime, Datetime.fmt_dmY. rewrite chars_text.
    rewrite (matches_day "/" a b x y _ _ _ eq_refl Da Db Rd).
    rewrite (matches_month "/" c d x' y' _ _ _ eq_refl Dc Dd Rm).
    rewrite (matches_year e f g h w1 w2 w3 w4 _ _ _ De Df Dg Dh).
    cbn [Datetime.matches Datetime.year Datetime.month Datetime.day].
    fold (date_of_digits w1 w2 w3 w4 x' y' x y). rewrite V. reflexivity.
Qed.

Lemma year_first_form :
  MovieFilter.format_date repr_float
    (Pandas.Str (Py.text [e; f; g; h; "-"; c; d; "-"; a; b]))%char
  = Pandas.Str (Datetime.strftime_dmY (date_of_digits w1 w2 w3 w4 x' y' x y)).
Proof.
  destruct plain_digits as [Pa [Pb [Pc [Pd [Pe [Pf [Pg Ph]]]]]]].
  rewrite format_date_text, (digit_not_N e w1 _ De).
  change [e; f; g; h; "-"; c; d; "-"; a; b]%char
    with (e :: [f; g; h; "-"; c; d; "-"; a]%char ++ [b]).
  rewrite date_part_plain
    by (cbn [forallb app]; rewrite Pa, Pb, Pc, Pd, Pe, Pf, Pg, Ph;
        reflexivity).
  cbn [app].
  rewrite (first_parse_fifth _ (date_of_digits w1 w2 w3 w4 x' y' x y)); [reflexivity| | | | |].
  - apply (strptime_name_digit e w1 _ De).
  - apply (strptime_name_digit e w1 _ De).
  - unfold Datetime.strptime, Datetime.fmt_dmY. rewrite chars_text.
    rewrite (matches_day_digit "/" e f g w1 w2 w3 _ _ _ eq_refl De Df Dg).
    reflexivity.
  - unfold Datetime.strptime, Datetime.fmt_mdY. rewrite chars_text.
    rewrite (matches_month_out "/" e f g w1 w2 _ _ _ eq_refl De Df)
      by (right; exists w3; exact Dg).
    reflexivity.
  - unfold Datetime.strptime, Datetime.fmt_Ymd. rewrite chars_text.
    rewrite (matches_year e f g h w1 w2 w3 w4 _ _ _ De Df Dg Dh).
    rewrite matches_lit.
    rewrite (matches_month "-" c d x' y' _ _ _ eq_refl Dc Dd Rm).
    destruct (matches_last_day a b x y
                (Datetime.mkdate
                   (Datetime.year
                      (Datetime.mkdate (1000 * w1 + 100 * w2 + 10 * w3 + w4)
                         (Datetime.month (Datetime.mkdate 1900 1 1))
                         (Datetime.day (Datetime.mkdate 1900 1 1))))
                   (10 * x' + y')
                   (Datetime.day
                      (Datetime.mkdate (1000 * w1 + 100 * w2 + 10 * w3 + w4)
                         (Datetime.month (Datetime.mkdate 1900 1 1))
                         (Datetime.day (Datetime.mkdate 1900 1 1)))))
                Da Db Rd) as [others ->].
    cbn [Datetime.year Datetime.month Datetime.day].
    fold (date_of_digits w1 w2 w3 w4 x' y' x y). rewrite V. reflexivity.
Qed.

Lemma month_first_form :
  (12 < 10 * x + y)%Z ->
  MovieFilter.format_date repr_float
    (Pandas.Str (Py.text [c; d; "/"; a; b; "/"; e; f; g; h]))%char
  = Pandas.Str (Datetime.strftime_dmY (date_of_digits w1 w2 w3 w4 x' y' x y)).
Proof.
  intros Late.
  destruct plain_digits as [Pa [Pb [Pc [Pd [Pe [Pf [Pg Ph]]]]]]].
  rewrite format_date_text, (digit_not_N c x' _ Dc).
  change [c; d; "/"; a; b; "/"; e; f; g; h]%char
    with (c :: [d; "/"; a; b; "/"; e; f; g]%char ++ [h]).
  rewrite date_part_plain
    by (cbn [forallb app]; rewrite Pa, Pb, Pc, Pd, Pe, Pf, Pg, Ph;
        reflexivity).
  cbn [app].
  rewrite (first_parse_fourth _ (date_of_digits w1 w2 w3 w4 x' y' x y)); [reflexivity| | | |].
  - apply (strptime_name_digit c x' _ Dc).
  - apply (strptime_name_digit c x' _ Dc).
  - unfold Datetime.strptime, Datetime.fmt_dmY. rewrite chars_text.
    rewrite (matches_day "/" c d x' y' _ _ _ eq_refl Dc Dd) by lia.
    rewrite (matches_month_out "/" a b "/" x y _ _ _ eq_refl Da Db)
      by (left; exact Late).
    reflexivity.
  - unfold Datetime.strptime, Datetime.fmt_mdY. rewrite chars_text.
    rewrite (matches_month "/" c d x' y' _ _ _ eq_refl Dc Dd Rm).
    rewrite (matches_day "/" a b x y _ _ _ eq_refl Da Db Rd).
    rewrite (matches_year e f g h w1 w2 w3 w4 _ _ _ De Df Dg Dh).
    cbn [Datetime.matches Datetime.year Datetime.month Datetime.day].
    fold (date_of_digits w1 w2 w3 w4 x' y' x y). rewrite V. reflexivity.
Qed.

End NumericForms.

(** X9.  [format_date] on the numeric writings of a date of the calendar
    with a year of four digits: [dd/mm/yyyy] is left as it is; [yyyy-mm-dd]
    becomes [dd/mm/yyyy]; [mm/dd/yyyy] becomes [dd/mm/yyyy] when the day is
    after the 12th, and is otherwise read with the day first, that is as
    the date with the day and the month exchanged. *)
Theorem format_date_reads_numeric_dates (repr_float : Q -> string)
  (dt : Datetime.date) :
  four_digit_date dt = true ->
  MovieFilter.format_date repr_float (Pandas.Str (Datetime.strftime_dmY dt))
  = Pandas.Str (Datetime.strftime_dmY dt)
  /\ MovieFilter.format_date repr_float (Pandas.Str (written_Ymd dt))
     = Pandas.Str (Datetime.strftime_dmY dt)
  /\ ((12 < Datetime.day dt)%Z ->
      MovieFilter.format_date repr_float (Pandas.Str (written_mdY dt))
      = Pandas.Str (Datetime.strftime_dmY dt))
  /\ ((Datetime.day dt <= 12)%Z ->
      MovieFilter.format_date repr_float (Pandas.Str (written_mdY dt))
      = Pandas.Str (Datetime.strftime_dmY (exchanged dt))).
Proof.
  intros H.
  destruct (date_digits dt H)
    as [a [b [c [d [e [f [g [h [x [y [x' [y' [w1 [w2 [w3 [w4 K]]]]]]]]]]]]]]]].
  destruct K as [Pd [Pm [Py [Da [Db [Dc [Dd [De [Df [Dg [Dh K]]]]]]]]]]].
  destruct K as [Vd [Vm [Vy [Rd Rm]]]].
  assert (V : Datetime.valid dt = true).
  { unfold four_digit_date in H. apply andb_true_iff in H.
    destruct H as [H _]. apply andb_true_iff in H. apply H. }
  assert (E : dt = date_of_digits w1 w2 w3 w4 x' y' x y).
  { destruct dt as [yy mm dd]. unfold date_of_digits. simpl in *.
    subst. reflexivity. }
  unfold written_Ymd, written_mdY, Datetime.strftime_dmY.
  cbn [exchanged Datetime.year Datetime.month Datetime.day].
  rewrite Pd, Pm, Py.
  change (MovieFilter.format_date repr_float
            (Pandas.Str (Py.text [a; b; "/"; c; d; "/"; e; f; g; h]))%char
          = Pandas.Str (Py.text [a; b; "/"; c; d; "/"; e; f; g; h])%char
          /\ MovieFilter.format_date repr_float
               (Pandas.Str (Py.text [e; f; g; h; "-"; c; d; "-"; a; b]))%char
             = Pandas.Str (Py.text [a; b; "/"; c; d; "/"; e; f; g; h])%char
          /\ ((12 < Datetime.day dt)%Z ->
              MovieFilter.format_date repr_float
                (Pandas.Str (Py.text [c; d; "/"; a; b; "/"; e; f; g; h]))%char
              = Pandas.Str (Py.text [a; b; "/"; c; d; "/"; e; f; g; h])%char)
          /\ ((Datetime.day dt <= 12)%Z ->
              MovieFilter.format_date repr_float
                (Pandas.Str (Py.text [c; d; "/"; a; b; "/"; e; f; g; h]))%char
              = Pandas.Str (Py.text [c; d; "/"; a; b; "/"; e; f; g; h])%char)).
  assert (T : Datetime.strftime_dmY (date_of_digits w1 w2 w3 w4 x' y' x y)
              = Py.text [a; b; "/"; c; d; "/"; e; f; g; h]%char).
  { rewrite <- E. unfold Datetime.strftime_dmY. rewrite Pd, Pm, Py.
    reflexivity. }
  rewrite E in V. rewrite Vd in Rd. rewrite Vm in Rm.
  split; [|split; [|split]].
  - rewrite <- T at 2.
    apply (day_first_form repr_float a b c d e f g h x y x' y' w1 w2 w3 w4);
      assumption.
  - rewrite <- T.
    apply (year_first_form repr_float a b c d e f g h x y x' y' w1 w2 w3 w4);
      assumption.
  - intros Late. rewrite <- T.
    apply (month_first_form repr_float a b c d e f g h x y x' y' w1 w2 w3 w4);
      try assumption.
    lia.
  - intros Early.
    assert (V' : Datetime.valid (date_of_digits w1 w2 w3 w4 x y x' y') = true).
    { unfold Datetime.valid, date_of_digits in *.
      cbn [Datetime.year Datetime.month Datetime.day] in *.
      repeat (apply andb_true_iff in V; destruct V as [V ?]).
      repeat match goal with
             | K : (_ <=? _)%Z = true |- _ => apply Z.leb_le in K
             end.
      assert (28 <= Datetime.days_in_month
                      (1000 * w1 + 100 * w2 + 10 * w3 + w4) (10 * x + y))%Z.
      { unfold Datetime.days_in_month.
        destruct (10 * x + y =? 2)%Z;
          [destruct (Datetime.is_leap _); lia|].
        destruct ((10 * x + y =? 4) || (10 * x + y =? 6)
                  || (10 * x + y =? 9) || (10 * x + y =? 11))%Z; lia. }
      repeat (apply andb_true_iff; split); apply Z.leb_le; lia. }
    assert (T' : Datetime.strftime_dmY (date_of_digits w1 w2 w3 w4 x y x' y')
                 = Py.text [c; d; "/"; a; b; "/"; e; f; g; h]%char).
    { unfold Datetime.strftime_dmY, date_of_digits.
      cbn [Datetime.year Datetime.month Datetime.day].
      rewrite <- Vd, <- Vm, <- Vy, Pd, Pm, Py. reflexivity. }
    rewrite <- T' at 2.
    apply (day_first_form repr_float c d a b e f g h x' y' x y w1 w2 w3 w4);
      try assumption; lia.
Qed.

Lemma format_date_reads_numeric_dates_witness :
  MovieFilter.format_date Sample.repr_float (Pandas.Str "13/06/1980")
  = Pandas.Str "13/06/1980"
  /\ MovieFilter.format_date Sample.repr_float (Pandas.Str "1980-06-13")
     = Pandas.Str "13/06/1980"
  /\ ((12 < 13)%Z ->
      MovieFilter.format_date Sample.repr_float (Pandas.Str "06/13/1980")
      = Pandas.Str "13/06/1980")
  /\ ((13 <= 12)%Z ->
      MovieFilter.format_date Sample.repr_float (Pandas.Str "06/13/1980")
      = Pandas.Str "06/13/1980").
Proof.
  apply (format_date_reads_numeric_dates Sample.repr_float
           (Datetime.mkdate 1980 6 13)).
  reflexivity.
Defined.

(** ** Dates written with the name of the month *)

Lemma str_all : forallb str_reads (seq 1 99) = true.
Proof. vm_compute. reflexivity. Qed.

Lemma str_digits (v : Z) :
  (1 <= v <= 31)%Z ->
  (exists a x,
      Py.str v = Py.text [a] /\ Datetime.digit_val a = Some x
      /\ v = x /\ (1 <= x)%Z)
  \/ (exists a b x y,
         Py.str v = Py.text [a; b] /\ Datetime.digit_val a = Some x
         /\ Datetime.digit_val b = Some y /\ v = (10 * x + y)%Z).
Proof.
  intros Hv.
  assert (In (Z.to_nat v) (seq 1 99)) as Hin by (apply in_seq; lia).
  pose proof str_all as A. rewrite forallb_forall in A.
  specialize (A _ Hin). unfold str_reads in A.
  rewrite Z2Nat.id in A by lia.
  apply andb_true_iff in A. destruct A as [L R].
  apply Nat.eqb_eq in L.
  assert (E : Py.str v = Py.text (list_ascii_of_string (Py.str v)))
    by (unfold Py.text; symmetry; apply string_of_list_ascii_of_string).
  destruct (list_ascii_of_string (Py.str v)) as [|a [|b [|c cs]]] eqn:Cs.
  - destruct (Z.to_nat v <? 10)%nat; discriminate L.
  - left. unfold reads_as in R. cbn [fold_left] in R.
    destruct (Datetime.digit_val a) as [x|] eqn:Da; [|discriminate R].
    apply Z.eqb_eq in R. exists a, x. repeat split; try assumption; lia.
  - right. unfold reads_as in R. cbn [fold_left] in R.
    destruct (Datetime.digit_val a) as [x|] eqn:Da; [|discriminate R].
    destruct (Datetime.digit_val b) as [y|] eqn:Db; [|discriminate R].
    apply Z.eqb_eq in R. exists a, b, x, y.
    repeat split; try assumption; lia.
  - destruct (Z.to_nat v <? 10)%nat; discriminate L.
Qed.

(** A text in which every space is followed by a character that is
    neither a space nor an opening parenthesis. *)
Lemma drop_annotations_spaced (pre tail : list ascii) (fuel : nat) :
  (forall s c l, pre = s ++ c :: l ->
                 plain c = true
                 \/ (c = " "%char /\ exists c' l', l = c' :: l'
                                               /\ plain c' = true)) ->
  tail = []
  \/ (exists country, tail = " "%char :: "("%char :: country ++ [")"%char]
                      /\ ~ In ")"%char country) ->
  (List.length pre < fuel)%nat ->
  MovieFilter.drop_annotations fuel (pre ++ tail) = pre.
Proof.
  revert fuel. induction pre as [|c pre IH]; intros fuel Hp Ht Hf.
  - cbn [app]. destruct Ht as [->|[country [-> Hc]]].
    + apply drop_annotations_nil.
    + destruct fuel as [|fuel]; [simpl in Hf; lia|].
      apply drop_annotations_note. exact Hc.
  - destruct fuel as [|fuel]; [simpl in Hf; lia|].
    simpl in Hf.
    assert (IH' : MovieFilter.drop_annotations fuel (pre ++ tail) = pre).
    { apply IH; [|exact Ht|lia].
      intros s c0 l E. apply (Hp (c :: s) c0 l). rewrite E. reflexivity. }
    destruct (Hp [] c pre eq_refl) as [P|[-> [c' [l' [-> P]]]]].
    + destruct (plain_spec c P) as [S N]. cbn [app].
      rewrite (drop_annotations_plain fuel c _ S N), IH'. reflexivity.
    + destruct (plain_spec c' P) as [S N]. cbn [app].
      rewrite (drop_annotations_space fuel c' _ S N).
      cbn [app] in IH'. rewrite IH'. reflexivity.
Qed.

Lemma spaced_nil : spaced [].
Proof. intros s c l E. destruct s; discriminate E. Qed.

Lemma spaced_plain (c : ascii) (l : list ascii) :
  plain c = true -> spaced l -> spaced (c :: l).
Proof.
  intros P H s c0 l0 E. destruct s as [|a s].
  - inversion E; subst. left. exact P.
  - inversion E; subst. apply (H s c0 l0). reflexivity.
Qed.

Lemma spaced_space (c : ascii) (l : list ascii) :
  plain c = true -> spaced (c :: l) -> spaced (" "%char :: c :: l).
Proof.
  intros P H s c0 l0 E. destruct s as [|a s].
  - inversion E; subst. right. split; [reflexivity|].
    exists c, l. split; [reflexivity|exact P].
  - inversion E; subst. apply (H s c0 l0). assumption.
Qed.

Lemma spaced_app (l1 l2 : list ascii) :
  forallb plain l1 = true -> spaced l2 -> spaced (l1 ++ l2).
Proof.
  induction l1 as [|c l1 IH]; intros H1 H2; [exact H2|].
  cbn [forallb] in H1. apply andb_true_iff in H1. destruct H1 as [P H1].
  cbn [app]. apply spaced_plain; [exact P|]. apply IH; assumption.
Qed.

Lemma drop_annotations_note_chars (pre tail : list ascii) (fuel : nat) :
  spaced pre -> note_chars tail -> (List.length pre < fuel)%nat ->
  MovieFilter.drop_annotations fuel (pre ++ tail) = pre.
Proof. intros S T F. apply drop_annotations_spaced; assumption. Qed.

Lemma matches_month_name (f : Datetime.format) (s rest : list ascii) (m : Z)
  (acc : Datetime.date) :
  Datetime.named Datetime.month_names s = [(m, rest)] ->
  Datetime.matches (Datetime.MonthName :: f) s acc
  = Datetime.matches f rest
      (Datetime.mkdate (Datetime.year acc) m (Datetime.day acc)).
Proof.
  intros H.
  change (Datetime.matches (Datetime.MonthName :: f) s acc)
    with (flat_map
            (fun vr => Datetime.matches f (snd vr)
                         (Datetime.mkdate (Datetime.year acc) (fst vr)
                            (Datetime.day acc)))
            (Datetime.named Datetime.month_names s)).
  rewrite H. cbn [flat_map fst snd]. apply app_nil_r.
Qed.

Lemma matches_month_name_none (f : Datetime.format) (s : list ascii)
  (acc : Datetime.date) :
  Datetime.named Datetime.month_names s = [] ->
  Datetime.matches (Datetime.MonthName :: f) s acc = [].
Proof.
  intros H.
  change (Datetime.matches (Datetime.MonthName :: f) s acc)
    with (flat_map
            (fun vr => Datetime.matches f (snd vr)
                         (Datetime.mkdate (Datetime.year acc) (fst vr)
                            (Datetime.day acc)))
            (Datetime.named Datetime.month_names s)).
  rewrite H. reflexivity.
Qed.

Lemma matches_month_abbr (f : Datetime.format) (s rest : list ascii) (m : Z)
  (acc : Datetime.date) :
  Datetime.named Datetime.month_abbrs s = [(m, rest)] ->
  Datetime.matches (Datetime.MonthAbbr :: f) s acc
  = Datetime.matches f rest
      (Datetime.mkdate (Datetime.year acc) m (Datetime.day acc)).
Proof.
  intros H.
  change (Datetime.matches (Datetime.MonthAbbr :: f) s acc)
    with (flat_map
            (fun vr => Datetime.matches f (snd vr)
                         (Datetime.mkdate (Datetime.year acc) (fst vr)
                            (Datetime.day acc)))
            (Datetime.named Datetime.month_abbrs s)).
  rewrite H. cbn [flat_map fst snd]. apply app_nil_r.
Qed.

Lemma first_parse_first (s : string) (dt : Datetime.date) :
  Datetime.strptime s Datetime.fmt_BdY = Some dt -> first_parse s = Some dt.
Proof.
  intros A. unfold first_parse, MovieFilter.date_formats.
  cbn [flat_map]. rewrite A. reflexivity.
Qed.

Lemma first_parse_second (s : string) (dt : Datetime.date) :
  Datetime.strptime s Datetime.fmt_BdY = None ->
  Datetime.strptime s Datetime.fmt_bdY = Some dt -> first_parse s = Some dt.
Proof.
  intros A B. unfold first_parse, MovieFilter.date_formats.
  cbn [flat_map]. rewrite A, B. reflexivity.
Qed.

(** What follows the name of the month: a space, the day, a comma, a
    space and the year. *)
Lemma matches_day_year (dd : list ascii) (D : Z) (e f g h : ascii)
  (w1 w2 w3 w4 : Z) (acc : Datetime.date) :
  day_digits dd D -> (1 <= D <= 31)%Z ->
  Datetime.digit_val e = Some w1 -> Datetime.digit_val f = Some w2 ->
  Datetime.digit_val g = Some w3 -> Datetime.digit_val h = Some w4 ->
  Datetime.matches
    [Datetime.Spaces; Datetime.Day; Datetime.Lit ","; Datetime.Spaces;
     Datetime.Year]
    (" " :: dd ++ ["," ; " "; e; f; g; h])%char acc
  = [(Datetime.mkdate (1000 * w1 + 100 * w2 + 10 * w3 + w4)
        (Datetime.month acc) D, [])].
Proof.
  intros Hd R De Df Dg Dh.
  destruct Hd as [[a [x [-> [Da [-> X]]]]]|[a [b [x [y [-> [Da [Db ->]]]]]]]];
    cbn [app].
  - rewrite (matches_space a x _ _ _ Da).
    rewrite (matches_day_short "," a x _ _ _ eq_refl Da X).
    rewrite (matches_space e w1 _ _ _ De).
    rewrite (matches_year e f g h w1 w2 w3 w4 _ _ _ De Df Dg Dh).
    reflexivity.
  - rewrite (matches_space a x _ _ _ Da).
    rewrite (matches_day "," a b x y _ _ _ eq_refl Da Db R).
    rewrite (matches_space e w1 _ _ _ De).
    rewrite (matches_year e f g h w1 w2 w3 w4 _ _ _ De Df Dg Dh).
    reflexivity.
Qed.

Lemma day_digits_plain (dd : list ascii) (D : Z) :
  day_digits dd D ->
  forallb plain dd = true /\ exists a x l, dd = a :: l
                                     /\ Datetime.digit_val a = Some x.
Proof.
  intros [[a [x [-> [Da _]]]]|[a [b [x [y [-> [Da [Db _]]]]]]]].
  - split; [cbn; rewrite (digit_plain a x Da); reflexivity|].
    exists a, x, []. auto.
  - split; [cbn; rewrite (digit_plain a x Da), (digit_plain b y Db);
            reflexivity|].
    exists a, x, [b]. auto.
Qed.

Section LongForm.

Variable repr_float : Q -> string.
Variable c0 : ascii.
Variable nm' : list ascii.
Variable m : Z.
Hypothesis Nplain : forallb plain (c0 :: nm') = true.
Hypothesis Nreads : reads_month (c0 :: nm') m.
Hypothesis Nother :
  forall rest, (Py.text (c0 :: nm' ++ rest) =? "N/A") = false.
Variable dd : list ascii.
Variable D : Z.
Hypothesis Hdd : day_digits dd D.
Hypothesis RD : (1 <= D <= 31)%Z.
Variables e f g h : ascii.
Variables w1 w2 w3 w4 : Z.
Hypothesis De : Datetime.digit_val e = Some w1.
Hypothesis Df : Datetime.digit_val f = Some w2.
Hypothesis Dg : Datetime.digit_val g = Some w3.
Hypothesis Dh : Datetime.digit_val h = Some w4.
Hypothesis V :
  Datetime.valid
    (Datetime.mkdate (1000 * w1 + 100 * w2 + 10 * w3 + w4) m D) = true.

Lemma long_form_part (tail : list ascii) :
  note_chars tail ->
  date_part
    (Py.text ((c0 :: nm') ++ " " :: dd ++ ["," ; " "; e; f; g; h] ++ tail))%char
  = Py.text ((c0 :: nm') ++ " " :: dd ++ ["," ; " "; e; f; g; h])%char.
Proof.
  intros T.
  destruct (day_digits_plain dd D Hdd) as [Pdd [a [x [l [Edd Da]]]]].
  set (pre := ((c0 :: nm') ++ " " :: dd ++ ["," ; " "; e; f; g; h])%char).
  assert (E : ((c0 :: nm') ++ " " :: dd ++ ["," ; " "; e; f; g; h] ++ tail)%char
              = pre ++ tail).
  { unfold pre. rewrite <- app_assoc. cbn [app]. rewrite <- app_assoc.
    reflexivity. }
  rewrite E. unfold date_part. rewrite chars_text, length_text.
  rewrite (drop_annotations_note_chars pre tail).
  - unfold pre.
    replace ((c0 :: nm') ++ " " :: dd ++ ["," ; " "; e; f; g; h])%char
      with (c0 :: (nm' ++ " " :: dd ++ ["," ; " "; e; f; g])%char ++ [h]).
    + apply strip_plain.
      * cbn [forallb] in Nplain. apply andb_true_iff in Nplain.
        apply (plain_spec c0 (proj1 Nplain)).
      * apply (plain_spec h (digit_plain h w4 Dh)).
    + cbn [app]. f_equal. rewrite <- app_assoc. cbn [app]. f_equal. f_equal.
      rewrite <- app_assoc. reflexivity.
  - unfold pre. apply spaced_app; [exact Nplain|].
    assert (S2 : spaced (dd ++ ["," ; " "; e; f; g; h])%char).
    { apply spaced_app; [exact Pdd|].
      apply spaced_plain; [reflexivity|].
      apply spaced_space; [apply (digit_plain e w1 De)|].
      repeat (apply spaced_plain; [eapply digit_plain; eassumption|]).
      apply spaced_nil. }
    rewrite Edd in S2 |- *. cbn [app] in S2 |- *.
    apply spaced_space; [apply (digit_plain a x Da)|exact S2].
  - exact T.
  - rewrite length_app. lia.
Qed.

Lemma long_form_parse :
  first_parse
    (Py.text ((c0 :: nm') ++ " " :: dd ++ ["," ; " "; e; f; g; h]))%char
  = Some (Datetime.mkdate (1000 * w1 + 100 * w2 + 10 * w3 + w4) m D).
Proof.
  destruct (Nreads (dd ++ ["," ; " "; e; f; g; h])%char) as [F|[F A]].
  - apply first_parse_first. unfold Datetime.strptime, Datetime.fmt_BdY.
    rewrite chars_text.
    rewrite (matches_month_name _ _ _ m _ F).
    rewrite (matches_day_year dd D e f g h w1 w2 w3 w4 _ Hdd RD De Df Dg Dh).
    cbn [Datetime.year Datetime.month Datetime.day]. rewrite V. reflexivity.
  - apply first_parse_second.
    + unfold Datetime.strptime, Datetime.fmt_BdY. rewrite chars_text.
      rewrite (matches_month_name_none _ _ _ F). reflexivity.
    + unfold Datetime.strptime, Datetime.fmt_bdY. rewrite chars_text.
      rewrite (matches_month_abbr _ _ _ m _ A).
      rewrite (matches_day_year dd D e f g h w1 w2 w3 w4 _ Hdd RD De Df Dg Dh).
      cbn [Datetime.year Datetime.month Datetime.day]. rewrite V. reflexivity.
Qed.

Lemma long_form (tail : list ascii) :
  note_chars tail ->
  MovieFilter.format_date repr_float
    (Pandas.Str
       (Py.text ((c0 :: nm') ++ " " :: dd ++ ["," ; " "; e; f; g; h] ++ tail)))%char
  = Pandas.Str
      (Datetime.strftime_dmY
         (Datetime.mkdate (1000 * w1 + 100 * w2 + 10 * w3 + w4) m D)).
Proof.
  intros T. rewrite format_date_text.
  change ((c0 :: nm') ++ " " :: dd ++ ["," ; " "; e; f; g; h] ++ tail)%char
    with (c0 :: nm' ++ (" " :: dd ++ ["," ; " "; e; f; g; h] ++ tail)%char).
  rewrite Nother.
  change (c0 :: nm' ++ (" " :: dd ++ ["," ; " "; e; f; g; h] ++ tail)%char)
    with ((c0 :: nm') ++ " " :: dd ++ ["," ; " "; e; f; g; h] ++ tail)%char.
  rewrite (long_form_part tail T), long_form_parse. reflexivity.
Qed.

End LongForm.

Lemma month_name_reads (name : string) (m : Z) :
  month_name name m ->
  exists c0 nm',
    list_ascii_of_string name = c0 :: nm'
    /\ forallb plain (c0 :: nm') = true
    /\ reads_month (c0 :: nm') m
    /\ forall rest, (Py.text (c0 :: nm' ++ rest) =? "N/A") = false.
Proof.
  intros [H|H]; simpl in H;
    repeat (destruct H as [H|H];
            [inversion H; subst; clear H;
             eexists; eexists;
             (split; [reflexivity|]);
             (split; [reflexivity|]);
             (split;
              [intros rest;
               first [left; reflexivity | right; split; reflexivity]
              |intros rest; reflexivity])
            |]);
    contradiction.
Qed.

Lemma text_chars (s : string) : Py.text (list_ascii_of_string s) = s.
Proof. apply string_of_list_ascii_of_string. Qed.

Lemma note_after_chars (note : string) :
  note_after note ->
  exists tail, note = Py.text tail /\ note_chars tail.
Proof.
  intros [->|[country [-> C]]].
  - exists []. split; [reflexivity|left; reflexivity].
  - exists (" "%char :: "("%char :: list_ascii_of_string country ++ [")"%char]).
    split.
    + unfold country_note. rewrite <- (text_chars (" (" ++ country ++ ")")).
      rewrite !chars_app. reflexivity.
    + right. exists (list_ascii_of_string country). split; [reflexivity|].
      unfold Py.contains_char in C. intros Hin.
      assert (existsb (Ascii.eqb ")") (list_ascii_of_string country) = true)
        as E.
      { apply existsb_exists. exists ")"%char. split; [exact Hin|].
        reflexivity. }
      rewrite E in C. discriminate C.
Qed.

Lemma written_long_text (name : string) (dt : Datetime.date) (note : string)
  (dd tail : list ascii) (e f g h : ascii) :
  Py.str (Datetime.day dt) = Py.text dd ->
  Datetime.pad 4 (Datetime.year dt) = Py.text [e; f; g; h] ->
  note = Py.text tail ->
  written_long name dt note
  = Py.text (list_ascii_of_string name
               ++ " " :: dd ++ ["," ; " "; e; f; g; h] ++ tail)%char.
Proof.
  intros Hd Hy ->. unfold written_long. rewrite Hd, Hy.
  rewrite <- (text_chars (name ++ " " ++ Py.text dd ++ ", "
                            ++ Py.text [e; f; g; h] ++ Py.text tail)).
  f_equal. rewrite !chars_app, !chars_text. cbn [app list_ascii_of_string].
  reflexivity.
Qed.

(** X10.  [format_date] on a date written with the name of the month, in
    full or abbreviated, as [June 13, 1980], alone or followed by a note
    between parentheses as in [June 13, 1980 (United States)]: for a date
    of the calendar with a year of four digits the note is dropped and the
    date is written [dd/mm/yyyy]. *)
Theorem format_date_reads_named_months (repr_float : Q -> string)
  (name : string) (dt : Datetime.date) (note : string) :
  month_name name (Datetime.month dt) ->
  four_digit_date dt = true ->
  note_after note ->
  MovieFilter.format_date repr_float (Pandas.Str (written_long name dt note))
  = Pandas.Str (Datetime.strftime_dmY dt).
Proof.
  intros Hn H Hnote.
  destruct (four_digit_date_spec dt H) as [V R].
  destruct (calendar_digits dt V)
    as [a [b [c [d [e [f [g [h [x [y [x' [y' [w1 [w2 [w3 [w4 K]]]]]]]]]]]]]]]];
    [lia|].
  destruct K as [Pd [Pm [Py [Da [Db [Dc [Dd [De [Df [Dg [Dh K]]]]]]]]]]].
  destruct K as [Vd [Vm [Vy [Rd Rm]]]].
  destruct (month_name_reads name _ Hn) as [c0 [nm' [En [Np [Nr No]]]]].
  destruct (note_after_chars note Hnote) as [tail [Et T]].
  assert (Hdd : exists dd, Py.str (Datetime.day dt) = Py.text dd
                           /\ day_digits dd (Datetime.day dt)).
  { destruct (str_digits (Datetime.day dt) Rd)
      as [[a1 [x1 [S1 [D1 [E1 X1]]]]]|[a1 [b1 [x1 [y1 [S1 [D1 [D2 E1]]]]]]]].
    - exists [a1]. split; [exact S1|]. left. exists a1, x1. auto.
    - exists [a1; b1]. split; [exact S1|]. right. exists a1, b1, x1, y1. auto. }
  destruct Hdd as [dd [Sd Hdd]].
  rewrite (written_long_text name dt note dd tail e f g h Sd Py Et), En.
  assert (E : dt = Datetime.mkdate (1000 * w1 + 100 * w2 + 10 * w3 + w4)
                     (Datetime.month dt) (Datetime.day dt)).
  { destruct dt as [yy mm dd0]. simpl in *. subst yy. reflexivity. }
  transitivity
    (Pandas.Str
       (Datetime.strftime_dmY
          (Datetime.mkdate (1000 * w1 + 100 * w2 + 10 * w3 + w4)
             (Datetime.month dt) (Datetime.day dt))));
    [|rewrite <- E; reflexivity].
  apply (long_form repr_float c0 nm' (Datetime.month dt) Np Nr No dd
           (Datetime.day dt) Hdd Rd e f g h w1 w2 w3 w4 De Df Dg Dh).
  - rewrite <- E. exact V.
  - exact T.
Qed.

Lemma format_date_reads_named_months_witness :
  MovieFilter.format_date Sample.repr_float
    (Pandas.Str "June 13, 1980 (United States)")
  = Pandas.Str "13/06/1980".
Proof.
  apply (format_date_reads_named_months Sample.repr_float "June"
           (Datetime.mkdate 1980 6 13) (country_note "United States")).
  - left. simpl. tauto.
  - reflexivity.
  - right. exists "United States". split; reflexivity.
Defined.

(** ** [format_date] twice *)

Lemma canonical_fixed (repr_float : Q -> string) (dt : Datetime.date) :
  Datetime.valid dt = true -> (Datetime.year dt <= 9999)%Z ->
  MovieFilter.format_date repr_float (Pandas.Str (Datetime.strftime_dmY dt))
  = Pandas.Str (Datetime.strftime_dmY dt).
Proof.
  intros V Hy.
  destruct (calendar_digits dt V Hy)
    as [a [b [c [d [e [f [g [h [x [y [x' [y' [w1 [w2 [w3 [w4 K]]]]]]]]]]]]]]]].
  destruct K as [Pd [Pm [Py [Da [Db [Dc [Dd [De [Df [Dg [Dh K]]]]]]]]]]].
  destruct K as [Vd [Vm [Vy [Rd Rm]]]].
  assert (E : dt = date_of_digits w1 w2 w3 w4 x' y' x y).
  { destruct dt as [yy mm dd]. unfold date_of_digits. simpl in *.
    subst. reflexivity. }
  assert (T : Datetime.strftime_dmY dt
              = Py.text [a; b; "/"; c; d; "/"; e; f; g; h]%char).
  { unfold Datetime.strftime_dmY. rewrite Pd, Pm, Py. reflexivity. }
  rewrite T. rewrite E in T, V. rewrite <- T at 2. rewrite Vd in Rd.
  rewrite Vm in Rm.
  apply (day_first_form repr_float a b c d e f g h x y x' y' w1 w2 w3 w4);
    assumption.
Qed.

Lemma matches_year_bound (f : Datetime.format) :
  forall (s : list ascii) (acc d : Datetime.date) (r : list ascii),
    In (d, r) (Datetime.matches f s acc) ->
    (0 <= Datetime.year acc <= 9999)%Z ->
    (0 <= Datetime.year d <= 9999)%Z.
Proof.
  induction f as [|dir f IH]; intros s acc d r Hin Hacc.
  - simpl in Hin. destruct Hin as [E|[]]. inversion E; subst. exact Hacc.
  - destruct dir; cbn [Datetime.matches] in Hin;
      try (apply in_flat_map in Hin; destruct Hin as [vr [_ Hin]];
           apply (IH _ _ _ _ Hin); exact Hacc).
    + apply in_flat_map in Hin. destruct Hin as [vr [Hvr Hin]].
      apply (IH _ _ _ _ Hin). cbn [Datetime.year].
      unfold Datetime.four_digits in Hvr.
      destruct s as [|a [|b [|c0 [|d0 rest]]]]; try contradiction.
      destruct (Datetime.digit_val a) as [w|] eqn:Da; [|contradiction].
      destruct (Datetime.digit_val b) as [x|] eqn:Db; [|contradiction].
      destruct (Datetime.digit_val c0) as [y|] eqn:Dc; [|contradiction].
      destruct (Datetime.digit_val d0) as [z|] eqn:Dd; [|contradiction].
      destruct Hvr as [<-|[]]. cbn [fst].
      pose proof (digit_range a w Da). pose proof (digit_range b x Db).
      pose proof (digit_range c0 y Dc). pose proof (digit_range d0 z Dd).
      lia.
    + destruct s as [|c0 rest]; [contradiction|].
      destruct (Ascii.eqb (Datetime.lower_char c) (Datetime.lower_char c0));
        [|contradiction].
      apply (IH _ _ _ _ Hin). exact Hacc.
Qed.

Lemma strptime_calendar (s : string) (fmt : Datetime.format)
  (dt : Datetime.date) :
  Datetime.strptime s fmt = Some dt ->
  Datetime.valid dt = true /\ (Datetime.year dt <= 9999)%Z.
Proof.
  unfold Datetime.strptime.
  destruct (Datetime.matches fmt (list_ascii_of_string s)
              (Datetime.mkdate 1900 1 1)) as [|[d r] rest] eqn:M;
    [discriminate|].
  destruct r; [|discriminate].
  destruct (Datetime.valid d) eqn:V; [|discriminate].
  intros E. inversion E; subst. split; [exact V|].
  assert (In (dt, []) (Datetime.matches fmt (list_ascii_of_string s)
                         (Datetime.mkdate 1900 1 1)))
    as Hin by (rewrite M; left; reflexivity).
  apply (matches_year_bound fmt _ _ _ _ Hin). simpl. lia.
Qed.

Lemma first_parse_calendar (s : string) (dt : Datetime.date) :
  first_parse s = Some dt ->
  Datetime.valid dt = true /\ (Datetime.year dt <= 9999)%Z.
Proof.
  unfold first_parse. intros H.
  assert (In dt (flat_map (fun fmt => match Datetime.strptime s fmt with
                                      | Some dt => [dt]
                                      | None => []
                                      end) MovieFilter.date_formats)) as Hin.
  { destruct (flat_map _ MovieFilter.date_formats) as [|d l];
      [discriminate|].
    inversion H; subst. left. reflexivity. }
  apply in_flat_map in Hin. destruct Hin as [fmt [_ Hin]].
  destruct (Datetime.strptime s fmt) as [d|] eqn:P; [|contradiction].
  destruct Hin as [<-|[]]. apply (strptime_calendar s fmt d P).
Qed.

(** What [format_date] makes of a value that is neither missing nor the
    text [N/A]. *)
Lemma format_date_value (repr_float : Q -> string) (c : Pandas.cell) :
  c <> Pandas.NaN -> c <> Pandas.Str "N/A" ->
  MovieFilter.format_date repr_float c
  = match first_parse (date_part (Pandas.cell_text repr_float c)) with
    | Some dt => Pandas.Str (Datetime.strftime_dmY dt)
    | None => c
    end.
Proof.
  intros N1 N2. destruct c as [|s|q|t].
  - contradiction.
  - rewrite format_date_text.
    destruct (String.eqb_spec s "N/A") as [->|_]; [contradiction|].
    reflexivity.
  - unfold MovieFilter.format_date, first_parse, date_part.
    destruct (flat_map _ MovieFilter.date_formats); reflexivity.
  - unfold MovieFilter.format_date, first_parse, date_part.
    destruct (flat_map _ MovieFilter.date_formats); reflexivity.
Qed.

Lemma missing_or_value (c : Pandas.cell) :
  c = Pandas.NaN \/ c = Pandas.Str "N/A"
  \/ (c <> Pandas.NaN /\ c <> Pandas.Str "N/A").
Proof.
  destruct c as [|s|q|t].
  - left. reflexivity.
  - destruct (string_dec s "N/A") as [->|N].
    + right. left. reflexivity.
    + right. right. split; [discriminate|]. intros E. inversion E.
      contradiction.
  - right. right. split; discriminate.
  - right. right. split; discriminate.
Qed.

(** X11.  [format_date] is idempotent: applied to its own result, for any
    value of a cell, it changes nothing. *)
Theorem format_date_idempotent (repr_float : Q -> string) (c : Pandas.cell) :
  MovieFilter.format_date repr_float (MovieFilter.format_date repr_float c)
  = MovieFilter.format_date repr_float c.
Proof.
  assert (NA : MovieFilter.format_date repr_float (Pandas.Str "N/A")
               = Pandas.Str "N/A") by reflexivity.
  destruct (missing_or_value c) as [->|[->|[N1 N2]]];
    [exact NA|rewrite NA; exact NA|].
  rewrite (format_date_value repr_float c N1 N2).
  destruct (first_parse (date_part (Pandas.cell_text repr_float c)))
    as [dt|] eqn:P.
  - destruct (first_parse_calendar _ _ P) as [V Hy].
    apply canonical_fixed; assumption.
  - rewrite (format_date_value repr_float c N1 N2), P. reflexivity.
Qed.

(** ** The texts of the years *)

Lemma split_chars_last (sep : ascii) (a word : list ascii) :
  existsb (Ascii.eqb sep) a = false ->
  Py.split_chars sep a word = [Py.text (rev word ++ a)].
Proof.
  revert word. induction a as [|c a IH]; intros word H.
  - cbn. rewrite app_nil_r. reflexivity.
  - cbn [existsb] in H. apply orb_false_iff in H. destruct H as [Hc H].
    cbn [Py.split_chars]. rewrite Ascii.eqb_sym, Hc.
    rewrite (IH (c :: word) H). cbn [rev]. rewrite <- app_assoc.
    reflexivity.
Qed.

Lemma split_chars_part (sep : ascii) (a rest word : list ascii) :
  existsb (Ascii.eqb sep) a = false ->
  Py.split_chars sep (a ++ sep :: rest) word
  = Py.text (rev word ++ a) :: Py.split_chars sep rest [].
Proof.
  revert word. induction a as [|c a IH]; intros word H.
  - cbn [app Py.split_chars]. rewrite Ascii.eqb_refl, app_nil_r.
    reflexivity.
  - cbn [existsb] in H. apply orb_false_iff in H. destruct H as [Hc H].
    cbn [app Py.split_chars]. rewrite Ascii.eqb_sym, Hc.
    rewrite (IH (c :: word) H). cbn [rev]. rewrite <- app_assoc.
    reflexivity.
Qed.

Lemma split_single (s : string) (sep : ascii) :
  Py.contains_char s sep = false -> Py.split s sep = [s].
Proof.
  intros H. unfold Py.split. rewrite split_chars_last by exact H.
  cbn [rev app]. rewrite text_chars. reflexivity.
Qed.

Lemma split_range (a b : string) (more : option string) :
  Py.contains_char a "-" = false -> Py.contains_char b "-" = false ->
  exists parts, Py.split (range_text a b more) "-" = a :: b :: parts.
Proof.
  intros Ha Hb. unfold Py.split, range_text. rewrite chars_app.
  change (list_ascii_of_string
            ("-" ++ b ++ match more with
                         | Some m => "-" ++ m
                         | None => ""
                         end))
    with ("-"%char :: list_ascii_of_string
                        (b ++ match more with
                              | Some m => "-" ++ m
                              | None => ""
                              end)).
  rewrite split_chars_part by exact Ha. cbn [rev app]. rewrite text_chars.
  rewrite chars_app. destruct more as [m|].
  - change (list_ascii_of_string ("-" ++ m))
      with ("-"%char :: list_ascii_of_string m).
    rewrite split_chars_part by exact Hb. cbn [rev app].
    rewrite text_chars. eexists. reflexivity.
  - cbn [list_ascii_of_string]. rewrite app_nil_r.
    rewrite split_chars_last by exact Hb. cbn [rev app].
    rewrite text_chars. exists []. reflexivity.
Qed.

Lemma range_text_hyphen (a b : string) (more : option string) :
  Py.truthy_str (Some (range_text a b more)) = true
  /\ Py.contains_char (range_text a b more) "-" = true.
Proof.
  unfold range_text. split.
  - destruct a; reflexivity.
  - unfold Py.contains_char. rewrite chars_app, existsb_app.
    apply orb_true_iff. right. reflexivity.
Qed.

(** X12.  A range of years written [A-B], or [A-B-...] with more parts
    that are not looked at: when [int] reads both parts, [datadasher]
    filters from [A] to [B] with no single year, and [datascrapper] filters
    from [A] to [B]; when [int] does not read one of them, [datadasher]
    raises the [ValueError] of that part, and [datascrapper] ends the
    process with the status 1. *)
Theorem range_text_is_read_by_its_first_two_parts
  (py_int : string -> option Z) (a b : string) (more : option string)
  (argsDB : MovieDB.Namespace) (argsMF : MovieFilter.Namespace) (h : store) :
  Py.contains_char a "-" = false ->
  Py.contains_char b "-" = false ->
  MovieDB.arg_years argsDB = Some (range_text a b more) ->
  MovieFilter.arg_year_range argsMF = Some (range_text a b more) ->
  match py_int a, py_int b with
  | Some A, Some B =>
      MovieDB.parse_years py_int argsDB h = (Ok (None, Some A, Some B), h)
      /\ MovieFilter.parse_year_range py_int argsMF h
         = (Ok (Some A, Some B), h)
  | Some _, None =>
      MovieDB.parse_years py_int argsDB h = (Raise (ValueError b), h)
      /\ MovieFilter.parse_year_range py_int argsMF h
         = (Raise (SystemExit 1), h)
  | None, _ =>
      MovieDB.parse_years py_int argsDB h = (Raise (ValueError a), h)
      /\ MovieFilter.parse_year_range py_int argsMF h
         = (Raise (SystemExit 1), h)
  end.
Proof.
  intros Ha Hb Edb Emf.
  destruct (split_range a b more Ha Hb) as [parts S].
  destruct (range_text_hyphen a b more) as [T C].
  unfold MovieDB.parse_years, MovieFilter.parse_year_range.
  rewrite Edb, Emf, T. cbn [Py.val_str]. rewrite C, S.
  cbn [nth List.length Nat.ltb Nat.leb].
  unfold MovieDB.int, MovieFilter.int.
  destruct (py_int a) as [A|]; [destruct (py_int b) as [B|]|];
    split; reflexivity.
Qed.

Lemma range_text_is_read_by_its_first_two_parts_witness :
  MovieDB.parse_years Sample.py_int (years_only (Some "1990-1999-2005")) []
  = (Ok (None, Some 1990%Z, Some 1999%Z), [])
  /\ MovieFilter.parse_year_range Sample.py_int
       (with_years (thresholds_only None None None) None
          (Some "1990-1999-2005")) []
     = (Ok (Some 1990%Z, Some 1999%Z), []).
Proof.
  apply (range_text_is_read_by_its_first_two_parts Sample.py_int "1990"
           "1999" (Some "2005")); reflexivity.
Defined.

(** ** One year written as a range *)

Lemma within_is_number (y : Z) (c : Pandas.cell) :
  numeric_or_missing c = true ->
  Clauses.within (inject_Z y) (inject_Z y) c
  = Clauses.is_number (inject_Z y) c.
Proof.
  destruct c as [|s|q|t]; intros H; try discriminate H; [reflexivity|].
  unfold Clauses.within, Clauses.is_number, Pandas.cell_ge, Pandas.cell_le.
  cbn [rbind]. f_equal.
  destruct (Qeq_bool q (inject_Z y)) eqn:E.
  - apply Qeq_bool_iff in E. apply andb_true_iff.
    split; apply Qle_bool_iff; rewrite E; apply Qle_refl.
  - apply andb_false_iff.
    destruct (Qle_bool (inject_Z y) q) eqn:A; [|left; reflexivity].
    destruct (Qle_bool q (inject_Z y)) eqn:B; [|right; reflexivity].
    apply Qle_bool_iff in A, B.
    assert (q == inject_Z y) as Q by (apply Qle_antisym; assumption).
    apply Qeq_bool_iff in Q. rewrite Q in E. discriminate E.
Qed.

Lemma year_clause_same (y : Z) (d : Pandas.DataFrame) :
  (forall i, Pandas.position "year" (Pandas.columns d) = Some i ->
             numeric_column d i = true) ->
  Clauses.run_clause
    (Clauses.mkClause (Py.truthy_int (Some y) && Py.truthy_int (Some y)) true
       "year" (Clauses.within (inject_Z y) (inject_Z y))) d
  = Clauses.run_clause
      (Clauses.mkClause (Py.truthy_int (Some y)) true "year"
         (Clauses.is_number (inject_Z y))) d.
Proof.
  intros N. unfold Clauses.run_clause, Clauses.applies.
  cbn [Clauses.supplied Clauses.guarded Clauses.column Clauses.test].
  rewrite andb_diag.
  destruct (Py.truthy_int (Some y) && (negb true || Pandas.has_column d "year"));
    [|reflexivity].
  unfold Pandas.getitem.
  destruct (Pandas.position "year" (Pandas.columns d)) as [i|] eqn:P;
    [|reflexivity].
  cbn [rbind]. specialize (N i eq_refl).
  rewrite (mapM_ext (Clauses.within (inject_Z y) (inject_Z y))
             (Clauses.is_number (inject_Z y))); [reflexivity|].
  intros c Hc. apply in_map_iff in Hc. destruct Hc as [r [<- Hr]].
  apply within_is_number. unfold numeric_column in N.
  rewrite forallb_forall in N. apply N. exact Hr.
Qed.

Lemma numeric_year_view (f : Pandas.Row -> bool) (d d' : Pandas.DataFrame) :
  view_of f d d' ->
  (forall i, Pandas.position "year" (Pandas.columns d) = Some i ->
             numeric_column d i = true) ->
  forall i, Pandas.position "year" (Pandas.columns d') = Some i ->
            numeric_column d' i = true.
Proof.
  intros V N i P. apply (numeric_column_view f d d' i V). apply N.
  destruct V as [C _]. rewrite <- C. exact P.
Qed.

Lemma year_range_clauses_same (re_search : string -> string -> bool)
  (genre rating : option string) (y : Z)
  (director star country company : option string)
  (min_score min_gross : option Q) (min_votes : option Z)
  (d : Pandas.DataFrame) :
  (forall i, Pandas.position "year" (Pandas.columns d) = Some i ->
             numeric_column d i = true) ->
  Clauses.run_clauses
    (Clauses.of_MovieFilter re_search genre rating None (Some y) (Some y)
       director star country company min_score min_gross min_votes) d
  = Clauses.run_clauses
      (Clauses.of_MovieFilter re_search genre rating (Some y) None None
         director star country company min_score min_gross min_votes) d.
Proof.
  intros N. unfold Clauses.of_MovieFilter.
  cbn [Clauses.run_clauses Py.val_int].
  destruct (Clauses.run_clause _ d) as [d1|e] eqn:R1; [|reflexivity].
  cbn [rbind].
  destruct (Clauses.run_clause _ d1) as [d2|e] eqn:R2; [|reflexivity].
  cbn [rbind].
  pose proof (numeric_year_view _ _ _ (run_clause_rows _ _ _ R2)
                (numeric_year_view _ _ _ (run_clause_rows _ _ _ R1) N)) as N2.
  rewrite (run_clause_off
             (Clauses.mkClause (Py.truthy_int None) true "year"
                (Clauses.is_number (inject_Z 0))) d2 eq_refl).
  cbn [rbind].
  rewrite (year_clause_same y d2 N2).
  destruct (Clauses.run_clause
              (Clauses.mkClause (Py.truthy_int (Some y)) true "year"
                 (Clauses.is_number (inject_Z y))) d2) as [d3|e];
    [|reflexivity].
  cbn [rbind].
  rewrite (run_clause_off
             (Clauses.mkClause (Py.truthy_int None && Py.truthy_int None) true
                "year"
                (Clauses.within (inject_Z 0) (inject_Z 0))) d3 eq_refl).
  reflexivity.
Qed.

Lemma returns_agrees (base : nat) (m : M ref) (h : store)
  (res : result Pandas.DataFrame) (d' : Pandas.DataFrame) :
  agrees base (m h) h res -> (returns m h d' <-> res = Ok d').
Proof.
  intros A. split.
  - intros [p [h' [E Hn]]].
    destruct (agrees_Ok _ _ _ _ _ _ A E) as [d'' [R [Hn' _]]].
    rewrite Hn in Hn'. injection Hn' as Hn'. rewrite Hn'. exact R.
  - intros ->. exact (agrees_run _ _ _ _ A).
Qed.

Lemma parse_single_year (py_int : string -> option Z)
  (args : MovieFilter.Namespace) (s : string) (y : Z) (h : store) :
  MovieFilter.arg_year_range args = Some s ->
  s <> "" -> Py.contains_char s "-" = false -> py_int s = Some y ->
  MovieFilter.parse_year_range py_int args h = (Ok (Some y, Some y), h).
Proof.
  intros E Hs Hc Hy. unfold MovieFilter.parse_year_range.
  rewrite E, (truthy_str_Some s Hs). cbn [Py.val_str].
  rewrite (split_single s "-" Hc). cbn [nth List.length Nat.ltb Nat.leb].
  unfold MovieFilter.int. rewrite Hy. reflexivity.
Qed.

(** X13.  In [datascrapper], a range of years written as one year (a text
    with no hyphen that [int] reads) is the filter of that year: on a table
    whose [year] column holds numbers and missing values, or that has no
    such column, [main] derives the same view from [--year-range y] as from
    [--year y], whatever the other arguments. *)
Theorem one_year_range_is_that_year (re_search : string -> string -> bool)
  (py_int : string -> option Z) (filter_tool : MovieFilter.object)
  (args : MovieFilter.Namespace) (s : string) (y : Z) (h : store)
  (d : Pandas.DataFrame) :
  nth_error h (MovieFilter.df filter_tool) = Some d ->
  (forall i, Pandas.position "year" (Pandas.columns d) = Some i ->
             numeric_column d i = true) ->
  s <> "" -> Py.contains_char s "-" = false -> py_int s = Some y ->
  forall d',
    returns (MovieFilter.main_filter re_search py_int filter_tool
               (with_years args None (Some s))) h d'
    <-> returns (MovieFilter.main_filter re_search py_int filter_tool
                   (with_years args (Some y) None)) h d'.
Proof.
  intros Hd N Hs Hc Hy d'.
  assert (E1 : MovieFilter.main_filter re_search py_int filter_tool
                 (with_years args None (Some s)) h
               = MovieFilter.filter re_search filter_tool
                   (MovieFilter.arg_genre args) (MovieFilter.arg_rating args)
                   None (Some y) (Some y) (MovieFilter.arg_director args)
                   (MovieFilter.arg_star args) (MovieFilter.arg_country args)
                   (MovieFilter.arg_company args)
                   (MovieFilter.arg_min_score args)
                   (scaled (MovieFilter.arg_min_gross args))
                   (MovieFilter.arg_min_votes args) h).
  { unfold MovieFilter.main_filter.
    rewrite (bind_Ok _ _ h h (Some y, Some y))
      by (apply (parse_single_year py_int _ s y h); auto).
    reflexivity. }
  assert (E2 : MovieFilter.main_filter re_search py_int filter_tool
                 (with_years args (Some y) None) h
               = MovieFilter.filter re_search filter_tool
                   (MovieFilter.arg_genre args) (MovieFilter.arg_rating args)
                   (Some y) None None (MovieFilter.arg_director args)
                   (MovieFilter.arg_star args) (MovieFilter.arg_country args)
                   (MovieFilter.arg_company args)
                   (MovieFilter.arg_min_score args)
                   (scaled (MovieFilter.arg_min_gross args))
                   (MovieFilter.arg_min_votes args) h)
    by reflexivity.
  unfold returns. rewrite E1, E2.
  pose proof (returns_agrees _ _ _ _ d'
                (MovieFilter_filter_agrees re_search filter_tool
                   (MovieFilter.arg_genre args) (MovieFilter.arg_rating args)
                   None (Some y) (Some y) (MovieFilter.arg_director args)
                   (MovieFilter.arg_star args) (MovieFilter.arg_country args)
                   (MovieFilter.arg_company args)
                   (MovieFilter.arg_min_score args)
                   (scaled (MovieFilter.arg_min_gross args))
                   (MovieFilter.arg_min_votes args) h d Hd)) as A1.
  pose proof (returns_agrees _ _ _ _ d'
                (MovieFilter_filter_agrees re_search filter_tool
                   (MovieFilter.arg_genre args) (MovieFilter.arg_rating args)
                   (Some y) None None (MovieFilter.arg_director args)
                   (MovieFilter.arg_star args) (MovieFilter.arg_country args)
                   (MovieFilter.arg_company args)
                   (MovieFilter.arg_min_score args)
                   (scaled (MovieFilter.arg_min_gross args))
                   (MovieFilter.arg_min_votes args) h d Hd)) as A2.
  unfold returns in A1, A2. rewrite A1, A2.
  rewrite (year_range_clauses_same re_search _ _ y _ _ _ _ _ _ _ d N).
  reflexivity.
Qed.

Lemma one_year_range_is_that_year_witness :
  returns (MovieFilter.main_filter Sample.literal_search Sample.py_int
             (MovieFilter.mk 0%nat)
             (with_years (thresholds_only None None None) None
                (Some "1980"))) [Sample.scraped] Sample.scraped
  <-> returns (MovieFilter.main_filter Sample.literal_search Sample.py_int
                 (MovieFilter.mk 0%nat)
                 (with_years (thresholds_only None None None)
                    (Some 1980%Z) None)) [Sample.scraped] Sample.scraped.
Proof.
  apply (one_year_range_is_that_year Sample.literal_search Sample.py_int
           (MovieFilter.mk 0%nat) (thresholds_only None None None) "1980"
           1980%Z [Sample.scraped] Sample.scraped).
  - reflexivity.
  - intros i P. vm_compute in P. inversion P; subst i. reflexivity.
  - discriminate.
  - reflexivity.
  - reflexivity.
Defined.

(** ** Sorting on keys that are all different *)

Lemma Permutation_filter_rows {A : Type} (f : A -> bool) (l l' : list A) :
  Permutation l l' -> Permutation (List.filter f l) (List.filter f l').
Proof.
  induction 1 as [|x l l' _ IH|x y l|l l' l'' _ IH1 _ IH2]; simpl.
  - constructor.
  - destruct (f x); [constructor|]; exact IH.
  - destruct (f x), (f y); try apply Permutation_refl. constructor.
  - eapply perm_trans; eassumption.
Qed.

Lemma pairwise_cons {A : Type} (R : A -> A -> bool) (a : A) (l : list A) :
  pairwise R (a :: l) = true <->
  (forall x, In x l -> R a x = true) /\ pairwise R l = true.
Proof.
  simpl. rewrite andb_true_iff, forallb_forall. tauto.
Qed.

Lemma pairwise_In {A : Type} (R : A -> A -> bool) (l1 l2 : list A) (a b : A) :
  pairwise R (l1 ++ a :: l2) = true -> In b l2 -> R a b = true.
Proof.
  induction l1 as [|c l1 IH]; intros H Hb.
  - apply pairwise_cons in H. apply H. exact Hb.
  - apply pairwise_cons in H. apply IH; [apply H|exact Hb].
Qed.

Lemma pairwise_Permutation {A : Type} (R : A -> A -> bool) (l l' : list A) :
  (forall a b, R a b = R b a) ->
  Permutation l l' -> pairwise R l = true -> pairwise R l' = true.
Proof.
  intros S. induction 1 as [|x l l' HP IH|x y l|l l' l'' _ IH1 _ IH2];
    intros H.
  - reflexivity.
  - apply pairwise_cons in H. destruct H as [Hx H]. apply pairwise_cons.
    split; [|apply IH; exact H].
    intros z Hz. apply Hx. apply (Permutation_in _ (Permutation_sym HP)).
    exact Hz.
  - apply pairwise_cons in H. destruct H as [Hy H].
    apply pairwise_cons in H. destruct H as [Hx H].
    apply pairwise_cons. split.
    + intros z [<-|Hz]; [rewrite S; apply Hy; left; reflexivity|].
      apply Hx. exact Hz.
    + apply pairwise_cons. split; [|exact H].
      intros z Hz. apply Hy. right. exact Hz.
  - apply IH2, IH1, H.
Qed.

Lemma differ_sym (i : nat) (a b : Pandas.Row) : differ i a b = differ i b a.
Proof. unfold differ. apply orb_comm. Qed.

Section Keys.

Variable i : nat.

(** After a record with no key come records with no key. *)
Lemma missing_then_missing (asc : bool) (r : Pandas.Row)
  (l : list Pandas.Row) :
  Pandas.isna (Pandas.cell_at i r) = true ->
  ordered (may_precede asc) (map (Pandas.cell_at i) (r :: l)) = true ->
  List.filter (has_key i) l = [].
Proof.
  revert r. induction l as [|b l IH]; intros r Hr H; [reflexivity|].
  change (map (Pandas.cell_at i) (r :: b :: l))
    with (Pandas.cell_at i r :: map (Pandas.cell_at i) (b :: l)) in H.
  apply ordered_cons in H. destruct H as [Hrb H].
  cbn [map] in Hrb.
  assert (Hb : Pandas.isna (Pandas.cell_at i b) = true).
  { destruct (Pandas.cell_at i r); try discriminate Hr.
    destruct (Pandas.cell_at i b); try discriminate Hrb. reflexivity. }
  cbn [List.filter]. unfold has_key at 1. rewrite Hb. cbn [negb].
  apply (IH b Hb H).
Qed.

Lemma sorted_rows_split (asc : bool) (l : list Pandas.Row) :
  ordered (may_precede asc) (map (Pandas.cell_at i) l) = true ->
  l = List.filter (has_key i) l
      ++ List.filter (fun r => Pandas.isna (Pandas.cell_at i r)) l.
Proof.
  induction l as [|r l IH]; intros H; [reflexivity|].
  cbn [List.filter]. unfold has_key at 1.
  destruct (Pandas.isna (Pandas.cell_at i r)) eqn:Hr; cbn [negb].
  - rewrite (missing_then_missing asc r l Hr H). cbn [app]. f_equal.
    assert (K : forall m, List.filter (has_key i) m = [] ->
                          m = List.filter
                                (fun r => Pandas.isna (Pandas.cell_at i r)) m).
    { induction m as [|x m IHm]; intros E; [reflexivity|].
      cbn [List.filter] in E |- *. unfold has_key at 1 in E.
      destruct (Pandas.isna (Pandas.cell_at i x)); cbn [negb] in E;
        [|discriminate E].
      f_equal. apply IHm. exact E. }
    apply K. apply (missing_then_missing asc r l Hr H).
  - cbn [app]. f_equal. apply IH.
    change (map (Pandas.cell_at i) (r :: l))
      with (Pandas.cell_at i r :: map (Pandas.cell_at i) l) in H.
    apply ordered_cons in H. apply H.
Qed.

Lemma ordered_prefix {A : Type} (le : A -> A -> bool) (l1 l2 : list A) :
  ordered le (l1 ++ l2) = true -> ordered le l1 = true.
Proof.
  induction l1 as [|a l1 IH]; intros H; [reflexivity|].
  change ((a :: l1) ++ l2) with (a :: (l1 ++ l2)) in H.
  apply ordered_cons in H. destruct H as [Ha H].
  apply ordered_cons. split; [|apply IH; exact H].
  destruct l1 as [|b l1]; [exact I|exact Ha].
Qed.

Lemma has_key_present (l : list Pandas.Row) (r : Pandas.Row) :
  In r (List.filter (has_key i) l) ->
  Pandas.isna (Pandas.cell_at i r) = false.
Proof.
  intros H. apply filter_In in H. destruct H as [_ H].
  unfold has_key in H. apply negb_true_iff in H. exact H.
Qed.

(** The records with a key, in a sorted frame, are in strict order when
    the keys are all different. *)
Lemma present_strict (asc : bool) (l : list Pandas.Row) :
  ordered (may_precede asc) (map (Pandas.cell_at i) l) = true ->
  pairwise (differ i) (List.filter (has_key i) l) = true ->
  ordered (fun a b => if asc then Pandas.cell_lt a b else Pandas.cell_lt b a)
    (map (Pandas.cell_at i) (List.filter (has_key i) l)) = true.
Proof.
  intros H D.
  assert (Hp : ordered (may_precede asc)
                 (map (Pandas.cell_at i) (List.filter (has_key i) l)) = true).
  { rewrite (sorted_rows_split asc l H), map_app in H.
    apply ordered_prefix in H. exact H. }
  assert (Pr : forall r, In r (List.filter (has_key i) l) ->
                         Pandas.isna (Pandas.cell_at i r) = false)
    by (intros r; apply has_key_present).
  induction (List.filter (has_key i) l) as [|a m IH]; [reflexivity|].
  change (map (Pandas.cell_at i) (a :: m))
    with (Pandas.cell_at i a :: map (Pandas.cell_at i) m) in Hp |- *.
  apply ordered_cons in Hp. destruct Hp as [Ha Hp].
  apply pairwise_cons in D. destruct D as [Da D].
  apply ordered_cons. split.
  - destruct m as [|b m]; [exact I|]. cbn [map] in Ha |- *.
    rewrite may_precede_present in Ha
      by (apply Pr; simpl; tauto).
    specialize (Da b (or_introl eq_refl)). unfold differ in Da.
    destruct asc; apply negb_true_iff in Ha; rewrite Ha in Da.
    + rewrite orb_false_r in Da. exact Da.
    + rewrite orb_false_l in Da. exact Da.
  - apply IH; [exact D|exact Hp|].
    intros r Hr. apply Pr. right. exact Hr.
Qed.

Lemma strict_head (a : Pandas.Row) (l : list Pandas.Row) (x : Pandas.Row) :
  ordered (fun a b => Pandas.cell_lt a b)
    (map (Pandas.cell_at i) (a :: l)) = true ->
  In x l ->
  Pandas.cell_lt (Pandas.cell_at i a) (Pandas.cell_at i x) = true.
Proof.
  revert a. induction l as [|b l IH]; intros a H Hx; [destruct Hx|].
  change (map (Pandas.cell_at i) (a :: b :: l))
    with (Pandas.cell_at i a :: map (Pandas.cell_at i) (b :: l)) in H.
  apply ordered_cons in H. destruct H as [Hab H]. cbn [map] in Hab.
  destruct Hx as [<-|Hx]; [exact Hab|].
  apply (cell_lt_trans _ (Pandas.cell_at i b)); [exact Hab|].
  apply IH; assumption.
Qed.

(** Two strict orders of the same records are the same list. *)
Lemma strict_order_unique (l1 l2 : list Pandas.Row) :
  Permutation l1 l2 ->
  ordered (fun a b => Pandas.cell_lt a b) (map (Pandas.cell_at i) l1) = true ->
  ordered (fun a b => Pandas.cell_lt a b) (map (Pandas.cell_at i) l2) = true ->
  l1 = l2.
Proof.
  revert l2. induction l1 as [|a l1 IH]; intros l2 P H1 H2.
  - apply Permutation_nil in P. subst l2. reflexivity.
  - destruct l2 as [|b l2];
      [apply Permutation_sym, Permutation_nil in P; discriminate P|].
    assert (E : a = b).
    { assert (Ha : In a (b :: l2))
        by (apply (Permutation_in _ P); left; reflexivity).
      assert (Hb : In b (a :: l1))
        by (apply (Permutation_in _ (Permutation_sym P)); left; reflexivity).
      destruct Ha as [Ha|Ha]; [symmetry; exact Ha|].
      destruct Hb as [Hb|Hb]; [exact Hb|].
      pose proof (strict_head b l2 a H2 Ha) as L1.
      pose proof (strict_head a l1 b H1 Hb) as L2.
      pose proof (cell_lt_trans _ _ _ L1 L2) as L.
      rewrite cell_lt_irrefl in L. discriminate L. }
    subst b. f_equal. apply IH.
    + apply (Permutation_cons_inv P).
    + change (map (Pandas.cell_at i) (a :: l1))
        with (Pandas.cell_at i a :: map (Pandas.cell_at i) l1) in H1.
      apply ordered_cons in H1. apply H1.
    + change (map (Pandas.cell_at i) (a :: l2))
        with (Pandas.cell_at i a :: map (Pandas.cell_at i) l2) in H2.
      apply ordered_cons in H2. apply H2.
Qed.

End Keys.

Lemma cell_lt_same_kind (a b : Pandas.cell) :
  Pandas.cell_lt a b = true -> Pandas.same_kind a b = true.
Proof. destruct a, b; simpl; intros H; try discriminate H; reflexivity. Qed.

Lemma present_keys_rows (i : nat) (rows : list Pandas.Row) :
  Pandas.select (map negb (map Pandas.isna (map (Pandas.cell_at i) rows)))
    (map (Pandas.cell_at i) rows)
  = map (Pandas.cell_at i) (List.filter (has_key i) rows).
Proof.
  rewrite !map_map, select_map.
  change (fun x => negb (Pandas.isna (Pandas.cell_at i x))) with (has_key i).
  rewrite select_filter. reflexivity.
Qed.

Lemma distinct_keys_comparable (d : Pandas.DataFrame) (i : nat) :
  distinct_keys d i = true -> comparable_keys d i = true.
Proof.
  unfold distinct_keys, comparable_keys. cbv zeta.
  rewrite present_keys_rows.
  destruct (List.filter (has_key i) (Pandas.rows d)) as [|a m];
    [reflexivity|].
  intros H. apply pairwise_cons in H. destruct H as [Ha _].
  cbn [map Sorting.homogeneous]. apply forallb_forall.
  intros c Hc. apply in_map_iff in Hc. destruct Hc as [x [<- Hx]].
  specialize (Ha x Hx). unfold differ in Ha. apply orb_true_iff in Ha.
  destruct Ha as [L|L]; apply cell_lt_same_kind in L; [exact L|].
  destruct (Pandas.cell_at i a), (Pandas.cell_at i x); simpl in *;
    congruence.
Qed.

Lemma sort_values_opposite (df : Pandas.DataFrame) (by_ : string) (i : nat) :
  Pandas.position by_ (Pandas.columns df) = Some i ->
  distinct_keys df i = true ->
  exists up down,
    Sorting.sort_values df by_ true = Ok up
    /\ Sorting.sort_values df by_ false = Ok down
    /\ opposite_orders i df up down.
Proof.
  intros P D.
  pose proof (distinct_keys_comparable df i D) as Hh.
  destruct (sort_values_sorted df by_ true i P Hh)
    as [up [Eu [Cu [Pu [Ou Mu]]]]].
  destruct (sort_values_sorted df by_ false i P Hh)
    as [down [Ed [Cd [Pd [Od Md]]]]].
  exists up, down. split; [exact Eu|]. split; [exact Ed|].
  unfold distinct_keys in D.
  assert (Du : pairwise (differ i) (List.filter (has_key i) (Pandas.rows up))
               = true).
  { apply (pairwise_Permutation _ _ _ (differ_sym i)
             (Permutation_filter_rows (has_key i) _ _ (Permutation_sym Pu)) D). }
  assert (Dd : pairwise (differ i)
                 (List.filter (has_key i) (Pandas.rows down)) = true).
  { apply (pairwise_Permutation _ _ _ (differ_sym i)
             (Permutation_filter_rows (has_key i) _ _ (Permutation_sym Pd)) D). }
  pose proof (present_strict i true _ Ou Du) as Su.
  pose proof (present_strict i false _ Od Dd) as Sd.
  cbv beta iota in Su, Sd.
  apply (ordered_rev (fun a b => Pandas.cell_lt b a)) in Sd.
  rewrite <- map_rev in Sd.
  assert (E : rev (List.filter (has_key i) (Pandas.rows down))
              = List.filter (has_key i) (Pandas.rows up)).
  { apply (strict_order_unique i); [|exact Sd|exact Su].
    eapply perm_trans; [apply Permutation_sym, Permutation_rev|].
    apply Permutation_filter_rows.
    eapply perm_trans; [exact Pd|apply Permutation_sym; exact Pu]. }
  assert (Pp : Permutation (List.filter (has_key i) (Pandas.rows up))
                 (List.filter (has_key i) (Pandas.rows df)))
    by (apply Permutation_filter_rows; exact Pu).
  unfold opposite_orders. cbv zeta.
  exists (List.filter (has_key i) (Pandas.rows up)).
  split; [exact Pp|]. split; [exact Su|]. split; [|split; [|split; [|split]]].
  - intros other Po So. apply (strict_order_unique i); [|exact So|exact Su].
    eapply perm_trans; [exact Po|apply Permutation_sym; exact Pp].
  - exact Cu.
  - exact Cd.
  - rewrite <- Mu. apply (sorted_rows_split i true _ Ou).
  - rewrite <- E, rev_involutive, <- Md.
    apply (sorted_rows_split i false _ Od).
Qed.

(** X14.  When the keys of the records are all different, the order of
    [sort] is fully determined, in either class: the records of the view
    that have a key have exactly one arrangement that is strictly
    increasing; ascending, [sort] returns the columns of the view with
    these records in that arrangement, descending, in the exact reverse of
    it; the records with no key come last both times, in the order they
    have in the view. *)
Theorem distinct_keys_give_opposite_orders :
  (forall (data : Pandas.DataFrame) (sort_by : string) (i : nat),
      Pandas.position (MovieDB_sort_column sort_by) (Pandas.columns data)
      = Some i ->
      distinct_keys data i = true ->
      exists up down,
        MovieDB.sort data sort_by true = Ok up
        /\ MovieDB.sort data sort_by false = Ok down
        /\ opposite_orders i data up down)
  /\
  (forall (data : Pandas.DataFrame) (by_ : string) (i : nat),
      Pandas.position (MovieFilter_sort_column by_) (Pandas.columns data)
      = Some i ->
      distinct_keys data i = true ->
      exists up down,
        MovieFilter.sort data by_ true = Ok up
        /\ MovieFilter.sort data by_ false = Ok down
        /\ opposite_orders i data up down).
Proof.
  split.
  - intros data sort_by i P D. rewrite !MovieDB_sort_resolved.
    apply sort_values_opposite; assumption.
  - intros data by_ i P D. rewrite !MovieFilter_sort_resolved.
    rewrite (has_column_position _ _ _ P).
    apply sort_values_opposite; assumption.
Qed.

Lemma distinct_keys_give_opposite_orders_witness :
  exists up down,
    MovieFilter.sort four_years "year" true = Ok up
    /\ MovieFilter.sort four_years "year" false = Ok down
    /\ opposite_orders 1 four_years up down.
Proof.
  apply (proj2 distinct_keys_give_opposite_orders four_years "year" 1%nat);
    reflexivity.
Defined.
